(* ===== verification/_CoqProject ===== *)
-Q . S2P
Prelude.v
JsValue.v
JsonText.v
Fs.v
Date.v
SubmitForm.v
GetSubmissions.v
Store.v
Server.v
Drain.v
DemoForm.v
Admin.v
Signup.v
FormValidation.v
SeqLib.v
FAQ.v
Pricing.v
Testimonials.v
Site.v
Card3D.v
Tooltip.v
FeatureCards.v
Reveal.v
Image.v
Page3D.v
Animations.v
Features.v
StyleGuide.v
Tabs.v
