(* ===== verification/Prelude.v ===== *)
(** * PulseCRM (T-CRM): a verification development

    The repository is a Next.js marketing site for a CRM product with one
    piece of server logic: a demo-request form whose submissions are
    stored in a JSON file and listed on an admin dashboard.  Around it are
    client pages (sign-up, login, admin) and landing sections with a
    little React state (FAQ accordion, pricing table, testimonial
    carousel, header menu).

    ** The program and how its parts interact

    - [src/Tech crm/src/components/DemoForm.tsx] (client) validates the
      form and sends it with [fetch('/api/submit-form', {method: 'POST'})].
    - [src/Tech crm/src/app/api/submit-form/route.ts] (server, [POST])
      parses the body, checks four required fields, reads the whole file
      [<cwd>/data/submissions.json], pushes the body with a [timestamp]
      and writes the whole file back.
    - [src/Tech crm/src/app/api/get-submissions/route.ts] (server, [GET])
      reads the same file and returns it.
    - the admin pages ([src/app/admin/...]) read it through [GET] behind a
      client-side login kept in [localStorage].
    - [src/app/layout.tsx] wraps every page in the header and the footer;
      [src/app/page.tsx] stacks the landing sections, whose links target
      the section ids and the app's pages.

    ** Files of this development

    Three families: MathComp and stdpp cannot share a file, and the two
    widgets with arithmetic on rationals need neither.

    stdpp side (the server, the forms, the admin area):
    - [Prelude]: notations ([crm_scope]), the state-and-exception monad
      [jsm] in which the handlers are written (JavaScript's [try]/[catch]
      as [jcatch], a throw as [Throw]), [preserves] for state invariants,
      the reflexive-transitive closure [star], tactics and the [crm] hint
      database.
    - [JsValue]: JavaScript values as the handlers see them ([jvalue]),
      truthiness, property access ([get_prop], which throws on [null]),
      object spread ([spread_set]), [Array.prototype.push], [trim].
    - [JsonText]: [JSON.stringify(v, null, 2)] and [JSON.parse] over
      strings, with the round trip [parse_stringify].
    - [Fs]: the file system seen through [fs.existsSync], [readFileSync],
      [mkdirSync({recursive: true})] and [writeFileSync], with every
      failure (ENOENT, EACCES, EISDIR, ENOTDIR) as a value, and the
      well-formedness [fs_wf] these calls preserve.
    - [Date]: [new Date(ms).toISOString()].
    - [SubmitForm]: route [submit-form]: [DB_PATH],
      [ensureDirectoryExists], [readSubmissions], [writeSubmissions],
      [POST] line by line; theorems on every branch of [POST].
    - [GetSubmissions]: route [get-submissions]: its own [readSubmissions]
      and [GET].
    - [Store]: the store's contract (an append-only [Log] with [append] and
      [readAll]), the relation [represents] between a disk and a log, and
      the refinement theorem [store_refinement].
    - [Server]: the Node.js process as a step relation over worlds (disk,
      clock, requests in flight) where the event loop interleaves requests
      in any order; theorems: no update is lost and timestamps are ordered.
    - [Drain]: one schedule of that event loop, first in first out, by
      structural recursion on the requests in flight: it terminates, it is
      a run of [Server]'s step relation, and it answers every request.
    - [DemoForm]: the demo form's React state as a record, [validateForm]
      with its email pattern, [handleChange], [handleSubmit] split at the
      [fetch], the rendered form; its composition with [POST] in a world
      of browser and server.
    - [Admin]: [localStorage] and the location, the admin index redirect,
      [handleLogin], the dashboard's fetch and its rendering, which can be
      a React crash.
    - [Signup]: the sign-up page (validation with an unanchored email
      search, timers) and the user login page.
    - [FormValidation]: the browser's constraint validation (value
      sanitization, the valid e-mail address grammar, [required],
      interactive validation), modelled from the HTML standard, applied to
      the constraints the forms declare: the login page as a world with
      its timer and location, the demo form's effective constraints, the
      footer's newsletter submission.

    MathComp side (the landing sections):
    - [SeqLib]: an [eqType] on strings, [mapi] for [map((x, i) => ...)],
      and [reachable], the states a step relation reaches.
    - [FAQ]: [FAQSection.tsx]: [toggleItem], the two layouts and their
      entrance schedule ([SeqLib] holds the in-view test and the stagger
      the sections share).
    - [Pricing]: [PricingSection.tsx]: the billing switch, plan selection
      and the cards.
    - [Testimonials]: [TestimonialsSection.tsx]: the carousel, its dots and
      its autoplay effect over a model of the browser's interval timers;
      [Entrance]: the in-view entrance (controls, stagger, stats banner).
    - [Site]: [Header.tsx], [Footer.tsx], [HeroSection.tsx] (its state,
      rendering and entrance timeline), the pages of the app router and
      the resolution of every link the pages render.
    - [Pricing] and [Testimonials] also model their in-view entrances.
    - [Tabs]: [ui/TabsWithAnimation.tsx], generic in its props, and the
      lead-management section's use of it.

    Stdlib side (no library beyond the Standard Library):
    - [Card3D]: [ui/Card3D.tsx] and [Card3D.tsx]: the tilt computed from
      the pointer over rationals, with its bounds.
    - [Tooltip]: [ui/AnimatedTooltip.tsx]: placement and the show/hide
      timeout over a model of the browser's pending timeouts.
    - [FeatureCards]: [EnhancedFeaturesSection.tsx] and
      [ui/EnhancedFeatureCard.tsx]: the six features, the grid, the
      card's pointer-normalised tilt and shadow, its tooltip (composed with
      [Tooltip]'s placement), and the section's document listener.
    - [Reveal]: the sections that fade in on scroll ([ProductivitySection],
      [UseCases], [CLVSection], [CollaborationSection], [ProductOverview])
      as lists of parts, over a model of [useInView]'s ref and of scroll
      snapshots.
    - [Image]: [ui/PlaceholderImage.tsx] (the fallback chain, the spinner,
      the gradient's 32-bit hash with [ToInt32] written out) and the
      remote-image patterns of [next.config.js].
    - [Page3D]: [ui/Page3D.tsx], the wrapper [RootLayoutWrapper] puts
      around every page: its listeners (with the size each [mousemove]
      listener captured), [calculateTransform] with JavaScript's division
      by zero, and the classification of its children; [RootLayout]:
      [src/app/layout.tsx]'s metadata and the nesting of layouts.
    - [Features]: [FeaturesSection.tsx], the category tabs the home page
      no longer renders: categories, hover highlight, the keyed panel, and
      its motion built from [Animations]' variants and [FadeIn] (so
      [Animations] comes before it).
    - [Animations]: [ui/animations.tsx]: the shared variants and the seven
      wrapper components, with framer-motion's choice of transition;
      [ui/ParallaxScroll.tsx]; and the hero's parallax values.
    - [StyleGuide]: the static style-guide page, as the lists it renders.

    JSON, [fs], [Date], the event loop, browser timers and the app router's
    resolution of a path are the runtime, not code of the repository; they
    are modelled from their documented behaviour, as far as the code
    observes them, and are not entries of the map.

    ** What the theorems show

    - Refinement: [Store.store_refinement]: from a disk that stores a log
      [L], [GET] answers [L] and [POST] either appends one stamped entry
      or answers an error without changing anything.
    - Concurrency: [Server.concurrent_posts_no_lost_update]: for every
      interleaving on one event loop, every accepted submission is stored;
      [Server.stored_timestamps_nondecreasing].
    - Termination and typing: [Drain.event_loop_drains] (the event loop
      answers every suspended request in finitely many steps) and
      [Drain.get_submissions_typed] (from a file holding any JSON array,
      in every reachable world [GET] answers the initial elements followed
      only by objects with the required fields and a timestamp: the
      server adds nothing else).
    - Error paths of [POST] (400, 500 on bad JSON, on a [null] body, on a
      file that is not an array, on a refused write) and of [GET] (its 500
      branch is unreachable).
    - End to end: a valid form reaches the file and the thank-you card
      ([DemoForm.demo_submit_end_to_end]); the dashboard lists the log
      ([Admin.dashboard_shows_log]).
    - Invariants of the React components over every reachable state: no
      double submission, one selected plan, at most one autoplay interval,
      a duplicate-free set of open FAQ items.
    - Equivalence of layouts: the FAQ's two columns show what the single
      list shows.
    - Bounds: a card tilts by at most [depth / 3] degrees and its shadow's
      opacity stays in CSS's range for the depths the site uses; the login
      page's legacy card tilts by up to half its size over the intensity,
      a bound it reaches ([Card3D.Card3DProofs.legacy_reachable_bounded]).
    - Landing widgets: a feature card tilts by at most [depth / 4] and is
      entered flat ([FeatureCards.FeatureProofs.enhanced_card_bounded]);
      the grid shows each feature with its own tooltip; the productivity
      section waits for its last benefit to scroll into view
      ([Reveal.RevealProofs.scroll_reveal_observes_last_ref]); the image
      gives up after at most two errors
      ([Image.ImageProofs.placeholder_run_spec]) and its hash stays exact
      in doubles ([Image.ImageProofs.hash_bounded]); every page's content
      tilts by half a degree per screen scrolled while pointer events reach
      the listener of the current size, and a pointer event reaching the
      first render's stale listener makes its transform not finite
      ([Page3D.Page3DProofs.page3d_layout_transform]); the tooltip keeps
      at most one pending timeout ([Tooltip.Tooltip.tooltip_single_timeout]);
      the features tabs always show one category
      ([Features.FeaturesProofs.features_view_spec]).
    - Browser and code together: in a browser the login page never shows
      its "Please enter both" message and reaches [/] after its timer
      ([FormValidation.FormProofs.login_browser_spec]); the demo form's
      starred fields are not enforced by the browser and its two email
      checks disagree both ways, so what it sends passes both
      ([FormValidation.FormProofs.demo_browser_sends_valid_email]); the
      newsletter submits to the page itself.
    - Findings: a corrupt file is silently replaced by the next submission
      ([SubmitForm.POST_corrupt_file_overwritten]); the server stores names
      made of white space that the form rejects
      ([DemoForm.server_accepts_blank_name]); once a request stores an
      object as a name, the dashboard crashes whatever happens next
      ([Admin.dashboard_crashes_on_object_name]); twenty-one link targets
      lead nowhere ([Site.Links.site_broken] lists them).

    ** Bounds and fuel

    [JSON_parse] runs its recursive descent with fuel equal to the length
    of the text; every call consumes at least one character, so the fuel
    never runs out on text that [JSON.stringify] printed (the round trip
    is proved without any assumption on fuel). JSON numbers are integers
    ([Z]), kept exact at any size: the handlers only store strings, so
    fractions and exponents never occur in the file they write, but a
    request body with a fraction, an exponent or a [\u] escape above
    0xFF is a parse failure here (the model answers 500 where the server
    answers 200), and object keys keep insertion order even for
    array-index keys; [JsonText] lists these limits.  Strings are 8-bit
    code units ([JsValue]); the [RangeError] of [toISOString] beyond
    8.64e15 ms is not modelled ([Date]). Timestamps are [Z] milliseconds;
    scroll offsets are whole pixels; pointer coordinates and tilts are
    rationals, so floating-point rounding is not modelled.  [Testimonials.nat_to_string] prints
    with fuel [n + 1], enough since each step divides by 10.  The image
    hash is an integer: [Image.ImageProofs.hash_bounded] bounds it by
    [n * (2^31 + 2^16)] for [n] code units, so doubles compute it exactly
    for texts shorter than [2^21] units; [ToInt32] is written out.
    Intersection ratios are fractions [p/q] of naturals, compared with
    the threshold exactly; the MathComp sections count animation times in
    whole milliseconds, which every delay and duration of those sections
    is (multiples of 100 ms), and the Stdlib ones in rational seconds.

    ** Not modelled

    CSS and Tailwind's classes (kept as strings); framer-motion's easing
    curves and spring physics (an animation is its start and end targets,
    its delay and its nominal duration, in ms or in seconds as rationals;
    staggered children are scheduled in the order they register, which
    is the render order); [Math.random] (the card's particles);
    [console.log]; the imports and type declarations
    ([src/types/env.d.ts]); static decoration with no text or behaviour
    (background blobs, icons' SVG paths); several server processes
    sharing the file.  The browser's constraint validation is modelled
    for the controls the forms use (text, email, password, tel,
    checkbox, select, textarea), not for the other input types. *)

From Stdlib Require Export Ascii String.
From stdpp Require Export base list strings gmap.
From Stdlib Require Export ZArith Lia.

Set Default Goal Selector "!".

Declare Scope crm_scope.
Delimit Scope crm_scope with crm.
Open Scope crm_scope.

(** ** Outcomes of code that may throw

    A JavaScript call either returns a value or throws; [outcome E A] is
    the sum of the two. *)
Inductive outcome (E A : Type) : Type :=
  | Ok (a : A)
  | Throw (e : E).
Arguments Ok {E A} a.
Arguments Throw {E A} e.

#[export] Instance outcome_eq_dec {E A} `{!EqDecision E, !EqDecision A} :
  EqDecision (outcome E A).
Proof. solve_decision. Defined.

(** ** State passing with exceptions

    [jsm S E A] is a computation over a state [S] (the file system, a
    component's React state, ...) that returns an [A] or throws an [E].
    A throw keeps the state reached so far: JavaScript does not roll
    back the effects performed before an exception (a directory created
    before a failed write stays created). *)
Definition jsm (S E A : Type) : Type := S -> outcome E A * S.

Definition jret {S E A} (a : A) : jsm S E A := fun s => (Ok a, s).
Definition jthrow {S E A} (e : E) : jsm S E A := fun s => (Throw e, s).
Definition jbind {S E A B} (m : jsm S E A) (k : A -> jsm S E B) : jsm S E B :=
  fun s => match m s with
           | (Ok a, s') => k a s'
           | (Throw e, s') => (Throw e, s')
           end.
(** [try m catch (e) h]. *)
Definition jcatch {S E A} (m : jsm S E A) (h : E -> jsm S E A) : jsm S E A :=
  fun s => match m s with
           | (Ok a, s') => (Ok a, s')
           | (Throw e, s') => h e s'
           end.
Definition jget {S E} : jsm S E S := fun s => (Ok s, s).
Definition jput {S E} (s : S) : jsm S E unit := fun _ => (Ok tt, s).
Definition jmodify {S E} (f : S -> S) : jsm S E unit := fun s => (Ok tt, f s).
(** Lift a fallible pure computation. *)
Definition jlift {S E A} (o : outcome E A) : jsm S E A := fun s => (o, s).

Notation "x <-- m ;; k" := (jbind m (fun x => k))
  (at level 100, m at next level, right associativity) : crm_scope.
Notation "m ;;; k" := (jbind m (fun _ => k))
  (at level 100, right associativity) : crm_scope.

(** ** Automation

    [crm] collects the rewriting equations of the monad and the generic
    list lemmas; [crm_simpl] runs them and [simpl]. *)
Create HintDb crm discriminated.
Create Rewrite HintDb crm.

Section MonadLaws.
Context {S E : Type}.

Lemma jbind_ret {A B} (a : A) (k : A -> jsm S E B) s :
  jbind (jret a) k s = k a s.
Proof. reflexivity. Qed.

Lemma jbind_throw {A B} (e : E) (k : A -> jsm S E B) s :
  jbind (jthrow e) k s = (Throw e, s).
Proof. reflexivity. Qed.

Lemma jbind_assoc {A B C} (m : jsm S E A) (k : A -> jsm S E B)
      (k' : B -> jsm S E C) s :
  jbind (jbind m k) k' s = jbind m (fun a => jbind (k a) k') s.
Proof. unfold jbind. by destruct (m s) as [[a|e] s']. Qed.

Lemma jcatch_ret {A} (a : A) (h : E -> jsm S E A) s :
  jcatch (jret a) h s = (Ok a, s).
Proof. reflexivity. Qed.

Lemma jcatch_throw {A} (e : E) (h : E -> jsm S E A) s :
  jcatch (jthrow e) h s = h e s.
Proof. reflexivity. Qed.
End MonadLaws.

#[export] Hint Rewrite @jbind_ret @jbind_throw @jcatch_ret @jcatch_throw : crm.

(** ** State invariants

    [preserves P m]: whatever [m] returns or throws, a state satisfying
    [P] is taken to a state satisfying [P]. The combinators below prove it
    for a handler from its parts. *)
Definition preserves {S E A} (P : S -> Prop) (m : jsm S E A) : Prop :=
  forall s, P s -> P (m s).2.

Section Preserves.
Context {S E : Type} (P : S -> Prop).

Lemma preserves_ret {A} (a : A) : preserves (E:=E) P (jret a).
Proof. by intros s. Qed.

Lemma preserves_throw {A} (e : E) : preserves (A:=A) P (jthrow e).
Proof. by intros s. Qed.

Lemma preserves_get : preserves (E:=E) P jget.
Proof. by intros s. Qed.

Lemma preserves_lift {A} (o : outcome E A) : preserves P (jlift o).
Proof. by intros s. Qed.

Lemma preserves_bind {A B} (m : jsm S E A) (k : A -> jsm S E B) :
  preserves P m -> (forall a, preserves P (k a)) -> preserves P (jbind m k).
Proof.
  intros Hm Hk s Hs. unfold jbind. specialize (Hm s Hs).
  destruct (m s) as [[a|e] s']; [by apply Hk | done].
Qed.

Lemma preserves_catch {A} (m : jsm S E A) (h : E -> jsm S E A) :
  preserves P m -> (forall e, preserves P (h e)) -> preserves P (jcatch m h).
Proof.
  intros Hm Hh s Hs. unfold jcatch. specialize (Hm s Hs).
  destruct (m s) as [[a|e] s']; [done | by apply Hh].
Qed.
End Preserves.

#[export] Hint Resolve preserves_ret preserves_throw preserves_get preserves_lift : crm.

(** Prove [preserves P m] by following the structure of [m]. *)
Ltac preserves_auto :=
  repeat match goal with
  | |- preserves _ (jbind _ _) => apply preserves_bind; [|intros ?]
  | |- preserves _ (jcatch _ _) => apply preserves_catch; [|intros ?]
  | |- preserves _ (if _ then _ else _) => case_match
  | |- preserves _ (match _ with _ => _ end) => case_match
  end; eauto with crm.

(** ** Generic lemmas on lists and options *)

Lemma last_snoc {A} (l : list A) (x : A) : last (l ++ [x]) = Some x.
Proof. induction l as [|y l IH]; [done|]. destruct l; simpl in *; done. Qed.

Lemma length_snoc {A} (l : list A) (x : A) : length (l ++ [x]) = S (length l).
Proof. rewrite length_app. simpl. lia. Qed.

#[export] Hint Rewrite @last_snoc @length_snoc : crm.

Ltac crm_simpl := repeat (autorewrite with crm in *; simpl in *).

(** Close a decidable goal on concrete data by evaluation. *)
Ltac eval_decide := split_and?; apply (bool_decide_unpack _); vm_compute; reflexivity.

(** Case split on every [match] of the goal, recording the equation. *)
Ltac crm_cases :=
  repeat match goal with
  | |- context [match ?x with _ => _ end] =>
      let E := fresh "E" in destruct x eqn:E
  end.

(** ** Strings

    [s1 +:+ s2] is stdpp's notation for [String.append], which stdpp makes
    opaque to [simpl]; [sapp_cons] is its computation rule. *)

Lemma sapp_nil_l (s : string) : EmptyString +:+ s = s.
Proof. reflexivity. Qed.

Lemma sapp_cons (c : ascii) (s t : string) : String c s +:+ t = String c (s +:+ t).
Proof. reflexivity. Qed.

Lemma sapp_nil_r (s : string) : s +:+ EmptyString = s.
Proof. induction s as [|c s IH]; [done|]. by rewrite !sapp_cons, IH. Qed.

Lemma sapp_assoc (s t u : string) : (s +:+ t) +:+ u = s +:+ (t +:+ u).
Proof. induction s as [|c s IH]; [done|]. by rewrite !sapp_cons, IH. Qed.

Lemma length_sapp (s t : string) : String.length (s +:+ t) = String.length s + String.length t.
Proof. induction s as [|c s IH]; [done|]. rewrite sapp_cons. simpl. by rewrite IH. Qed.

#[export] Hint Rewrite sapp_nil_l sapp_cons sapp_nil_r sapp_assoc length_sapp : crm.

(** ** Lists: sums and [Forall] *)

Lemma sum_list_with_le {A} (f g : A -> nat) (l : list A) :
  Forall (fun x => f x <= g x) l -> sum_list_with f l <= sum_list_with g l.
Proof. induction 1; simpl; lia. Qed.

Lemma Forall_forallb_impl {A} (p : A -> bool) (Q : A -> Prop) (l : list A) :
  Forall (fun x => p x = true -> Q x) l -> forallb p l = true -> Forall Q l.
Proof.
  induction 1 as [|x l Hx _ IH]; simpl; [done|].
  intros [Hp Hl]%andb_true_iff. constructor; auto.
Qed.

Lemma sum_list_with_map {A B} (f : B -> nat) (g : A -> B) (l : list A) :
  sum_list_with f (map g l) = sum_list_with (fun x => f (g x)) l.
Proof. induction l as [|x l IH]; simpl; [done|]. by rewrite IH. Qed.

(** ** Sequences of steps

    [star R] is the reflexive-transitive closure of a step relation; an
    invariant of every step is an invariant of every sequence. *)
Section Star.
Context {A : Type} (R : A -> A -> Prop).

Inductive star : A -> A -> Prop :=
  | star_refl a : star a a
  | star_step a b c : R a b -> star b c -> star a c.

Lemma star_one a b : R a b -> star a b.
Proof. intros. by eapply star_step; [|apply star_refl]. Qed.

Lemma star_trans a b c : star a b -> star b c -> star a c.
Proof. induction 1; eauto using star. Qed.

Lemma star_inv (I : A -> Prop) a b :
  (forall x y, I x -> R x y -> I y) -> I a -> star a b -> I b.
Proof. intros Hpres Ha Hs. induction Hs; eauto. Qed.
End Star.

#[export] Hint Constructors star : crm.
#[export] Hint Resolve star_one star_trans : crm.
