(* ===== verification/JsValue.v ===== *)
(** * JavaScript values that come from JSON, and the JavaScript operations
    the route handlers and the form components apply to them.

    A request body ([request.json()]) and the content of the submissions
    file ([JSON.parse]) are JSON values; the handlers test their fields
    for truthiness ([!formData.fullName]), copy them with an object
    spread ([{...formData, timestamp}]) and append to an array
    ([submissions.push]). This file models exactly those operations.

    A string is a sequence of 8-bit code units ([string] of [ascii]),
    not of UTF-16 code units: for text outside Latin-1, [length] and
    [trim]'s view of white space differ from JavaScript's.  The handlers
    only test strings for emptiness and copy them, which this does not
    change. *)

From S2P Require Import Prelude.

(** ** JSON values *)
#[local] Set Warnings "-register-all".

Inductive jvalue : Type :=
  | JNull
  | JBool (b : bool)
  | JNum (n : Z)
  | JStr (s : string)
  | JArr (xs : list jvalue)
  | JObj (fs : list (string * jvalue)).

(** Nested induction: the hypotheses for arrays and objects may use the
    property of every element. *)
Section jvalue_ind_nested.
Variable P : jvalue -> Prop.
Hypothesis HNull : P JNull.
Hypothesis HBool : forall b, P (JBool b).
Hypothesis HNum : forall n, P (JNum n).
Hypothesis HStr : forall s, P (JStr s).
Hypothesis HArr : forall xs, Forall P xs -> P (JArr xs).
Hypothesis HObj : forall fs, Forall (fun kv => P kv.2) fs -> P (JObj fs).

Fixpoint jvalue_ind' (v : jvalue) : P v :=
  match v with
  | JNull => HNull
  | JBool b => HBool b
  | JNum n => HNum n
  | JStr s => HStr s
  | JArr xs =>
      HArr xs ((fix go (l : list jvalue) : Forall P l :=
                  match l with
                  | [] => List.Forall_nil _
                  | x :: l' => List.Forall_cons _ _ _ (jvalue_ind' x) (go l')
                  end) xs)
  | JObj fs =>
      HObj fs ((fix go (l : list (string * jvalue)) :
                  Forall (fun kv => P kv.2) l :=
                  match l with
                  | [] => List.Forall_nil _
                  | kv :: l' => List.Forall_cons _ _ _ (jvalue_ind' kv.2) (go l')
                  end) fs)
  end.
End jvalue_ind_nested.

#[export] Instance jvalue_eq_dec : EqDecision jvalue.
Proof.
  refine (fix go (v w : jvalue) {struct v} : Decision (v = w) :=
    match v, w with
    | JNull, JNull => left eq_refl
    | JBool a, JBool b => cast_if (decide (a = b))
    | JNum a, JNum b => cast_if (decide (a = b))
    | JStr a, JStr b => cast_if (decide (a = b))
    | JArr xs, JArr ys =>
        cast_if (@decide (xs = ys) (@list_eq_dec _ go xs ys))
    | JObj fs, JObj gs =>
        cast_if (@decide (fs = gs)
          (@list_eq_dec _ (fun p q => @prod_eq_dec _ _ _ go p q) fs gs))
    | _, _ => right _
    end); congruence.
Defined.

(** ** Errors thrown by the runtime *)
Inductive jsError : Type :=
  | TypeError (msg : string)        (** property of null, call of a non-function *)
  | SyntaxError                     (** [JSON.parse] / [response.json()] on bad text *)
  | FsError (code : string)         (** an [fs] call failed: ENOENT, EACCES, ... *)
  | PlainError (msg : string).      (** [new Error(msg)] *)

#[export] Instance jsError_eq_dec : EqDecision jsError.
Proof. solve_decision. Defined.

(** ** Truthiness

    [!x] in the handlers: [null], [false], [0], [""] and [undefined] are
    falsy; every other value (including ["0"], [[]] and [{}]) is truthy.
    A property that is absent reads as [undefined], written [None]. *)
Definition truthy (v : jvalue) : bool :=
  match v with
  | JNull => false
  | JBool b => b
  | JNum n => negb (Z.eqb n 0)
  | JStr s => negb (String.eqb s "")
  | JArr _ | JObj _ => true
  end.

Definition truthy_opt (o : option jvalue) : bool :=
  match o with
  | None => false
  | Some v => truthy v
  end.

(** ** Objects: property lookup and assignment

    Objects are association lists in property-insertion order. Reading
    takes the first binding; assigning an existing key replaces its value
    in place (the key keeps its position), a new key goes last — the
    order JavaScript gives to [{...o, k: v}]. *)
Fixpoint assoc_get (fs : list (string * jvalue)) (k : string) : option jvalue :=
  match fs with
  | [] => None
  | (k', v) :: fs' => if String.eqb k k' then Some v else assoc_get fs' k
  end.

Fixpoint assoc_set (fs : list (string * jvalue)) (k : string) (v : jvalue)
  : list (string * jvalue) :=
  match fs with
  | [] => [(k, v)]
  | (k', v') :: fs' =>
      if String.eqb k k' then (k', v) :: fs' else (k', v') :: assoc_set fs' k v
  end.

(** [v.k]: reading a property of [null] throws a [TypeError]; a string or
    an array has its [length]; any other property of a primitive or an
    array reads as [undefined]. (Prototype methods are not JSON values
    and are modelled where they are called, see [js_push].) *)
Definition get_prop (v : jvalue) (k : string) : outcome jsError (option jvalue) :=
  match v with
  | JNull => Throw (TypeError "Cannot read properties of null")
  | JObj fs => Ok (assoc_get fs k)
  | JStr s => Ok (if String.eqb k "length" then Some (JNum (Z.of_nat (String.length s)))
                  else None)
  | JArr xs => Ok (if String.eqb k "length" then Some (JNum (Z.of_nat (length xs)))
                   else None)
  | JBool _ | JNum _ => Ok None
  end.

(** ** Decimal numerals

    [String(n)] for an integer [n] (used by the index keys of a spread and
    by [JSON.stringify]). The fuel [S (N.size_nat n)] bounds the number
    of decimal digits. *)
Fixpoint digits_aux (fuel : nat) (n : N) (acc : string) : string :=
  match fuel with
  | O => acc
  | S f =>
      let acc' := String (Ascii.ascii_of_N (48 + n mod 10)) acc in
      if (n <? 10)%N then acc' else digits_aux f (n / 10) acc'
  end.

Definition N_to_decimal (n : N) : string := digits_aux (S (N.size_nat n)) n "".

Definition Z_to_decimal (z : Z) : string :=
  if (z <? 0)%Z then String.append "-" (N_to_decimal (Z.to_N (- z)))
  else N_to_decimal (Z.to_N z).

(** [{...o, k: v}]: the spread copies the own enumerable properties of
    [o] — the fields of an object, the indices of an array or of a
    string, nothing for [null], booleans and numbers — then [k: v] is
    assigned. *)
Definition index_keys {A} (xs : list A) : list (string * A) :=
  imap (fun i x => (N_to_decimal (N.of_nat i), x)) xs.

Definition spread_set (o : jvalue) (k : string) (v : jvalue) : jvalue :=
  match o with
  | JObj fs => JObj (assoc_set fs k v)
  | JArr xs => JObj (assoc_set (index_keys xs) k v)
  | JStr s =>
      JObj (assoc_set (index_keys (map (fun c => JStr (String c EmptyString))
                                       (list_ascii_of_string s))) k v)
  | JNull | JBool _ | JNum _ => JObj [(k, v)]
  end.

(** [arr.push(x)] on the value [JSON.parse] returned: only an array has a
    [push] method; on any other value the call throws. *)
Definition js_push (a : jvalue) (x : jvalue) : outcome jsError jvalue :=
  match a with
  | JArr xs => Ok (JArr (xs ++ [x]))
  | _ => Throw (TypeError "submissions.push is not a function")
  end.

(** [String(v)] (ToString), as [new Error(v)] applies it to its message:
    an array prints its elements joined by commas, [null] elements as
    the empty string; a plain object prints as [[object Object]]. *)
Fixpoint js_to_string (v : jvalue) : string :=
  match v with
  | JNull => "null"
  | JBool true => "true"
  | JBool false => "false"
  | JNum n => Z_to_decimal n
  | JStr s => s
  | JArr xs =>
      let elem := fun x => match x with JNull => EmptyString | _ => js_to_string x end in
      (fix go (xs : list jvalue) : string :=
         match xs with
         | [] => EmptyString
         | [x] => elem x
         | x :: xs' => String.append (elem x) (String "," (go xs'))
         end) xs
  | JObj _ => "[object Object]"
  end.

(** The [message] of an error the runtime throws. The texts are those of
    V8; nothing below depends on them except that they are not empty. *)
Definition js_error_message (e : jsError) : string :=
  match e with
  | TypeError msg => msg
  | SyntaxError => "Unexpected token in JSON"
  | FsError code => code
  | PlainError msg => msg
  end.

(** ** Strings: whitespace and [String.prototype.trim]

    Strings are sequences of UTF-16 code units; the model covers code
    units 0..255 ([ascii]). In that range JavaScript's white space and
    line terminators (the class [\s] of regular expressions, and what
    [trim] removes) are TAB, LF, VT, FF, CR, SPACE and NO-BREAK SPACE. *)
Definition is_js_space (c : ascii) : bool :=
  match Ascii.nat_of_ascii c with
  | 9 | 10 | 11 | 12 | 13 | 32 | 160 => true
  | _ => false
  end.

Fixpoint trim_start (s : string) : string :=
  match s with
  | EmptyString => EmptyString
  | String c s' => if is_js_space c then trim_start s' else s
  end.

Definition trim_end (s : string) : string :=
  string_of_list_ascii
    (rev (list_ascii_of_string (trim_start
      (string_of_list_ascii (rev (list_ascii_of_string s)))))).

Definition js_trim (s : string) : string := trim_end (trim_start s).

(** ** Well-formed values

    Objects built by JavaScript (by [JSON.parse] or by a literal) never
    have two properties with the same key; [wf_json] checks it at every
    level. It is the type invariant of the values the program handles. *)
Fixpoint wf_json (v : jvalue) : bool :=
  match v with
  | JArr xs => forallb wf_json xs
  | JObj fs => bool_decide (NoDup fs.*1) && forallb (fun kv => wf_json kv.2) fs
  | JNull | JBool _ | JNum _ | JStr _ => true
  end.

Lemma assoc_get_None (fs : list (string * jvalue)) k :
  k ∉ fs.*1 -> assoc_get fs k = None.
Proof.
  induction fs as [|[k' v'] fs IH]; intros Hk; simpl in *; [done|].
  destruct (String.eqb_spec k k'); [set_solver|]. apply IH. set_solver.
Qed.

Lemma assoc_set_fresh (fs : list (string * jvalue)) k v :
  k ∉ fs.*1 -> assoc_set fs k v = fs ++ [(k, v)].
Proof.
  induction fs as [|[k' v'] fs IH]; intros Hk; simpl in *; [done|].
  destruct (String.eqb_spec k k'); [set_solver|]. rewrite IH; [done|set_solver].
Qed.

Lemma assoc_set_keys_in (fs : list (string * jvalue)) k v :
  k ∈ fs.*1 -> (assoc_set fs k v).*1 = fs.*1.
Proof.
  induction fs as [|[k' v'] fs IH]; intros Hk; simpl in *; [set_solver|].
  destruct (String.eqb_spec k k') as [->|]; simpl; [done|].
  f_equal. apply IH. set_solver.
Qed.

Lemma assoc_set_nodup (fs : list (string * jvalue)) k v :
  NoDup fs.*1 -> NoDup (assoc_set fs k v).*1.
Proof.
  intros Hnd. destruct (decide (k ∈ fs.*1)) as [Hin|Hout].
  - by rewrite assoc_set_keys_in.
  - rewrite assoc_set_fresh, fmap_app by done. simpl.
    apply NoDup_app. split_and!; [done| |by apply NoDup_singleton].
    set_solver.
Qed.

Lemma assoc_get_set_eq (fs : list (string * jvalue)) k v :
  assoc_get (assoc_set fs k v) k = Some v.
Proof.
  induction fs as [|[k' v'] fs IH]; simpl.
  - by rewrite String.eqb_refl.
  - destruct (String.eqb_spec k k') as [->|Hne]; simpl.
    + by rewrite String.eqb_refl.
    + apply String.eqb_neq in Hne. by rewrite Hne.
Qed.

Lemma assoc_get_set_ne (fs : list (string * jvalue)) k k' v :
  k <> k' -> assoc_get (assoc_set fs k v) k' = assoc_get fs k'.
Proof.
  intros Hne. induction fs as [|[k'' v''] fs IH]; simpl.
  - apply String.eqb_neq in Hne. rewrite String.eqb_sym. by rewrite Hne.
  - destruct (String.eqb_spec k k'') as [->|]; simpl.
    + apply String.eqb_neq in Hne. rewrite String.eqb_sym in Hne. by rewrite Hne.
    + by rewrite IH.
Qed.

Lemma forallb_assoc_set (P : jvalue -> bool) (fs : list (string * jvalue)) k v :
  forallb (fun kv => P kv.2) fs = true -> P v = true ->
  forallb (fun kv => P kv.2) (assoc_set fs k v) = true.
Proof.
  induction fs as [|[k' v'] fs IH]; simpl; intros Hfs Hv.
  - by rewrite Hv.
  - apply andb_true_iff in Hfs as [H1 H2].
    destruct (String.eqb k k'); simpl; rewrite ?Hv, ?H1, ?H2; [done|].
    by rewrite IH.
Qed.

Lemma nodup_keys_fresh (acc rest : list (string * jvalue)) k v :
  NoDup (acc ++ (k, v) :: rest).*1 -> k ∉ acc.*1.
Proof.
  rewrite fmap_app, fmap_cons, NoDup_app. intros (_ & Hd & _) Hin.
  apply (Hd k Hin). simpl. set_solver.
Qed.

#[export] Hint Resolve assoc_set_nodup forallb_assoc_set : crm.
