(* ===== verification/JsonText.v ===== *)
(** * JSON text: [JSON.stringify] and [JSON.parse]

    The submissions file holds [JSON.stringify(submissions, null, 2)]
    ([writeSubmissions]) and is read back with [JSON.parse]
    ([readSubmissions]); the demo form sends [JSON.stringify(formData)]
    (no gap) and the server reads it with the same parser
    ([request.json()]). This file gives both directions as executable
    definitions, following ECMA-262 (SerializeJSONProperty, QuoteJSONString,
    SerializeJSONArray/Object with a gap of two spaces or none; the JSON grammar of
    RFC 8259 for the parser), and proves that parsing what was printed gives
    the value back.

    Limits of the model:
    - numbers are integers: a fraction or an exponent is a syntax error
      here, while [JSON.parse] accepts it; so a request body such as
      [{"fullName": "A", ..., "n": 1.5}] makes the model's [POST] answer
      500 where [route.ts] answers 200.  The theorems on accepted bodies
      cover the bodies in this subset, which include every body the demo
      form sends (it only sends strings);
    - integers are kept exact at any size, where a double rounds those
      above 2^53, so [JSON.stringify(JSON.parse(t))] may differ from the
      model's on such literals;
    - a [\uXXXX] escape above 0x00FF is a syntax error here (strings are
      code units 0..255, see [JsValue]);
    - object keys stay in insertion order, while JavaScript enumerates
      array-index keys (["0"], ["1"], ...) first in ascending order; the
      handlers never create such keys, but a body that has them is
      printed back in its own order. *)

From S2P Require Import Prelude JsValue.

(** ** Characters *)
Definition chr (n : nat) : ascii := Ascii.ascii_of_nat n.
Definition dquote : ascii := chr 34.
Definition bslash : ascii := chr 92.
Definition newline : ascii := chr 10.

Definition hex_digit (n : nat) : ascii :=
  if n <? 10 then chr (48 + n) else chr (87 + n).

(** QuoteJSONString, one code unit. *)
Definition escape_char (c : ascii) : string :=
  match Ascii.nat_of_ascii c with
  | 8 => String bslash "b"
  | 9 => String bslash "t"
  | 10 => String bslash "n"
  | 12 => String bslash "f"
  | 13 => String bslash "r"
  | 34 => String bslash (String dquote EmptyString)
  | 92 => String bslash (String bslash EmptyString)
  | n => if n <? 32
         then String bslash (String "u" (String "0" (String "0"
                (String (hex_digit (n / 16)) (String (hex_digit (n mod 16)) EmptyString)))))
         else String c EmptyString
  end.

Fixpoint escape_body (s : string) : string :=
  match s with
  | EmptyString => EmptyString
  | String c s' => String.append (escape_char c) (escape_body s')
  end.

Definition quote (s : string) : string :=
  String dquote (String.append (escape_body s) (String dquote EmptyString)).

(** ** [JSON.stringify(v, null, 2)] *)
Fixpoint spaces (n : nat) : string :=
  match n with
  | O => EmptyString
  | S n' => String " " (spaces n')
  end.

(** [sep ++ x1 ++ sep ++ x2 ...]: every element preceded by the separator. *)
Fixpoint prefix_each (sep : string) (xs : list string) : string :=
  match xs with
  | [] => EmptyString
  | x :: xs' => String.append sep (String.append x (prefix_each sep xs'))
  end.

(** [x1 ++ sep ++ x2 ++ ... ++ sep ++ xn]. *)
Definition join (sep : string) (xs : list string) : string :=
  match xs with
  | [] => EmptyString
  | x :: xs' => String.append x (prefix_each sep xs')
  end.

(** With a gap of two spaces ([pretty]), the line break and indentation
    that open a level at depth [ind]; without a gap, nothing. *)
Definition nl_indent (pretty : bool) (ind : nat) : string :=
  if pretty then String newline (spaces ind) else EmptyString.
Arguments nl_indent : simpl never.

(** What follows the colon of a member: a space when there is a gap. *)
Definition colon_gap (pretty : bool) : string := if pretty then " " else EmptyString.
Arguments colon_gap : simpl never.

(** SerializeJSONProperty; the gap is two spaces when [pretty] and empty otherwise. *)
Fixpoint stringify_at (pretty : bool) (ind : nat) (v : jvalue) : string :=
  match v with
  | JNull => "null"
  | JBool true => "true"
  | JBool false => "false"
  | JNum n => Z_to_decimal n
  | JStr s => quote s
  | JArr [] => "[]"
  | JArr xs =>
      String "[" (String.append
        (nl_indent pretty (ind + 2))
        (String.append
          (join (String "," (nl_indent pretty (ind + 2))) (map (stringify_at pretty (ind + 2)) xs))
          (String.append (nl_indent pretty ind) "]")))
  | JObj [] => "{}"
  | JObj fs =>
      String "{" (String.append
        (nl_indent pretty (ind + 2))
        (String.append
          (join (String "," (nl_indent pretty (ind + 2)))
             (map (fun kv => String.append (quote kv.1)
                               (String ":" (String.append (colon_gap pretty)
                                 (stringify_at pretty (ind + 2) kv.2)))) fs))
          (String.append (nl_indent pretty ind) "}")))
  end.

(** [JSON.stringify(v, null, 2)]: the submissions file. *)
Definition JSON_stringify (v : jvalue) : string := stringify_at true 0 v.

(** [JSON.stringify(v)]: a request body. *)
Definition JSON_stringify_compact (v : jvalue) : string := stringify_at false 0 v.

(** ** [JSON.parse]

    Recursive descent over the text. JSON white space is TAB, LF, CR and
    SPACE. The fuel is the length of the text; every level of nesting and
    every element consumes at least one character, so it never runs out
    on text the parser accepts (see [parse_stringify]). *)
Definition is_json_ws (c : ascii) : bool :=
  let n := Ascii.N_of_ascii c in
  (n =? 9)%N || (n =? 10)%N || (n =? 13)%N || (n =? 32)%N.

Fixpoint skip_ws (s : string) : string :=
  match s with
  | String c s' => if is_json_ws c then skip_ws s' else s
  | EmptyString => EmptyString
  end.

Definition digit_val (c : ascii) : option N :=
  let n := Ascii.N_of_ascii c in
  if (48 <=? n)%N && (n <=? 57)%N then Some (n - 48)%N else None.

Definition hex_val (c : ascii) : option nat :=
  let n := Ascii.nat_of_ascii c in
  if (48 <=? n) && (n <=? 57) then Some (n - 48)
  else if (97 <=? n) && (n <=? 102) then Some (n - 87)
  else if (65 <=? n) && (n <=? 70) then Some (n - 55)
  else None.

(** Digits after the first: accumulate while the next character is a digit. *)
Fixpoint parse_digits (s : string) (acc : N) : N * string :=
  match s with
  | String c s' =>
      match digit_val c with
      | Some d => parse_digits s' (acc * 10 + d)%N
      | None => (acc, s)
      end
  | EmptyString => (acc, s)
  end.

(** int = "0" | [1-9] [0-9]*  (a leading zero ends the number). *)
Definition parse_nat (s : string) : option (N * string) :=
  match s with
  | String c s' =>
      match digit_val c with
      | Some 0%N => Some (0%N, s')
      | Some d => Some (parse_digits s' d)
      | None => None
      end
  | EmptyString => None
  end.

Definition parse_number (s : string) : option (Z * string) :=
  match s with
  | String c s' =>
      if Ascii.eqb c "-" then
        match parse_nat s' with
        | Some (n, r) => Some ((- Z.of_N n)%Z, r)
        | None => None
        end
      else
        match parse_nat s with
        | Some (n, r) => Some (Z.of_N n, r)
        | None => None
        end
  | EmptyString => None
  end.

(** The characters of a string literal after the opening quote, up to and
    including the closing quote. *)
Fixpoint parse_str_body (s : string) : option (string * string) :=
  match s with
  | EmptyString => None
  | String c s' =>
      if Ascii.eqb c dquote then Some (EmptyString, s')
      else if Ascii.eqb c bslash then
        match s' with
        | String e s'' =>
            let k := fun (d : ascii) =>
              match parse_str_body s'' with
              | Some (b, r) => Some (String d b, r)
              | None => None
              end in
            match Ascii.nat_of_ascii e with
            | 34 => k dquote
            | 92 => k bslash
            | 47 => k (chr 47)
            | 98 => k (chr 8)
            | 102 => k (chr 12)
            | 110 => k (chr 10)
            | 114 => k (chr 13)
            | 116 => k (chr 9)
            | 117 =>
                match s'' with
                | String h1 (String h2 (String h3 (String h4 r0))) =>
                    match hex_val h1, hex_val h2, hex_val h3, hex_val h4 with
                    | Some a, Some b, Some c3, Some d =>
                        let code := ((a * 16 + b) * 16 + c3) * 16 + d in
                        if code <? 256 then
                          match parse_str_body r0 with
                          | Some (b', r) => Some (String (chr code) b', r)
                          | None => None
                          end
                        else None
                    | _, _, _, _ => None
                    end
                | _ => None
                end
            | _ => None
            end
        | EmptyString => None
        end
      else if Ascii.nat_of_ascii c <? 32 then None
      else
        match parse_str_body s' with
        | Some (b, r) => Some (String c b, r)
        | None => None
        end
  end.

Definition parse_string (s : string) : option (string * string) :=
  match s with
  | String c s' => if Ascii.eqb c dquote then parse_str_body s' else None
  | EmptyString => None
  end.

Fixpoint parse_value (fuel : nat) (s : string) : option (jvalue * string) :=
  match fuel with
  | O => None
  | S f =>
      match skip_ws s with
      | EmptyString => None
      | String c r =>
          if Ascii.eqb c "n" then
            match r with
            | String "u" (String "l" (String "l" r')) => Some (JNull, r')
            | _ => None
            end
          else if Ascii.eqb c "t" then
            match r with
            | String "r" (String "u" (String "e" r')) => Some (JBool true, r')
            | _ => None
            end
          else if Ascii.eqb c "f" then
            match r with
            | String "a" (String "l" (String "s" (String "e" r'))) => Some (JBool false, r')
            | _ => None
            end
          else if Ascii.eqb c "[" then
            match skip_ws r with
            | EmptyString => None
            | String c' r' =>
                if Ascii.eqb c' "]" then Some (JArr [], r')
                else match parse_elems f r [] with
                     | Some (xs, r'') => Some (JArr xs, r'')
                     | None => None
                     end
            end
          else if Ascii.eqb c "{" then
            match skip_ws r with
            | EmptyString => None
            | String c' r' =>
                if Ascii.eqb c' "}" then Some (JObj [], r')
                else match parse_members f r [] with
                     | Some (fs, r'') => Some (JObj fs, r'')
                     | None => None
                     end
            end
          else if Ascii.eqb c dquote then
            match parse_str_body r with
            | Some (b, r') => Some (JStr b, r')
            | None => None
            end
          else
            match parse_number (String c r) with
            | Some (n, r') => Some (JNum n, r')
            | None => None
            end
      end
  end
(** Array elements after [\[]: value (',' value)* ']'. *)
with parse_elems (fuel : nat) (s : string) (acc : list jvalue)
  : option (list jvalue * string) :=
  match fuel with
  | O => None
  | S f =>
      match parse_value f s with
      | Some (v, r) =>
          match skip_ws r with
          | String c r' =>
              if Ascii.eqb c "," then parse_elems f r' (acc ++ [v])
              else if Ascii.eqb c "]" then Some (acc ++ [v], r')
              else None
          | EmptyString => None
          end
      | None => None
      end
  end
(** Object members after [{]: string ':' value (',' string ':' value)* '}'.
    A repeated key keeps its first position and takes the last value. *)
with parse_members (fuel : nat) (s : string) (acc : list (string * jvalue))
  : option (list (string * jvalue) * string) :=
  match fuel with
  | O => None
  | S f =>
      match parse_string (skip_ws s) with
      | Some (k, r) =>
          match skip_ws r with
          | String ":" r1 =>
              match parse_value f r1 with
              | Some (v, r2) =>
                  match skip_ws r2 with
                  | String c r' =>
                      if Ascii.eqb c "," then parse_members f r' (assoc_set acc k v)
                      else if Ascii.eqb c "}" then Some (assoc_set acc k v, r')
                      else None
                  | EmptyString => None
                  end
              | None => None
              end
          | _ => None
          end
      | None => None
      end
  end.

(** The whole text is one value, with white space around it. *)
Definition JSON_parse (text : string) : outcome jsError jvalue :=
  match parse_value (String.length text) text with
  | Some (v, r) =>
      match skip_ws r with
      | EmptyString => Ok v
      | _ => Throw SyntaxError
      end
  | None => Throw SyntaxError
  end.

(** ** Round trip: numbers *)

(** A text that does not start with a digit: what follows a number in
    printed JSON ([,], a line break, [\]], [}] or the end). *)
Definition no_digit_start (r : string) : Prop :=
  match r with
  | String c _ => digit_val c = None
  | EmptyString => True
  end.

Lemma digit_val_digit (d : N) :
  (d < 10)%N -> digit_val (Ascii.ascii_of_N (48 + d)) = Some d.
Proof.
  intros Hd. unfold digit_val. rewrite Ascii.N_ascii_embedding by lia.
  replace ((48 <=? 48 + d)%N && (48 + d <=? 57)%N) with true.
  - f_equal. lia.
  - symmetry. apply andb_true_intro. split; apply N.leb_le; lia.
Qed.

Lemma digit_val_lt c d : digit_val c = Some d -> (d < 10)%N.
Proof.
  unfold digit_val. destruct (_ && _) eqn:E; [|done].
  apply andb_true_iff in E as [_ E%N.leb_le]. intros [= <-]. lia.
Qed.

Lemma pow10_succ f : (10 ^ N.of_nat (S f) = 10 * 10 ^ N.of_nat f)%N.
Proof. rewrite Nat2N.inj_succ. apply N.pow_succ_r'. Qed.

Lemma parse_digits_stop r a : no_digit_start r -> parse_digits r a = (a, r).
Proof. destruct r as [|c r]; simpl; [done|]. by intros ->. Qed.

(** Reading back the digits [digits_aux] prints: the accumulator is
    shifted by some power of ten and [n] is added. *)
Lemma parse_digits_aux f n acc a :
  (n < 10 ^ N.of_nat f)%N ->
  exists k, parse_digits (digits_aux f n acc) a = parse_digits acc (a * 10 ^ k + n)%N.
Proof.
  revert n acc a. induction f as [|f IH]; intros n acc a Hn.
  - exists 0%N. simpl in *. f_equal. lia.
  - rewrite pow10_succ in Hn. simpl.
    assert (Hm : (n mod 10 < 10)%N) by (apply N.mod_lt; lia).
    pose proof (N.div_mod n 10 ltac:(lia)) as Hdm.
    destruct (N.ltb_spec n 10).
    + exists 1%N. simpl. rewrite digit_val_digit by done.
      rewrite N.mod_small by lia. f_equal; lia.
    + destruct (IH (n / 10)%N (String (Ascii.ascii_of_N (48 + n mod 10)) acc) a)
        as [k Hk].
      { apply N.Div0.div_lt_upper_bound; lia. }
      exists (k + 1)%N. rewrite Hk. simpl. rewrite digit_val_digit by done.
      f_equal. rewrite N.pow_add_r, N.pow_1_r. nia.
Qed.

Lemma digits_aux_app f n acc r :
  digits_aux f n (acc +:+ r) = digits_aux f n acc +:+ r.
Proof.
  revert n acc. induction f as [|f IH]; intros n acc; simpl; [done|].
  destruct (n <? 10)%N; [done|].
  rewrite <- IH. done.
Qed.

(** With enough fuel and [n > 0], the first digit printed is not [0]. *)
Lemma digits_aux_lead f n acc :
  (0 < n)%N -> (n < 10 ^ N.of_nat f)%N ->
  exists c t d, digits_aux f n acc = String c t /\ digit_val c = Some d /\ d <> 0%N.
Proof.
  revert n acc. induction f as [|f IH]; intros n acc Hpos Hn.
  - simpl in Hn. lia.
  - rewrite pow10_succ in Hn. simpl.
    destruct (N.ltb_spec n 10).
    + do 3 eexists. split; [done|].
      rewrite digit_val_digit by (apply N.mod_lt; lia).
      rewrite N.mod_small by lia. split; [done|lia].
    + apply IH.
      * apply N.div_str_pos. lia.
      * apply N.Div0.div_lt_upper_bound; lia.
Qed.

Lemma size_nat_bound n : (n < 10 ^ N.of_nat (S (N.size_nat n)))%N.
Proof.
  rewrite pow10_succ. destruct n as [|p]; [simpl; lia|].
  assert (Npos p < 10 ^ N.of_nat (Pos.size_nat p))%N; [|simpl; lia].
  induction p as [p IH|p IH|]; simpl Pos.size_nat.
  - rewrite pow10_succ. lia.
  - rewrite pow10_succ. lia.
  - simpl. lia.
Qed.

Lemma decimal_app n r : N_to_decimal n +:+ r = digits_aux (S (N.size_nat n)) n r.
Proof. unfold N_to_decimal. by rewrite <- digits_aux_app. Qed.

Lemma decimal_head n r :
  exists c t d, N_to_decimal n +:+ r = String c t /\ digit_val c = Some d.
Proof.
  rewrite decimal_app. destruct (N.eq_dec n 0) as [->|Hn].
  - simpl. do 3 eexists. split; [done|]. done.
  - destruct (digits_aux_lead (S (N.size_nat n)) n r) as (c & t & d & E & Hd & _).
    + lia.
    + apply size_nat_bound.
    + eauto.
Qed.

Lemma parse_nat_decimal n r :
  no_digit_start r -> parse_nat (N_to_decimal n +:+ r) = Some (n, r).
Proof.
  intros Hr. rewrite decimal_app. destruct (N.eq_dec n 0) as [->|Hn]; [done|].
  pose proof (size_nat_bound n) as Hb.
  destruct (digits_aux_lead _ n r ltac:(lia) Hb) as (c & t & d & E & Hd & Hd0).
  destruct (parse_digits_aux _ n r 0 Hb) as [k Hk].
  rewrite E in Hk |- *. simpl in Hk |- *. rewrite Hd in Hk |- *.
  destruct d as [|p]; [done|].
  replace (0 * 10 + N.pos p)%N with (N.pos p) in Hk by lia.
  rewrite Hk, parse_digits_stop by done. f_equal; f_equal; lia.
Qed.

Lemma parse_number_decimal z r :
  no_digit_start r -> parse_number (Z_to_decimal z +:+ r) = Some (z, r).
Proof.
  intros Hr. unfold Z_to_decimal. destruct (Z.ltb_spec z 0).
  - rewrite sapp_assoc, sapp_cons, sapp_nil_l. cbn -[parse_nat N_to_decimal].
    rewrite parse_nat_decimal by done. f_equal; f_equal; lia.
  - destruct (decimal_head (Z.to_N z) r) as (c & t & d & E & Hd).
    pose proof (parse_nat_decimal (Z.to_N z) r Hr) as Hp.
    rewrite E in Hp |- *. cbn -[parse_nat].
    destruct (Ascii.eqb_spec c "-") as [->|_]; [done|].
    rewrite Hp. f_equal; f_equal; lia.
Qed.

(** ** Round trip: strings *)

Lemma escape_char_parse c X b r :
  parse_str_body X = Some (b, r) ->
  parse_str_body (escape_char c +:+ X) = Some (String c b, r).
Proof.
  intros H.
  destruct c as [[] [] [] [] [] [] [] []];
    vm_compute escape_char; rewrite ?sapp_cons, ?sapp_nil_l; simpl; rewrite H; reflexivity.
Qed.

Lemma escape_body_parse s r :
  parse_str_body (escape_body s +:+ String dquote r) = Some (s, r).
Proof.
  induction s as [|c s IH]; [done|].
  simpl escape_body. rewrite sapp_assoc. by apply escape_char_parse.
Qed.

Lemma quote_app s r : quote s +:+ r = String dquote (escape_body s +:+ String dquote r).
Proof. unfold quote. by rewrite sapp_cons, sapp_assoc, sapp_cons, sapp_nil_l. Qed.

(** ** Round trip: white space and the first character *)

Lemma parse_value_S f s :
  parse_value (S f) s =
    match skip_ws s with
    | EmptyString => None
    | String c r =>
        if Ascii.eqb c "n" then
          match r with String "u" (String "l" (String "l" r')) => Some (JNull, r') | _ => None end
        else if Ascii.eqb c "t" then
          match r with String "r" (String "u" (String "e" r')) => Some (JBool true, r') | _ => None end
        else if Ascii.eqb c "f" then
          match r with
          | String "a" (String "l" (String "s" (String "e" r'))) => Some (JBool false, r')
          | _ => None end
        else if Ascii.eqb c "[" then
          match skip_ws r with
          | EmptyString => None
          | String c' r' =>
              if Ascii.eqb c' "]" then Some (JArr [], r')
              else match parse_elems f r [] with
                   | Some (xs, r'') => Some (JArr xs, r'') | None => None end
          end
        else if Ascii.eqb c "{" then
          match skip_ws r with
          | EmptyString => None
          | String c' r' =>
              if Ascii.eqb c' "}" then Some (JObj [], r')
              else match parse_members f r [] with
                   | Some (fs, r'') => Some (JObj fs, r'') | None => None end
          end
        else if Ascii.eqb c dquote then
          match parse_str_body r with Some (b, r') => Some (JStr b, r') | None => None end
        else
          match parse_number (String c r) with Some (n, r') => Some (JNum n, r') | None => None end
    end.
Proof. reflexivity. Qed.

Lemma parse_elems_S f s acc :
  parse_elems (S f) s acc =
    match parse_value f s with
    | Some (v, r) =>
        match skip_ws r with
        | String c r' =>
            if Ascii.eqb c "," then parse_elems f r' (acc ++ [v])
            else if Ascii.eqb c "]" then Some (acc ++ [v], r')
            else None
        | EmptyString => None
        end
    | None => None
    end.
Proof. reflexivity. Qed.

Lemma parse_members_S f s acc :
  parse_members (S f) s acc =
    match parse_string (skip_ws s) with
    | Some (k, r) =>
        match skip_ws r with
        | String ":" r1 =>
            match parse_value f r1 with
            | Some (v, r2) =>
                match skip_ws r2 with
                | String c r' =>
                    if Ascii.eqb c "," then parse_members f r' (assoc_set acc k v)
                    else if Ascii.eqb c "}" then Some (assoc_set acc k v, r')
                    else None
                | EmptyString => None
                end
            | None => None
            end
        | _ => None
        end
    | None => None
    end.
Proof. reflexivity. Qed.

Lemma skip_ws_cons c s : is_json_ws c = false -> skip_ws (String c s) = String c s.
Proof. simpl. by intros ->. Qed.

Lemma skip_ws_spaces n s : skip_ws (spaces n +:+ s) = skip_ws s.
Proof.
  induction n as [|n IH]; [done|]. simpl spaces. rewrite sapp_cons. simpl. exact IH.
Qed.

Lemma skip_ws_nl_indent p n s : skip_ws (nl_indent p n +:+ s) = skip_ws s.
Proof.
  destruct p; [|done]. unfold nl_indent. rewrite sapp_cons. simpl. apply skip_ws_spaces.
Qed.

Lemma parse_value_ws f c s :
  is_json_ws c = true -> parse_value f (String c s) = parse_value f s.
Proof. intros H. destruct f; [done|]. rewrite !parse_value_S. simpl. by rewrite H. Qed.

Lemma parse_value_colon_gap f p s t :
  parse_value f ((colon_gap p +:+ s) +:+ t) = parse_value f (s +:+ t).
Proof. destruct p; [|done]. by apply parse_value_ws. Qed.

Lemma parse_value_nl_indent f p n s : parse_value f (nl_indent p n +:+ s) = parse_value f s.
Proof.
  destruct f; [done|]. rewrite !parse_value_S. by rewrite skip_ws_nl_indent.
Qed.

Lemma digit_not_ws c d : digit_val c = Some d -> is_json_ws c = false.
Proof. destruct c as [[] [] [] [] [] [] [] []]; vm_compute; congruence. Qed.

Lemma eqb_nondigit c d x :
  digit_val c = Some d -> digit_val x = None -> Ascii.eqb c x = false.
Proof. intros Hc Hx. destruct (Ascii.eqb_spec c x) as [->|]; congruence. Qed.

Lemma Z_decimal_head z r :
  exists c t, Z_to_decimal z +:+ r = String c t /\
              ((exists d, digit_val c = Some d) \/ c = "-"%char).
Proof.
  unfold Z_to_decimal. destruct (z <? 0)%Z.
  - rewrite sapp_assoc, sapp_cons. do 2 eexists. split; [done|]. by right.
  - destruct (decimal_head (Z.to_N z) r) as (c & t & d & -> & Hd).
    do 2 eexists. split; [done|]. left. eauto.
Qed.

Lemma parse_value_number f z r :
  no_digit_start r -> parse_value (S f) (Z_to_decimal z +:+ r) = Some (JNum z, r).
Proof.
  intros Hr. pose proof (parse_number_decimal z r Hr) as Hn.
  destruct (Z_decimal_head z r) as (c & t & E & [[d Hd] | ->]);
    rewrite E in Hn |- *; rewrite parse_value_S.
  - rewrite skip_ws_cons by (eapply digit_not_ws; eauto).
    rewrite !(eqb_nondigit c d) by done. by rewrite Hn.
  - rewrite skip_ws_cons by reflexivity. cbn -[parse_number]. by rewrite Hn.
Qed.

(** ** Round trip: arrays, objects, and the whole value *)

(** The fuel a printed value needs: one unit per nesting level and two
    per element or member. *)
Fixpoint jsize (v : jvalue) : nat :=
  match v with
  | JArr xs => sum_list_with (fun x => 2 + jsize x) xs
  | JObj fs => sum_list_with (fun kv => 2 + jsize kv.2) fs
  | JNull | JBool _ | JNum _ | JStr _ => 0
  end.

(** The first character of a printed value is not white space and does
    not close an array or an object. *)
Lemma stringify_head p ind v r :
  exists c t, stringify_at p ind v +:+ r = String c t /\ is_json_ws c = false /\
              Ascii.eqb c "]" = false /\ Ascii.eqb c "}" = false.
Proof.
  destruct v as [| [] | z | s | [|x xs] | [|kv fs]];
    try (simpl stringify_at; rewrite ?sapp_cons; by do 2 eexists).
  - simpl stringify_at. destruct (Z_decimal_head z r) as (c & t & E & [[d Hd] | ->]); rewrite E.
    + do 2 eexists. split; [done|].
      split; [by eapply digit_not_ws|]. split; by eapply eqb_nondigit.
    + by do 2 eexists.
Qed.

Lemma skip_ws_printed p ind v r :
  skip_ws (stringify_at p ind v +:+ r) = stringify_at p ind v +:+ r.
Proof.
  destruct (stringify_head p ind v r) as (c & t & E & Hws & _). rewrite E.
  by apply skip_ws_cons.
Qed.

(** [v] is read back from its printed form followed by any text that does
    not start with a digit, at any indentation, with enough fuel. *)
Definition reads_back (v : jvalue) : Prop :=
  forall p ind fuel r, jsize v < fuel -> no_digit_start r ->
    parse_value fuel (stringify_at p ind v +:+ r) = Some (v, r).

Section Loops.
Variable p : bool.
Variable ind : nat.
Let sep := String "," (nl_indent p (ind + 2)).

(** Side conditions of [reads_back]: fuel, and the text after a value
    starts with a separator or a line break. *)
Local Ltac side :=
  first [ done | lia
        | (unfold no_digit_start, sep, nl_indent; try simpl prefix_each; destruct p;
           rewrite ?sapp_nil_l, ?sapp_assoc, ?sapp_cons; done) ].
Let member (kv : string * jvalue) :=
  quote kv.1 +:+ String ":" (colon_gap p +:+ stringify_at p (ind + 2) kv.2).

Lemma parse_elems_printed xs :
  Forall reads_back xs ->
  forall x acc F R, reads_back x ->
  sum_list_with (fun y => 2 + jsize y) (x :: xs) <= F ->
  parse_elems F (nl_indent p (ind + 2) +:+ (stringify_at p (ind + 2) x +:+
    (prefix_each sep (map (stringify_at p (ind + 2)) xs) +:+
     (nl_indent p ind +:+ String "]" R)))) acc = Some (acc ++ x :: xs, R).
Proof.
  induction 1 as [|y ys Hy Hys IH]; intros x acc F R Hx HF;
    destruct F as [|F]; simpl in HF; try lia;
    rewrite parse_elems_S, parse_value_nl_indent, Hx by side.
  - simpl prefix_each. by rewrite sapp_nil_l, skip_ws_nl_indent.
  - simpl prefix_each. unfold sep. rewrite sapp_assoc, sapp_cons. simpl skip_ws.
    rewrite sapp_assoc.
    replace (acc ++ x :: y :: ys) with ((acc ++ [x]) ++ y :: ys) by by rewrite <- app_assoc.
    apply IH; [done|simpl; lia].
Qed.

Lemma parse_members_printed fs :
  Forall (fun kv => reads_back kv.2) fs ->
  forall kv acc F R, reads_back kv.2 -> NoDup (acc ++ kv :: fs).*1 ->
  sum_list_with (fun kv => 2 + jsize kv.2) (kv :: fs) <= F ->
  parse_members F (nl_indent p (ind + 2) +:+ (member kv +:+
    (prefix_each sep (map member fs) +:+
     (nl_indent p ind +:+ String "}" R)))) acc = Some (acc ++ kv :: fs, R).
Proof.
  induction 1 as [|kv' fs Hkv' Hfs IH]; intros [k v] acc F R Hv Hnd HF;
    simpl snd in Hv; destruct F as [|F]; simpl in HF; try lia;
    rewrite parse_members_S, skip_ws_nl_indent; unfold member; simpl fst; simpl snd;
    rewrite sapp_assoc, quote_app, skip_ws_cons by done; simpl parse_string;
    rewrite escape_body_parse, !sapp_cons; simpl;
    rewrite parse_value_colon_gap, Hv by side;
    rewrite assoc_set_fresh by (by eapply nodup_keys_fresh).
  - by rewrite sapp_nil_l, skip_ws_nl_indent.
  - simpl prefix_each. unfold sep. rewrite sapp_assoc, sapp_cons. simpl skip_ws.
    rewrite sapp_assoc.
    replace (acc ++ (k, v) :: kv' :: fs) with ((acc ++ [(k, v)]) ++ kv' :: fs)
      by by rewrite <- app_assoc.
    apply IH; [done| |simpl; lia].
    by rewrite <- app_assoc.
Qed.
End Loops.

Lemma reads_back_wf v : wf_json v = true -> reads_back v.
Proof.
  induction v as [| b | z | s | xs IH | fs IH] using jvalue_ind';
    intros Hwf p ind fuel r Hf Hr; destruct fuel as [|fuel]; try (simpl in Hf; lia).
  - simpl stringify_at. rewrite !sapp_cons, sapp_nil_l, parse_value_S. done.
  - destruct b; simpl stringify_at; rewrite !sapp_cons, sapp_nil_l, parse_value_S; done.
  - by apply parse_value_number.
  - simpl stringify_at. rewrite quote_app, parse_value_S, skip_ws_cons by done.
    simpl. by rewrite escape_body_parse.
  - destruct xs as [|x xs]; simpl stringify_at.
    { rewrite !sapp_cons, sapp_nil_l, parse_value_S. done. }
    simpl in Hwf, Hf. apply Forall_forallb_impl in IH; [|done].
    apply Forall_cons in IH as [Hx Hxs].
    rewrite sapp_cons, parse_value_S, skip_ws_cons by done. simpl.
    rewrite !sapp_assoc, skip_ws_nl_indent. change ("]" +:+ r) with (String "]" r).
    destruct (stringify_head p (ind + 2) x
      (prefix_each (String "," (nl_indent p (ind + 2))) (map (stringify_at p (ind + 2)) xs)
       +:+ nl_indent p ind +:+ String "]" r)) as (c & t & E & Hws & Hcl & _).
    rewrite E, skip_ws_cons, Hcl by done. rewrite <- E.
    rewrite parse_elems_printed; [done..|simpl; lia].
  - destruct fs as [|[k v] fs]; simpl stringify_at.
    { rewrite !sapp_cons, sapp_nil_l, parse_value_S. done. }
    simpl in Hwf, Hf. apply andb_true_iff in Hwf as [Hnd Hwf].
    apply Forall_forallb_impl in IH; [|done].
    apply Forall_cons in IH as [Hv Hfs].
    pose proof (parse_members_printed p ind fs Hfs (k, v) [] fuel r Hv) as HP.
    cbv beta in HP. simpl fst in HP. simpl snd in HP.
    rewrite !sapp_assoc, quote_app in HP.
    rewrite sapp_cons, parse_value_S, skip_ws_cons by done. simpl.
    rewrite !sapp_assoc. change ("}" +:+ r) with (String "}" r).
    rewrite skip_ws_nl_indent, quote_app, skip_ws_cons by done.
    replace (Ascii.eqb dquote "}") with false by reflexivity.
    rewrite HP; [done| |simpl; lia].
    by apply bool_decide_eq_true in Hnd.
Qed.

(** ** Lengths: the fuel of [JSON_parse] suffices *)

Lemma length_spaces n : String.length (spaces n) = n.
Proof. induction n as [|n IH]; [done|]. simpl. by rewrite IH. Qed.

Lemma length_nl_indent p n : String.length (nl_indent p n) = if p then S n else 0.
Proof. destruct p; [|done]. unfold nl_indent. simpl. by rewrite length_spaces. Qed.

Lemma length_prefix_each sep (xs : list string) :
  String.length (prefix_each sep xs) =
    sum_list_with (fun x => String.length sep + String.length x) xs.
Proof.
  induction xs as [|x xs IH]; [done|]. simpl prefix_each.
  rewrite !length_sapp, IH. simpl. lia.
Qed.

Lemma length_Z_to_decimal z : 1 <= String.length (Z_to_decimal z).
Proof.
  destruct (Z_decimal_head z "") as (c & t & E & _).
  rewrite sapp_nil_r in E. rewrite E. simpl. lia.
Qed.

Lemma stringify_length p ind v : jsize v < String.length (stringify_at p ind v).
Proof.
  revert ind.
  induction v as [| b | z | s | xs IH | fs IH] using jvalue_ind'; intros ind.
  - simpl. lia.
  - destruct b; simpl; lia.
  - pose proof (length_Z_to_decimal z). simpl. lia.
  - unfold stringify_at, quote. simpl. rewrite length_sapp. simpl. lia.
  - destruct xs as [|x xs]; [simpl; lia|].
    apply Forall_cons in IH as [Hx Hxs].
    simpl stringify_at. simpl String.length.
    rewrite !length_sapp, length_prefix_each, sum_list_with_map.
    simpl. specialize (Hx (ind + 2)).
    match goal with |- _ < ?rhs => match rhs with context [sum_list_with ?g xs] =>
      assert (sum_list_with (fun y => S (S (jsize y))) xs <= sum_list_with g xs)
    end end.
    { apply sum_list_with_le. eapply Forall_impl; [exact Hxs|]. simpl.
      intros y Hy. specialize (Hy (ind + 2)). lia. }
    lia.
  - destruct fs as [|[k v] fs]; [simpl; lia|].
    apply Forall_cons in IH as [Hv Hfs]. simpl in Hv.
    simpl stringify_at. simpl String.length.
    rewrite !length_sapp, length_prefix_each, sum_list_with_map.
    simpl. rewrite !length_sapp. simpl. specialize (Hv (ind + 2)).
    match goal with |- _ < ?rhs => match rhs with context [sum_list_with ?g fs] =>
      assert (sum_list_with (fun kv => S (S (jsize kv.2))) fs <= sum_list_with g fs)
    end end.
    { apply sum_list_with_le. eapply Forall_impl; [exact Hfs|]. simpl.
      intros [k' v'] Hy. specialize (Hy (ind + 2)). simpl in *.
      rewrite !length_sapp. simpl. rewrite !length_sapp. lia. }
    lia.
Qed.

(** Parsing what was printed, with or without a gap, gives the value
    back, for every value whose objects have distinct keys. *)
Lemma parse_stringify_at p v : wf_json v = true -> JSON_parse (stringify_at p 0 v) = Ok v.
Proof.
  intros Hwf. unfold JSON_parse.
  pose proof (reads_back_wf v Hwf p 0 _ "" (stringify_length p 0 v) I) as H.
  rewrite sapp_nil_r in H. by rewrite H.
Qed.

(** [JSON.parse(JSON.stringify(v, null, 2))] gives [v] back. *)
Lemma parse_stringify v : wf_json v = true -> JSON_parse (JSON_stringify v) = Ok v.
Proof. apply parse_stringify_at. Qed.

(** [JSON.parse(JSON.stringify(v))] gives [v] back. *)
Lemma parse_stringify_compact v :
  wf_json v = true -> JSON_parse (JSON_stringify_compact v) = Ok v.
Proof. apply parse_stringify_at. Qed.

(** ** What the parser builds is well formed

    A repeated key is merged into its first position ([assoc_set]), so
    every object [JSON_parse] returns has distinct keys. *)
Lemma parse_wf_fuel fuel :
  (forall s v r, parse_value fuel s = Some (v, r) -> wf_json v = true) /\
  (forall s acc xs r, forallb wf_json acc = true ->
     parse_elems fuel s acc = Some (xs, r) -> forallb wf_json xs = true) /\
  (forall s acc fs r, NoDup acc.*1 -> forallb (fun kv => wf_json kv.2) acc = true ->
     parse_members fuel s acc = Some (fs, r) ->
     NoDup fs.*1 /\ forallb (fun kv => wf_json kv.2) fs = true).
Proof.
  induction fuel as [|f IH]; [done|]. destruct IH as (IHv & IHe & IHm). split_and!.
  - intros s v r. rewrite parse_value_S.
    repeat case_match; intros; simplify_eq/=; try done.
    + eapply IHe; [| eassumption]; done.
    + destruct (IHm _ [] _ _ (NoDup_nil_2) eq_refl ltac:(eassumption)) as [Hnd Hall].
      by rewrite bool_decide_eq_true_2, Hall.
  - intros s acc xs r Hacc. rewrite parse_elems_S.
    repeat case_match; intros; simplify_eq/=; try done.
    + eapply IHe; [|eassumption]. rewrite forallb_app, Hacc. simpl.
      by erewrite IHv by eassumption.
    + rewrite forallb_app, Hacc. simpl. by erewrite IHv by eassumption.
  - intros s acc fs r Hnd Hacc. rewrite parse_members_S.
    repeat case_match; intros; simplify_eq/=; try done.
    + eapply IHm; [by apply assoc_set_nodup | | eassumption].
      apply forallb_assoc_set; [done|]. by eapply IHv.
    + split; [by apply assoc_set_nodup|].
      apply forallb_assoc_set; [done|]. by eapply IHv.
Qed.

Lemma JSON_parse_wf text v : JSON_parse text = Ok v -> wf_json v = true.
Proof.
  unfold JSON_parse. repeat case_match; intros; simplify_eq.
  by eapply (proj1 (parse_wf_fuel _)).
Qed.

