(* ===== verification/Fs.v ===== *)
(** * The file system seen through Node's synchronous [fs] API

    The route handlers persist the submissions in one file through
    [fs.existsSync], [fs.readFileSync], [fs.mkdirSync(dir, {recursive:
    true})] and [fs.writeFileSync]; [path.join] and [path.dirname] build
    the paths. This file models the part of the file system those calls
    observe: regular files with their text, directories, and the paths the
    process is not allowed to access (EACCES), so that every failure the
    handlers can meet is a value. Paths are lists of segments. *)

From S2P Require Import Prelude JsValue.

Definition path := list string.

Record fs_state : Type := FsState {
  fs_files : gmap path string;   (** regular files and their content *)
  fs_dirs : gset path;           (** directories *)
  fs_denied : gset path          (** files the process may not read or write *)
}.

Definition fs_err {A} (code : string) : outcome jsError A := Throw (FsError code).

(** [path.join(a, ...segments)] and [path.dirname(p)]. *)
Definition path_join (base : path) (segs : list string) : path := base ++ segs.
Definition dirname (p : path) : path := removelast p.

(** The proper and improper non-empty prefixes of a path: the directories
    [mkdirSync(p, {recursive: true})] creates. *)
Definition path_prefixes (p : path) : list path :=
  map (fun n => take n p) (seq 1 (length p)).

(** [fs.existsSync(p)]. *)
Definition existsSync (s : fs_state) (p : path) : bool :=
  bool_decide (p ∈ dom (fs_files s)) || bool_decide (p ∈ fs_dirs s).

(** [fs.readFileSync(p, 'utf8')]. *)
Definition readFileSync (p : path) : jsm fs_state jsError string :=
  fun s =>
    (if bool_decide (p ∈ fs_denied s) then fs_err "EACCES"
     else match fs_files s !! p with
          | Some text => Ok text
          | None => if bool_decide (p ∈ fs_dirs s) then fs_err "EISDIR" else fs_err "ENOENT"
          end, s).

(** [fs.mkdirSync(p, {recursive: true})]: every missing prefix becomes a
    directory; a prefix that is a regular file makes the call throw and
    nothing is created. *)
Definition mkdirSync (p : path) : jsm fs_state jsError unit :=
  fun s =>
    if existsb (fun q => bool_decide (q ∈ dom (fs_files s))) (path_prefixes p)
    then (fs_err "ENOTDIR", s)
    else (Ok tt, FsState (fs_files s) (list_to_set (path_prefixes p) ∪ fs_dirs s) (fs_denied s)).

(** [fs.writeFileSync(p, text, 'utf8')]: creates or truncates the file
    and writes the whole text; it needs the parent directory to exist. *)
Definition writeFileSync (p : path) (text : string) : jsm fs_state jsError unit :=
  fun s =>
    if bool_decide (p ∈ fs_denied s) then (fs_err "EACCES", s)
    else if bool_decide (p ∈ fs_dirs s) then (fs_err "EISDIR", s)
    else if bool_decide (dirname p ∈ fs_dirs s) then
      (Ok tt, FsState (<[p := text]> (fs_files s)) (fs_dirs s) (fs_denied s))
    else (fs_err "ENOENT", s).

(** ** Well-formed file systems: the root is a directory, no path is both
    a file and a directory, and every file and directory below the root has
    a directory as parent. *)
Definition fs_wf (s : fs_state) : Prop :=
  [] ∈ fs_dirs s /\
  (forall p, p ∈ dom (fs_files s) -> p ∉ fs_dirs s) /\
  (forall p, p ∈ dom (fs_files s) -> dirname p ∈ fs_dirs s) /\
  (forall p, p ∈ fs_dirs s -> p <> [] -> dirname p ∈ fs_dirs s).

(** ** Behaviour of the operations *)

Lemma readFileSync_state p s : (readFileSync p s).2 = s.
Proof. done. Qed.

Lemma readFileSync_ok p s text :
  p ∉ fs_denied s -> fs_files s !! p = Some text -> readFileSync p s = (Ok text, s).
Proof.
  intros Hd Hf. unfold readFileSync. rewrite bool_decide_false by done. by rewrite Hf.
Qed.

Lemma writeFileSync_ok p text s :
  p ∉ fs_denied s -> p ∉ fs_dirs s -> dirname p ∈ fs_dirs s ->
  writeFileSync p text s = (Ok tt, FsState (<[p := text]> (fs_files s)) (fs_dirs s) (fs_denied s)).
Proof.
  intros Hd Hdir Hpar. unfold writeFileSync.
  rewrite bool_decide_false by done. rewrite bool_decide_false by done.
  by rewrite bool_decide_true.
Qed.

(** A failed write leaves the file system as it was. *)
Lemma writeFileSync_fail_state p text s s' e :
  writeFileSync p text s = (Throw e, s') -> s' = s.
Proof.
  unfold writeFileSync. repeat case_bool_decide; by intros [= _ <-].
Qed.

Lemma mkdirSync_ok p s :
  Forall (fun q => q ∉ dom (fs_files s)) (path_prefixes p) ->
  mkdirSync p s =
    (Ok tt, FsState (fs_files s) (list_to_set (path_prefixes p) ∪ fs_dirs s) (fs_denied s)).
Proof.
  intros Hp. unfold mkdirSync.
  replace (existsb _ _) with false; [done|].
  symmetry. apply not_true_iff_false. intros [q [Hq Hb]]%existsb_exists.
  rewrite Forall_forall in Hp. apply bool_decide_eq_true in Hb.
  by apply (Hp q); [apply list_elem_of_In|].
Qed.

(** ** Prefixes *)

Lemma path_prefixes_app_single (p : path) x :
  path_prefixes (p ++ [x]) = path_prefixes p ++ [p ++ [x]].
Proof.
  unfold path_prefixes. rewrite length_app. simpl.
  rewrite Nat.add_1_r, seq_S, map_app. simpl. f_equal.
  - apply map_ext_in. intros n Hn%in_seq. rewrite take_app_le; [done|lia].
  - by rewrite take_ge by (rewrite length_app; simpl; lia).
Qed.

Lemma elem_of_path_prefixes q (p : path) :
  q ∈ path_prefixes p <-> q <> [] /\ exists r, p = q ++ r.
Proof.
  induction p as [|x p IH] using rev_ind.
  - unfold path_prefixes. simpl. split; [set_solver|].
    intros [Hq [r Hr]]. symmetry in Hr. by apply app_eq_nil in Hr as [-> _].
  - rewrite path_prefixes_app_single, elem_of_app, IH, list_elem_of_singleton.
    split.
    + intros [[Hq [r ->]] | ->]; split; eauto.
      * exists (r ++ [x]). by rewrite app_assoc.
      * by destruct p.
      * exists []. by rewrite app_nil_r.
    + intros [Hq [r Hr]]. destruct r as [|y r _] using rev_ind.
      * right. by rewrite app_nil_r in Hr.
      * left. rewrite app_assoc in Hr. apply app_inj_tail in Hr as [-> _]. eauto.
Qed.

(** The parent of a non-empty prefix of [p] is the root or again a prefix. *)
Lemma dirname_prefix q (p : path) :
  q ∈ path_prefixes p -> dirname q = [] \/ dirname q ∈ path_prefixes p.
Proof.
  intros [Hq [r ->]]%elem_of_path_prefixes.
  destruct (decide (dirname q = [])) as [|Hne]; [by left|right].
  apply elem_of_path_prefixes. split; [done|].
  exists (List.last q "" :: r). unfold dirname.
  rewrite (List.app_removelast_last (l := q) "") at 1 by done.
  by rewrite <- app_assoc.
Qed.

Lemma fs_wf_mkdirSync p : preserves fs_wf (mkdirSync p).
Proof.
  intros s Hwf. unfold mkdirSync.
  destruct (existsb _ _) eqn:Hex; [done|]. simpl.
  destruct Hwf as (Hroot & Hfd & Hfp & Hdp). split_and!.
  - set_solver.
  - intros q Hq. apply not_elem_of_union. split; [|by apply Hfd].
    rewrite elem_of_list_to_set. intros Hin.
    assert (existsb (fun q => bool_decide (q ∈ dom (fs_files s))) (path_prefixes p) = true)
      as Hc; [|congruence].
    apply existsb_exists. exists q. split; [by apply list_elem_of_In|].
    by apply bool_decide_eq_true.
  - intros q Hq. apply elem_of_union_r. by apply Hfp.
  - intros q [Hq|Hq]%elem_of_union Hne.
    + rewrite elem_of_list_to_set in Hq.
      destruct (dirname_prefix q p Hq) as [->|Hd]; [set_solver|].
      apply elem_of_union_l. by apply elem_of_list_to_set.
    + apply elem_of_union_r. by apply Hdp.
Qed.

Lemma fs_wf_writeFileSync p text : preserves fs_wf (writeFileSync p text).
Proof.
  intros s Hwf. unfold writeFileSync.
  repeat case_bool_decide; try done. simpl.
  destruct Hwf as (Hroot & Hfd & Hfp & Hdp). split_and!; simpl; try done.
  - intros q. rewrite dom_insert_L. intros [->%elem_of_singleton | Hq]%elem_of_union;
      [done | by apply Hfd].
  - intros q. rewrite dom_insert_L. intros [->%elem_of_singleton | Hq]%elem_of_union;
      [done | by apply Hfp].
Qed.

Lemma fs_wf_readFileSync p : preserves fs_wf (readFileSync p).
Proof. by intros s. Qed.

#[export] Hint Resolve fs_wf_mkdirSync fs_wf_writeFileSync fs_wf_readFileSync : crm.
