(* ===== verification/Date.v ===== *)
(** * [new Date().toISOString()]

    The submit handler stamps each submission with
    [new Date().toISOString()]. A [Date] is a number of milliseconds since
    1970-01-01T00:00:00Z; [toISOString] prints it in UTC as
    [YYYY-MM-DDTHH:mm:ss.sssZ] (ECMA-262 Date Time String Format), with a
    signed six-digit year outside 0..9999. The calendar conversion is the
    days-to-civil algorithm on the proleptic Gregorian calendar, with
    [Z.div]/[Z.modulo] rounding towards minus infinity as the
    specification's [Day], [YearFromTime], ... do.  The [RangeError] that
    [toISOString] throws for a time value beyond 8.64e15 ms is not
    modelled: the handler only stamps [Date.now()], which is in range. *)

From S2P Require Import Prelude JsValue.

Local Open Scope Z_scope.

Definition msPerDay : Z := 86400000.

(** Days since 1970-01-01 to (year, month 1..12, day 1..31). *)
Definition civil_from_days (days : Z) : Z * Z * Z :=
  let z := days + 719468 in
  let era := z / 146097 in
  let doe := z - era * 146097 in
  let yoe := (doe - doe / 1460 + doe / 36524 - doe / 146096) / 365 in
  let doy := doe - (365 * yoe + yoe / 4 - yoe / 100) in
  let mp := (5 * doy + 2) / 153 in
  let d := doy - (153 * mp + 2) / 5 + 1 in
  let m := if mp <? 10 then mp + 3 else mp - 9 in
  let y := yoe + era * 400 in
  ((if m <=? 2 then y + 1 else y), m, d).

Fixpoint zeros (k : nat) : string :=
  match k with
  | O => EmptyString
  | S k' => String "0" (zeros k')
  end.

(** The decimal digits of [n >= 0], left-padded with zeros to [w] digits. *)
Definition pad (w : nat) (n : Z) : string :=
  let s := Z_to_decimal n in zeros (w - String.length s)%nat +:+ s.

(** [Date.prototype.toISOString] of the time value [t] (milliseconds). *)
Definition toISOString (t : Z) : string :=
  let '(y, m, d) := civil_from_days (t / msPerDay) in
  let msInDay := t mod msPerDay in
  let hh := msInDay / 3600000 in
  let mi := (msInDay / 60000) mod 60 in
  let ss := (msInDay / 1000) mod 60 in
  let ms := msInDay mod 1000 in
  let year :=
    if (0 <=? y) && (y <=? 9999) then pad 4 y
    else if y <? 0 then "-" +:+ pad 6 (- y)
    else "+" +:+ pad 6 y in
  year +:+ "-" +:+ pad 2 m +:+ "-" +:+ pad 2 d +:+ "T" +:+ pad 2 hh +:+ ":" +:+
  pad 2 mi +:+ ":" +:+ pad 2 ss +:+ "." +:+ pad 3 ms +:+ "Z".
