(* ===== verification/SubmitForm.v ===== *)
(** * [POST /api/submit-form] (src/Tech crm/src/app/api/submit-form/route.ts)

    The handler parses the request body, checks the four required fields
    for truthiness, reads the whole submissions file, pushes the body with
    a [timestamp] and writes the whole file back. Every [fs] call and
    every JavaScript failure on the way is part of the model; the
    [console.log]/[console.error] calls only print and are left out. The
    handler runs in [jsm fs_state jsError]: the file system is the state,
    and a throw that escapes is caught by the handler's [try]. *)

From S2P Require Import Prelude JsValue JsonText Fs Date.

(** ** Data *)

(** [type FormData]: the shape the client sends. At run time the handler
    receives whatever JSON the body holds; [FormData] is used for the
    client's payload (see [DemoForm]) and for stating results. *)
Record FormData : Type := MkFormData {
  fullName : string;
  email : string;
  companyName : string;
  phoneNumber : string;
  jobTitle : string;
  companySize : string;
  message : string
}.

(** [JSON.stringify(formData)] of such a record, as a JSON object with the
    fields in declaration order. *)
Definition formData_json (f : FormData) : jvalue :=
  JObj [("fullName", JStr (fullName f)); ("email", JStr (email f));
        ("companyName", JStr (companyName f)); ("phoneNumber", JStr (phoneNumber f));
        ("jobTitle", JStr (jobTitle f)); ("companySize", JStr (companySize f));
        ("message", JStr (message f))].

(** [NextResponse.json(body, { status })]. *)
Record response : Type := Response { status : Z; body : jvalue }.

(** ** The file and its helpers *)

(** [const DB_PATH = path.join(process.cwd(), 'data', 'submissions.json')]. *)
Definition DB_PATH (cwd : path) : path := path_join cwd ["data"; "submissions.json"].

(** [ensureDirectoryExists(dirPath)]. *)
Definition ensureDirectoryExists (dirPath : path) : jsm fs_state jsError unit :=
  s <-- jget ;;
  if existsSync s dirPath then jret tt else mkdirSync dirPath.

(** The route's own copies of the helpers the other route repeats, in a
    module of their own so that the two copies keep the source's names. *)
Module SubmitRoute.

(** [readSubmissions()]: the parsed file, or [[]] when the file is missing
    — and also [[]] when reading or parsing throws (the [catch]). *)
Definition readSubmissions (cwd : path) : jsm fs_state jsError jvalue :=
  jcatch
    (s <-- jget ;;
     if existsSync s (DB_PATH cwd) then
       data <-- readFileSync (DB_PATH cwd) ;;
       jlift (JSON_parse data)
     else jret (JArr []))
    (fun _ => jret (JArr [])).

(** The body of the 500 answer in [POST]'s [catch]. *)
Definition msg_failed : jvalue :=
  JObj [("success", JBool false); ("error", JStr "Failed to process form submission")].

End SubmitRoute.
Import SubmitRoute.

(** [writeSubmissions(submissions)]. *)
Definition writeSubmissions (cwd : path) (submissions : jvalue) : jsm fs_state jsError unit :=
  ensureDirectoryExists (dirname (DB_PATH cwd)) ;;;
  writeFileSync (DB_PATH cwd) (JSON_stringify submissions).

(** ** The handler *)

(** [!formData.fullName || !formData.email || !formData.companyName ||
    !formData.companySize], left to right with short-circuit; reading a
    property of [null] throws. *)
Definition required_fields : list string := ["fullName"; "email"; "companyName"; "companySize"].

Fixpoint any_missing (v : jvalue) (ks : list string) : outcome jsError bool :=
  match ks with
  | [] => Ok false
  | k :: ks' =>
      match get_prop v k with
      | Throw e => Throw e
      | Ok p => if truthy_opt p then any_missing v ks' else Ok true
      end
  end.

Definition msg_missing : jvalue := JObj [("error", JStr "Missing required fields")].
Definition msg_ok : jvalue :=
  JObj [("success", JBool true); ("message", JStr "Form submitted successfully")].

(** [{...formData, timestamp: new Date().toISOString()}] for the body
    [fd] handled at time [now]. *)
Definition stamped (fd : jvalue) (now : Z) : jvalue :=
  spread_set fd "timestamp" (JStr (toISOString now)).

(** [POST(request)]: [body] is the request's text ([request.json()]
    parses it) and [now] the value of [Date.now()] when the handler runs. *)
Definition POST (cwd : path) (body_text : string) (now : Z) : jsm fs_state jsError response :=
  jcatch
    (formData <-- jlift (JSON_parse body_text) ;;
     missing <-- jlift (any_missing formData required_fields) ;;
     if missing then jret (Response 400 msg_missing)
     else
       submissions <-- readSubmissions cwd ;;
       let submissionWithTimestamp :=
         spread_set formData "timestamp" (JStr (toISOString now)) in
       submissions' <-- jlift (js_push submissions submissionWithTimestamp) ;;
       writeSubmissions cwd submissions' ;;;
       jret (Response 200 msg_ok))
    (fun _ => jret (Response 500 msg_failed)).

(** ** Sample inputs

    A server started in [/app] on an empty disk, and the body the demo
    form sends for one visitor; the examples below run the handlers on
    them. *)
Definition sample_cwd : path := ["app"].
Definition sample_fs : fs_state := FsState ∅ {[ []; ["app"] ]} ∅.
Definition jane : FormData :=
  MkFormData "Jane Doe" "jane@example.com" "Acme" "555-0100" "CTO" "11-50" "Hello".
Definition jane_body : string := JSON_stringify (formData_json jane).
(** A body with the email left out. *)
Definition partial_body : string := JSON_stringify (JObj [("fullName", JStr "Jane Doe")]).
(** A disk where the submissions file exists with the given text. *)
Definition fs_with_file (text : string) : fs_state :=
  FsState {[DB_PATH sample_cwd := text]} {[ []; ["app"]; ["app"; "data"] ]} ∅.
(** A disk where the process may not write the submissions file. *)
Definition fs_read_only : fs_state := FsState ∅ {[ []; ["app"] ]} {[DB_PATH sample_cwd]}.

(** ** The file: where it is and when it can be written *)

Lemma dirname_DB_PATH cwd : dirname (DB_PATH cwd) = cwd ++ ["data"].
Proof.
  unfold dirname, DB_PATH, path_join.
  replace (cwd ++ ["data"; "submissions.json"]) with ((cwd ++ ["data"]) ++ ["submissions.json"])
    by by rewrite <- app_assoc.
  by rewrite removelast_last.
Qed.

Lemma DB_PATH_not_prefix cwd : DB_PATH cwd ∉ path_prefixes (dirname (DB_PATH cwd)).
Proof.
  rewrite dirname_DB_PATH. intros [_ [r Hr]]%elem_of_path_prefixes.
  apply (f_equal length) in Hr. unfold DB_PATH, path_join in Hr.
  rewrite !length_app in Hr. simpl in Hr. lia.
Qed.

Lemma dirname_DB_in_prefixes cwd : dirname (DB_PATH cwd) ∈ path_prefixes (dirname (DB_PATH cwd)).
Proof.
  apply elem_of_path_prefixes. rewrite dirname_DB_PATH. split.
  - by destruct cwd.
  - exists []. by rewrite app_nil_r.
Qed.

(** The write can succeed: the file is not protected and is not a
    directory, and no prefix of the data directory is a regular file. *)
Definition can_write (s : fs_state) (cwd : path) : Prop :=
  (DB_PATH cwd ∉ fs_denied s) /\ (DB_PATH cwd ∉ fs_dirs s) /\
  Forall (fun q => q ∉ dom (fs_files s)) (path_prefixes (dirname (DB_PATH cwd))).

Lemma writeSubmissions_ok cwd v s :
  can_write s cwd ->
  exists dirs, dirname (DB_PATH cwd) ∈ dirs /\ DB_PATH cwd ∉ dirs /\
    writeSubmissions cwd v s =
      (Ok tt, FsState (<[DB_PATH cwd := JSON_stringify v]> (fs_files s)) dirs (fs_denied s)).
Proof.
  intros (Hden & Hdir & Hpre). unfold writeSubmissions, ensureDirectoryExists, jbind, jget.
  pose proof (dirname_DB_in_prefixes cwd) as Hin.
  destruct (existsSync s (dirname (DB_PATH cwd))) eqn:Hex.
  - assert (dirname (DB_PATH cwd) ∈ fs_dirs s) as Hd.
    { unfold existsSync in Hex. apply orb_true_iff in Hex as [H|H];
        apply bool_decide_eq_true in H; [|done].
      rewrite Forall_forall in Hpre. exfalso. by apply (Hpre _ Hin). }
    exists (fs_dirs s). split_and!; [done..|]. simpl. by rewrite writeFileSync_ok.
  - rewrite mkdirSync_ok by done.
    assert (DB_PATH cwd ∉ list_to_set (path_prefixes (dirname (DB_PATH cwd))) ∪ fs_dirs s).
    { apply not_elem_of_union. split; [|done].
      rewrite elem_of_list_to_set. apply DB_PATH_not_prefix. }
    eexists. split_and!; [| done | rewrite writeFileSync_ok; [done..|]]; simpl.
    + apply elem_of_union_l. by apply elem_of_list_to_set.
    + apply elem_of_union_l. by apply elem_of_list_to_set.
Qed.

(** A write that [fs] refuses leaves the file as it was. *)
Lemma writeSubmissions_denied cwd v s :
  DB_PATH cwd ∈ fs_denied s ->
  exists e s', writeSubmissions cwd v s = (Throw e, s') /\
    fs_files s' = fs_files s /\ fs_denied s' = fs_denied s.
Proof.
  intros Hden. unfold writeSubmissions, ensureDirectoryExists, jbind, jget.
  destruct (existsSync s _).
  - simpl. unfold writeFileSync. rewrite bool_decide_true by done. eauto.
  - unfold mkdirSync. destruct (existsb _ _); simpl; [eauto|].
    unfold writeFileSync. simpl. rewrite bool_decide_true by done. eauto.
Qed.

(** ** [readSubmissions] *)

(** [readSubmissions] never throws and never changes the file system:
    every failure (unreadable file, text that is not JSON) is turned into
    an empty list. *)
Lemma readSubmissions_total cwd s :
  exists v, readSubmissions cwd s = (Ok v, s).
Proof.
  unfold readSubmissions, jcatch, jbind, jget, jret, jlift.
  destruct (existsSync s _); [|eauto].
  unfold readFileSync. repeat case_match; simplify_eq/=; eauto.
Qed.

(** What was written is read back. *)
Lemma readSubmissions_stored cwd s v :
  wf_json v = true -> DB_PATH cwd ∉ fs_denied s ->
  fs_files s !! DB_PATH cwd = Some (JSON_stringify v) ->
  readSubmissions cwd s = (Ok v, s).
Proof.
  intros Hwf Hden Hf. unfold readSubmissions, jcatch, jbind, jget, jlift.
  replace (existsSync s (DB_PATH cwd)) with true.
  - rewrite (readFileSync_ok _ _ (JSON_stringify v)) by done. by rewrite parse_stringify.
  - unfold existsSync. rewrite bool_decide_true; [done|]. by apply elem_of_dom.
Qed.

(** First run: no file yet reads as the empty list. *)
Lemma readSubmissions_absent cwd s :
  DB_PATH cwd ∉ dom (fs_files s) -> DB_PATH cwd ∉ fs_dirs s ->
  readSubmissions cwd s = (Ok (JArr []), s).
Proof.
  intros Hf Hd. unfold readSubmissions, jcatch, jbind, jget.
  unfold existsSync. by rewrite !bool_decide_false.
Qed.

(** C9: Round trip through the file: whatever well-formed JSON value
    [writeSubmissions] stores, [readSubmissions] reads back, on any disk
    where the write can succeed (the data directory is created when it is
    missing). *)
Theorem write_then_read cwd v s :
  wf_json v = true -> can_write s cwd ->
  exists s', writeSubmissions cwd v s = (Ok tt, s') /\ readSubmissions cwd s' = (Ok v, s').
Proof.
  intros Hwf Hw. destruct (writeSubmissions_ok cwd v s Hw) as (dirs & _ & _ & Hws).
  eexists. split; [exact Hws|]. apply readSubmissions_stored; [done | apply Hw |].
  simpl. by rewrite lookup_insert_eq.
Qed.

(** ** Validation *)

Lemma any_missing_obj fs ks :
  any_missing (JObj fs) ks = Ok (negb (forallb (fun k => truthy_opt (assoc_get fs k)) ks)).
Proof. induction ks as [|k ks IH]; simpl; [done|]. by destruct (truthy_opt _). Qed.

(** The check passes exactly when the value is an object whose required
    fields are all truthy. *)
Lemma any_missing_ok v :
  any_missing v required_fields = Ok false <->
  exists fs, v = JObj fs /\
    Forall (fun k => truthy_opt (assoc_get fs k) = true) required_fields.
Proof.
  split.
  - destruct v as [| | | | |fs]; try (simpl; done).
    intros Hm. exists fs. split; [done|]. revert Hm. generalize required_fields.
    induction l as [|k ks IH]; simpl; [done|].
    destruct (truthy_opt _) eqn:Hk; [|done]. intros Hm. constructor; auto.
  - intros (fs & -> & Hf). rewrite any_missing_obj. f_equal.
    apply negb_false_iff, List.forallb_forall. intros k Hk. rewrite Forall_forall in Hf.
    by apply Hf, list_elem_of_In.
Qed.

(** C6: The server's check, [!formData.fullName || !formData.email ||
    !formData.companyName || !formData.companySize], lets a body through
    exactly when it is an object whose [fullName], [email], [companyName]
    and [companySize] are all truthy; [null] makes it throw; any other
    value (array, string, number, [true]) is reported missing. *)
Theorem validation_spec v :
  any_missing v required_fields = Ok false <->
  exists fs, v = JObj fs /\
    truthy_opt (assoc_get fs "fullName") = true /\ truthy_opt (assoc_get fs "email") = true /\
    truthy_opt (assoc_get fs "companyName") = true /\
    truthy_opt (assoc_get fs "companySize") = true.
Proof.
  rewrite any_missing_ok. unfold required_fields.
  split; intros (fs & -> & H); exists fs; split; try done.
  - repeat match goal with H : Forall _ (_ :: _) |- _ => apply Forall_cons in H as [? H] end.
    split_and!; assumption.
  - destruct H as (? & ? & ? & ?). by repeat constructor.
Qed.

Lemma validation_throws_on_null : exists e, any_missing JNull required_fields = Throw e.
Proof. by eexists. Qed.

(** The body the demo form sends is a well-formed object. *)
Lemma formData_json_wf fd : wf_json (formData_json fd) = true.
Proof. reflexivity. Qed.

(** On that body the check passes exactly when the four required strings
    are not empty. *)
Lemma formData_json_check fd :
  any_missing (formData_json fd) required_fields = Ok false <->
  fullName fd <> EmptyString /\ email fd <> EmptyString /\
  companyName fd <> EmptyString /\ companySize fd <> EmptyString.
Proof.
  rewrite any_missing_ok. split.
  - intros (fs & [= <-] & H). unfold required_fields in H.
    repeat match goal with H : Forall _ (_ :: _) |- _ => apply Forall_cons in H as [? H] end.
    simpl in *.
    split_and!; intros Heq; rewrite Heq in *; simpl in *; discriminate.
  - intros (H1 & H2 & H3 & H4). eexists. split; [reflexivity|].
    unfold required_fields. simpl. unfold truthy.
    repeat constructor; apply negb_true_iff, String.eqb_neq; assumption.
Qed.

(** ** The handler, branch by branch *)

Ltac run_post :=
  unfold POST, jcatch, jbind, jlift, jret; cbn -[any_missing readSubmissions writeSubmissions toISOString].

(** A valid body is appended, with its timestamp, after the submissions
    already in the file, and the whole array is written back. *)
Lemma POST_appends cwd body now s fd l :
  JSON_parse body = Ok fd ->
  any_missing fd required_fields = Ok false ->
  readSubmissions cwd s = (Ok (JArr l), s) ->
  can_write s cwd ->
  exists dirs, DB_PATH cwd ∉ dirs /\
    POST cwd body now s =
      (Ok (Response 200 msg_ok),
       FsState (<[DB_PATH cwd := JSON_stringify (JArr (l ++ [stamped fd now]))]> (fs_files s))
               dirs (fs_denied s)).
Proof.
  intros Hp Hm Hr Hw.
  destruct (writeSubmissions_ok cwd (JArr (l ++ [stamped fd now])) s Hw)
    as (dirs & _ & Hdirs & Hws).
  exists dirs. split; [done|]. run_post. rewrite Hp, Hm, Hr. cbn -[any_missing readSubmissions writeSubmissions toISOString]. unfold stamped in Hws. by rewrite Hws.
Qed.

(** C27: A body without one of the required fields gets 400 and nothing is
    read or written. *)
Theorem POST_missing cwd body now s fd :
  JSON_parse body = Ok fd -> any_missing fd required_fields = Ok true ->
  POST cwd body now s = (Ok (Response 400 msg_missing), s).
Proof. intros Hp Hm. run_post. by rewrite Hp, Hm. Qed.

(** C28: A body that is not JSON, or whose field check throws (a [null]
    body), gets 500 and the file system is untouched. *)
Theorem POST_bad_body cwd body now s :
  (exists e, JSON_parse body = Throw e) \/
  (exists fd e, JSON_parse body = Ok fd /\ any_missing fd required_fields = Throw e) ->
  POST cwd body now s = (Ok (Response 500 msg_failed), s).
Proof.
  intros [[e Hp] | (fd & e & Hp & Hm)]; run_post; rewrite Hp; [done|]. by rewrite Hm.
Qed.

(** When the file holds JSON that is not an array, [push] throws: 500,
    and the file is not written. *)
Theorem POST_not_array cwd body now s fd v :
  JSON_parse body = Ok fd -> any_missing fd required_fields = Ok false ->
  readSubmissions cwd s = (Ok v, s) -> (forall xs, v <> JArr xs) ->
  POST cwd body now s = (Ok (Response 500 msg_failed), s).
Proof.
  intros Hp Hm Hr Hv. run_post. rewrite Hp, Hm, Hr. cbn -[any_missing readSubmissions writeSubmissions toISOString].
  destruct v; try done. by destruct (Hv xs).
Qed.

(** When the write is refused, the handler answers 500 and the file keeps
    its previous content. *)
Theorem POST_write_refused cwd body now s fd l :
  JSON_parse body = Ok fd -> any_missing fd required_fields = Ok false ->
  readSubmissions cwd s = (Ok (JArr l), s) -> DB_PATH cwd ∈ fs_denied s ->
  exists s', POST cwd body now s = (Ok (Response 500 msg_failed), s') /\
             fs_files s' = fs_files s.
Proof.
  intros Hp Hm Hr Hd.
  destruct (writeSubmissions_denied cwd (JArr (l ++ [stamped fd now])) s Hd)
    as (e & s' & Hws & Hf & _).
  exists s'. split; [|done]. run_post. rewrite Hp, Hm, Hr. cbn -[any_missing readSubmissions writeSubmissions toISOString].
  unfold stamped in Hws. by rewrite Hws.
Qed.

(** C5: A submissions file whose text is not JSON (a torn or hand-edited
    write) reads as [[]]; the next valid [POST] answers 200 and replaces
    the file by an array holding only the new submission: every earlier
    submission is lost without an error. *)
Theorem POST_corrupt_file_overwritten cwd body now s fd text e :
  JSON_parse body = Ok fd -> any_missing fd required_fields = Ok false ->
  fs_files s !! DB_PATH cwd = Some text -> JSON_parse text = Throw e ->
  can_write s cwd ->
  exists s', POST cwd body now s = (Ok (Response 200 msg_ok), s') /\
    fs_files s' !! DB_PATH cwd = Some (JSON_stringify (JArr [stamped fd now])).
Proof.
  intros Hp Hm Hf Ht Hw.
  assert (readSubmissions cwd s = (Ok (JArr []), s)) as Hr.
  { unfold readSubmissions, jcatch, jbind, jget, jlift.
    replace (existsSync s (DB_PATH cwd)) with true.
    - destruct Hw as (Hden & _). by rewrite (readFileSync_ok _ _ text), Ht.
    - unfold existsSync. rewrite bool_decide_true; [done|]. by apply elem_of_dom. }
  destruct (POST_appends cwd body now s fd [] Hp Hm Hr Hw) as (dirs & _ & Hpost).
  eexists. split; [exact Hpost|]. simpl. by rewrite lookup_insert_eq.
Qed.

(** ** The file system stays well formed *)

(** Whatever the body and whatever the file system holds, [POST] leaves a
    well-formed file system well formed: the data directory it may create
    hangs below existing directories, and the file it writes is not a
    directory and has a directory as parent. *)
Theorem POST_preserves_fs_wf cwd body now : preserves fs_wf (POST cwd body now).
Proof.
  unfold POST, readSubmissions, writeSubmissions, ensureDirectoryExists.
  preserves_auto.
Qed.

(** ** Examples *)

Lemma POST_missing_witness :
  POST sample_cwd partial_body 0 sample_fs = (Ok (Response 400 msg_missing), sample_fs).
Proof.
  apply (POST_missing _ _ _ _ (JObj [("fullName", JStr "Jane Doe")]));
    vm_compute; reflexivity.
Defined.

Lemma POST_bad_body_witness :
  POST sample_cwd "not json" 0 sample_fs = (Ok (Response 500 msg_failed), sample_fs).
Proof. apply POST_bad_body. left. exists SyntaxError. vm_compute. reflexivity. Defined.

Lemma POST_not_array_witness :
  POST sample_cwd jane_body 0 (fs_with_file "{}") =
    (Ok (Response 500 msg_failed), fs_with_file "{}").
Proof.
  apply (POST_not_array _ _ _ _ (formData_json jane) (JObj []));
    [vm_compute; reflexivity.. |]. by intros xs.
Defined.

Lemma POST_write_refused_witness :
  exists s', POST sample_cwd jane_body 0 fs_read_only = (Ok (Response 500 msg_failed), s') /\
             fs_files s' = fs_files fs_read_only.
Proof.
  apply (POST_write_refused _ _ _ _ (formData_json jane) []); [vm_compute; reflexivity..|].
  eval_decide.
Defined.

Lemma POST_corrupt_file_overwritten_witness :
  exists s', POST sample_cwd jane_body 0 (fs_with_file "[{oops") = (Ok (Response 200 msg_ok), s') /\
    fs_files s' !! DB_PATH sample_cwd = Some (JSON_stringify (JArr [stamped (formData_json jane) 0])).
Proof.
  apply (POST_corrupt_file_overwritten _ _ _ _ _ "[{oops" SyntaxError);
    [vm_compute; reflexivity.. |]. unfold can_write. eval_decide.
Defined.

Lemma POST_preserves_fs_wf_witness : fs_wf (POST sample_cwd jane_body 0 sample_fs).2.
Proof.
  apply POST_preserves_fs_wf. split_and!; [eval_decide | set_solver | set_solver |].
  intros p [->%elem_of_singleton | ->%elem_of_singleton]%elem_of_union; eval_decide.
Defined.

Lemma write_then_read_witness :
  exists s', writeSubmissions sample_cwd (JArr [formData_json jane]) sample_fs = (Ok tt, s') /\
             readSubmissions sample_cwd s' = (Ok (JArr [formData_json jane]), s').
Proof. apply write_then_read; [vm_compute; reflexivity | unfold can_write; eval_decide]. Defined.
