(* ===== verification/GetSubmissions.v ===== *)
(** * [GET /api/get-submissions] (src/Tech crm/src/app/api/get-submissions/route.ts)

    The route has its own copy of [readSubmissions] (untyped this time)
    and answers with the whole parsed file. The handler does not look at
    the request: no authentication guards it (the admin login is a
    client-side flag, see [Admin]). *)

From S2P Require Import Prelude JsValue JsonText Fs SubmitForm.

Module GetRoute.

(** [readSubmissions()] of this route: same body as the submit route's. *)
Definition readSubmissions (cwd : path) : jsm fs_state jsError jvalue :=
  jcatch
    (s <-- jget ;;
     if existsSync s (DB_PATH cwd) then
       data <-- readFileSync (DB_PATH cwd) ;;
       jlift (JSON_parse data)
     else jret (JArr []))
    (fun _ => jret (JArr [])).

Definition msg_failed : jvalue :=
  JObj [("success", JBool false); ("error", JStr "Failed to retrieve submissions")].

End GetRoute.

(** [GET()]. *)
Definition GET (cwd : path) : jsm fs_state jsError response :=
  jcatch
    (submissions <-- GetRoute.readSubmissions cwd ;;
     jret (Response 200 (JObj [("success", JBool true); ("submissions", submissions)])))
    (fun _ => jret (Response 500 GetRoute.msg_failed)).
