(* ===== verification/Store.v ===== *)
(** * The submission store: the abstract append-only log and its
    implementation by the two route handlers

    The specification describes the store as an ordered collection with
    two operations, [append] and [readAll]. [Log] states that contract;
    [represents] relates a file system to the collection it stores; the
    refinement theorems show that [POST] (submit-form) implements
    [append] and [GET] (get-submissions) implements [readAll], as long as
    the file is the JSON the handlers write. *)

From S2P Require Import Prelude JsValue JsonText Fs Date SubmitForm GetSubmissions.

(** ** The contract *)

(** The collection is the list of stored submissions in insertion order;
    [append] adds at the end, [readAll] returns everything. *)
Record Log : Type := MkLog { log_items : list jvalue }.

Definition log_append (L : Log) (x : jvalue) : Log := MkLog (log_items L ++ [x]).
Definition log_readAll (L : Log) : list jvalue := log_items L.

(** What every stored submission satisfies: an object with the four
    required fields truthy and a [timestamp] string. *)
Definition stored_ok (v : jvalue) : bool :=
  match v with
  | JObj fs =>
      forallb (fun k => truthy_opt (assoc_get fs k)) required_fields &&
      match assoc_get fs "timestamp" with Some (JStr _) => true | _ => false end
  | _ => false
  end.

(** ** The abstraction relation

    The file system [s] stores [L] for the working directory [cwd]: the
    file holds [JSON.stringify(L, null, 2)] (or is absent and [L] is
    empty), the process may read it, and every element is a well-formed
    stored submission. *)
Definition represents (cwd : path) (s : fs_state) (L : Log) : Prop :=
  (fs_files s !! DB_PATH cwd = Some (JSON_stringify (JArr (log_items L))) \/
   (log_items L = [] /\ (DB_PATH cwd ∉ dom (fs_files s)) /\ (DB_PATH cwd ∉ fs_dirs s))) /\
  (DB_PATH cwd ∉ fs_denied s) /\
  Forall (fun v => wf_json v = true /\ stored_ok v = true) (log_items L).

(** The response of [GET] for a collection. *)
Definition get_ok (l : list jvalue) : response :=
  Response 200 (JObj [("success", JBool true); ("submissions", JArr l)]).

(** ** Helpers *)

Lemma wf_json_arr (l : list jvalue) :
  Forall (fun v => wf_json v = true /\ stored_ok v = true) l -> wf_json (JArr l) = true.
Proof.
  intros Hl. simpl. apply List.forallb_forall. intros x Hx.
  rewrite Forall_forall in Hl. apply Hl. by apply list_elem_of_In.
Qed.

Lemma represents_read cwd s L :
  represents cwd s L ->
  SubmitRoute.readSubmissions cwd s = (Ok (JArr (log_items L)), s).
Proof.
  intros ([Hf | (Hnil & Hf & Hd)] & Hden & Hall).
  - apply readSubmissions_stored; [by apply wf_json_arr | done..].
  - rewrite Hnil. by apply readSubmissions_absent.
Qed.

(** A submission that passed the server's check, once stamped, is a
    well-formed stored submission. *)
Lemma stamped_ok fd now :
  wf_json fd = true -> any_missing fd required_fields = Ok false ->
  wf_json (stamped fd now) = true /\ stored_ok (stamped fd now) = true.
Proof.
  intros Hwf (fs & -> & Hreq)%any_missing_ok.
  simpl in Hwf. apply andb_true_iff in Hwf as [Hnd Hall].
  unfold stamped. simpl. split.
  - apply andb_true_iff. split.
    + apply bool_decide_eq_true. apply assoc_set_nodup. by apply bool_decide_eq_true in Hnd.
    + by apply forallb_assoc_set.
  - unfold required_fields in Hreq.
    apply Forall_cons in Hreq as [H1 Hreq]. apply Forall_cons in Hreq as [H2 Hreq].
    apply Forall_cons in Hreq as [H3 Hreq]. apply Forall_cons in Hreq as [H4 _].
    rewrite assoc_get_set_eq, !assoc_get_set_ne by discriminate.
    by rewrite H1, H2, H3, H4.
Qed.

(** After a successful write the file can be written again. *)
Lemma can_write_after cwd s dirs text :
  can_write s cwd -> DB_PATH cwd ∉ dirs ->
  can_write (FsState (<[DB_PATH cwd := text]> (fs_files s)) dirs (fs_denied s)) cwd.
Proof.
  intros (Hden & _ & Hpre) Hdirs. split_and!; [done..|]. simpl.
  rewrite Forall_forall in Hpre |- *. intros q Hin.
  rewrite dom_insert_L. apply not_elem_of_union. split; [|by apply Hpre].
  rewrite not_elem_of_singleton. intros ->. by apply (DB_PATH_not_prefix cwd).
Qed.

(** ** Refinement: the handlers implement the log *)

(** [POST] with a body that passes the check implements [append] of the
    stamped body, keeps every stored element well formed and leaves the
    file writable for the next request. *)
Lemma POST_append_step cwd s L body now fd :
  represents cwd s L -> can_write s cwd ->
  JSON_parse body = Ok fd -> any_missing fd required_fields = Ok false ->
  exists s', POST cwd body now s = (Ok (Response 200 msg_ok), s') /\
             represents cwd s' (log_append L (stamped fd now)) /\ can_write s' cwd.
Proof.
  intros Hrep Hw Hp Hm.
  destruct (POST_appends cwd body now s fd (log_items L) Hp Hm (represents_read _ _ _ Hrep) Hw)
    as (dirs & Hd & Hpost).
  eexists. split; [exact Hpost|]. split.
  - destruct Hrep as (_ & Hden & Hall). split_and!.
    + left. simpl. by rewrite lookup_insert_eq.
    + done.
    + simpl. apply Forall_app. split; [done|]. constructor; [|done].
      apply stamped_ok; [by eapply JSON_parse_wf | done].
  - by apply can_write_after.
Qed.

(** ** Every request, whatever its body *)

(** From a state that stores [L], a [POST] either succeeds and appends its
    stamped body, or answers an error status and leaves the file system
    as it was. *)
Lemma POST_cases cwd s L body now :
  represents cwd s L -> can_write s cwd ->
  (exists fd s', POST cwd body now s = (Ok (Response 200 msg_ok), s') /\
     represents cwd s' (log_append L (stamped fd now)) /\ can_write s' cwd) \/
  (exists r, status r <> 200%Z /\ POST cwd body now s = (Ok r, s)).
Proof.
  intros Hrep Hw.
  destruct (JSON_parse body) as [fd|e] eqn:Hp.
  - destruct (any_missing fd required_fields) as [[|]|e] eqn:Hm.
    + right. eexists. split; [|run_post; by rewrite Hp, Hm]. simpl. lia.
    + left. destruct (POST_append_step cwd s L body now fd Hrep Hw Hp Hm) as (s' & ?).
      eauto.
    + right. eexists. split; [|run_post; by rewrite Hp, Hm]. simpl. lia.
  - right. eexists. split; [|run_post; by rewrite Hp]. simpl. lia.
Qed.

(** ** Refinement *)

(** C1: The two routes implement the store's contract, as a forward
    simulation: from a file system that stores [L], [GET] answers
    [readAll L] and changes nothing; a [POST] whose body passes the check
    answers 200 and moves to a file system that stores [append L x], [x]
    the body with its timestamp, and that can be written again; every
    other [POST] answers an error status and changes nothing, so the
    abstract collection stays [L]. *)
Theorem store_refinement cwd s L :
  represents cwd s L -> can_write s cwd ->
  GET cwd s = (Ok (get_ok (log_readAll L)), s) /\
  (forall body now fd,
     JSON_parse body = Ok fd -> any_missing fd required_fields = Ok false ->
     exists s', POST cwd body now s = (Ok (Response 200 msg_ok), s') /\
                represents cwd s' (log_append L (stamped fd now)) /\ can_write s' cwd) /\
  (forall body now,
     (forall fd, JSON_parse body = Ok fd -> any_missing fd required_fields <> Ok false) ->
     exists r, status r <> 200%Z /\ POST cwd body now s = (Ok r, s)).
Proof.
  intros Hrep Hw. split_and!.
  - unfold GET, jcatch, jbind.
    change (GetRoute.readSubmissions cwd) with (SubmitRoute.readSubmissions cwd).
    by rewrite (represents_read _ _ _ Hrep).
  - intros body now fd Hp Hm. exact (POST_append_step _ _ _ _ _ _ Hrep Hw Hp Hm).
  - intros body now Hbad.
    destruct (POST_cases cwd s L body now Hrep Hw) as [(fd & s' & Hp & _) | ?]; [|done].
    exfalso. revert Hp. run_post. destruct (JSON_parse body) as [fd'|] eqn:Hj; [|by intros ?].
    destruct (any_missing fd' required_fields) as [[|]|] eqn:Hm;
      [by intros ? | intros _; by apply (Hbad fd') | by intros ?].
Qed.

(** ** [GET] *)

(** The two routes' copies of [readSubmissions] are the same function. *)
Lemma readSubmissions_copies cwd :
  GetRoute.readSubmissions cwd = SubmitRoute.readSubmissions cwd.
Proof. reflexivity. Qed.

(** [GET] implements [readAll]: it answers the whole collection, in
    insertion order, and changes nothing. *)
Lemma GET_read_step cwd s L :
  represents cwd s L -> GET cwd s = (Ok (get_ok (log_readAll L)), s).
Proof.
  intros Hrep. unfold GET, jcatch, jbind.
  by rewrite readSubmissions_copies, (represents_read _ _ _ Hrep).
Qed.

(** Durability: after a successful submission, reading the store (a fresh
    read of the file, as after a restart) returns the collection with the
    new submission last. *)
Theorem POST_then_GET cwd s L body now fd :
  represents cwd s L -> can_write s cwd ->
  JSON_parse body = Ok fd -> any_missing fd required_fields = Ok false ->
  exists s', POST cwd body now s = (Ok (Response 200 msg_ok), s') /\
             GET cwd s' = (Ok (get_ok (log_items L ++ [stamped fd now])), s').
Proof.
  intros Hrep Hw Hp Hm.
  destruct (POST_append_step cwd s L body now fd Hrep Hw Hp Hm) as (s' & Hpost & Hrep' & _).
  exists s'. split; [done|]. exact (GET_read_step _ _ _ Hrep').
Qed.

(** Order: two submissions handled one after the other are stored in
    that order. *)
Theorem POST_POST_order cwd s L bA bB tA tB fA fB :
  represents cwd s L -> can_write s cwd ->
  JSON_parse bA = Ok fA -> any_missing fA required_fields = Ok false ->
  JSON_parse bB = Ok fB -> any_missing fB required_fields = Ok false ->
  exists s1 s2,
    POST cwd bA tA s = (Ok (Response 200 msg_ok), s1) /\
    POST cwd bB tB s1 = (Ok (Response 200 msg_ok), s2) /\
    GET cwd s2 = (Ok (get_ok (log_items L ++ [stamped fA tA; stamped fB tB])), s2).
Proof.
  intros Hrep Hw HpA HmA HpB HmB.
  destruct (POST_append_step cwd s L bA tA fA Hrep Hw HpA HmA) as (s1 & H1 & Hrep1 & Hw1).
  destruct (POST_append_step cwd s1 _ bB tB fB Hrep1 Hw1 HpB HmB) as (s2 & H2 & Hrep2 & _).
  exists s1, s2. split_and!; [done..|].
  rewrite (GET_read_step _ _ _ Hrep2). simpl. by rewrite <- app_assoc.
Qed.

(** ** [GET] on any file *)

(** C15: [GET] answers 200 whatever the file holds: its [catch] branch (500,
    "Failed to retrieve submissions") cannot be reached, because
    [readSubmissions] already turns every failure into [[]]. *)
Theorem GET_always_200 cwd s :
  exists v, GET cwd s = (Ok (Response 200 (JObj [("success", JBool true); ("submissions", v)])), s).
Proof.
  destruct (readSubmissions_total cwd s) as [v Hv].
  exists v. unfold GET, jcatch, jbind. by rewrite readSubmissions_copies, Hv.
Qed.

(** A file that is not JSON is reported as an empty collection, not as
    an error. *)
Theorem GET_corrupt_is_empty cwd s text e :
  fs_files s !! DB_PATH cwd = Some text -> JSON_parse text = Throw e ->
  DB_PATH cwd ∉ fs_denied s ->
  GET cwd s = (Ok (get_ok []), s).
Proof.
  intros Hf Ht Hden. unfold GET, jcatch, jbind. rewrite readSubmissions_copies.
  unfold SubmitRoute.readSubmissions, jcatch, jbind, jget, jlift.
  replace (existsSync s (DB_PATH cwd)) with true.
  - by rewrite (readFileSync_ok _ _ text), Ht.
  - unfold existsSync. rewrite bool_decide_true; [done|]. by apply elem_of_dom.
Qed.

(** ** Examples *)

(** The disk after Jane's submission at time 0. *)
Lemma store_refinement_witness :
  GET sample_cwd sample_fs = (Ok (get_ok (log_readAll (MkLog []))), sample_fs) /\
  (forall body now fd,
     JSON_parse body = Ok fd -> any_missing fd required_fields = Ok false ->
     exists s', POST sample_cwd body now sample_fs = (Ok (Response 200 msg_ok), s') /\
                represents sample_cwd s' (log_append (MkLog []) (stamped fd now)) /\
                can_write s' sample_cwd) /\
  (forall body now,
     (forall fd, JSON_parse body = Ok fd -> any_missing fd required_fields <> Ok false) ->
     exists r, status r <> 200%Z /\ POST sample_cwd body now sample_fs = (Ok r, sample_fs)).
Proof. apply store_refinement; [eval_decide | unfold can_write; eval_decide]. Defined.

Lemma POST_then_GET_witness :
  exists s', POST sample_cwd jane_body 0 sample_fs = (Ok (Response 200 msg_ok), s') /\
             GET sample_cwd s' = (Ok (get_ok ([] ++ [stamped (formData_json jane) 0])), s').
Proof.
  apply (POST_then_GET _ _ (MkLog []));
    [eval_decide | unfold can_write; eval_decide | vm_compute; reflexivity..].
Defined.

Lemma POST_POST_order_witness :
  exists s1 s2,
    POST sample_cwd jane_body 0 sample_fs = (Ok (Response 200 msg_ok), s1) /\
    POST sample_cwd jane_body 1 s1 = (Ok (Response 200 msg_ok), s2) /\
    GET sample_cwd s2 = (Ok (get_ok ([] ++ [stamped (formData_json jane) 0;
                                             stamped (formData_json jane) 1])), s2).
Proof.
  apply (POST_POST_order _ _ (MkLog []));
    [eval_decide | unfold can_write; eval_decide | vm_compute; reflexivity..].
Defined.

Lemma GET_corrupt_is_empty_witness :
  GET sample_cwd (fs_with_file "[{oops") = (Ok (get_ok []), fs_with_file "[{oops").
Proof. apply (GET_corrupt_is_empty _ _ "[{oops" SyntaxError); eval_decide. Defined.
