(* ===== verification/Server.v ===== *)
(** * The Node.js process: concurrent requests on one event loop

    Next.js runs the route handlers of one server process on Node's single
    thread. [POST] is an [async] function whose only [await] is
    [request.json()]; everything after it — the field check,
    [readSubmissions], the [push], [writeSubmissions] — is synchronous
    ([fs.readFileSync], [fs.writeFileSync]), so once a suspended [POST]
    resumes it runs to its [return] before any other callback. [GET] has
    no [await] at all. The step relation below lets the event loop pick
    any ready request at any time, lets requests arrive and time pass in
    between; the theorems hold for every interleaving.

    The model is one process. Several processes sharing the file (several
    server instances) interleave at the granularity of the [fs] calls;
    that case is not covered here. *)

From S2P Require Import Prelude JsValue JsonText Fs Date SubmitForm GetSubmissions Store.
From Stdlib Require Import Sorting.Sorted.

(** A [POST] in flight: suspended at [await request.json()] with its body,
    or finished with its response. *)
Inductive request : Type :=
  | Awaiting (body_text : string)
  | Responded (body_text : string) (r : response).

Record world : Type := World {
  w_fs : fs_state;        (** the file system *)
  w_clock : Z;            (** [Date.now()] *)
  w_reqs : list request   (** the [POST] requests received so far *)
}.

Section EventLoop.
Variable cwd : path.

Inductive step : world -> world -> Prop :=
  (** time passes *)
  | step_tick w dt :
      (0 <= dt)%Z -> step w (World (w_fs w) (w_clock w + dt) (w_reqs w))
  (** a [POST] arrives and runs up to its [await] *)
  | step_arrive w body :
      step w (World (w_fs w) (w_clock w) (w_reqs w ++ [Awaiting body]))
  (** the event loop resumes a suspended [POST]: the rest of the
      handler runs to completion at the current time *)
  | step_resume w i body r s' :
      w_reqs w !! i = Some (Awaiting body) ->
      POST cwd body (w_clock w) (w_fs w) = (Ok r, s') ->
      step w (World s' (w_clock w) (<[i := Responded body r]> (w_reqs w)))
  (** a [GET] runs to completion *)
  | step_get w r s' :
      GET cwd (w_fs w) = (Ok r, s') -> step w (World s' (w_clock w) (w_reqs w)).

(** The number of [POST]s answered 200. *)
Definition is_ok (q : request) : bool :=
  match q with
  | Responded _ r => bool_decide (status r = 200%Z)
  | Awaiting _ => false
  end.

(** A body the server accepts: JSON whose four required fields are truthy. *)
Definition valid_body (b : string) : bool :=
  match JSON_parse b with
  | Ok fd => match any_missing fd required_fields with Ok false => true | _ => false end
  | Throw _ => false
  end.

(** A finished request with a valid body was answered 200. *)
Definition answered_ok (q : request) : Prop :=
  match q with
  | Responded b r => valid_body b = true -> status r = 200%Z
  | Awaiting _ => True
  end.

Fixpoint count_ok (qs : list request) : nat :=
  match qs with
  | [] => 0
  | q :: qs' => (if is_ok q then 1 else 0) + count_ok qs'
  end.
End EventLoop.

(** ** Counting answered requests *)

Lemma count_ok_arrive qs body : count_ok (qs ++ [Awaiting body]) = count_ok qs.
Proof. induction qs as [|q qs IH]; simpl; [done|]. by rewrite IH. Qed.

Lemma count_ok_respond qs i body r :
  qs !! i = Some (Awaiting body) ->
  count_ok (<[i := Responded body r]> qs) =
    count_ok qs + (if bool_decide (status r = 200%Z) then 1 else 0).
Proof.
  revert i. induction qs as [|q qs IH]; intros [|i] Hi; simplify_eq/=.
  - case_bool_decide; simpl; lia.
  - rewrite (IH i Hi). lia.
Qed.

Lemma StronglySorted_snoc (l : list Z) x :
  StronglySorted Z.le l -> Forall (fun y => (y <= x)%Z) l -> StronglySorted Z.le (l ++ [x]).
Proof.
  induction l as [|y l IH]; simpl; intros Hs Hle.
  - repeat constructor.
  - inversion Hs as [|? ? Hs' Hy]; subst. inversion Hle as [|? ? Hyx Hle']; subst.
    constructor; [by apply IH|]. apply Forall_app. split; [done|]. by constructor.
Qed.

(** ** The invariant of the event loop *)

Section Invariant.
Variable cwd : path.
Variable L : Log.

Definition stamp_all (pairs : list (jvalue * Z)) : list jvalue :=
  map (fun p => stamped p.1 p.2) pairs.

(** The file stores the initial collection followed by one stamped body
    per [POST] answered 200, stamped with the time it ran at; those times
    never decrease and never exceed the clock. *)
Definition loop_inv (w : world) : Prop :=
  exists pairs : list (jvalue * Z),
    represents cwd (w_fs w) (MkLog (log_items L ++ stamp_all pairs)) /\
    can_write (w_fs w) cwd /\
    length pairs = count_ok (w_reqs w) /\
    Forall answered_ok (w_reqs w) /\
    StronglySorted Z.le (map snd pairs) /\
    Forall (fun t => (t <= w_clock w)%Z) (map snd pairs).

Lemma loop_inv_step w w' : loop_inv w -> step cwd w w' -> loop_inv w'.
Proof.
  intros (pairs & Hrep & Hw & Hlen & Hans & Hsort & Hle) Hs.
  destruct Hs as [w dt Hdt | w body | w i body r s' Hi Hpost | w r s' Hget].
  - exists pairs. simpl. split_and!; try done.
    eapply Forall_impl; [exact Hle|]. simpl. intros. lia.
  - exists pairs. simpl. rewrite count_ok_arrive. split_and!; try done.
    apply Forall_app. by split; [|constructor].
  - destruct (POST_cases cwd (w_fs w) _ body (w_clock w) Hrep Hw)
      as [(fd & s'' & Hp & Hrep' & Hw') | (r' & Hne & Hp)];
      rewrite Hpost in Hp; injection Hp as Hr Hs; subst.
    + exists (pairs ++ [(fd, w_clock w)]).
      unfold log_append, stamp_all in *. simpl in *.
      rewrite !map_app, app_assoc, length_app, (count_ok_respond _ _ body) by done.
      split_and!; [done | done | | | | ].
      * rewrite bool_decide_true by done. simpl. lia.
      * by apply Forall_insert.
      * by apply StronglySorted_snoc.
      * apply Forall_app. split; [done|]. repeat constructor. simpl. lia.
    + exists pairs. simpl.
      rewrite (count_ok_respond _ _ body), bool_decide_false by done.
      split_and!; try done; [lia|]. apply Forall_insert; [done|]. simpl.
      unfold valid_body. destruct (JSON_parse body) as [fd|] eqn:Hp; [|done].
      destruct (any_missing fd required_fields) as [[|]|] eqn:Hm; try done. intros _.
      destruct (POST_append_step cwd (w_fs w) _ body (w_clock w) fd Hrep Hw Hp Hm)
        as (s3 & Hp3 & _). rewrite Hpost in Hp3. injection Hp3 as Hr3 _. by rewrite Hr3.
  - rewrite (GET_read_step _ _ _ Hrep) in Hget. injection Hget as _ <-.
    by exists pairs.
Qed.

Lemma loop_inv_init w0 :
  represents cwd (w_fs w0) L -> can_write (w_fs w0) cwd ->
  Forall (fun q => exists b, q = Awaiting b) (w_reqs w0) ->
  loop_inv w0.
Proof.
  intros Hrep Hw Hpend. exists []. unfold stamp_all. simpl.
  rewrite app_nil_r. destruct L. split_and!; try done.
  - clear Hrep Hw. induction Hpend as [|q qs [b ->] _ IH]; simpl; [done|]. lia.
  - eapply Forall_impl; [exact Hpend|]. by intros q [b ->].
  - constructor.
Qed.
End Invariant.

Lemma count_ok_all (qs : list request) :
  Forall answered_ok qs ->
  Forall (fun q => exists b r, q = Responded b r /\ valid_body b = true) qs ->
  count_ok qs = length qs.
Proof.
  induction 1 as [|q qs Hq _ IH]; intros Hd; [done|].
  apply Forall_cons in Hd as [(b & r & -> & Hb) Hd]. simpl in *.
  rewrite bool_decide_true by auto. rewrite IH by done. lia.
Qed.

(** ** No lost update, whatever the interleaving *)

(** C2: Start from a file that stores [L], with [POST]s pending. Let the
    event loop run them in any order, with time passing, more requests
    arriving and [GET]s served in between. When every request has been
    answered and each had a valid body, the file stores [L] followed by
    exactly one submission per request: no update is lost. *)
Theorem concurrent_posts_no_lost_update cwd L w0 w :
  represents cwd (w_fs w0) L -> can_write (w_fs w0) cwd ->
  Forall (fun q => exists b, q = Awaiting b) (w_reqs w0) ->
  star (step cwd) w0 w ->
  Forall (fun q => exists b r, q = Responded b r /\ valid_body b = true) (w_reqs w) ->
  exists P, represents cwd (w_fs w) (MkLog (log_items L ++ P)) /\
            length P = length (w_reqs w).
Proof.
  intros Hrep Hw Hpend Hs Hdone.
  destruct (star_inv _ (loop_inv cwd L) w0 w (loop_inv_step cwd L)
              (loop_inv_init cwd L w0 Hrep Hw Hpend) Hs)
    as (pairs & Hrep' & _ & Hlen & Hans & _).
  exists (stamp_all pairs). split; [done|].
  unfold stamp_all. rewrite length_map, Hlen. by apply count_ok_all.
Qed.

(** Timestamps: the submissions appended during the run carry
    [toISOString] of the times their handlers ran at, and these times are
    in non-decreasing order along the file and not later than the clock. *)
Theorem stored_timestamps_nondecreasing cwd L w0 w :
  represents cwd (w_fs w0) L -> can_write (w_fs w0) cwd ->
  Forall (fun q => exists b, q = Awaiting b) (w_reqs w0) ->
  star (step cwd) w0 w ->
  exists pairs : list (jvalue * Z),
    represents cwd (w_fs w) (MkLog (log_items L ++ map (fun p => stamped p.1 p.2) pairs)) /\
    StronglySorted Z.le (map snd pairs) /\
    Forall (fun t => (t <= w_clock w)%Z) (map snd pairs).
Proof.
  intros Hrep Hw Hpend Hs.
  destruct (star_inv _ (loop_inv cwd L) w0 w (loop_inv_step cwd L)
              (loop_inv_init cwd L w0 Hrep Hw Hpend) Hs)
    as (pairs & Hrep' & _ & _ & _ & Hsort & Hle).
  by exists pairs.
Qed.


(** ** Examples *)

(** The run of the examples: two submissions from Jane are pending; the
    event loop resumes the second one first, serves a [GET], lets time
    pass, then resumes the first one. *)
Lemma sample_run :
  star (step sample_cwd)
    (World sample_fs 0 [Awaiting jane_body; Awaiting jane_body])
    (World (POST sample_cwd jane_body 5 (POST sample_cwd jane_body 0 sample_fs).2).2 5
           [Responded jane_body (Response 200 msg_ok); Responded jane_body (Response 200 msg_ok)]).
Proof.
  eapply star_step.
  { apply (step_resume _ _ 1 jane_body (Response 200 msg_ok)
             (POST sample_cwd jane_body 0 sample_fs).2); [reflexivity | vm_compute; reflexivity]. }
  eapply star_step.
  { apply (step_get _ _ (get_ok [stamped (formData_json jane) 0])). vm_compute. reflexivity. }
  eapply star_step.
  { apply (step_tick _ _ 5). lia. }
  eapply star_step.
  { apply (step_resume _ _ 0 jane_body (Response 200 msg_ok)
             (POST sample_cwd jane_body 5 (POST sample_cwd jane_body 0 sample_fs).2).2);
      [reflexivity | vm_compute; reflexivity]. }
  apply star_refl.
Qed.

Lemma concurrent_posts_no_lost_update_witness :
  exists P,
    represents sample_cwd
      (POST sample_cwd jane_body 5 (POST sample_cwd jane_body 0 sample_fs).2).2
      (MkLog ([] ++ P)) /\
    length P = length [Responded jane_body (Response 200 msg_ok);
                       Responded jane_body (Response 200 msg_ok)].
Proof.
  apply (concurrent_posts_no_lost_update sample_cwd (MkLog [])
           (World sample_fs 0 [Awaiting jane_body; Awaiting jane_body])
           (World (POST sample_cwd jane_body 5 (POST sample_cwd jane_body 0 sample_fs).2).2 5
                  [Responded jane_body (Response 200 msg_ok);
                   Responded jane_body (Response 200 msg_ok)]));
    [eval_decide | unfold can_write; eval_decide | repeat econstructor | apply sample_run |].
  repeat (apply List.Forall_cons; [do 2 eexists; split; [reflexivity | vm_compute; reflexivity] |]).
  apply List.Forall_nil.
Defined.

Lemma stored_timestamps_nondecreasing_witness :
  exists pairs : list (jvalue * Z),
    represents sample_cwd
      (POST sample_cwd jane_body 5 (POST sample_cwd jane_body 0 sample_fs).2).2
      (MkLog ([] ++ map (fun p => stamped p.1 p.2) pairs)) /\
    StronglySorted Z.le (map snd pairs) /\
    Forall (fun t => (t <= 5)%Z) (map snd pairs).
Proof.
  apply (stored_timestamps_nondecreasing sample_cwd (MkLog [])
           (World sample_fs 0 [Awaiting jane_body; Awaiting jane_body])
           (World (POST sample_cwd jane_body 5 (POST sample_cwd jane_body 0 sample_fs).2).2 5
                  [Responded jane_body (Response 200 msg_ok);
                   Responded jane_body (Response 200 msg_ok)]));
    [eval_decide | unfold can_write; eval_decide | repeat econstructor | apply sample_run].
Defined.
