(* ===== verification/Drain.v ===== *)
(** * Progress of the event loop: every request in flight is answered

    [Server] lets the event loop resume the suspended [POST]s in any
    order.  This file fixes one schedule, the one Node uses for the
    continuations of [await request.json()] when the bodies are already
    there: first in, first out.  [drain] resumes every suspended request
    once, from the oldest to the newest.  It is defined by structural
    recursion on the list of requests, so it always terminates; the
    theorems show that it is a run of the step relation, that it leaves no
    request suspended, and what the dashboard's [GET] then reads. *)

From S2P Require Import Prelude JsValue JsonText Fs Date SubmitForm GetSubmissions Store Server.

Section Drain.
Variable cwd : path.

(** The event loop resumes the suspended [POST] at position [i]: the rest
    of the handler runs at the current time.  The handler's [catch] turns
    every failure into a response, so the [Throw] branch is unreachable
    ([POST_total]); it leaves the world as it is. *)
Definition resume (i : nat) (body : string) (w : world) : world :=
  match POST cwd body (w_clock w) (w_fs w) with
  | (Ok r, s') => World s' (w_clock w) (<[i := Responded body r]> (w_reqs w))
  | (Throw _, _) => w
  end.

(** Resume the requests [qs], the suffix of [w_reqs w] from position [i]. *)
Fixpoint drain_from (i : nat) (qs : list request) (w : world) : world :=
  match qs with
  | [] => w
  | Awaiting body :: qs' => drain_from (S i) qs' (resume i body w)
  | Responded _ _ :: qs' => drain_from (S i) qs' w
  end.

Definition drain (w : world) : world := drain_from 0 (w_reqs w) w.

End Drain.

(** A request that has its response. *)
Definition answered (q : request) : Prop := exists b r, q = Responded b r.

(** The file system [s] holds the JSON array [xs] for the working
    directory [cwd], whatever its elements are (or no file, and [xs] is
    empty), and the process may read it.  Unlike [represents], nothing is
    asked of the elements but to be JSON. *)
Definition stores (cwd : path) (s : fs_state) (xs : list jvalue) : Prop :=
  (fs_files s !! DB_PATH cwd = Some (JSON_stringify (JArr xs)) \/
   (xs = [] /\ (DB_PATH cwd ∉ dom (fs_files s)) /\ (DB_PATH cwd ∉ fs_dirs s))) /\
  (DB_PATH cwd ∉ fs_denied s) /\ Forall (fun v => wf_json v = true) xs.

(** A stored submission as the dashboard expects it. *)
Definition typed (v : jvalue) : Prop := wf_json v = true /\ stored_ok v = true.

(** ** Lemmas *)

(** [POST] always returns a response: its [catch] handles every throw. *)
Lemma POST_total cwd body now s : exists r s', POST cwd body now s = (Ok r, s').
Proof.
  unfold POST, jcatch, jret. repeat case_match; by eauto.
Qed.

Lemma drop_cons_lookup {A} (l : list A) i x qs :
  drop i l = x :: qs -> l !! i = Some x /\ drop (S i) l = qs.
Proof.
  intros Hd. split.
  - by rewrite <- (Nat.add_0_r i), <- lookup_drop, Hd.
  - replace (S i) with (i + 1) by lia. by rewrite <- drop_drop, Hd.
Qed.

Lemma drain_from_spec cwd qs : forall i w,
  drop i (w_reqs w) = qs -> Forall answered (take i (w_reqs w)) ->
  star (step cwd) w (drain_from cwd i qs w) /\
  Forall answered (w_reqs (drain_from cwd i qs w)) /\
  length (w_reqs (drain_from cwd i qs w)) = length (w_reqs w) /\
  w_clock (drain_from cwd i qs w) = w_clock w.
Proof.
  induction qs as [|q qs IH]; intros i w Hd Ht; simpl.
  - split_and!; [apply star_refl| |done|done].
    by rewrite <- (take_drop i (w_reqs w)), Hd, app_nil_r.
  - destruct (drop_cons_lookup _ _ _ _ Hd) as [Hi Hd'].
    destruct q as [body|body r].
    + destruct (POST_total cwd body (w_clock w) (w_fs w)) as (r & s' & Hp).
      unfold resume. rewrite Hp.
      set (w1 := World s' (w_clock w) (<[i := Responded body r]> (w_reqs w))).
      assert (Hlt : i < length (w_reqs w)) by (apply lookup_lt_is_Some; eauto).
      destruct (IH (S i) w1) as (Hs & Ha & Hl & Hc); simpl.
      * by rewrite drop_insert_lt by lia.
      * rewrite (take_S_r _ _ (Responded body r)) by (by rewrite list_lookup_insert_eq).
        rewrite take_insert_ge by lia. apply Forall_app. split; [done|].
        constructor; [by exists body, r | constructor].
      * split_and!; [| done | | done].
        { eapply star_step; [|exact Hs]. by eapply step_resume. }
        rewrite Hl. simpl. by rewrite length_insert.
    + destruct (IH (S i) w) as (Hs & Ha & Hl & Hc); [done| |by split_and!].
      rewrite (take_S_r _ _ _ Hi). apply Forall_app. split; [done|].
      constructor; [by exists body, r | constructor].
Qed.

(** ** Any initial array *)

Lemma stores_read cwd s xs :
  stores cwd s xs -> SubmitRoute.readSubmissions cwd s = (Ok (JArr xs), s).
Proof.
  intros ([Hf | (-> & Hf & Hd)] & Hden & Hall).
  - apply readSubmissions_stored; [|done..]. simpl. apply List.forallb_forall.
    intros x Hx. rewrite Forall_forall in Hall. apply Hall. by apply list_elem_of_In.
  - by apply readSubmissions_absent.
Qed.

Lemma stores_GET cwd s xs : stores cwd s xs -> GET cwd s = (Ok (get_ok xs), s).
Proof.
  intros Hst. unfold GET, jcatch, jbind.
  by rewrite readSubmissions_copies, (stores_read _ _ _ Hst).
Qed.

(** A body that passes the check is appended, stamped, to the array. *)
Lemma POST_stores_ok cwd s xs body now fd :
  stores cwd s xs -> can_write s cwd ->
  JSON_parse body = Ok fd -> any_missing fd required_fields = Ok false ->
  exists s', POST cwd body now s = (Ok (Response 200 msg_ok), s') /\
     stores cwd s' (xs ++ [stamped fd now]) /\ can_write s' cwd.
Proof.
  intros Hst Hw Hp Hm.
  destruct (POST_appends cwd body now s fd xs Hp Hm (stores_read _ _ _ Hst) Hw)
    as (dirs & Hd & Hpost).
  destruct (stamped_ok fd now) as [Hwf _]; [by eapply JSON_parse_wf | done |].
  eexists. split; [exact Hpost|]. split; [|by apply can_write_after].
  destruct Hst as (_ & Hden & Hall). split_and!.
  - left. simpl. by rewrite lookup_insert_eq.
  - done.
  - apply Forall_app. by split; [|constructor].
Qed.

(** Whatever its body, a [POST] either appends one typed submission to the
    array, or answers and leaves the disk as it was. *)
Lemma POST_stores cwd s xs body now :
  stores cwd s xs -> can_write s cwd ->
  (exists x s', POST cwd body now s = (Ok (Response 200 msg_ok), s') /\
     stores cwd s' (xs ++ [x]) /\ typed x /\ can_write s' cwd) \/
  (exists r, POST cwd body now s = (Ok r, s)).
Proof.
  intros Hst Hw.
  destruct (JSON_parse body) as [fd|e] eqn:Hp.
  - destruct (any_missing fd required_fields) as [[|]|e] eqn:Hm.
    + right. eexists. run_post. by rewrite Hp, Hm.
    + left. destruct (POST_stores_ok cwd s xs body now fd Hst Hw Hp Hm) as (s' & ? & ? & ?).
      exists (stamped fd now), s'. split_and!; [done | done | | done].
      apply (stamped_ok fd now); [by eapply JSON_parse_wf | done].
    + right. eexists. run_post. by rewrite Hp, Hm.
  - right. eexists. run_post. by rewrite Hp.
Qed.

Section Grows.
Variable cwd : path.
Variable xs0 : list jvalue.

(** The file holds the initial array followed by typed submissions only. *)
Definition grows_inv (w : world) : Prop :=
  exists ys, stores cwd (w_fs w) (xs0 ++ ys) /\ can_write (w_fs w) cwd /\ Forall typed ys.

Lemma grows_inv_step w w' : grows_inv w -> step cwd w w' -> grows_inv w'.
Proof.
  intros (ys & Hst & Hw & Hys) Hs.
  destruct Hs as [w dt _ | w body | w i body r s' _ Hpost | w r s' Hget]; try by exists ys.
  - destruct (POST_stores _ _ _ body (w_clock w) Hst Hw)
      as [(x & s'' & Hp & Hst' & Hx & Hw') | (r' & Hp)];
      rewrite Hpost in Hp; injection Hp as _ Es; subst.
    + exists (ys ++ [x]). rewrite app_assoc. split_and!; [done | done |].
      apply Forall_app. by split; [|constructor].
    + by exists ys.
  - rewrite (stores_GET _ _ _ Hst) in Hget. injection Hget as _ Es; subst. by exists ys.
Qed.

(** From a disk holding [xs0], every world the event loop reaches holds
    [xs0] followed by typed submissions. *)
Lemma grows_reachable w0 w :
  stores cwd (w_fs w0) xs0 -> can_write (w_fs w0) cwd -> star (step cwd) w0 w ->
  exists ys, stores cwd (w_fs w) (xs0 ++ ys) /\ Forall typed ys.
Proof.
  intros Hst Hw Hs.
  destruct (star_inv _ grows_inv w0 w grows_inv_step
              ltac:(exists []; rewrite app_nil_r; by split_and!) Hs) as (ys & ? & _ & ?).
  by exists ys.
Qed.

End Grows.

(** ** Properties *)

(** C29: The event loop terminates its queue: from any world, resuming the
    suspended requests oldest first is a run of the event loop that ends
    with every request answered, none lost or added.  No hypothesis is
    needed: [POST] answers whatever the body and the disk. *)
Theorem event_loop_drains (cwd : path) (w : world) :
  star (step cwd) w (drain cwd w) /\
  Forall answered (w_reqs (drain cwd w)) /\
  length (w_reqs (drain cwd w)) = length (w_reqs w).
Proof.
  destruct (drain_from_spec cwd (w_reqs w) 0 w) as (Hs & Ha & Hl & _);
    [done | constructor | by split_and!].
Qed.

(** C30: The server only ever adds typed submissions to the file: start
    from a disk whose submissions file holds any JSON array, whose
    elements need not be submissions (or no file at all), and let the
    event loop run [POST]s with any bodies, in any interleaving, with
    [GET]s in between.  In every world reached, [GET] answers 200 with the
    initial elements, unchanged and in place, followed only by JSON
    objects whose four required fields are truthy and that carry a
    [timestamp] string. *)
Theorem get_submissions_typed (cwd : path) (xs0 : list jvalue) (w0 w : world) :
  stores cwd (w_fs w0) xs0 -> can_write (w_fs w0) cwd ->
  star (step cwd) w0 w ->
  exists ys, GET cwd (w_fs w) = (Ok (get_ok (xs0 ++ ys)), w_fs w) /\ Forall typed ys.
Proof.
  intros Hst Hw Hs.
  destruct (grows_reachable cwd xs0 w0 w Hst Hw Hs) as (ys & Hst' & Hys).
  exists ys. split; [exact (stores_GET _ _ _ Hst')|exact Hys].
Qed.

(** ** Witnesses *)

Definition two_pending : world := World sample_fs 0 [Awaiting jane_body; Awaiting "not json"].

Lemma event_loop_drains_witness :
  w_reqs (drain sample_cwd two_pending) =
    [Responded jane_body (Response 200 msg_ok); Responded "not json" (Response 500 SubmitRoute.msg_failed)] /\
  star (step sample_cwd) two_pending (drain sample_cwd two_pending).
Proof.
  split; [vm_compute; reflexivity|].
  apply (event_loop_drains sample_cwd two_pending).
Defined.

(** A file written by hand, holding a number and a note, and the same two
    requests. *)
Definition odd_items : list jvalue := [JNum 1; JStr "note"].
Definition odd_world : world :=
  World (fs_with_file (JSON_stringify (JArr odd_items))) 0 [Awaiting jane_body; Awaiting "not json"].

Lemma get_submissions_typed_witness :
  exists ys, GET sample_cwd (w_fs (drain sample_cwd odd_world)) =
               (Ok (get_ok (odd_items ++ ys)), w_fs (drain sample_cwd odd_world)) /\
             Forall typed ys.
Proof.
  apply (get_submissions_typed sample_cwd odd_items odd_world).
  - split_and!; [left; vm_compute; reflexivity | eval_decide | repeat constructor].
  - unfold can_write; eval_decide.
  - destruct (drain_from_spec sample_cwd (w_reqs odd_world) 0 odd_world) as [Hs _];
      [done | constructor | exact Hs].
Defined.
