(* ===== verification/DemoForm.v ===== *)
(** * The demo request form (src/Tech crm/src/components/DemoForm.tsx)

    The component keeps the form's seven values, the validation errors
    and three flags in React state. [validateForm] checks the values,
    [handleChange] updates one value and clears its error, and
    [handleSubmit] validates, posts [JSON.stringify(formData)] to
    [/api/submit-form] and reacts to the answer. The component's state is
    the record [DemoState]; each handler is a function from the state the
    handler sees to the state after its [setX] calls (React applies the
    queued updates in order, and no handler reads state it has set).
    [handleSubmit] awaits twice, so it is split at the request: what runs
    before the [fetch] and what runs when the response has arrived. The
    rendering is modelled as the data the JSX shows: which card, the
    error banner, each input's label, control and error, and the submit
    button. *)

From S2P Require Import Prelude JsValue JsonText Fs Date SubmitForm Store.

(** ** Data *)

(** [keyof FormData]. *)
Inductive field : Type :=
  | FullName | Email | CompanyName | PhoneNumber | JobTitle | CompanySize | Message.

#[export] Instance field_eq_dec : EqDecision field.
Proof. solve_decision. Defined.

Definition field_index (f : field) : nat :=
  match f with
  | FullName => 0 | Email => 1 | CompanyName => 2 | PhoneNumber => 3
  | JobTitle => 4 | CompanySize => 5 | Message => 6
  end.

Definition field_of_index (n : nat) : option field :=
  match n with
  | 0 => Some FullName | 1 => Some Email | 2 => Some CompanyName | 3 => Some PhoneNumber
  | 4 => Some JobTitle | 5 => Some CompanySize | 6 => Some Message | _ => None
  end.

#[export] Instance field_countable : Countable field.
Proof.
  refine (inj_countable' field_index (fun n => default FullName (field_of_index n)) _).
  by intros [].
Defined.

(** The property name of a field. *)
Definition field_name (f : field) : string :=
  match f with
  | FullName => "fullName" | Email => "email" | CompanyName => "companyName"
  | PhoneNumber => "phoneNumber" | JobTitle => "jobTitle"
  | CompanySize => "companySize" | Message => "message"
  end.

(** [formData[name]]. *)
Definition get_field (fd : FormData) (f : field) : string :=
  match f with
  | FullName => fullName fd | Email => email fd | CompanyName => companyName fd
  | PhoneNumber => phoneNumber fd | JobTitle => jobTitle fd
  | CompanySize => companySize fd | Message => message fd
  end.

(** [{...formData, [name]: value}]: the key exists already, so it keeps
    its place and only its value changes. *)
Definition set_field (fd : FormData) (f : field) (v : string) : FormData :=
  let 'MkFormData a b c d e g h := fd in
  match f with
  | FullName => MkFormData v b c d e g h
  | Email => MkFormData a v c d e g h
  | CompanyName => MkFormData a b v d e g h
  | PhoneNumber => MkFormData a b c v e g h
  | JobTitle => MkFormData a b c d v g h
  | CompanySize => MkFormData a b c d e v h
  | Message => MkFormData a b c d e g v
  end.

(** [type FormErrors = { [key in keyof FormData]?: string }]. A key set to
    [undefined] by [handleChange] reads exactly like an absent key for
    every reader of the object in the component ([errors[name]] and the
    [error] prop), so it is removed from the map. *)
Abbreviation FormErrors := (gmap field string).

(** The initial [formData] and the one [handleSubmit] resets to. *)
Definition empty_form : FormData := MkFormData "" "" "" "" "" "" "".

(** The component's state: [formData], [errors], [isSubmitting],
    [isSubmitted], [submitError]. *)
Record DemoState : Type := MkDemo {
  formData : FormData;
  errors : FormErrors;
  isSubmitting : bool;
  isSubmitted : bool;
  submitError : string
}.

Definition initial_state : DemoState := MkDemo empty_form ∅ false false "".

(** A string is truthy when it is not empty. *)
Definition truthy_str (s : string) : bool := negb (String.eqb s "").

(** ** The email pattern [/^[^\s@]+@[^\s@]+\.[^\s@]+$/] *)

(** A character of the class [[^\s@]]. *)
Definition email_char (c : ascii) : bool := negb (is_js_space c) && negb (Ascii.eqb c "@").

Fixpoint all_email_chars (s : string) : bool :=
  match s with
  | EmptyString => true
  | String c s' => email_char c && all_email_chars s'
  end.

(** A [.] with at least one character after it. *)
Fixpoint dot_before_end (t : string) : bool :=
  match t with
  | EmptyString => false
  | String c t' => (Ascii.eqb c "." && truthy_str t') || dot_before_end t'
  end.

(** [[^\s@]+\.[^\s@]+]: class characters around a [.] that is neither the
    first nor the last character (the class contains [.]). *)
Definition email_domain (d : string) : bool :=
  all_email_chars d &&
  match d with
  | EmptyString => false
  | String _ t => dot_before_end t
  end.

(** The matcher: [[^\s@]+] up to the first [@] ([seen]: at least one
    character consumed), then the domain. *)
Fixpoint email_local (s : string) (seen : bool) : bool :=
  match s with
  | EmptyString => false
  | String c s' =>
      if Ascii.eqb c "@" then seen && email_domain s'
      else if is_js_space c then false
      else email_local s' true
  end.

Definition email_test (s : string) : bool := email_local s false.

(** ** [validateForm]

    The errors it finds, in the order of the code; [setErrors(newErrors)]
    and [return Object.keys(newErrors).length === 0] are [validateForm]
    below. [trim] is applied to the three text fields, not to
    [companySize], and the pattern is tested on the untrimmed email. *)
Definition form_errors (fd : FormData) : FormErrors :=
  let e1 : FormErrors :=
    if negb (truthy_str (js_trim (fullName fd))) then <[FullName := "Required"]> ∅ else ∅ in
  let e2 :=
    if negb (truthy_str (js_trim (email fd))) then <[Email := "Required"]> e1
    else if negb (email_test (email fd)) then <[Email := "Enter valid email"]> e1
    else e1 in
  let e3 :=
    if negb (truthy_str (js_trim (companyName fd))) then <[CompanyName := "Required"]> e2
    else e2 in
  if negb (truthy_str (companySize fd)) then <[CompanySize := "Select company size"]> e3
  else e3.

(** [validateForm()]: sets [errors] and says whether there were none. *)
Definition validateForm (st : DemoState) : bool * DemoState :=
  let newErrors := form_errors (formData st) in
  (Nat.eqb (size newErrors) 0,
   MkDemo (formData st) newErrors (isSubmitting st) (isSubmitted st) (submitError st)).

(** ** [handleChange]

    [e.target] is the input named [name] with its new [value]. *)
Definition handleChange (name : field) (value : string) (st : DemoState) : DemoState :=
  let formData' := set_field (formData st) name value in
  let errors' :=
    match errors st !! name with
    | Some m => if truthy_str m then delete name (errors st) else errors st
    | None => errors st
    end in
  MkDemo formData' errors' (isSubmitting st) (isSubmitted st) (submitError st).

(** The "Submit Another Request" button: [setIsSubmitted(false)]. *)
Definition submitAnother (st : DemoState) : DemoState :=
  MkDemo (formData st) (errors st) (isSubmitting st) false (submitError st).

(** ** [handleSubmit]

    Up to the [fetch]: validate; on errors stop; otherwise set
    [isSubmitting], clear [submitError] and send the body. The result is
    the state and the request body, if one is sent. *)
Definition handleSubmit_start (st : DemoState) : DemoState * option string :=
  let '(ok, st1) := validateForm st in
  if negb ok then (st1, None)
  else (MkDemo (formData st1) (errors st1) true (isSubmitted st1) "",
        Some (JSON_stringify_compact (formData_json (formData st1)))).

(** What [fetch] resolves to: a status and the body text, or a rejection
    (a network failure, a [TypeError] whose message is given). *)
Inductive fetch_result : Type :=
  | FetchOk (status : Z) (text : string)
  | FetchFailed (msg : string).

(** The response of a route handler as the browser receives it:
    [NextResponse.json(body, { status })] sends [JSON.stringify(body)]. *)
Definition of_response (r : response) : fetch_result :=
  FetchOk (status r) (JSON_stringify_compact (body r)).

(** [response.ok]: a status in the range 200-299. *)
Definition response_ok (status : Z) : bool := (200 <=? status)%Z && (status <=? 299)%Z.

(** The [try] block after [fetch] resolved: [await response.json()], then
    either [throw new Error(data.error || 'Failed to submit form')] or
    the reset of the form and [setIsSubmitted(true)]. A throw is caught
    and its [message] shown ([error instanceof Error] holds for every
    value thrown here). *)
Definition after_fetch (text_status : Z * string) (st : DemoState) : outcome jsError DemoState :=
  let '(status, text) := text_status in
  match JSON_parse text with
  | Throw e => Throw e
  | Ok data =>
      if negb (response_ok status) then
        match get_prop data "error" with
        | Throw e => Throw e
        | Ok err =>
            Throw (PlainError (if truthy_opt err then js_to_string (default JNull err)
                               else "Failed to submit form"))
        end
      else Ok (MkDemo empty_form (errors st) (isSubmitting st) true (submitError st))
  end.

(** When the response has arrived (or [fetch] rejected): the [try], the
    [catch] and the [finally] ([setIsSubmitting(false)]). *)
Definition handleSubmit_finish (res : fetch_result) (st : DemoState) : DemoState :=
  let st' :=
    match res with
    | FetchFailed msg => MkDemo (formData st) (errors st) (isSubmitting st) (isSubmitted st) msg
    | FetchOk status text =>
        match after_fetch (status, text) st with
        | Ok st2 => st2
        | Throw e =>
            MkDemo (formData st) (errors st) (isSubmitting st) (isSubmitted st)
                   (js_error_message e)
        end
    end in
  MkDemo (formData st') (errors st') false (isSubmitted st') (submitError st').

(** ** Rendering

    [FormInput]'s props and what it renders: the label with a star when
    [required], a [textarea] (4 rows), a [select] with its options or an
    [input] of the given type, the error border and the error text when
    [error] is truthy. [index] only delays the animation. *)
Record input_props : Type := InputProps {
  ip_label : string;
  ip_name : field;
  ip_type : string;
  ip_value : string;
  ip_placeholder : option string;
  ip_error : option string;
  ip_required : bool;
  ip_options : list (string * string);
  ip_index : nat
}.

Inductive control : Type :=
  | Textarea (rows : nat) (value : string) (placeholder : option string)
  | Select (value : string) (options : list (string * string))
  | TextInput (type : string) (value : string) (placeholder : option string).

Record rendered_input : Type := RenderedInput {
  ri_label : string;
  ri_star : bool;
  ri_name : field;
  ri_control : control;
  ri_error_border : bool;
  ri_error_text : option string
}.

Definition truthy_error (e : option string) : bool :=
  match e with Some m => truthy_str m | None => false end.

Definition FormInput (p : input_props) : rendered_input :=
  RenderedInput (ip_label p) (ip_required p) (ip_name p)
    (if String.eqb (ip_type p) "textarea" then Textarea 4 (ip_value p) (ip_placeholder p)
     else if String.eqb (ip_type p) "select" then Select (ip_value p) (ip_options p)
     else TextInput (ip_type p) (ip_value p) (ip_placeholder p))
    (truthy_error (ip_error p))
    (if truthy_error (ip_error p) then ip_error p else None).

(** [companySizeOptions]: value and label. *)
Definition companySizeOptions : list (string * string) :=
  [("", "Select size"); ("1-10", "1-10"); ("11-50", "11-50"); ("51-200", "51-200");
   ("201-500", "201-500"); ("501+", "501+")].

(** The seven [FormInput]s of the form, in the order of the JSX. *)
Definition demo_inputs (st : DemoState) : list input_props :=
  let fd := formData st in
  let err := fun f => errors st !! f in
  [InputProps "Full Name" FullName "text" (fullName fd) (Some "John Doe") (err FullName) true [] 0;
   InputProps "Email" Email "email" (email fd) (Some "john@example.com") (err Email) true [] 1;
   InputProps "Company Name" CompanyName "text" (companyName fd) (Some "Acme Inc.")
     (err CompanyName) true [] 2;
   InputProps "Phone Number" PhoneNumber "tel" (phoneNumber fd) (Some "+91 (742) 100-0303")
     (err PhoneNumber) false [] 3;
   InputProps "Job Title" JobTitle "text" (jobTitle fd) (Some "Marketing Manager")
     (err JobTitle) false [] 4;
   InputProps "Company Size" CompanySize "select" (companySize fd) None
     (err CompanySize) true companySizeOptions 5;
   InputProps "Message (Optional)" Message "textarea" (message fd)
     (Some "What are your specific needs?") (err Message) false [] 6].

(** The card the component shows under its header: the thank-you card,
    or the form with the error banner, the inputs and the submit button
    (disabled, with a spinner and "Processing...", while submitting). *)
Inductive card : Type :=
  | SuccessCard
  | FormCard (banner : option string) (inputs : list rendered_input)
             (button_disabled : bool) (button_label : string).

Definition render (st : DemoState) : card :=
  if isSubmitted st then SuccessCard
  else FormCard (if truthy_str (submitError st) then Some (submitError st) else None)
                (map FormInput (demo_inputs st))
                (isSubmitting st)
                (if isSubmitting st then "Processing..." else "Start Free Trial").

(** ** The component over time

    The user edits an input or submits the form (the button, or Enter in
    a field: implicit submission does nothing while the submit button is
    disabled); the response of the request in flight arrives; on the
    thank-you card the user asks for another request. [dw_inflight] is the
    body of the request in flight. *)
Record demo_world : Type := DemoWorld {
  dw_state : DemoState;
  dw_inflight : option string
}.

Inductive demo_step : demo_world -> demo_world -> Prop :=
  | ds_change w f v :
      isSubmitted (dw_state w) = false ->
      demo_step w (DemoWorld (handleChange f v (dw_state w)) (dw_inflight w))
  | ds_submit w :
      isSubmitted (dw_state w) = false -> isSubmitting (dw_state w) = false ->
      demo_step w (DemoWorld (handleSubmit_start (dw_state w)).1
                             (handleSubmit_start (dw_state w)).2)
  | ds_response w body res :
      dw_inflight w = Some body ->
      demo_step w (DemoWorld (handleSubmit_finish res (dw_state w)) None)
  | ds_another w :
      isSubmitted (dw_state w) = true ->
      demo_step w (DemoWorld (submitAnother (dw_state w)) (dw_inflight w)).

(** ** Sample input *)

(** Jane fills in the four required fields and submits. *)
Definition jane_typed : DemoState :=
  handleChange CompanySize "11-50" (handleChange CompanyName "Acme"
    (handleChange Email "jane@example.com" (handleChange FullName "Jane Doe" initial_state))).

(** ** The email pattern: the matcher decides the regular expression *)

(** The language of [/^[^\s@]+@[^\s@]+\.[^\s@]+$/]: three non-empty
    runs of class characters, separated by [@] and [.]. *)
Definition email_re (s : string) : Prop :=
  exists a b c, a <> EmptyString /\ b <> EmptyString /\ c <> EmptyString /\
    all_email_chars a = true /\ all_email_chars b = true /\ all_email_chars c = true /\
    s = a +:+ String "@" (b +:+ String "." c).

Lemma all_email_chars_app a b :
  all_email_chars (a +:+ b) = all_email_chars a && all_email_chars b.
Proof.
  induction a as [|c a IH]; [done|]. rewrite sapp_cons. simpl. rewrite IH.
  by destruct (email_char c).
Qed.

Lemma dot_before_end_spec t :
  dot_before_end t = true <-> exists b c, t = b +:+ String "." c /\ c <> EmptyString.
Proof.
  induction t as [|x t IH]; simpl.
  - split; [done|]. intros ([|? ?] & c & H & _); discriminate.
  - rewrite orb_true_iff, andb_true_iff, IH. split.
    + intros [[Hx Ht] | (b & c & -> & Hc)].
      * apply Ascii.eqb_eq in Hx as ->. exists EmptyString, t.
        split; [done|]. by destruct t.
      * exists (String x b), c. by rewrite sapp_cons.
    + intros ([|y b] & c & Ht & Hc); simpl in Ht; injection Ht as -> ->.
      * left. split; [apply Ascii.eqb_refl|]. by destruct c.
      * right. eauto.
Qed.

Lemma email_domain_spec d :
  email_domain d = true <->
  exists b c, b <> EmptyString /\ c <> EmptyString /\
    all_email_chars b = true /\ all_email_chars c = true /\ d = b +:+ String "." c.
Proof.
  unfold email_domain. split.
  - intros [Hall Hd]%andb_true_iff. destruct d as [|x t]; [done|].
    apply dot_before_end_spec in Hd as (b & c & -> & Hc).
    rewrite <- sapp_cons, all_email_chars_app in Hall. simpl in Hall.
    apply andb_true_iff in Hall as [Hb Hc'].
    exists (String x b), c. split_and!; done.
  - intros ([|x b] & c & Hb & Hc & Hab & Hac & ->); [done|].
    rewrite all_email_chars_app, Hab, sapp_cons. simpl. rewrite Hac. simpl.
    apply dot_before_end_spec. eauto.
Qed.

Lemma email_char_at : email_char "@" = false.
Proof. reflexivity. Qed.

(** The matcher after [seen] (at least one class character consumed). *)
Lemma email_local_spec s seen :
  email_local s seen = true <->
  exists a d, (seen = true \/ a <> EmptyString) /\ all_email_chars a = true /\
    email_domain d = true /\ s = a +:+ String "@" d.
Proof.
  revert seen. induction s as [|x s IH]; intros seen; simpl.
  - split; [done|]. intros (a & d & _ & _ & _ & H). by destruct a.
  - destruct (Ascii.eqb_spec x "@") as [->|Hx].
    + rewrite andb_true_iff. split.
      * intros [-> Hd]. exists EmptyString, s. auto.
      * intros ([|y a] & d & Hs & Ha & Hd & H); rewrite ?sapp_cons, ?sapp_nil_l in H;
          simplify_eq. destruct Hs as [-> | []]; done.
    + destruct (is_js_space x) eqn:Hsp.
      * split; [done|]. intros ([|y a] & d & _ & Ha & _ & H);
          rewrite ?sapp_cons, ?sapp_nil_l in H; simplify_eq.
        simpl in Ha. unfold email_char in Ha. by rewrite Hsp in Ha.
      * rewrite IH. split.
        -- intros (a & d & _ & Ha & Hd & ->). exists (String x a), d.
           split_and!; [by right | | done | by rewrite sapp_cons].
           simpl. unfold email_char. rewrite Hsp, Ha.
           by destruct (Ascii.eqb_spec x "@").
        -- intros ([|y a] & d & _ & Ha & Hd & H); rewrite ?sapp_cons, ?sapp_nil_l in H;
             simplify_eq.
           simpl in Ha. apply andb_true_iff in Ha as [_ Ha]. exists a, d. auto.
Qed.

(** The matcher accepts exactly the strings of the pattern. *)
Lemma email_test_re s : email_test s = true <-> email_re s.
Proof.
  unfold email_test, email_re. rewrite email_local_spec. split.
  - intros (a & d & [[=] | Ha] & Hall & Hd & ->).
    apply email_domain_spec in Hd as (b & c & Hb & Hc & Hab & Hac & ->).
    exists a, b, c. auto 10.
  - intros (a & b & c & Ha & Hb & Hc & Haa & Hab & Hac & ->).
    exists a, (b +:+ String "." c). split_and!; auto.
    apply email_domain_spec. exists b, c. auto 10.
Qed.

(** ** [validateForm] *)

Lemma truthy_str_true s : truthy_str s = true <-> s <> EmptyString.
Proof. unfold truthy_str. destruct s; simpl; intuition congruence. Qed.

(** No error is found exactly when the five checks pass. *)
Lemma form_errors_empty fd :
  form_errors fd = ∅ <->
  truthy_str (js_trim (fullName fd)) = true /\ truthy_str (js_trim (email fd)) = true /\
  email_test (email fd) = true /\ truthy_str (js_trim (companyName fd)) = true /\
  truthy_str (companySize fd) = true.
Proof.
  unfold form_errors.
  destruct (truthy_str (js_trim (fullName fd))), (truthy_str (js_trim (email fd))),
    (email_test (email fd)), (truthy_str (js_trim (companyName fd))),
    (truthy_str (companySize fd)); simpl;
    (split; [intros H; first [exfalso; revert H; apply insert_non_empty | naive_solver]
            | intros (? & ? & ? & ? & ?); done]).
Qed.

(** Every message [validateForm] records is a non-empty string. *)
Lemma form_errors_truthy fd : map_Forall (fun _ m => truthy_str m = true) (form_errors fd).
Proof.
  unfold form_errors. repeat case_match;
    repeat (apply map_Forall_insert_2; [reflexivity|]); apply map_Forall_empty.
Qed.

Lemma js_trim_empty : js_trim EmptyString = EmptyString.
Proof. reflexivity. Qed.

(** A string whose trimmed form is not empty is not empty. *)
Lemma trim_nonempty s : js_trim s <> EmptyString -> s <> EmptyString.
Proof. intros H ->. by apply H. Qed.

(** The form is valid for [validateForm] when its errors are empty. *)
Lemma validateForm_true st :
  (validateForm st).1 = true <-> form_errors (formData st) = ∅.
Proof. unfold validateForm. cbn [fst]. by rewrite Nat.eqb_eq, map_size_empty_iff. Qed.

(** C7: [validateForm] reports success exactly when the trimmed full name,
    email and company name are not empty, the email (untrimmed) matches
    [/^[^\s@]+@[^\s@]+\.[^\s@]+$/] and a company size is selected. *)
Theorem validateForm_spec st :
  (validateForm st).1 = true <->
  js_trim (fullName (formData st)) <> EmptyString /\
  js_trim (email (formData st)) <> EmptyString /\ email_re (email (formData st)) /\
  js_trim (companyName (formData st)) <> EmptyString /\
  companySize (formData st) <> EmptyString.
Proof.
  rewrite validateForm_true, form_errors_empty, !truthy_str_true, email_test_re. done.
Qed.

(** ** The request the form sends *)

Lemma handleSubmit_start_eq st :
  handleSubmit_start st =
    let st1 := (validateForm st).2 in
    if (validateForm st).1
    then (MkDemo (formData st1) (errors st1) true (isSubmitted st1) EmptyString,
          Some (JSON_stringify_compact (formData_json (formData st1))))
    else (st1, None).
Proof. unfold handleSubmit_start. by destruct (validateForm st) as [[] ?]. Qed.

(** A form that passes [validateForm] sends a body that the server reads
    back as the form's object and whose required fields pass its check. *)
Lemma valid_form_body st :
  (validateForm st).1 = true ->
  handleSubmit_start st =
    (MkDemo (formData st) ∅ true (isSubmitted st) EmptyString,
     Some (JSON_stringify_compact (formData_json (formData st)))) /\
  JSON_parse (JSON_stringify_compact (formData_json (formData st))) =
    Ok (formData_json (formData st)) /\
  any_missing (formData_json (formData st)) required_fields = Ok false.
Proof.
  intros Hv. pose proof Hv as He. apply validateForm_true in He.
  split_and!.
  - rewrite handleSubmit_start_eq, Hv. simpl. by rewrite He.
  - apply parse_stringify_compact, formData_json_wf.
  - apply formData_json_check. apply form_errors_empty in He as (H1 & H2 & _ & H4 & H5).
    rewrite !truthy_str_true in *. split_and!; try done; by apply trim_nonempty.
Qed.

Lemma parse_msg_ok : JSON_parse (JSON_stringify_compact msg_ok) = Ok msg_ok.
Proof. reflexivity. Qed.

(** ** From the form to the file and back *)

(** C3: End to end: on a disk that stores [L] and can be written, a form that
    passes [validateForm] is sent; the server answers 200 and now stores
    [L] followed by the form's values with their timestamp; and when the
    answer arrives the component shows the thank-you card with an empty
    form, no errors and no spinner. *)
Theorem demo_submit_end_to_end cwd s L st now :
  represents cwd s L -> can_write s cwd -> (validateForm st).1 = true ->
  exists st1 body s',
    handleSubmit_start st = (st1, Some body) /\
    POST cwd body now s = (Ok (Response 200 msg_ok), s') /\
    represents cwd s' (log_append L (stamped (formData_json (formData st)) now)) /\
    handleSubmit_finish (of_response (Response 200 msg_ok)) st1 =
      MkDemo empty_form ∅ false true EmptyString /\
    render (handleSubmit_finish (of_response (Response 200 msg_ok)) st1) = SuccessCard.
Proof.
  intros Hrep Hw Hv. destruct (valid_form_body st Hv) as (Hstart & Hp & Hm).
  destruct (POST_append_step cwd s L _ now _ Hrep Hw Hp Hm) as (s' & Hpost & Hrep' & _).
  do 3 eexists. split_and!; [exact Hstart | exact Hpost | exact Hrep' | |];
    unfold handleSubmit_finish, after_fetch, of_response; cbn -[JSON_parse JSON_stringify_compact];
    by rewrite parse_msg_ok.
Qed.

(** ** Errors reported by the server *)

Lemma js_to_string_str e : js_to_string (JStr e) = e.
Proof. reflexivity. Qed.

(** C32: When the server answers a status outside 200-299 with a JSON body
    whose [error] is a non-empty string [e], the component keeps the form
    as it was, stops the spinner and shows [e] in the banner. *)
Theorem demo_server_error_shown st r e :
  response_ok (status r) = false -> wf_json (body r) = true ->
  get_prop (body r) "error" = Ok (Some (JStr e)) -> e <> EmptyString ->
  handleSubmit_finish (of_response r) st =
    MkDemo (formData st) (errors st) false (isSubmitted st) e /\
  (isSubmitted st = false ->
   exists inputs, render (handleSubmit_finish (of_response r) st) =
                  FormCard (Some e) inputs false "Start Free Trial").
Proof.
  intros Hst Hwf Hget He.
  assert (Heq : handleSubmit_finish (of_response r) st =
                MkDemo (formData st) (errors st) false (isSubmitted st) e).
  { unfold handleSubmit_finish, after_fetch, of_response.
    cbn -[JSON_parse JSON_stringify_compact get_prop js_to_string].
    rewrite parse_stringify_compact, Hst by done. simpl. rewrite Hget.
    unfold truthy_opt, truthy. by destruct (String.eqb_spec e EmptyString). }
  split; [done|]. intros Hs. rewrite Heq. unfold render. simpl. rewrite Hs.
  apply truthy_str_true in He. rewrite He. by eexists.
Qed.

(** ** A form that fails validation *)

(** An input shows the error its props carry, when the messages are not
    empty. *)
Lemma FormInput_error (errs : FormErrors) p :
  map_Forall (fun _ m => truthy_str m = true) errs -> ip_error p = errs !! ip_name p ->
  ri_error_text (FormInput p) = errs !! ri_name (FormInput p).
Proof.
  intros Hall He. unfold FormInput. simpl. rewrite He.
  destruct (errs !! ip_name p) as [m|] eqn:Hm; [|done].
  simpl. by rewrite (Hall _ _ Hm).
Qed.

(** Every field has an input in the form. *)
Lemma demo_inputs_cover st f :
  Exists (fun p => ip_name p = f /\ ip_error p = errors st !! f) (demo_inputs st).
Proof. destruct f; unfold demo_inputs; repeat (try (left; done); right); left; done. Qed.

(** A form that fails [validateForm] sends nothing; the form is shown with,
    under each input, exactly the message [validateForm] found for its
    field, and at least one message. *)
Theorem demo_submit_invalid st :
  (validateForm st).1 = false -> isSubmitted st = false ->
  handleSubmit_start st =
    (MkDemo (formData st) (form_errors (formData st)) (isSubmitting st) false (submitError st),
     None) /\
  exists banner inputs disabled label,
    render (handleSubmit_start st).1 = FormCard banner inputs disabled label /\
    Forall (fun ri => ri_error_text ri = form_errors (formData st) !! ri_name ri) inputs /\
    Exists (fun ri => is_Some (ri_error_text ri)) inputs.
Proof.
  intros Hv Hs.
  assert (Hstart : handleSubmit_start st =
    (MkDemo (formData st) (form_errors (formData st)) (isSubmitting st) false (submitError st),
     None)).
  { rewrite handleSubmit_start_eq, Hv. simpl. by rewrite Hs. }
  split; [done|]. rewrite Hstart. unfold render. cbn [fst isSubmitted].
  do 4 eexists. split; [reflexivity|].
  pose proof (form_errors_truthy (formData st)) as Hall. split.
  - unfold demo_inputs. cbn [map].
    repeat (apply List.Forall_cons; [by apply FormInput_error|]). apply List.Forall_nil.
  - assert (form_errors (formData st) <> ∅) as Hne.
    { intros He. apply validateForm_true in He. congruence. }
    apply map_choose in Hne as (f & m & Hm).
    pose proof (demo_inputs_cover
      (MkDemo (formData st) (form_errors (formData st)) (isSubmitting st) false (submitError st)) f)
      as Hc.
    apply Exists_exists in Hc as (p & Hp & Hpf & Hpe). simpl in Hpe.
    apply Exists_exists. exists (FormInput p).
    split; [apply list_elem_of_In, in_map, list_elem_of_In; done|].
    rewrite (FormInput_error _ p Hall) by (by rewrite Hpf). simpl. rewrite Hpf, Hm. done.
Qed.

(** ** [handleChange] *)

Lemma get_set_field fd f v : get_field (set_field fd f v) f = v.
Proof. by destruct fd, f. Qed.

Lemma get_set_field_ne fd f g v : g <> f -> get_field (set_field fd f v) g = get_field fd g.
Proof. destruct fd, f, g; simpl; congruence. Qed.

(** Editing an input sets that field, leaves the others, hides that
    field's error and leaves the other errors and the flags unchanged. *)
Theorem handleChange_spec f v st :
  get_field (formData (handleChange f v st)) f = v /\
  (forall g, g <> f -> get_field (formData (handleChange f v st)) g = get_field (formData st) g) /\
  truthy_error (errors (handleChange f v st) !! f) = false /\
  (forall g, g <> f -> errors (handleChange f v st) !! g = errors st !! g) /\
  isSubmitting (handleChange f v st) = isSubmitting st /\
  isSubmitted (handleChange f v st) = isSubmitted st /\
  submitError (handleChange f v st) = submitError st.
Proof.
  unfold handleChange. simpl. split_and!; try done.
  - apply get_set_field.
  - intros g Hg. by apply get_set_field_ne.
  - destruct (errors st !! f) as [m|] eqn:Hm; simpl; [|by rewrite Hm].
    destruct (truthy_str m) eqn:Ht; simpl.
    + by rewrite lookup_delete_eq.
    + by rewrite Hm.
  - intros g Hg. destruct (errors st !! f) as [m|]; [|done].
    destruct (truthy_str m); [|done]. by rewrite lookup_delete_ne.
Qed.

(** ** The component over time *)

Lemma finish_errors res st : errors (handleSubmit_finish res st) = errors st.
Proof.
  unfold handleSubmit_finish, after_fetch.
  destruct res as [status text|msg]; simpl; [|done]. by repeat case_match; simplify_eq.
Qed.

Lemma finish_submitting res st : isSubmitting (handleSubmit_finish res st) = false.
Proof. reflexivity. Qed.

(** The invariant of the component: the spinner is on exactly while a
    request is in flight, and every error shown is a non-empty message. *)
Definition demo_inv (w : demo_world) : Prop :=
  (isSubmitting (dw_state w) = true <-> is_Some (dw_inflight w)) /\
  map_Forall (fun _ m => truthy_str m = true) (errors (dw_state w)).

Lemma demo_inv_init : demo_inv (DemoWorld initial_state None).
Proof. split; [by split; [|intros []]|]. apply map_Forall_empty. Qed.

Lemma demo_inv_step w w' : demo_inv w -> demo_step w w' -> demo_inv w'.
Proof.
  intros [Hflight Herr] Hs.
  destruct Hs as [w f v Hs | w Hs Hsub | w b res Hb | w Hs];
    unfold demo_inv; cbn -[handleSubmit_finish handleSubmit_start handleChange].
  - split; [done|]. unfold handleChange. simpl.
    destruct (errors (dw_state w) !! f) as [m|]; [|done].
    destruct (truthy_str m); [|done]. by apply map_Forall_delete.
  - rewrite handleSubmit_start_eq. simpl.
    pose proof (form_errors_truthy (formData (dw_state w))) as Hall.
    destruct (Nat.eqb _ 0); simpl; (split; [|done]).
    + split; [done|]. intros _. done.
    + rewrite Hsub. split; [done|]. by intros [? ?].
  - split.
    + rewrite finish_submitting. split; [done|]. by intros [? ?].
    + by rewrite finish_errors.
  - done.
Qed.

(** In every state the component can reach, the spinner is on and the
    submit button disabled exactly while a request is in flight. *)
Theorem demo_spinner_iff_inflight w :
  star demo_step (DemoWorld initial_state None) w ->
  (isSubmitting (dw_state w) = true <-> is_Some (dw_inflight w)) /\
  (isSubmitted (dw_state w) = false ->
   exists banner inputs label,
     render (dw_state w) = FormCard banner inputs (bool_decide (is_Some (dw_inflight w))) label).
Proof.
  intros Hs. destruct (star_inv _ demo_inv _ _ demo_inv_step demo_inv_init Hs) as [Hf _].
  split; [done|]. intros Hsub. unfold render. rewrite Hsub. do 3 eexists. f_equal.
  destruct (isSubmitting (dw_state w)) eqn:E.
  - symmetry. apply bool_decide_eq_true. by apply Hf.
  - symmetry. apply bool_decide_eq_false. intros Hin. apply Hf in Hin. congruence.
Qed.

(** C13: The form never sends a second request while one is in flight: from
    any reachable state with a request in flight, every step keeps that
    request or consumes its response. *)
Theorem demo_no_double_submit w w' b :
  star demo_step (DemoWorld initial_state None) w ->
  dw_inflight w = Some b -> demo_step w w' ->
  dw_inflight w' = Some b \/ dw_inflight w' = None.
Proof.
  intros Hs Hb Hstep. destruct (star_inv _ demo_inv _ _ demo_inv_step demo_inv_init Hs) as [Hf _].
  destruct Hstep as [w f v _ | w _ Hsub | w b' res _ | w _]; simpl; auto.
  exfalso. assert (is_Some (dw_inflight w)) as Hin by (rewrite Hb; eauto).
  apply Hf in Hin. congruence.
Qed.

(** ** What the server accepts and the form does not *)

(** C16: The server's check is weaker than the form's: for every form whose
    full name is not empty but made only of white space, [validateForm]
    rejects it ([trim] makes the name empty), while the server's check
    accepts the same values, sent as [JSON.stringify] of the form, as
    soon as the email, company name and company size are not empty.
    Requests that do not come from the form are stored with such names. *)
Theorem server_accepts_blank_name st :
  fullName (formData st) <> EmptyString -> js_trim (fullName (formData st)) = EmptyString ->
  (validateForm st).1 = false /\
  (any_missing (formData_json (formData st)) required_fields = Ok false <->
     email (formData st) <> EmptyString /\ companyName (formData st) <> EmptyString /\
     companySize (formData st) <> EmptyString).
Proof.
  intros Hne Htrim. split.
  - destruct (validateForm st).1 eqn:E; [|done].
    apply validateForm_true, form_errors_empty in E as (E & _).
    by rewrite Htrim in E.
  - rewrite formData_json_check. tauto.
Qed.

(** ** Examples *)

Lemma sample_demo_run :
  star demo_step (DemoWorld initial_state None)
    (DemoWorld (handleSubmit_start jane_typed).1 (handleSubmit_start jane_typed).2).
Proof.
  eapply star_step; [apply (ds_change (DemoWorld initial_state None) FullName "Jane Doe"); reflexivity|].
  eapply star_step; [apply ds_change; reflexivity|].
  eapply star_step; [apply ds_change; reflexivity|].
  eapply star_step; [apply ds_change; reflexivity|].
  eapply star_step; [apply ds_submit; reflexivity|].
  apply star_refl.
Qed.

Lemma demo_submit_end_to_end_witness :
  exists st1 body s',
    handleSubmit_start jane_typed = (st1, Some body) /\
    POST sample_cwd body 0 sample_fs = (Ok (Response 200 msg_ok), s') /\
    represents sample_cwd s' (log_append (MkLog []) (stamped (formData_json (formData jane_typed)) 0)) /\
    handleSubmit_finish (of_response (Response 200 msg_ok)) st1 =
      MkDemo empty_form ∅ false true EmptyString /\
    render (handleSubmit_finish (of_response (Response 200 msg_ok)) st1) = SuccessCard.
Proof.
  apply demo_submit_end_to_end; [eval_decide | unfold can_write; eval_decide | reflexivity].
Defined.

Lemma demo_server_error_shown_witness :
  handleSubmit_finish (of_response (Response 400 msg_missing)) (handleSubmit_start jane_typed).1 =
    MkDemo (formData (handleSubmit_start jane_typed).1) (errors (handleSubmit_start jane_typed).1)
           false false "Missing required fields" /\
  (isSubmitted (handleSubmit_start jane_typed).1 = false ->
   exists inputs, render (handleSubmit_finish (of_response (Response 400 msg_missing))
                                              (handleSubmit_start jane_typed).1) =
                  FormCard (Some "Missing required fields") inputs false "Start Free Trial").
Proof. apply demo_server_error_shown; reflexivity || discriminate. Defined.

Lemma demo_submit_invalid_witness :
  handleSubmit_start initial_state =
    (MkDemo (formData initial_state) (form_errors (formData initial_state))
            (isSubmitting initial_state) false (submitError initial_state), None) /\
  exists banner inputs disabled label,
    render (handleSubmit_start initial_state).1 = FormCard banner inputs disabled label /\
    Forall (fun ri => ri_error_text ri = form_errors (formData initial_state) !! ri_name ri) inputs /\
    Exists (fun ri => is_Some (ri_error_text ri)) inputs.
Proof. apply demo_submit_invalid; reflexivity. Defined.

Lemma demo_spinner_iff_inflight_witness :
  (isSubmitting (handleSubmit_start jane_typed).1 = true <->
   is_Some (handleSubmit_start jane_typed).2) /\
  (isSubmitted (handleSubmit_start jane_typed).1 = false ->
   exists banner inputs label,
     render (handleSubmit_start jane_typed).1 =
       FormCard banner inputs (bool_decide (is_Some (handleSubmit_start jane_typed).2)) label).
Proof. apply (demo_spinner_iff_inflight (DemoWorld _ _)). exact sample_demo_run. Defined.

Lemma demo_no_double_submit_witness :
  dw_inflight (DemoWorld (handleChange Message "Hi" (handleSubmit_start jane_typed).1)
                         (handleSubmit_start jane_typed).2) =
    Some (JSON_stringify_compact (formData_json (formData jane_typed))) \/
  dw_inflight (DemoWorld (handleChange Message "Hi" (handleSubmit_start jane_typed).1)
                         (handleSubmit_start jane_typed).2) = None.
Proof.
  apply (demo_no_double_submit
           (DemoWorld (handleSubmit_start jane_typed).1 (handleSubmit_start jane_typed).2)).
  - exact sample_demo_run.
  - reflexivity.
  - apply ds_change. reflexivity.
Defined.

(** A name of two spaces, with the rest of Jane's values. *)
Definition blank_name_state : DemoState :=
  MkDemo (MkFormData "  " "jane@example.com" "Acme" "" "" "11-50" "") ∅ false false EmptyString.

Lemma server_accepts_blank_name_witness :
  (validateForm blank_name_state).1 = false /\
  any_missing (formData_json (formData blank_name_state)) required_fields = Ok false.
Proof.
  destruct (server_accepts_blank_name blank_name_state ltac:(discriminate) ltac:(reflexivity))
    as [Hv Hs].
  split; [exact Hv|]. apply Hs. split_and!; discriminate.
Defined.
