(* ===== verification/Admin.v ===== *)
(** * The admin area (src/Tech crm/src/app/admin/...)

    Three client pages share one piece of state, the browser's
    [localStorage], and move between each other with [router.push]:
    - [admin/page.tsx]: on mount, go to the dashboard if the token
      ['t-crm-admin-auth'] is set (truthy), to the login page otherwise;
    - [admin/login/page.tsx]: [handleLogin] checks the hard-coded
      credentials, stores the token ['true'] and goes to the dashboard;
    - [admin/dashboard/page.tsx]: on mount, without a token go to the
      login page; with one, fetch [/api/get-submissions] and show the
      submissions as a table; [handleLogout] removes the token.
    The browser is the record [browser] (storage and location); each
    page's React state is a record; handlers and effects are functions
    as in [DemoForm]. The dashboard's rendering is a value that may be a
    crash: React throws on an object rendered as text, and [.map] throws
    on a value that is not an array. *)

From S2P Require Import Prelude JsValue JsonText Fs Date SubmitForm GetSubmissions Store.
From S2P Require Import DemoForm Server Drain.

(** ** The browser *)

Record browser : Type := Browser {
  localStorage : gmap string string;
  location : string
}.

(** ['t-crm-admin-auth']. *)
Definition AUTH_KEY : string := "t-crm-admin-auth".

(** [localStorage.getItem(AUTH_KEY)] tested for truthiness: [null] and the
    empty string are falsy. *)
Definition has_token (b : browser) : bool :=
  match localStorage b !! AUTH_KEY with
  | Some t => truthy_str t
  | None => false
  end.

(** [router.push(url)]. *)
Definition push (url : string) (b : browser) : browser := Browser (localStorage b) url.

(** ** [admin/page.tsx] *)

Definition AdminIndex_effect (b : browser) : browser :=
  if has_token b then push "/admin/dashboard" b else push "/admin/login" b.

(** ** [admin/login/page.tsx] *)

Record LoginState : Type := MkLogin {
  username : string;
  password : string;
  login_error : string;
  login_isLoading : bool
}.

Definition login_initial : LoginState := MkLogin "" "" "" false.

(** [handleLogin]: it is [async] but awaits nothing, so it runs to its end
    at once. On success [isLoading] stays [true] while the router moves
    to the dashboard. *)
Definition handleLogin (st : LoginState) (b : browser) : LoginState * browser :=
  let st1 := MkLogin (username st) (password st) "" true in
  if negb (truthy_str (username st)) || negb (truthy_str (password st)) then
    (MkLogin (username st) (password st) "Please enter both username and password" false, b)
  else if String.eqb (username st) "admin" && String.eqb (password st) "admin123" then
    (st1, push "/admin/dashboard" (Browser (<[AUTH_KEY := "true"]> (localStorage b)) (location b)))
  else (MkLogin (username st) (password st) "Invalid credentials" false, b).

(** What the login page shows: the error banner, and the button label
    ([disabled] while loading). *)
Definition login_view (st : LoginState) : option string * bool * string :=
  (if truthy_str (login_error st) then Some (login_error st) else None,
   login_isLoading st,
   if login_isLoading st then "Logging in..." else "Log In").

(** ** [admin/dashboard/page.tsx] *)

(** The dashboard's state; [submissions] holds whatever [data.submissions]
    was at run time. *)
Record DashState : Type := MkDash {
  submissions : jvalue;
  dash_isLoading : bool;
  dash_error : option string;
  isAuthenticated : bool
}.

Definition dash_initial : DashState := MkDash (JArr []) true None false.

(** The effect on mount: without a token go to the login page and stop;
    otherwise [setIsAuthenticated(true)] and start [fetchSubmissions]
    ([setIsLoading(true)], then the request). The boolean says whether the
    request is sent. *)
Definition dashboard_mount (st : DashState) (b : browser) : DashState * browser * bool :=
  if negb (has_token b) then (st, push "/admin/login" b, false)
  else (MkDash (submissions st) true (dash_error st) true, b, true).

(** [fetchSubmissions] after [fetch] resolved or rejected: the [try], the
    [catch] ([err.message]) and the [finally]. *)
Definition fetch_body (res : fetch_result) : outcome jsError jvalue :=
  match res with
  | FetchFailed msg => Throw (TypeError msg)
  | FetchOk status text =>
      match JSON_parse text with
      | Throw e => Throw e
      | Ok data =>
          if negb (response_ok status) then
            match get_prop data "error" with
            | Throw e => Throw e
            | Ok err =>
                Throw (PlainError (if truthy_opt err then js_to_string (default JNull err)
                                   else "Failed to fetch submissions"))
            end
          else
            match get_prop data "submissions" with
            | Throw e => Throw e
            | Ok subs => Ok (if truthy_opt subs then default JNull subs else JArr [])
            end
      end
  end.

Definition dashboard_fetched (res : fetch_result) (st : DashState) : DashState :=
  match fetch_body res with
  | Ok subs => MkDash subs false None (isAuthenticated st)
  | Throw e => MkDash (submissions st) false (Some (js_error_message e)) (isAuthenticated st)
  end.

(** [handleLogout]. *)
Definition handleLogout (b : browser) : browser :=
  push "/admin/login" (Browser (delete AUTH_KEY (localStorage b)) (location b)).

(** ** What the dashboard shows *)

(** A value rendered as a React child: nothing for [null], [undefined]
    and booleans, the text of strings and numbers, the children of an
    array one after the other; an object makes React throw. *)
Fixpoint react_text (v : jvalue) : outcome jsError string :=
  match v with
  | JNull | JBool _ => Ok EmptyString
  | JStr s => Ok s
  | JNum n => Ok (Z_to_decimal n)
  | JArr xs =>
      (fix go (xs : list jvalue) : outcome jsError string :=
         match xs with
         | [] => Ok EmptyString
         | x :: xs' =>
             match react_text x, go xs' with
             | Ok a, Ok b => Ok (a +:+ b)
             | Throw e, _ | _, Throw e => Throw e
             end
         end) xs
  | JObj _ => Throw (PlainError "Objects are not valid as a React child")
  end.

Definition react_text_opt (o : option jvalue) : outcome jsError string :=
  match o with None => Ok EmptyString | Some v => react_text v end.

(** One row of the table: date, name with the job title under it when
    there is one, email, company, size. *)
Record row : Type := Row {
  row_date : string;
  row_name : string;
  row_job : option string;
  row_email : string;
  row_company : string;
  row_size : string
}.

(** [submission.f] rendered as text. *)
Definition cell (sub : jvalue) (f : string) : outcome jsError string :=
  match get_prop sub f with
  | Throw e => Throw e
  | Ok o => react_text_opt o
  end.

(** A row; [date_cell] is [new Date(submission.timestamp).toLocaleString()],
    whose text depends on the viewer's locale and time zone. *)
Definition row_of (date_cell : option jvalue -> string) (sub : jvalue) : outcome jsError row :=
  match get_prop sub "timestamp" with
  | Throw e => Throw e
  | Ok ts =>
      match cell sub "fullName", get_prop sub "jobTitle" with
      | Ok name, Ok job =>
          let job_cell := if truthy_opt job then
                            match react_text_opt job with Ok t => Ok (Some t) | Throw e => Throw e end
                          else Ok None in
          match job_cell, cell sub "email", cell sub "companyName", cell sub "companySize" with
          | Ok j, Ok em, Ok co, Ok sz => Ok (Row (date_cell ts) name j em co sz)
          | Throw e, _, _, _ | _, Throw e, _, _ | _, _, Throw e, _ | _, _, _, Throw e => Throw e
          end
      | Throw e, _ | _, Throw e => Throw e
      end
  end.

Fixpoint rows_of (date_cell : option jvalue -> string) (xs : list jvalue) : outcome jsError (list row) :=
  match xs with
  | [] => Ok []
  | x :: xs' =>
      match row_of date_cell x, rows_of date_cell xs' with
      | Ok r, Ok rs => Ok (r :: rs)
      | Throw e, _ | _, Throw e => Throw e
      end
  end.

Inductive dash_view : Type :=
  | DashSpinner                 (** not authenticated yet *)
  | DashLoading                 (** "Loading submissions..." *)
  | DashError (msg : string)    (** the error box *)
  | DashEmpty                   (** "No submissions yet." *)
  | DashTable (rows : list row).

(** The submissions part: the empty message when
    [submissions.length === 0], otherwise the table built by
    [submissions.map]. *)
Definition submissions_view (date_cell : option jvalue -> string) (subs : jvalue)
  : outcome jsError dash_view :=
  match get_prop subs "length" with
  | Throw e => Throw e
  | Ok (Some (JNum 0)) => Ok DashEmpty
  | Ok _ =>
      match subs with
      | JArr xs =>
          match rows_of date_cell xs with
          | Ok rs => Ok (DashTable rs)
          | Throw e => Throw e
          end
      | _ => Throw (TypeError "submissions.map is not a function")
      end
  end.

(** The page: the spinner until authenticated; then loading, the error
    box when [error] is truthy, or the submissions. *)
Definition dashboard_render (date_cell : option jvalue -> string) (st : DashState)
  : outcome jsError dash_view :=
  if negb (isAuthenticated st) then Ok DashSpinner
  else if dash_isLoading st then Ok DashLoading
  else match dash_error st with
       | Some msg => if truthy_str msg then Ok (DashError msg)
                     else submissions_view date_cell (submissions st)
       | None => submissions_view date_cell (submissions st)
       end.

(** ** The row a stored demo submission gives *)

(** The row of [stamped (formData_json fd) t]: the text fields of the form
    and the job title when it is not empty. *)
Definition submission_row (date_cell : option jvalue -> string) (p : FormData * Z) : row :=
  let '(fd, t) := p in
  Row (date_cell (Some (JStr (toISOString t)))) (fullName fd)
      (if truthy_str (jobTitle fd) then Some (jobTitle fd) else None)
      (email fd) (companyName fd) (companySize fd).

(** ** Sample inputs *)

(** A request that does not come from the form: the full name is an
    object. *)
Definition nested_name : jvalue :=
  JObj [("fullName", JObj [("first", JStr "Jane")]); ("email", JStr "jane@example.com");
        ("companyName", JStr "Acme"); ("companySize", JStr "11-50")].

Definition nested_name_body : string := JSON_stringify_compact nested_name.

(** A browser where someone stored any value under the key by hand. *)
Definition forged_browser : browser := Browser {[AUTH_KEY := "x"]} "/admin/dashboard".

(** ** Login and logout *)

Lemma has_token_set b : has_token (Browser (<[AUTH_KEY := "true"]> (localStorage b)) (location b)) = true.
Proof. unfold has_token. simpl. by rewrite lookup_insert_eq. Qed.

Lemma has_token_logout b : has_token (handleLogout b) = false.
Proof. unfold has_token, handleLogout. simpl. by rewrite lookup_delete_eq. Qed.

Lemma has_token_push url b : has_token (push url b) = has_token b.
Proof. reflexivity. Qed.

Lemma handleLogin_success st b :
  username st = "admin" -> password st = "admin123" ->
  handleLogin st b =
    (MkLogin "admin" "admin123" "" true,
     push "/admin/dashboard" (Browser (<[AUTH_KEY := "true"]> (localStorage b)) (location b))).
Proof. destruct st as [u p e l]. simpl. by intros -> ->. Qed.

(** C17: [handleLogin] stores the token and goes to the dashboard exactly for
    the credentials admin / admin123; with anything else the browser is
    unchanged, the button is enabled again and an error is shown. *)
Theorem handleLogin_spec st b :
  (username st = "admin" /\ password st = "admin123" ->
     has_token (handleLogin st b).2 = true /\
     location (handleLogin st b).2 = "/admin/dashboard" /\
     login_isLoading (handleLogin st b).1 = true) /\
  (~ (username st = "admin" /\ password st = "admin123") ->
     (handleLogin st b).2 = b /\ login_isLoading (handleLogin st b).1 = false /\
     truthy_str (login_error (handleLogin st b).1) = true).
Proof.
  split.
  - intros [Hu Hp]. rewrite handleLogin_success by done. simpl. split_and!; [|done|done].
    rewrite has_token_push. apply has_token_set.
  - destruct st as [u p e l]. unfold handleLogin. simpl. intros Hne.
    destruct (negb (truthy_str u) || negb (truthy_str p)); [done|].
    destruct (String.eqb_spec u "admin") as [->|], (String.eqb_spec p "admin123") as [->|];
      simpl; try done. by destruct Hne.
Qed.

(** ** The dashboard's gate *)

(** Without a token the dashboard sends no request and goes to the login
    page; with any truthy token, whatever its value and however it got
    there, it sends the request and shows the data. *)
Theorem dashboard_gate st b :
  (has_token b = false ->
     (dashboard_mount st b).2 = false /\
     location (dashboard_mount st b).1.2 = "/admin/login" /\
     dashboard_render (fun _ => EmptyString) (dashboard_mount st b).1.1 =
       dashboard_render (fun _ => EmptyString) st) /\
  (has_token b = true ->
     (dashboard_mount st b).2 = true /\ isAuthenticated (dashboard_mount st b).1.1 = true /\
     (dashboard_mount st b).1.2 = b).
Proof. unfold dashboard_mount. split; intros ->; done. Qed.

(** A session: after a successful login [/admin] goes to the dashboard;
    after logout it goes to the login page and the dashboard sends no
    request. *)
Theorem admin_session st b :
  username st = "admin" -> password st = "admin123" ->
  location (AdminIndex_effect (handleLogin st b).2) = "/admin/dashboard" /\
  location (AdminIndex_effect (handleLogout (handleLogin st b).2)) = "/admin/login" /\
  (dashboard_mount dash_initial (handleLogout (handleLogin st b).2)).2 = false.
Proof.
  intros Hu Hp. rewrite handleLogin_success by done.
  unfold AdminIndex_effect, dashboard_mount. simpl snd. rewrite has_token_logout.
  replace (has_token _) with true; [done|]. symmetry. rewrite has_token_push. apply has_token_set.
Qed.

(** ** The dashboard shows the stored submissions *)

Lemma get_ok_wf l : Forall (fun v => wf_json v = true) l ->
  wf_json (body (get_ok l)) = true.
Proof.
  intros Hl. simpl. replace (forallb wf_json l) with true; [done|]. symmetry.
  apply List.forallb_forall. intros x Hx. rewrite Forall_forall in Hl.
  apply Hl. by apply list_elem_of_In.
Qed.

(** The dashboard's request reads back the list [GET] answered. *)
Lemma fetch_body_get l : Forall (fun v => wf_json v = true) l ->
  fetch_body (of_response (get_ok l)) = Ok (JArr l).
Proof.
  intros Hl. unfold fetch_body, of_response.
  rewrite parse_stringify_compact by (by apply get_ok_wf). reflexivity.
Qed.

(** One row that throws makes the whole table throw. *)
Lemma rows_of_throws dc l x e :
  x ∈ l -> row_of dc x = Throw e -> exists e', rows_of dc l = Throw e'.
Proof.
  intros Hx He. induction l as [|y l IH]; [by apply not_elem_of_nil in Hx|].
  cbn [rows_of]. apply elem_of_cons in Hx as [->|Hx].
  - rewrite He. by eexists.
  - destruct (row_of dc y); [|by eexists]. destruct (IH Hx) as (e' & ->). by eexists.
Qed.

(** A stored submission whose full name is an object has no row. *)
Lemma row_of_object_name dc fs inner now :
  assoc_get fs "fullName" = Some (JObj inner) ->
  row_of dc (stamped (JObj fs) now) = Throw (PlainError "Objects are not valid as a React child").
Proof.
  intros Hn. unfold row_of, stamped, cell. cbn [spread_set get_prop].
  rewrite assoc_get_set_ne by discriminate. rewrite Hn. reflexivity.
Qed.

(** The dashboard over the answer of [GET] for a non-empty list that has
    an element without a row: it throws. *)
Lemma dashboard_render_throws dc st b l x e :
  has_token b = true -> Forall (fun v => wf_json v = true) l ->
  x ∈ l -> row_of dc x = Throw e ->
  exists e', dashboard_render dc (dashboard_fetched (of_response (get_ok l)) (dashboard_mount st b).1.1)
             = Throw e'.
Proof.
  intros Ht Hwf Hx He. unfold dashboard_fetched. rewrite (fetch_body_get _ Hwf).
  unfold dashboard_mount. rewrite Ht. cbn [negb fst snd].
  unfold dashboard_render, submissions_view. cbn [negb isAuthenticated dash_isLoading dash_error submissions get_prop].
  destruct (rows_of_throws dc l x e Hx He) as (e' & Hr).
  destruct l as [|y l']; [by apply not_elem_of_nil in Hx|].
  cbn [String.eqb length Ascii.eqb Bool.eqb]. rewrite Hr. by eexists.
Qed.

(** C4: End to end: with a token in the browser, the dashboard mounted over a
    disk that stores the demo submissions [P] (form values and times)
    sends its request, [GET] answers, and the page shows "No submissions
    yet." when there is none, and otherwise a table with one row per
    submission in the order they were stored. *)
Theorem dashboard_shows_log cwd s (P : list (FormData * Z)) dc st b :
  represents cwd s (MkLog (map (fun p => stamped (formData_json p.1) p.2) P)) ->
  has_token b = true ->
  exists r, GET cwd s = (Ok r, s) /\
    dashboard_render dc (dashboard_fetched (of_response r) (dashboard_mount st b).1.1) =
      Ok (match P with [] => DashEmpty | _ => DashTable (map (submission_row dc) P) end).
Proof.
  intros Hrep Ht. eexists. split; [exact (GET_read_step _ _ _ Hrep)|].
  destruct Hrep as (_ & _ & Hall). cbn [log_items] in Hall.
  unfold dashboard_fetched, log_readAll. cbn [log_items]. rewrite (fetch_body_get _ (Forall_impl _ _ _ Hall (fun _ H => proj1 H))).
  unfold dashboard_mount. rewrite Ht. cbn [negb fst snd].
  unfold dashboard_render, submissions_view.
  cbn [negb isAuthenticated dash_isLoading dash_error submissions].
  destruct P as [|p P]; [done|].
  (* the row of a stored demo submission shows its fields in order *)
  assert (Hrows : forall P', rows_of dc (map (fun p => stamped (formData_json p.1) p.2) P') =
                             Ok (map (submission_row dc) P')).
  { induction P' as [|[fd t] P' IH]; [done|]. cbn [rows_of map fst snd]. rewrite IH.
    unfold row_of, submission_row, truthy_str. simpl.
    by destruct (String.eqb (jobTitle fd) EmptyString). }
  by rewrite (Hrows (p :: P)).
Qed.

(** ** What the dashboard cannot show *)

(** C14: The server stores a submission whose full name is an object, since
    its check only asks for truthy fields: from any disk holding a JSON
    array, a [POST] of such a body answers 200; from then on, whatever the
    event loop runs (other [POST]s, [GET]s, time passing), the admin
    dashboard cannot be rendered for any viewer with a token: the table
    throws, since React throws on the object. *)
Theorem dashboard_crashes_on_object_name cwd s xs0 body now fs inner :
  stores cwd s xs0 -> can_write s cwd ->
  JSON_parse body = Ok (JObj fs) -> any_missing (JObj fs) required_fields = Ok false ->
  assoc_get fs "fullName" = Some (JObj inner) ->
  exists s', POST cwd body now s = (Ok (Response 200 msg_ok), s') /\
    forall t qs w, star (step cwd) (World s' t qs) w ->
    forall dc st b, has_token b = true ->
    exists r e, GET cwd (w_fs w) = (Ok r, w_fs w) /\
      dashboard_render dc (dashboard_fetched (of_response r) (dashboard_mount st b).1.1) = Throw e.
Proof.
  intros Hst Hw Hp Hm Hn.
  destruct (POST_stores_ok cwd s xs0 body now _ Hst Hw Hp Hm) as (s' & Hpost & Hst' & Hw').
  exists s'. split; [exact Hpost|]. intros t qs w Hs dc st b Ht.
  destruct (grows_reachable cwd _ (World s' t qs) w Hst' Hw' Hs) as (ys & Hstw & _).
  exists (get_ok ((xs0 ++ [stamped (JObj fs) now]) ++ ys)).
  destruct (dashboard_render_throws dc st b _ (stamped (JObj fs) now) _ Ht (proj2 (proj2 Hstw))
              ltac:(set_solver) (row_of_object_name dc fs inner now Hn)) as (e & He).
  exists e. split; [exact (stores_GET _ _ _ Hstw) | exact He].
Qed.

(** ** Examples *)

Lemma handleLogin_spec_witness :
  (username (MkLogin "admin" "admin123" "" false) = "admin" /\
   password (MkLogin "admin" "admin123" "" false) = "admin123" ->
     has_token (handleLogin (MkLogin "admin" "admin123" "" false) (Browser ∅ "/admin/login")).2 = true /\
     location (handleLogin (MkLogin "admin" "admin123" "" false) (Browser ∅ "/admin/login")).2 =
       "/admin/dashboard" /\
     login_isLoading (handleLogin (MkLogin "admin" "admin123" "" false) (Browser ∅ "/admin/login")).1
       = true) /\
  (~ (username (MkLogin "admin" "admin123" "" false) = "admin" /\
      password (MkLogin "admin" "admin123" "" false) = "admin123") ->
     (handleLogin (MkLogin "admin" "admin123" "" false) (Browser ∅ "/admin/login")).2 =
       Browser ∅ "/admin/login" /\
     login_isLoading (handleLogin (MkLogin "admin" "admin123" "" false) (Browser ∅ "/admin/login")).1
       = false /\
     truthy_str (login_error (handleLogin (MkLogin "admin" "admin123" "" false)
                                          (Browser ∅ "/admin/login")).1) = true).
Proof. apply handleLogin_spec. Defined.

Lemma admin_session_witness :
  location (AdminIndex_effect (handleLogin (MkLogin "admin" "admin123" "" false)
                                           (Browser ∅ "/admin/login")).2) = "/admin/dashboard" /\
  location (AdminIndex_effect (handleLogout (handleLogin (MkLogin "admin" "admin123" "" false)
                                           (Browser ∅ "/admin/login")).2)) = "/admin/login" /\
  (dashboard_mount dash_initial (handleLogout (handleLogin (MkLogin "admin" "admin123" "" false)
                                           (Browser ∅ "/admin/login")).2)).2 = false.
Proof. apply admin_session; reflexivity. Defined.

(** A browser with a hand-made token reads Jane's submission. *)
Lemma dashboard_shows_log_witness :
  exists r, GET sample_cwd (POST sample_cwd jane_body 0 sample_fs).2 =
              (Ok r, (POST sample_cwd jane_body 0 sample_fs).2) /\
    dashboard_render (fun _ => EmptyString)
      (dashboard_fetched (of_response r) (dashboard_mount dash_initial forged_browser).1.1) =
      Ok (match [(jane, 0%Z)] with
          | [] => DashEmpty
          | _ => DashTable (map (submission_row (fun _ => EmptyString)) [(jane, 0%Z)]) end).
Proof.
  apply (dashboard_shows_log _ _ [(jane, 0%Z)]); [eval_decide | reflexivity].
Defined.

(** The nested name posted on a disk with no submissions file: from then
    on the dashboard throws. *)
Definition nested_fields : list (string * jvalue) :=
  match nested_name with JObj fs => fs | _ => [] end.

Lemma dashboard_crashes_on_object_name_witness :
  exists s', POST sample_cwd nested_name_body 0 sample_fs = (Ok (Response 200 msg_ok), s') /\
    forall t qs w, star (step sample_cwd) (World s' t qs) w ->
    forall dc st b, has_token b = true ->
    exists r e, GET sample_cwd (w_fs w) = (Ok r, w_fs w) /\
      dashboard_render dc (dashboard_fetched (of_response r) (dashboard_mount st b).1.1) = Throw e.
Proof.
  apply (dashboard_crashes_on_object_name sample_cwd sample_fs [] nested_name_body 0
           nested_fields [("first", JStr "Jane")]).
  - split_and!; [right; eval_decide | eval_decide | constructor].
  - unfold can_write; eval_decide.
  - vm_compute; reflexivity.
  - vm_compute; reflexivity.
  - vm_compute; reflexivity.
Defined.
