(* ===== verification/Signup.v ===== *)
(** * The sign-up and login pages (src/Tech crm/src/app/signup/page.tsx,
      src/Tech crm/src/app/login/page.tsx)

    Neither page talks to a server: sign-up validates six inputs, waits
    1.5 s and shows a success card; login checks that both inputs are
    filled, waits 1 s and goes to [/]. Their state is React state, as in
    [DemoForm]; the [await]s split each handler at the timer. The email
    check of sign-up, [/\S+@\S+\.\S+/.test(email)], is not anchored: it
    looks for the pattern anywhere in the string; [signup_email_test] is
    a one-pass matcher proved equal to that search. *)

From S2P Require Import Prelude JsValue DemoForm.

(** ** Data of the sign-up page *)

Record SignupData : Type := MkSignupData {
  s_fullName : string;
  s_email : string;
  s_password : string;
  s_confirmPassword : string;
  s_companyName : string;
  s_agreeToTerms : bool
}.

(** [errors] and [tempErrors]: one message per input, [''] when none. *)
Record SignupErrors : Type := MkSignupErrors {
  e_fullName : string;
  e_email : string;
  e_password : string;
  e_confirmPassword : string;
  e_companyName : string;
  e_agreeToTerms : string
}.

Definition no_signup_errors : SignupErrors := MkSignupErrors "" "" "" "" "" "".

Definition signup_empty : SignupData := MkSignupData "" "" "" "" "" false.

Record SignupState : Type := MkSignup {
  s_formData : SignupData;
  s_errors : SignupErrors;
  s_isLoading : bool;
  signupSuccess : bool
}.

Definition signup_initial : SignupState := MkSignup signup_empty no_signup_errors false false.

(** ** [/\S+@\S+\.\S+/.test(email)]

    [\S] is a character that is not white space; it includes [@] and [.]. *)
Definition nonspace (c : ascii) : bool := negb (is_js_space c).

Fixpoint all_nonspace (s : string) : bool :=
  match s with
  | EmptyString => true
  | String c s' => nonspace c && all_nonspace s'
  end.

(** The longest prefix without white space. *)
Fixpoint nonspace_prefix (s : string) : string :=
  match s with
  | EmptyString => EmptyString
  | String c s' => if nonspace c then String c (nonspace_prefix s') else EmptyString
  end.

(** A run [\S+\.\S+]: a [.] that is neither its first nor its last
    character. *)
Definition dot_inside (r : string) : bool :=
  match r with
  | EmptyString => false
  | String _ t => dot_before_end t
  end.

(** The search: at each [@] preceded by a non-space character, look at the
    run of non-space characters after it. [prev] says whether the
    character before [s] is not white space. *)
Fixpoint email_search (s : string) (prev : bool) : bool :=
  match s with
  | EmptyString => false
  | String c s' =>
      (Ascii.eqb c "@" && prev && dot_inside (nonspace_prefix s')) ||
      email_search s' (nonspace c)
  end.

Definition signup_email_test (s : string) : bool := email_search s false.

(** ** [validate] *)

Definition signup_errors (fd : SignupData) : SignupErrors :=
  MkSignupErrors
    (if negb (truthy_str (s_fullName fd)) then "Full name is required" else "")
    (if negb (truthy_str (s_email fd)) then "Email is required"
     else if negb (signup_email_test (s_email fd)) then "Email is invalid" else "")
    (if negb (truthy_str (s_password fd)) then "Password is required"
     else if String.length (s_password fd) <? 8 then "Password must be at least 8 characters"
     else "")
    (if negb (truthy_str (s_confirmPassword fd)) then "Please confirm your password"
     else if negb (String.eqb (s_confirmPassword fd) (s_password fd))
     then "Passwords do not match" else "")
    (if negb (truthy_str (s_companyName fd)) then "Company name is required" else "")
    (if negb (s_agreeToTerms fd) then "You must agree to the terms and conditions" else "").

(** [isValid]: it is set to [false] exactly where a message is recorded. *)
Definition signup_isValid (fd : SignupData) : bool :=
  truthy_str (s_fullName fd) &&
  truthy_str (s_email fd) && signup_email_test (s_email fd) &&
  truthy_str (s_password fd) && negb (String.length (s_password fd) <? 8) &&
  truthy_str (s_confirmPassword fd) && String.eqb (s_confirmPassword fd) (s_password fd) &&
  truthy_str (s_companyName fd) &&
  s_agreeToTerms fd.

(** [validate()]: sets the errors and returns [isValid]. *)
Definition signup_validate (st : SignupState) : bool * SignupState :=
  (signup_isValid (s_formData st),
   MkSignup (s_formData st) (signup_errors (s_formData st)) (s_isLoading st) (signupSuccess st)).

(** ** [handleChange] *)

(** The text inputs of the page, by their [name]. *)
Inductive signup_text_field : Type :=
  | SFullName | SEmail | SPassword | SConfirmPassword | SCompanyName.

(** What [e.target] can be: a text input with its [value], or the
    checkbox [agreeToTerms] with [checked] ([type === 'checkbox']). *)
Inductive signup_event : Type :=
  | TextChange (f : signup_text_field) (value : string)
  | CheckboxChange (checked : bool).

Definition signup_set (fd : SignupData) (ev : signup_event) : SignupData :=
  let 'MkSignupData n e p c co a := fd in
  match ev with
  | TextChange SFullName v => MkSignupData v e p c co a
  | TextChange SEmail v => MkSignupData n v p c co a
  | TextChange SPassword v => MkSignupData n e v c co a
  | TextChange SConfirmPassword v => MkSignupData n e p v co a
  | TextChange SCompanyName v => MkSignupData n e p c v a
  | CheckboxChange b => MkSignupData n e p c co b
  end.

Definition signup_handleChange (ev : signup_event) (st : SignupState) : SignupState :=
  MkSignup (signup_set (s_formData st) ev) (s_errors st) (s_isLoading st) (signupSuccess st).

(** ** [handleSubmit] *)

(** Up to the timer: validate; when valid, [setIsLoading(true)] and start
    the 1.5 s timer (the boolean). *)
Definition signup_submit_start (st : SignupState) : SignupState * bool :=
  let '(ok, st1) := signup_validate st in
  if ok then (MkSignup (s_formData st1) (s_errors st1) true (signupSuccess st1), true)
  else (st1, false).

(** When the timer fires: [setSignupSuccess(true)], then [finally]
    [setIsLoading(false)]. *)
Definition signup_timer_done (st : SignupState) : SignupState :=
  MkSignup (s_formData st) (s_errors st) false true.

(** ** What the sign-up page shows *)

Inductive signup_card : Type :=
  | SignupSuccessCard
  | SignupFormCard (field_errors : list (string * string)) (button_disabled : bool)
                   (button_spinner : bool).

(** Under each input, its message when it is not empty. *)
Definition shown_errors (e : SignupErrors) : list (string * string) :=
  filter (fun kv => truthy_str kv.2 = true)
    [("fullName", e_fullName e); ("email", e_email e); ("password", e_password e);
     ("confirmPassword", e_confirmPassword e); ("companyName", e_companyName e);
     ("agreeToTerms", e_agreeToTerms e)].

Definition signup_render (st : SignupState) : signup_card :=
  if signupSuccess st then SignupSuccessCard
  else SignupFormCard (shown_errors (s_errors st)) (s_isLoading st) (s_isLoading st).

(** ** The login page *)

Record UserLoginState : Type := MkUserLogin {
  u_email : string;
  u_password : string;
  u_error : string;
  u_isLoading : bool
}.

(** [handleLogin] up to the timer: [setIsLoading(true)], [setError('')];
    with an empty input the message and [setIsLoading(false)]; otherwise
    the 1 s timer starts (the boolean). *)
Definition user_login_start (st : UserLoginState) : UserLoginState * bool :=
  if negb (truthy_str (u_email st)) || negb (truthy_str (u_password st)) then
    (MkUserLogin (u_email st) (u_password st) "Please enter both email and password" false, false)
  else (MkUserLogin (u_email st) (u_password st) "" true, true).

(** When the timer fires: [router.push('/')], then [setIsLoading(false)].
    The result is the new state and the location. *)
Definition user_login_done (st : UserLoginState) : UserLoginState * string :=
  (MkUserLogin (u_email st) (u_password st) (u_error st) false, "/").

(** ** Sample inputs *)

Definition signup_sample : SignupState :=
  MkSignup (MkSignupData "Jane Doe" "jane@example.com" "correct horse" "correct horse" "Acme" true)
           no_signup_errors false false.

Definition user_login_sample : UserLoginState := MkUserLogin "anyone@example.com" "x" "" false.

(** ** The email search decides the pattern *)

(** The strings in which [/\S+@\S+\.\S+/] finds a match: some substring
    is a non-empty run of non-space characters, [@], another, [.], and a
    third. *)
Definition signup_email_re (s : string) : Prop :=
  exists a u v w b, u <> EmptyString /\ v <> EmptyString /\ w <> EmptyString /\
    all_nonspace u = true /\ all_nonspace v = true /\ all_nonspace w = true /\
    s = a +:+ (u +:+ String "@" (v +:+ String "." (w +:+ b))).

Lemma all_nonspace_app a b : all_nonspace (a +:+ b) = all_nonspace a && all_nonspace b.
Proof.
  induction a as [|c a IH]; [done|]. rewrite sapp_cons. simpl. rewrite IH.
  by destruct (nonspace c).
Qed.

Lemma nonspace_prefix_app a b :
  all_nonspace a = true -> nonspace_prefix (a +:+ b) = a +:+ nonspace_prefix b.
Proof.
  induction a as [|c a IH]; [done|]. rewrite sapp_cons. simpl.
  intros [-> Ha]%andb_true_iff. by rewrite IH, sapp_cons.
Qed.

(** [s] splits into its longest non-space prefix and the rest. *)
Lemma nonspace_prefix_split s :
  exists rest, s = nonspace_prefix s +:+ rest /\ all_nonspace (nonspace_prefix s) = true.
Proof.
  induction s as [|c s (rest & Hs & Hall)]; [by exists EmptyString|]. simpl.
  destruct (nonspace c) eqn:Hc.
  - exists rest. rewrite sapp_cons, <- Hs. simpl. by rewrite Hc.
  - exists (String c s). done.
Qed.

Lemma dot_inside_spec r :
  dot_inside r = true <->
  exists v w, v <> EmptyString /\ w <> EmptyString /\ r = v +:+ String "." w.
Proof.
  destruct r as [|x t]; simpl.
  - split; [done|]. intros ([|? ?] & w & Hv & _ & H); [done|]. discriminate.
  - rewrite dot_before_end_spec. split.
    + intros (b & c & -> & Hc). exists (String x b), c. by rewrite sapp_cons.
    + intros ([|y v] & w & Hv & Hw & H); [done|]. rewrite sapp_cons in H.
      injection H as <- ->. eauto.
Qed.

(** The search from a position whose previous character is known. *)
Lemma email_search_spec s prev :
  email_search s prev = true <->
  exists a u v w b, (u <> EmptyString \/ (prev = true /\ a = EmptyString)) /\
    v <> EmptyString /\ w <> EmptyString /\
    all_nonspace u = true /\ all_nonspace v = true /\ all_nonspace w = true /\
    s = a +:+ (u +:+ String "@" (v +:+ String "." (w +:+ b))).
Proof.
  revert prev. induction s as [|c s IH]; intros prev.
  - split; [done|]. intros (a & u & v & w & b & Hu & _ & _ & _ & _ & _ & H).
    destruct a, u; [|discriminate..]. discriminate.
  - simpl email_search. rewrite orb_true_iff, !andb_true_iff, IH. split.
    + intros [[[Hc ->] Hd] | (a & u & v & w & b & Hu & Hv & Hw & Hau & Hav & Haw & Hs)].
      * apply Ascii.eqb_eq in Hc as ->.
        destruct (nonspace_prefix_split s) as (rest & Hs & Hall).
        apply dot_inside_spec in Hd as (v & w & Hv & Hw & Hvw).
        rewrite Hvw, all_nonspace_app in Hall. simpl in Hall.
        apply andb_true_iff in Hall as [Hav Haw].
        exists EmptyString, EmptyString, v, w, rest. split_and!; auto.
        rewrite Hs, Hvw, !sapp_assoc. done.
      * destruct Hu as [Hu | [Hnc ->]].
        -- exists (String c a), u, v, w, b. split_and!; auto. by rewrite sapp_cons, Hs.
        -- exists EmptyString, (String c u), v, w, b. split_and!; auto.
           ++ simpl. by rewrite Hnc, Hau.
           ++ by rewrite sapp_nil_l, sapp_cons, Hs.
    + intros (a & u & v & w & b & Hu & Hv & Hw & Hau & Hav & Haw & Hs).
      destruct a as [|x a].
      * destruct u as [|y u].
        -- destruct Hu as [Hu | [-> _]]; [done|]. rewrite !sapp_nil_l in Hs. injection Hs as -> ->.
           left. split_and!; [apply Ascii.eqb_refl | done |].
           rewrite nonspace_prefix_app by done. simpl.
           rewrite nonspace_prefix_app by done.
           apply dot_inside_spec. exists v, (w +:+ nonspace_prefix b).
           split_and!; [done | by destruct w |]. by rewrite <- sapp_cons.
        -- rewrite sapp_nil_l, sapp_cons in Hs. injection Hs as <- ->.
           simpl in Hau. apply andb_true_iff in Hau as [Hy Hau].
           right. exists EmptyString, u, v, w, b. rewrite Hy. split_and!; auto.
      * rewrite sapp_cons in Hs. injection Hs as <- ->.
        right. exists a, u, v, w, b. split_and!; auto.
        destruct Hu as [Hu | [_ ?]]; [by left | done].
Qed.

(** [signup_email_test] is the regular-expression test. *)
Lemma signup_email_test_re s : signup_email_test s = true <-> signup_email_re s.
Proof.
  unfold signup_email_test, signup_email_re. rewrite email_search_spec. split.
  - intros (a & u & v & w & b & [Hu | [[=] _]] & ?). exists a, u, v, w, b. auto.
  - intros (a & u & v & w & b & Hu & ?). exists a, u, v, w, b. auto.
Qed.

(** ** [validate] *)

(** [isValid] is [true] exactly when no message is recorded. *)
Lemma signup_isValid_errors fd :
  signup_isValid fd = true <-> signup_errors fd = no_signup_errors.
Proof.
  destruct fd as [n e p c co a]. unfold signup_isValid, signup_errors. simpl.
  destruct (truthy_str n), (truthy_str e), (signup_email_test e), (truthy_str p),
    (String.length p <? 8), (truthy_str c), (String.eqb c p), (truthy_str co), a;
    simpl; split; intros H; done.
Qed.

(** C19: [validate()] returns [true] exactly when the full name is filled in,
    the email contains a match of [/\S+@\S+\.\S+/], the password has at
    least 8 characters, the confirmation equals it, the company name is
    filled in and the terms are accepted. *)
Theorem signup_validate_spec st :
  (signup_validate st).1 = true <->
  s_fullName (s_formData st) <> EmptyString /\ signup_email_re (s_email (s_formData st)) /\
  8 <= String.length (s_password (s_formData st)) /\
  s_confirmPassword (s_formData st) = s_password (s_formData st) /\
  s_companyName (s_formData st) <> EmptyString /\ s_agreeToTerms (s_formData st) = true.
Proof.
  destruct st as [[n e p c co a] errs l ok]. unfold signup_validate, signup_isValid. simpl.
  rewrite !andb_true_iff, !truthy_str_true, negb_true_iff, Nat.ltb_ge, String.eqb_eq,
    signup_email_test_re.
  split.
  - intros H. intuition.
  - intros (Hn & He & Hp & -> & Hco & Ha). repeat split; try done.
    + destruct He as (x & u & v & w & b & Hu & _ & _ & _ & _ & _ & ->).
      by destruct x, u.
    + intros ->. simpl in Hp. lia.
    + intros ->. simpl in Hp. lia.
Qed.

(** Some message is shown exactly when the form is not valid. *)
Lemma shown_errors_valid fd :
  shown_errors (signup_errors fd) = [] <-> signup_isValid fd = true.
Proof.
  destruct fd as [n e p c co a]. unfold signup_isValid, signup_errors. simpl.
  destruct (truthy_str n), (truthy_str e), (signup_email_test e), (truthy_str p),
    (String.length p <? 8), (truthy_str c), (String.eqb c p), (truthy_str co), a;
    simpl; split; intros H; done.
Qed.

Lemma signup_submit_start_eq st :
  signup_submit_start st =
    if signup_isValid (s_formData st)
    then (MkSignup (s_formData st) (signup_errors (s_formData st)) true (signupSuccess st), true)
    else (MkSignup (s_formData st) (signup_errors (s_formData st)) (s_isLoading st)
                   (signupSuccess st), false).
Proof. reflexivity. Qed.

(** ** Submitting the sign-up form *)

(** C39: A valid form starts the timer with the spinner on and no message;
    when the timer fires the success card replaces the form. A form that
    is not valid starts nothing and shows at least one message. *)
Theorem signup_submit_flow st :
  signupSuccess st = false ->
  (signup_isValid (s_formData st) = true ->
     (signup_submit_start st).2 = true /\
     signup_render (signup_submit_start st).1 = SignupFormCard [] true true /\
     signup_render (signup_timer_done (signup_submit_start st).1) = SignupSuccessCard) /\
  (signup_isValid (s_formData st) = false ->
     (signup_submit_start st).2 = false /\
     exists errs, errs <> [] /\
       signup_render (signup_submit_start st).1 =
         SignupFormCard errs (s_isLoading st) (s_isLoading st)).
Proof.
  intros Hs. rewrite signup_submit_start_eq. split; intros Hv; rewrite Hv.
  - unfold signup_render. simpl. rewrite Hs. split_and!; [done| |done].
    f_equal. by apply shown_errors_valid.
  - unfold signup_render. simpl. rewrite Hs. split; [done|].
    eexists. split; [|reflexivity]. intros He. apply shown_errors_valid in He. congruence.
Qed.

(** ** The login page *)

(** The login page checks nothing but that both inputs are filled: with
    an empty input it shows a message and starts nothing; with any
    non-empty email and password it waits and goes to [/]. *)
Theorem user_login_spec st :
  ((u_email st = EmptyString \/ u_password st = EmptyString) ->
     user_login_start st =
       (MkUserLogin (u_email st) (u_password st) "Please enter both email and password" false,
        false)) /\
  (u_email st <> EmptyString -> u_password st <> EmptyString ->
     (user_login_start st).2 = true /\ u_isLoading (user_login_start st).1 = true /\
     (user_login_done (user_login_start st).1).2 = "/" /\
     u_isLoading (user_login_done (user_login_start st).1).1 = false).
Proof.
  unfold user_login_start. split.
  - by intros [-> | ->]; [|rewrite orb_true_r].
  - intros He Hp. apply truthy_str_true in He, Hp. by rewrite He, Hp.
Qed.

(** ** Examples *)

Lemma signup_submit_flow_witness :
  (signup_isValid (s_formData signup_sample) = true ->
     (signup_submit_start signup_sample).2 = true /\
     signup_render (signup_submit_start signup_sample).1 = SignupFormCard [] true true /\
     signup_render (signup_timer_done (signup_submit_start signup_sample).1) = SignupSuccessCard) /\
  (signup_isValid (s_formData signup_sample) = false ->
     (signup_submit_start signup_sample).2 = false /\
     exists errs, errs <> [] /\
       signup_render (signup_submit_start signup_sample).1 =
         SignupFormCard errs (s_isLoading signup_sample) (s_isLoading signup_sample)).
Proof. apply signup_submit_flow. reflexivity. Defined.

Lemma user_login_spec_witness :
  ((u_email user_login_sample = EmptyString \/ u_password user_login_sample = EmptyString) ->
     user_login_start user_login_sample =
       (MkUserLogin (u_email user_login_sample) (u_password user_login_sample)
                    "Please enter both email and password" false, false)) /\
  (u_email user_login_sample <> EmptyString -> u_password user_login_sample <> EmptyString ->
     (user_login_start user_login_sample).2 = true /\
     u_isLoading (user_login_start user_login_sample).1 = true /\
     (user_login_done (user_login_start user_login_sample).1).2 = "/" /\
     u_isLoading (user_login_done (user_login_start user_login_sample).1).1 = false).
Proof. apply user_login_spec. Defined.
