(* ===== verification/FormValidation.v ===== *)
(** * FormValidation: the browser's constraint validation of the site's
    forms, and the handlers it lets run.

    Every form of the site declares HTML constraints on its controls
    ([required], [type="email"]), and the browser applies them before it
    fires [submit]: a form with an invalid control is not submitted and
    its handler does not run (interactive validation).  The browser also
    sanitizes what the user types before [onChange] sees it: an email
    input drops newlines and leading and trailing ASCII whitespace, a
    text, password or tel input drops newlines.

    These algorithms are the browser's (the HTML standard's "value
    sanitization algorithm", "valid e-mail address", [valueMissing] and
    [typeMismatch]); they are modelled from the standard and are not
    entries of the map.  What the repository declares, the controls of
    each form with their types and [required] flags, is:
    - the user login page ([src/app/login/page.tsx]);
    - the demo form ([src/components/DemoForm.tsx]);
    - the sign-up page ([src/app/signup/page.tsx]);
    - the footer's newsletter form ([src/components/Footer.tsx]).

    Composed with the handlers of [Signup] and [DemoForm], the model shows
    which of their branches a browser can reach. *)

From S2P Require Import Prelude JsValue JsonText SubmitForm DemoForm Signup.

(** ** Characters and sanitization *)

Module Html.

Definition is_newline (c : ascii) : bool := Ascii.eqb c "010" || Ascii.eqb c "013".

(** ASCII whitespace: TAB, LF, FF, CR, SPACE. *)
Definition ascii_ws (c : ascii) : bool :=
  Ascii.eqb c "009" || Ascii.eqb c "010" || Ascii.eqb c "012" || Ascii.eqb c "013" ||
  Ascii.eqb c " ".

Fixpoint drop_ws (l : list ascii) : list ascii :=
  match l with
  | c :: l' => if ascii_ws c then drop_ws l' else l
  | [] => []
  end.

Definition strip_newlines (s : string) : string :=
  string_of_list_ascii (filter (fun c => negb (is_newline c)) (list_ascii_of_string s)).

(** Strip leading and trailing ASCII whitespace. *)
Definition strip_ws (s : string) : string :=
  string_of_list_ascii (rev (drop_ws (rev (drop_ws (list_ascii_of_string s))))).

(** The input types the site uses. *)
Inductive itype : Type := IText | IEmail | IPassword | ITel | ICheckbox | ISelect | ITextarea.

#[export] Instance itype_eq_dec : EqDecision itype.
Proof. solve_decision. Defined.

(** The value sanitization algorithm of each type. *)
Definition sanitize (t : itype) (raw : string) : string :=
  match t with
  | IEmail => strip_ws (strip_newlines raw)
  | IText | IPassword | ITel => strip_newlines raw
  | ICheckbox | ISelect | ITextarea => raw
  end.

(** ** Valid e-mail addresses

    [1*( atext / "." ) "@" label *( "." label )], a label being a letter
    or digit, optionally followed by up to 61 letters, digits or hyphens
    and a letter or digit. *)

Definition is_alnum (c : ascii) : bool :=
  let n := nat_of_ascii c in
  (Nat.leb 48 n && Nat.leb n 57) || (Nat.leb 65 n && Nat.leb n 90) || (Nat.leb 97 n && Nat.leb n 122).

Definition atext_special : list ascii :=
  list_ascii_of_string "!#$%&'*+/=?^_`{|}~-".

Definition local_char (c : ascii) : bool :=
  is_alnum c || Ascii.eqb c "." || existsb (Ascii.eqb c) atext_special.

Definition ldh_char (c : ascii) : bool := is_alnum c || Ascii.eqb c "-".

Definition valid_label (l : list ascii) : bool :=
  match l with
  | [] => false
  | c :: _ => is_alnum c && is_alnum (default c (last l)) && forallb ldh_char l &&
              Nat.leb (length l) 63
  end.

(** The pieces of [l] between the occurrences of [sep]. *)
Fixpoint split_on (sep : ascii) (l : list ascii) : list (list ascii) :=
  match l with
  | [] => [[]]
  | c :: l' =>
      if Ascii.eqb c sep then [] :: split_on sep l'
      else match split_on sep l' with
           | p :: ps => (c :: p) :: ps
           | [] => [[c]]
           end
  end.

Definition valid_email_address (s : string) : bool :=
  match split_on "@" (list_ascii_of_string s) with
  | [loc; dom] => negb (bool_decide (loc = [])) && forallb local_char loc &&
                  forallb valid_label (split_on "." dom)
  | _ => false
  end.

(** ** Controls and forms *)

(** A control as the validation sees it: its type, [required], its
    current value and, for a checkbox, whether it is checked.  A required
    [select] is missing a value when its placeholder option (the first,
    with value [""]) is selected; the site's selects give every other
    option a non-empty value, so this is the value [""]. *)
Record control : Type := Control {
  c_type : itype;
  c_required : bool;
  c_value : string;
  c_checked : bool
}.

Definition value_missing (c : control) : bool :=
  c_required c &&
  match c_type c with
  | ICheckbox => negb (c_checked c)
  | _ => String.eqb (c_value c) ""
  end.

Definition type_mismatch (c : control) : bool :=
  bool_decide (c_type c = IEmail) && negb (String.eqb (c_value c) "") &&
  negb (valid_email_address (c_value c)).

Definition control_valid (c : control) : bool := negb (value_missing c) && negb (type_mismatch c).

(** Interactive validation: [submit] fires only when every control is
    valid. *)
Definition form_valid (cs : list control) : bool := forallb control_valid cs.

End Html.

(** ** The user login page in a browser (src/app/login/page.tsx) *)

Module LoginBrowser.
Import Html.

(** The form's controls, lines 64-110: the email input ([type="email"],
    [required]), the password input ([required]) and the uncontrolled
    remember-me checkbox, which nothing reads. *)
Definition login_controls (st : UserLoginState) (remember : bool) : list control :=
  [Control IEmail true (u_email st) false; Control IPassword true (u_password st) false;
   Control ICheckbox false "on" remember].

(** The page in the browser: its React state, the checkbox, the pending
    1 s timer of [handleLogin] and the location. *)
Record LoginWorld : Type := LoginW {
  lw_state : UserLoginState;
  lw_remember : bool;
  lw_timer : bool;
  lw_location : string
}.

Definition lw_initial : LoginWorld := LoginW (MkUserLogin "" "" "" false) false false "/login".

(** Lines 73 and 93: [setEmail(e.target.value)], [setPassword(...)], with
    the value the browser sanitized. *)
Definition setEmail (raw : string) (st : UserLoginState) : UserLoginState :=
  MkUserLogin (sanitize IEmail raw) (u_password st) (u_error st) (u_isLoading st).

Definition setPassword (raw : string) (st : UserLoginState) : UserLoginState :=
  MkUserLogin (u_email st) (sanitize IPassword raw) (u_error st) (u_isLoading st).

(** The user types, toggles the checkbox or submits while the page is
    shown; a submission needs the button enabled ([disabled={isLoading}]:
    implicit submission does nothing while the default button is
    disabled) and the constraints met; the timer fires. *)
Inductive login_step (w : LoginWorld) : LoginWorld -> Prop :=
| ls_email raw : lw_location w = "/login" ->
    login_step w (LoginW (setEmail raw (lw_state w)) (lw_remember w) (lw_timer w) (lw_location w))
| ls_password raw : lw_location w = "/login" ->
    login_step w (LoginW (setPassword raw (lw_state w)) (lw_remember w) (lw_timer w) (lw_location w))
| ls_remember : lw_location w = "/login" ->
    login_step w (LoginW (lw_state w) (negb (lw_remember w)) (lw_timer w) (lw_location w))
| ls_submit : lw_location w = "/login" -> u_isLoading (lw_state w) = false ->
    form_valid (login_controls (lw_state w) (lw_remember w)) = true ->
    login_step w (LoginW (user_login_start (lw_state w)).1 (lw_remember w)
                         (user_login_start (lw_state w)).2 (lw_location w))
| ls_timer : lw_timer w = true ->
    login_step w (LoginW (user_login_done (lw_state w)).1 (lw_remember w) false
                         (user_login_done (lw_state w)).2).

Definition login_reachable : LoginWorld -> Prop := star login_step lw_initial.

(** What the page shows, lines 42-118: its heading, the error box
    ([{error && ...}]), and the submit button's [disabled] and label. *)
Record LoginView : Type := LoginV {
  lv_heading : string * string;
  lv_error_box : option string;
  lv_disabled : bool;
  lv_label : string
}.

Definition login_view (st : UserLoginState) : LoginView :=
  LoginV ("Welcome Back", "Log in to your T-CRM account")
         (if truthy_str (u_error st) then Some (u_error st) else None)
         (u_isLoading st)
         (if u_isLoading st then "Logging in..." else "Log In").

End LoginBrowser.

(** ** The demo form in a browser (src/components/DemoForm.tsx) *)

Module DemoBrowser.
Import Html.

(** [FormInput] renders an [input] of the given [type], a [select] or a
    [textarea] (lines 69-103); its [required] prop only draws the star
    (line 67) and is not passed to the element, so no control is
    [required] for the browser. *)
Definition itype_of (t : string) : itype :=
  if String.eqb t "email" then IEmail
  else if String.eqb t "tel" then ITel
  else if String.eqb t "select" then ISelect
  else if String.eqb t "textarea" then ITextarea
  else IText.

Definition input_control (p : input_props) : control :=
  Control (itype_of (ip_type p)) false (ip_value p) false.

Definition demo_controls (st : DemoState) : list control := map input_control (demo_inputs st).

(** The type of each field's control, as [demo_inputs] gives it. *)
Definition field_itype (f : field) : itype :=
  match f with
  | FullName | CompanyName | JobTitle => IText
  | Email => IEmail
  | PhoneNumber => ITel
  | CompanySize => ISelect
  | Message => ITextarea
  end.

(** [DemoForm.demo_step] in a browser: [handleChange] receives the value
    the browser sanitized, and a submission needs the constraints met. *)
Inductive demo_browser_step : demo_world -> demo_world -> Prop :=
  | dbs_change w f raw :
      isSubmitted (dw_state w) = false ->
      demo_browser_step w (DemoWorld (handleChange f (sanitize (field_itype f) raw) (dw_state w))
                                     (dw_inflight w))
  | dbs_submit w :
      isSubmitted (dw_state w) = false -> isSubmitting (dw_state w) = false ->
      form_valid (demo_controls (dw_state w)) = true ->
      demo_browser_step w (DemoWorld (handleSubmit_start (dw_state w)).1
                                     (handleSubmit_start (dw_state w)).2)
  | dbs_response w body res :
      dw_inflight w = Some body ->
      demo_browser_step w (DemoWorld (handleSubmit_finish res (dw_state w)) None)
  | dbs_another w :
      isSubmitted (dw_state w) = true ->
      demo_browser_step w (DemoWorld (submitAnother (dw_state w)) (dw_inflight w)).

Definition demo_browser_reachable : demo_world -> Prop :=
  star demo_browser_step (DemoWorld initial_state None).

End DemoBrowser.

(** ** The footer's newsletter form (src/components/Footer.tsx) *)

Module Newsletter.
Import Html.

(** Lines 146-158: a [form] with neither [action] nor [onSubmit] around
    one [required] email input with no [name]. *)
Definition newsletter_controls (v : string) : list control := [Control IEmail true v false].

(** The part of a URL before its query and fragment. *)
Fixpoint url_base (u : string) : string :=
  match u with
  | String c u' => if Ascii.eqb c "?" || Ascii.eqb c "#" then "" else String c (url_base u')
  | EmptyString => ""
  end.

(** Submitting: the browser's GET submission to the document's own URL,
    with the query replaced by the encoded entries of the named controls
    (there are none) and no fragment; [None] when the constraints block it. *)
Definition newsletter_submit (page_url v : string) : option string :=
  if form_valid (newsletter_controls v) then Some (url_base page_url +:+ "?") else None.

End Newsletter.

(** ** What the constraints let through *)

Module FormProofs.
Import Html LoginBrowser DemoBrowser Newsletter.

(** A required text-like control is valid only with a non-empty value. *)
Lemma required_filled t v ch :
  t <> ICheckbox -> control_valid (Control t true v ch) = true -> truthy_str v = true.
Proof.
  intros Ht; unfold control_valid, value_missing, truthy_str; cbn.
  destruct t; try congruence; destruct (String.eqb v ""); done.
Qed.

(** A control that is not required and not an email input is valid. *)
Lemma optional_valid t v ch : t <> IEmail -> control_valid (Control t false v ch) = true.
Proof.
  intros Ht; unfold control_valid, type_mismatch; cbn.
  by rewrite bool_decide_eq_false_2.
Qed.

Lemma login_valid_filled st r :
  form_valid (login_controls st r) = true ->
  truthy_str (u_email st) = true /\ truthy_str (u_password st) = true.
Proof.
  cbn; intros [He [Hp _]%andb_true_iff]%andb_true_iff.
  split; [exact (required_filled IEmail _ _ ltac:(done) He)
         |exact (required_filled IPassword _ _ ltac:(done) Hp)].
Qed.

(** No error message is shown, and the page is loading exactly while the
    timer of [handleLogin] is pending. *)
Definition login_inv (w : LoginWorld) : Prop :=
  u_error (lw_state w) = "" /\ u_isLoading (lw_state w) = lw_timer w.

Lemma login_step_inv w w' : login_inv w -> login_step w w' -> login_inv w'.
Proof.
  intros [He Hl]; destruct 1 as [raw _|raw _|_|_ _ Hv|_]; cbn; try done.
  destruct (login_valid_filled _ _ Hv) as [Hem Hpw].
  unfold user_login_start; by rewrite Hem, Hpw.
Qed.

Lemma login_reachable_inv w : login_reachable w -> login_inv w.
Proof. apply star_inv; [exact login_step_inv | done]. Qed.

(** C18: The login page in a browser: the constraints on its two inputs keep
    [handleLogin] out of its "Please enter both email and password"
    branch, so no error is ever shown; the page is loading exactly while
    its timer is pending, and the timer then takes it to [/] whatever was
    typed. *)
Theorem login_browser_spec w :
  login_reachable w ->
  u_error (lw_state w) = "" /\ u_isLoading (lw_state w) = lw_timer w /\
  (lw_timer w = true ->
     exists w', login_step w w' /\ lw_location w' = "/" /\ u_isLoading (lw_state w') = false).
Proof.
  intros [He Hl]%login_reachable_inv; split_and!; [done|done|].
  intros Ht; eexists; split; [by apply ls_timer|done].
Qed.

(** The page never shows its error box, and its button is disabled and
    reads "Logging in..." exactly while the timer is pending. *)
Lemma login_view_spec w :
  login_reachable w ->
  lv_error_box (login_view (lw_state w)) = None /\
  lv_disabled (login_view (lw_state w)) = lw_timer w /\
  lv_label (login_view (lw_state w)) = if lw_timer w then "Logging in..." else "Log In".
Proof.
  intros [He Hl]%login_reachable_inv; unfold login_view; cbn.
  rewrite He, Hl; by split_and!.
Qed.

(** The demo form in a browser: of its seven controls only the email
    input constrains the submission, and only by its type; the fields
    marked with a star are not [required] for the browser. *)
Theorem demo_browser_checks_email_only st :
  form_valid (demo_controls st) =
    negb (truthy_str (email (formData st))) || valid_email_address (email (formData st)).
Proof.
  unfold demo_controls, demo_inputs, form_valid, control_valid, value_missing, type_mismatch,
    input_control, itype_of, truthy_str; simpl.
  by destruct (String.eqb (email (formData st)) ""), (valid_email_address (email (formData st))).
Qed.

Lemma truthy_trim s : truthy_str (js_trim s) = true -> truthy_str s = true.
Proof. by destruct s. Qed.

(** Every request in flight carries a form whose email passes both checks. *)
Definition sent_valid (w : demo_world) : Prop :=
  forall b, dw_inflight w = Some b ->
  exists fd, b = JSON_stringify_compact (formData_json fd) /\
             valid_email_address (email fd) = true /\ email_test (email fd) = true.

Lemma demo_browser_step_sent w w' : sent_valid w -> demo_browser_step w w' -> sent_valid w'.
Proof.
  intros Hw; destruct 1 as [w f raw _|w _ _ Hv|w body res _|w _]; try exact Hw;
    [|by intros b' ?].
  unfold sent_valid; rewrite handleSubmit_start_eq; cbv zeta.
  destruct (validateForm (dw_state w)).1 eqn:Hok; cbn [fst snd dw_inflight]; [|done].
  intros b [= <-]; exists (formData (dw_state w)); split; [reflexivity|].
  apply validateForm_true, form_errors_empty in Hok as (_ & He & Ht & _).
  rewrite demo_browser_checks_email_only, (truthy_trim _ He) in Hv.
  by split.
Qed.

(** C22: The demo form run in a browser only ever sends an email that both the
    browser's [type="email"] grammar and [validateForm]'s pattern accept. *)
Theorem demo_browser_sends_valid_email w b :
  demo_browser_reachable w -> dw_inflight w = Some b ->
  exists fd, b = JSON_stringify_compact (formData_json fd) /\
             valid_email_address (email fd) = true /\ email_test (email fd) = true.
Proof.
  intros Hr; revert b; change (sent_valid w).
  apply (star_inv demo_browser_step sent_valid (DemoWorld initial_state None) w demo_browser_step_sent); [by intros b'|exact Hr].
Qed.

(** The newsletter form submits exactly when the address is a valid
    e-mail address, and then always to the page's own URL with an empty
    query: the address is sent nowhere. *)
Theorem newsletter_submit_spec page v :
  newsletter_submit page v =
    if truthy_str v && valid_email_address v then Some (url_base page +:+ "?") else None.
Proof.
  unfold newsletter_submit, newsletter_controls, form_valid, control_valid, value_missing,
    type_mismatch, truthy_str; simpl.
  by destruct (String.eqb v ""), (valid_email_address v).
Qed.

(** The two email checks of the demo form disagree both ways: the
    browser submits [a@b], which [validateForm] rejects, and blocks
    [a(b@c.d], which [validateForm] would send. *)
Lemma demo_email_checks_differ :
  valid_email_address "a@b" = true /\ email_test "a@b" = false /\
  valid_email_address "a(b@c.d" = false /\ email_test "a(b@c.d" = true.
Proof. vm_compute; auto. Qed.

(** ** Witnesses *)

(** Type an address and a password, then submit. *)
Definition lw_typed : LoginWorld :=
  LoginW (setPassword "secret" (setEmail " jane@example.com " (lw_state lw_initial))) false false "/login".

Definition lw_submitted : LoginWorld :=
  LoginW (user_login_start (lw_state lw_typed)).1 false (user_login_start (lw_state lw_typed)).2 "/login".

Lemma lw_submitted_reachable : login_reachable lw_submitted.
Proof.
  eapply star_step; [apply (ls_email lw_initial " jane@example.com "); done|].
  eapply star_step; [apply (ls_password _ "secret"); done|].
  eapply star_step; [apply ls_submit; [done|done|vm_compute; done]|].
  apply star_refl.
Qed.

Lemma login_browser_spec_witness :
  login_reachable lw_submitted /\ lw_timer lw_submitted = true /\
  exists w', login_step lw_submitted w' /\ lw_location w' = "/" /\ u_isLoading (lw_state w') = false.
Proof.
  split; [exact lw_submitted_reachable|]; split; [vm_compute; reflexivity|].
  destruct (login_browser_spec lw_submitted lw_submitted_reachable) as (_ & _ & H).
  apply H; vm_compute; reflexivity.
Defined.

(** Jane fills in the four starred fields in a browser and submits. *)
Definition dw_filled : demo_world :=
  DemoWorld (handleChange CompanySize (sanitize ISelect "11-50")
              (handleChange CompanyName (sanitize IText "Acme")
                (handleChange Email (sanitize IEmail " jane@example.com")
                  (handleChange FullName (sanitize IText "Jane Doe") initial_state)))) None.

Definition dw_sent : demo_world :=
  DemoWorld (handleSubmit_start (dw_state dw_filled)).1 (handleSubmit_start (dw_state dw_filled)).2.

Lemma dw_sent_reachable : demo_browser_reachable dw_sent.
Proof.
  eapply star_step; [apply (dbs_change (DemoWorld initial_state None) FullName "Jane Doe"); done|].
  eapply star_step; [apply (dbs_change _ Email " jane@example.com"); done|].
  eapply star_step; [apply (dbs_change _ CompanyName "Acme"); done|].
  eapply star_step; [apply (dbs_change _ CompanySize "11-50"); done|].
  eapply star_step; [apply dbs_submit; [done|done|vm_compute; done]|].
  apply star_refl.
Qed.

Lemma demo_browser_sends_valid_email_witness :
  demo_browser_reachable dw_sent /\
  exists b, dw_inflight dw_sent = Some b /\
    exists fd, b = JSON_stringify_compact (formData_json fd) /\
               valid_email_address (email fd) = true /\ email_test (email fd) = true.
Proof.
  split; [exact dw_sent_reachable|].
  eexists; split; [vm_compute; reflexivity|].
  apply (demo_browser_sends_valid_email dw_sent); [exact dw_sent_reachable | vm_compute; reflexivity].
Defined.

End FormProofs.
