(* ===== verification/SeqLib.v ===== *)
(** * SeqLib: the MathComp side of the development.

    The client-side sections of the landing page (the FAQ accordion, the
    pricing table, the testimonial carousel) are list processing over
    constant arrays plus a little React state.  They are modelled with
    MathComp's [seq] library and SSReflect, which is why they live in
    files that do not load the stdpp-based [Prelude].  This file holds what
    those files share:
    - an [eqType] structure on [String.string], so that the code's
      [===] on strings is [==] and [Array.prototype.includes] is [\in];
    - [mapi], the model of [Array.prototype.map] with the index argument
      ([xs.map((x, i) => ...)]), with its concatenation and shift lemmas;
    - [reachable], the states a React component can reach from its initial
      state by a step relation, with its induction principle for
      invariants;
    - the entrance animations the sections share: the in-view test of
      [useInView({ triggerOnce: true, threshold: 0.1 })], a motion target
      (opacity and vertical offset), and the schedule a container's
      [delayChildren]/[staggerChildren] gives its [k]-th child. *)

From HB Require Import structures.
From mathcomp Require Import boot.
From Stdlib Require Import String BinInt.

Set Implicit Arguments.
Unset Strict Implicit.
Unset Printing Implicit Defensive.

(** [===] on strings. *)
HB.instance Definition _ := hasDecEq.Build string String.eqb_spec.

(** [xs.map((x, i) => f(i, x))], with indices starting at [n]. *)
Fixpoint mapi_from {A B : Type} (f : nat -> A -> B) (n : nat) (s : seq A)
  : seq B :=
  match s with
  | [::] => [::]
  | x :: s' => f n x :: mapi_from f n.+1 s'
  end.

Definition mapi {A B : Type} (f : nat -> A -> B) (s : seq A) : seq B :=
  mapi_from f 0 s.

(** The states reachable from [init] by [step]. *)
Inductive reachable {S : Type} (step : S -> S -> Prop) (init : S) : S -> Prop :=
| reach_init : reachable step init init
| reach_step s s' : reachable step init s -> step s s' -> reachable step init s'.

Section Mapi.
Variables (A B : Type) (f : nat -> A -> B).

Lemma size_mapi_from n s : size (mapi_from f n s) = size s.
Proof. by elim: s n => [|x s IH] n //=; rewrite IH. Qed.

Lemma mapi_from_cat n s1 s2 :
  mapi_from f n (s1 ++ s2) = mapi_from f n s1 ++ mapi_from f (n + size s1) s2.
Proof.
  elim: s1 n => [|x s1 IH] n /=; first by rewrite addn0.
  by rewrite IH addSnnS.
Qed.

(** Shifting the index inside [f] is starting the count later. *)
Lemma mapi_from_shift m n s :
  mapi_from (fun i => f (i + m)) n s = mapi_from f (n + m) s.
Proof. by elim: s n => [|x s IH] n //=; rewrite IH addSn. Qed.

Lemma mapi_from_map n s :
  mapi_from f n s = [seq f i.1 i.2 | i <- zip (iota n (size s)) s].
Proof. by elim: s n => [|x s IH] n //=; rewrite IH. Qed.

Lemma nth_mapi_from x0 y0 n s i :
  i < size s -> nth y0 (mapi_from f n s) i = f (n + i) (nth x0 s i).
Proof.
  elim: s n i => [|x s IH] n [|i] //=; first by rewrite addn0.
  by move=> Hi; rewrite IH // addSnnS.
Qed.

(** Every element of [mapi_from f n s] is [f i x] for an index [i] in
    range and an element [x] of [s]. *)
Lemma In_mapi_from n s y :
  List.In y (mapi_from f n s) ->
  exists i x, n <= i < n + size s /\ List.In x s /\ y = f i x.
Proof.
  elim: s n => [|x s IH] n //= [<-|Hy].
  - by exists n, x; rewrite leqnn addnS ltnS leq_addr; auto.
  - have [i [z [/andP [Hn Hi] [Hz ->]]]] := IH _ Hy.
    exists i, z; split; last by auto.
    by rewrite (ltnW Hn) /= addnS -addSn.
Qed.

End Mapi.

(** [mapi] with a function of the index alone counts. *)
Lemma mapi_from_index {A : Type} n (s : seq A) :
  mapi_from (fun i (_ : A) => i) n s = iota n (size s).
Proof. by elim: s n => [|x s IH] n //=; rewrite IH. Qed.

(** [List.In] on MathComp's [map]. *)
Lemma In_map {A B : Type} (f : A -> B) (s : seq A) (y : B) :
  List.In y [seq f x | x <- s] -> exists x, List.In x s /\ y = f x.
Proof.
  elim: s => [|x s IH] //= [<-|/IH [z [Hz ->]]]; first by exists x; auto.
  by exists z; auto.
Qed.

(** An element's image is in the image of the list. *)
Lemma In_map_mem {A : Type} {B : eqType} (f : A -> B) (s : seq A) (x : A) :
  List.In x s -> f x \in [seq f y | y <- s].
Proof.
  elim: s => [|y s IH] //= [->|/IH H]; first by rewrite in_cons eqxx.
  by rewrite in_cons H orbT.
Qed.

Section Reachable.
Variables (S : Type) (step : S -> S -> Prop) (init : S) (P : S -> Prop).

(** An invariant established by [init] and kept by every step holds in
    every reachable state. *)
Lemma reachable_ind_inv :
  P init -> (forall s s', P s -> step s s' -> P s') ->
  forall s, reachable step init s -> P s.
Proof. by move=> H0 HS s; elim=> [|x y _ IH Hxy] //; exact: HS Hxy. Qed.

Lemma reachable_trans s s' :
  reachable step init s -> reachable step s s' -> reachable step init s'.
Proof. by move=> Hs; elim=> [|x y _ IH Hxy] //; exact: reach_step Hxy. Qed.

End Reachable.

(** ** Entrances *)

(** An observer report with the ratio [p/q] ([q > 0]) puts an element in
    view when it intersects with a ratio of at least the threshold
    [thr.1 / thr.2] ([useInView]'s [threshold] option). *)
Definition inView_at (thr : nat * nat) (p q : nat) : bool := (0 < p) && (q * thr.1 <= p * thr.2).

(** [inView] after a report: with [triggerOnce] the observer is
    disconnected once the element is in view. *)
Definition observe_once (thr : nat * nat) (inView : bool) (p q : nat) : bool :=
  inView || inView_at thr p q.

(** A motion target: opacity and vertical offset in pixels. *)
Record target := { t_opacity : nat; t_y : Z }.

Definition rest : target := {| t_opacity := 1; t_y := 0%Z |}.

Definition at_rest (t : target) : bool := (t_opacity t == 1) && Z.eqb (t_y t) 0.

(** The [k]-th child of a container with [delayChildren] [d] and
    [staggerChildren] [s], whose own transition lasts [dur] (all in ms):
    when it starts and when it ends. *)
Definition stagger (d s dur k : nat) : nat * nat := (d + s * k, d + s * k + dur).

(** A variant set with a [hidden] target and [visible] at rest: the target
    the label selects. *)
Definition variant (hidden : target) (label : string) : target :=
  if label == "visible"%string then rest else hidden.

(** ** Entrances started by animation controls

    [useInView({ triggerOnce: true, threshold })] on a wrapper, and the
    effect [if (inView) controls.start('visible')] on [[controls, inView]]
    ([initial="hidden"]). *)
Section Controls.
Variable thr : nat * nat.

Record AState := { inView : bool; controls : string }.

Definition a_initial : AState := {| inView := false; controls := "hidden"%string |}.

Definition observe (p q : nat) (st : AState) : AState :=
  {| inView := observe_once thr (inView st) p q; controls := controls st |}.

Definition controls_effect (st : AState) : AState :=
  if inView st then {| inView := true; controls := "visible"%string |} else st.

(** A render after a report: the effect runs when its dependency [inView]
    changed ([controls] is stable). *)
Definition a_report (p q : nat) (st : AState) : AState :=
  let st' := observe p q st in
  if inView st' != inView st then controls_effect st' else st'.

Inductive a_step (st : AState) : AState -> Prop :=
| a_observe p q : 0 < q -> a_step st (a_report p q st).

Definition a_reachable : AState -> Prop := reachable a_step a_initial.

(** The controls have started [visible] exactly when the wrapper is in view. *)
Definition a_inv (st : AState) : Prop :=
  controls st = (if inView st then "visible" else "hidden")%string.

Lemma a_step_inv st st' : a_inv st -> a_step st st' -> a_inv st'.
Proof.
  case: st => [v c]; rewrite /a_inv /= => -> [p q _]; rewrite /a_report /observe /=.
  by case: v => //=; case: (inView_at thr p q).
Qed.

Lemma a_reachable_inv st : a_reachable st -> a_inv st.
Proof.
  move=> Hst; apply: (reachable_ind_inv (P := a_inv) _ _ Hst) => //.
  exact: a_step_inv.
Qed.

Lemma a_step_keeps_inView st st' : inView st -> a_step st st' -> st' = st.
Proof. by case: st => [v c] /= -> [p q _]. Qed.

(** What a reachable state shows: a variant at rest exactly when in view,
    and nothing moves any more once in view. *)
Lemma a_reachable_variant st (hidden : target) :
  a_reachable st ->
  variant hidden (controls st) = (if inView st then rest else hidden) /\
  (inView st -> forall st', a_step st st' -> st' = st).
Proof.
  move=> /a_reachable_inv; case: st => [[] c]; rewrite /a_inv /= => ->; split=> //.
  by move=> _ st' /a_step_keeps_inView; apply.
Qed.

End Controls.
