(* ===== verification/FAQ.v ===== *)
(** * FAQ: the FAQ accordion, [src/components/FAQSection.tsx].

    The section renders the constant array [faqs] twice: once as a single
    column for small screens ([md:hidden]) and once as two columns for
    desktop, split by [faqColumns] at [Math.ceil(faqs.length / 2)].  Its
    only state is [openItems : number[]], changed by [toggleItem(index)]
    on a click of an item's button.  Each rendered item is modelled as a
    [faq_item] record carrying what the JSX computes from the state: its
    React key, its question, the chevron's rotation, the answer panel
    (present only while the item is open) and the index its [onClick]
    passes to [toggleItem].  Module [FAQEntrance] models the entrance
    on [inView]: the variants, the stagger schedule of both layouts and
    the support box.

    Theorems: the desktop view computes the same global index for every
    item as the mobile view ([desktop_view_eq_mobile]); a click flips the
    open state of exactly the clicked item ([toggleItem_flips]); every
    reachable [openItems] is duplicate-free and names existing items
    ([faq_reachable_inv]); closing then reopening an item restores the set
    of open items, though not their order ([toggleItem_twice]); both
    layouts give each question the same entrance schedule
    ([faq_entrance_spec]). *)

From HB Require Import structures.
From mathcomp Require Import boot.
From Stdlib Require Import String BinInt.
From S2P Require Import SeqLib.


Open Scope string_scope.

Module FAQ.

(** ** Data (lines 9-48) *)

Record faq := Faq { question : string; answer : string }.

Definition faqs : seq faq :=
[::
  Faq "How does the free trial work?"
      "Our free trial gives you full access to all T-CRM features for 14 days with no credit card required. You can explore all features, add your team members, and import your data. At the end of the trial, you can choose a plan that fits your needs or extend your trial if you need more time to evaluate.";
  Faq "Can I switch plans later?"
      "Yes, you can upgrade or downgrade your plan at any time. When upgrading, the new features will be immediately available and we'll prorate the cost. When downgrading, the changes will take effect at the start of your next billing cycle.";
  Faq "Is there a limit to how many team members I can add?"
      "The number of team members depends on your plan. The Starter plan supports up to 5 team members, the Professional plan supports up to 20, and the Enterprise plan offers unlimited team members. Each team member gets their own login credentials and permissions can be customized based on their role.";
  Faq "How does T-CRM handle data security and privacy?"
      "We take data security and privacy very seriously. T-CRM is GDPR and CCPA compliant, and we use industry-standard encryption for all data both in transit and at rest. We implement regular security audits, two-factor authentication, and role-based access controls. For Enterprise customers, we also offer custom security configurations and data residency options.";
  Faq "Can I import my existing customer data?"
      "Absolutely! T-CRM supports importing data from CSV files, Excel spreadsheets, and direct integrations with many popular CRM systems. Our import wizard makes it easy to map your existing fields to T-CRM, and our support team is available to help with more complex migrations or large datasets.";
  Faq "What kind of support do you offer?"
      "All plans include email support with response times based on your plan level. The Professional plan adds live chat support during business hours, while Enterprise customers receive 24/7 priority support, a dedicated account manager, and regular strategy sessions. We also provide extensive documentation, video tutorials, and monthly webinars for all customers.";
  Faq "Does T-CRM integrate with other tools?"
      "Yes, T-CRM integrates with a wide range of business tools including email platforms (Gmail, Outlook), marketing automation tools (Mailchimp, HubSpot), accounting software (QuickBooks, Xero), communication tools (Slack, Microsoft Teams), and many more. We also offer an API for custom integrations and support Zapier for connecting with 3,000+ other applications.";
  Faq "What happens to my data if I cancel my subscription?"
      "If you cancel your subscription, you'll have 30 days to export your data before it's permanently removed from our systems. We provide export tools to help you retrieve your data in standard formats like CSV or JSON. After the 30-day period, all your data will be securely deleted according to our data retention policy."].

(** [Math.ceil(n / 2)] on a natural number. *)
Definition ceil_half (n : nat) : nat := n %/ 2 + n %% 2.

(** [[l.slice(0, k), l.slice(k)]] with [k = Math.ceil(l.length / 2)]. *)
Definition faqColumns_of (l : seq faq) : seq (seq faq) :=
  [:: take (ceil_half (size l)) l; drop (ceil_half (size l)) l].

Definition faqColumns : seq (seq faq) := faqColumns_of faqs.

(** ** State and handler (lines 51, 57-63) *)

(** [prevOpenItems.includes(index) ? prevOpenItems.filter(i => i !== index)
    : [...prevOpenItems, index]]. *)
Definition toggleItem (index : nat) (prevOpenItems : seq nat) : seq nat :=
  if index \in prevOpenItems
  then [seq i <- prevOpenItems | i != index]
  else rcons prevOpenItems index.

(** ** Rendering (lines 119-240) *)

Record faq_item := FaqItem {
  item_key : nat;
  item_question : string;
  item_rotate : nat;               (* the chevron's [rotate] *)
  item_answer : option string;     (* the [AnimatePresence] panel *)
  item_onClick : nat               (* the argument of [toggleItem] *)
}.

(** One item at index [index], as both views render it. *)
Definition faq_item_view (openItems : seq nat) (index : nat) (f : faq)
  : faq_item :=
  {| item_key := index;
     item_question := question f;
     item_rotate := if index \in openItems then 180 else 0;
     item_answer := if index \in openItems then Some (answer f) else None;
     item_onClick := index |}.

(** Mobile view: [faqs.map((faq, index) => ...)]. *)
Definition mobile_view_of (openItems : seq nat) (l : seq faq) : seq faq_item :=
  mapi (faq_item_view openItems) l.

(** [colIndex === 0 ? faqIndex : faqIndex + faqColumns[0].length]. *)
Definition globalIndex (cols : seq (seq faq)) (colIndex faqIndex : nat) : nat :=
  if colIndex == 0 then faqIndex else faqIndex + size (nth [::] cols 0).

(** Desktop view: [faqColumns.map((column, colIndex) => column.map((faq,
    faqIndex) => ...))], the grid laying the columns out one after the
    other. *)
Definition desktop_view_of (openItems : seq nat) (cols : seq (seq faq))
  : seq faq_item :=
  flatten (mapi (fun colIndex column =>
                   mapi (fun faqIndex f =>
                           faq_item_view openItems
                             (globalIndex cols colIndex faqIndex) f) column)
                cols).

Definition mobile_view (openItems : seq nat) := mobile_view_of openItems faqs.
Definition desktop_view (openItems : seq nat) := desktop_view_of openItems faqColumns.

(** ** Interaction *)

(** A click on a button of either view calls [toggleItem] with the index
    that button carries. *)
Inductive faq_step (s : seq nat) : seq nat -> Prop :=
| click_mobile v : List.In v (mobile_view s) ->
    faq_step s (toggleItem (item_onClick v) s)
| click_desktop v : List.In v (desktop_view s) ->
    faq_step s (toggleItem (item_onClick v) s).

(** [useState<number[]>([])]. *)
Definition faq_reachable : seq nat -> Prop := reachable faq_step [::].

Definition faq_inv (s : seq nat) : bool :=
  uniq s && all (fun i => i < size faqs) s.

(** ** Lemmas *)

Lemma toggleItem_flips i j s : (j \in toggleItem i s) = (j == i) (+) (j \in s).
Proof.
  rewrite /toggleItem; case: ifP => Hi.
  - by rewrite mem_filter; case: eqP => [->|]; rewrite ?Hi.
  - by rewrite mem_rcons in_cons; case: eqP => [->|]; rewrite ?Hi.
Qed.

Lemma toggleItem_uniq i s : uniq s -> uniq (toggleItem i s).
Proof.
  rewrite /toggleItem; case: ifP => Hi Hs; first exact: filter_uniq.
  by rewrite rcons_uniq Hi.
Qed.

Lemma toggleItem_bound n i s :
  i < n -> all (fun j => j < n) s -> all (fun j => j < n) (toggleItem i s).
Proof.
  move=> Hi /allP Hs; apply/allP => j.
  by rewrite toggleItem_flips; case: eqP => [-> //|_ /= /Hs].
Qed.

(** The general form of the layout theorem: for any array, the two-column
    layout with [globalIndex] renders the single-column list. *)
Lemma desktop_view_of_columns s l :
  desktop_view_of s (faqColumns_of l) = mobile_view_of s l.
Proof.
  rewrite /desktop_view_of /mobile_view_of /mapi /= cats0.
  rewrite (mapi_from_shift (faq_item_view s)) add0n.
  by rewrite -mapi_from_cat cat_take_drop.
Qed.

Lemma mobile_onClick_bound s v :
  List.In v (mobile_view s) -> item_onClick v < size faqs.
Proof.
  by move=> Hv; have [i [x [/andP [_ Hi] [_ ->]]]] := In_mapi_from Hv.
Qed.

Lemma faq_step_inv s s' : faq_inv s -> faq_step s s' -> faq_inv s'.
Proof.
  move=> /andP [Hu Hb] Hst.
  have [v Hv ->] : exists2 v, List.In v (mobile_view s) &
                                s' = toggleItem (item_onClick v) s.
  { case: Hst => v Hv;
      last rewrite /desktop_view /faqColumns desktop_view_of_columns in Hv;
      by exists v. }
  by rewrite /faq_inv toggleItem_uniq // toggleItem_bound // (mobile_onClick_bound _ _ Hv).
Qed.

Lemma keys_mapi_from s n l :
  [seq item_key v | v <- mapi_from (faq_item_view s) n l] = iota n (size l).
Proof. by elim: l n => [|x l IH] n //=; rewrite IH. Qed.

(** ** Properties *)

(** C10: the two layouts agree: the desktop grid, with [globalIndex]
    computed from the column index, renders exactly the items of the
    mobile list, with the same keys, open states and click targets, and
    its React keys are the indices [0 .. faqs.length - 1], hence distinct. *)
Theorem desktop_view_eq_mobile (openItems : seq nat) :
  desktop_view openItems = mobile_view openItems /\
  [seq item_key v | v <- desktop_view openItems] = iota 0 (size faqs).
Proof.
  have Heq : desktop_view openItems = mobile_view openItems
    by exact: desktop_view_of_columns.
  by rewrite Heq keys_mapi_from.
Qed.

(** a click on item [i] flips the open state of item [i] and of no
    other: after [toggleItem i], item [j] shows its answer exactly when
    [j = i] xor [j] was open. *)
Theorem toggle_view_flips (s : seq nat) (i j : nat) (d : faq_item) (d0 : faq) :
  j < size faqs ->
  item_answer (nth d (mobile_view (toggleItem i s)) j) =
  if (j == i) (+) (j \in s) then Some (answer (nth d0 faqs j)) else None.
Proof.
  by move=> Hj; rewrite /mobile_view /mobile_view_of /mapi (nth_mapi_from _ d0)
     //= toggleItem_flips.
Qed.

(** C20: in every state reachable by clicks from the initial empty list,
    [openItems] has no duplicates and only names existing items. *)
Theorem faq_reachable_inv (s : seq nat) : faq_reachable s -> faq_inv s.
Proof.
  by move=> Hs; apply: (reachable_ind_inv (P := fun s => faq_inv s) _ _ Hs);
    [|exact: faq_step_inv].
Qed.

(** Clicking an item twice restores the set of open items: exactly
    when it was closed; when it was open, the list comes back as a
    permutation (the item moves to the end), which the views do not
    distinguish since they only test membership. *)
Theorem toggleItem_twice (i : nat) (s : seq nat) :
  (i \notin s -> toggleItem i (toggleItem i s) = s) /\
  (uniq s -> perm_eq (toggleItem i (toggleItem i s)) s).
Proof.
  rewrite /toggleItem; case Hi: (i \in s) => /=.
  - split=> // Hu; rewrite mem_filter eqxx /= perm_rcons perm_sym.
    by rewrite -rem_filter // perm_to_rem.
  - have Hf : [seq j <- s | j != i] = s.
    { apply/all_filterP/allP => j Hj; apply/eqP => Hji.
      by rewrite -Hji Hj in Hi. }
    by rewrite mem_rcons mem_head filter_rcons eqxx /= Hf perm_refl.
Qed.

(** ** Witnesses *)

Definition faq_dummy : faq := Faq "?" "?".

Lemma toggle_view_flips_witness :
  2 < size faqs /\
  item_answer (nth (faq_item_view [::] 0 faq_dummy) (mobile_view (toggleItem 2 [::])) 2) =
  Some (answer (nth faq_dummy faqs 2)).
Proof.
  split; first by [].
  by rewrite (toggle_view_flips [::] 2 2 (faq_item_view [::] 0 faq_dummy) faq_dummy).
Defined.

Lemma faq_reachable_inv_witness :
  faq_reachable [:: 2; 5] /\ faq_inv [:: 2; 5].
Proof.
  have H1 : faq_reachable [:: 2].
  { apply: (reach_step (reach_init _ _)).
    apply: (click_mobile _ (faq_item_view [::] 2 (nth faq_dummy faqs 2))).
    by right; right; left. }
  have H2 : faq_reachable [:: 2; 5].
  { apply: (reach_step H1).
    apply: (click_desktop _ (faq_item_view [:: 2] 5 (nth faq_dummy faqs 5))).
    by do 5 right; left. }
  split; first exact: H2.
  exact: faq_reachable_inv H2.
Defined.

End FAQ.

(** * The entrance (lines 52-55, 65-117, 119-124, 176-181, 243-250)

    The header's [div] carries the [useInView] ref; the header, both
    layouts' containers and the support box animate on [inView] itself
    ([animate={inView ? "visible" : "hidden"}], no controls).  The
    containers' [staggerChildren]/[delayChildren] schedule their items in
    the order they register, which is the render order: in the desktop
    grid, the first column's items and then the second's. *)
Module FAQEntrance.
Import FAQ.

Definition label (inView : bool) : string := if inView then "visible" else "hidden".

(** [headerVariants], lines 65-75, lasting 600 ms. *)
Definition headerVariants : string -> target := variant {| t_opacity := 0; t_y := (-20)%Z |}.

(** [containerVariants], lines 77-86: the opacity. *)
Definition containerVariants (l : string) : nat := if l == "visible" then 1 else 0.

Definition staggerChildren_ms : nat := 100.
Definition delayChildren_ms : nat := 300.

(** [itemVariants], lines 88-98, lasting 500 ms. *)
Definition itemVariants : string -> target := variant {| t_opacity := 0; t_y := 20%Z |}.

Definition item_duration_ms : nat := 500.

Definition item_stagger (k : nat) : nat * nat :=
  stagger delayChildren_ms staggerChildren_ms item_duration_ms k.

(** The mobile list's items, lines 125-131: key, target, schedule. *)
Definition mobile_entrance (inView : bool) : seq (nat * target * (nat * nat)) :=
  mapi (fun index (_ : faq) => (index, itemVariants (label inView), item_stagger index)) faqs.

(** The desktop grid's keys in render order, lines 182-187. *)
Definition desktop_keys_of (l : seq faq) : seq nat :=
  flatten (mapi (fun colIndex column =>
                   mapi (fun faqIndex (_ : faq) => globalIndex (faqColumns_of l) colIndex faqIndex) column)
                (faqColumns_of l)).

(** The desktop grid's items: the [k]-th rendered item is the [k]-th
    child of the container. *)
Definition desktop_entrance (inView : bool) : seq (nat * target * (nat * nat)) :=
  mapi (fun k key => (key, itemVariants (label inView), item_stagger k)) (desktop_keys_of faqs).

(** The header text, lines 109-114. *)
Definition header_text : string * string :=
  ("Frequently Asked Questions", "Everything you need to know about T-CRM").

(** The support box, lines 243-250: [animate={inView ? {opacity: 1, y: 0} : {}}]
    from [initial={{ opacity: 0, y: 30 }}], 600 ms after. *)
Definition support_box (inView : bool) : target :=
  if inView then rest else {| t_opacity := 0; t_y := 30%Z |}.

Definition support_delay_ms : nat := 600.

Definition support_text : string * string := ("Still have questions?", "Our support team is here to help").

(** ** Lemmas *)

(** The grid renders the keys [0 .. n-1] in order, for any array. *)
Lemma desktop_keys_of_iota l : desktop_keys_of l = iota 0 (size l).
Proof.
  rewrite /desktop_keys_of /faqColumns_of /mapi /= cats0 /globalIndex /=.
  rewrite mapi_from_index.
  rewrite (mapi_from_shift (fun i (_ : faq) => i)) add0n mapi_from_index.
  by rewrite -iotaD -size_cat cat_take_drop.
Qed.

Lemma mapi_from_iota {B : Type} (h : nat -> nat -> B) n m :
  mapi_from (fun k key => h key k) n (iota n m) = [seq h i i | i <- iota n m].
Proof. by elim: m n => [|m IH] n //=; rewrite IH. Qed.

Lemma mapi_from_const {A B : Type} (g : nat -> B) n (l : seq A) :
  mapi_from (fun i (_ : A) => g i) n l = [seq g i | i <- iota n (size l)].
Proof. by elim: l n => [|x l IH] n //=; rewrite IH. Qed.

(** The two layouts enter the same way: the desktop grid gives each
    question the key and the schedule the mobile list gives it, item [i]
    entering from [300 + 100 i] ms to [800 + 100 i] ms; before [inView]
    every part is hidden, after it every part is at rest, the last item
    done at 1.5 s. *)
Theorem faq_entrance_spec (inView : bool) :
  desktop_entrance inView = mobile_entrance inView /\
  [seq x.2 | x <- mobile_entrance inView] = [seq (300 + 100 * i, 800 + 100 * i) | i <- iota 0 (size faqs)] /\
  (if inView
   then headerVariants (label inView) = rest /\ containerVariants (label inView) = 1 /\
        all (fun x => at_rest x.1.2) (mobile_entrance inView) /\ support_box inView = rest
   else t_opacity (headerVariants (label inView)) = 0 /\ containerVariants (label inView) = 0 /\
        all (fun x => t_opacity x.1.2 == 0) (mobile_entrance inView) /\
        t_opacity (support_box inView) = 0).
Proof.
  set g := fun i => (i, itemVariants (label inView), item_stagger i).
  have Hm : mobile_entrance inView = [seq g i | i <- iota 0 (size faqs)]
    by rewrite /mobile_entrance /mapi (mapi_from_const g).
  split.
  - by rewrite Hm /desktop_entrance desktop_keys_of_iota /mapi
      (mapi_from_iota (fun key k => (key, itemVariants (label inView), item_stagger k))).
  - by rewrite Hm; split; [|move: Hm; rewrite /g; clear g; case: inView].
Qed.

End FAQEntrance.
