(* ===== verification/Pricing.v ===== *)
(** * Pricing: the pricing table, [src/components/PricingSection.tsx].

    The section renders the constant array [plans] as three cards and a
    Monthly/Annual switch.  Its state is [isAnnual] (initially [true]) and
    [selectedPlan] (initially ["professional"]), changed by
    [togglePricingPeriod] from the two switch buttons and by
    [handleSelectPlan(plan.id)] from a click on a card.  Each card is
    modelled as a [plan_card] record with what the JSX computes from the
    state: the classes that mark the selected and the popular card, the
    3-D depth, the badges, the price shown, the "Billed annually" line and
    the button's class; the switch buttons as [period_button] records with
    their [aria-pressed].  Module [PricingEntrance] models the entrance
    on [inView] ([initial]/[animate]): the header parts, the switch, the
    cards (whose delay the card keeps in tenths of a second) and the FAQ
    teaser.

    Theorems: exactly one card is marked selected in every reachable state
    ([pricing_one_selected]); the switch and the prices agree and the
    annual price is what the "Save 20%" label promises
    ([pricing_period_display]); a click on a card selects that card and
    keeps the billing period ([pricing_click_card]); the section enters
    top to bottom on [inView] ([pricing_entrance_spec]). *)

From HB Require Import structures.
From mathcomp Require Import boot.
From Stdlib Require Import String BinInt.
From S2P Require Import SeqLib.

Open Scope string_scope.

Module Pricing.

(** ** Data (lines 9-78) *)

Record PlanPrice := { monthly : nat; annual : nat }.

Record plan := {
  plan_id : string;           (* [id] *)
  plan_name : string;         (* [name] *)
  price : PlanPrice;
  description : string;
  features : seq string;
  cta : string;
  popular : bool;
  color : string;
  depth : nat
}.

Definition plans : seq plan :=
[::
  {| plan_id := "starter"; plan_name := "Starter";
     price := {| monthly := 49; annual := 39 |};
     description := "Perfect for small businesses and startups";
     features := [:: "Up to 1,000 contacts";
        "Email campaigns";
        "Basic lead management";
        "Contact tracking";
        "Email templates";
        "Mobile app"];
     cta := "Start Free Trial"; popular := false; color := "bg-white"; depth := 15 |};
  {| plan_id := "professional"; plan_name := "Professional";
     price := {| monthly := 99; annual := 79 |};
     description := "For growing teams needing more features";
     features := [:: "Up to 10,000 contacts";
        "Advanced reporting";
        "Sales automation";
        "Multiple pipelines";
        "Custom fields";
        "API access";
        "Email campaigns";
        "Lead scoring"];
     cta := "Start Free Trial"; popular := true; color := "bg-primary-50"; depth := 25 |};
  {| plan_id := "enterprise"; plan_name := "Enterprise";
     price := {| monthly := 199; annual := 159 |};
     description := "For large organizations with complex needs";
     features := [:: "Unlimited contacts";
        "Dedicated account manager";
        "Advanced security";
        "Custom integrations";
        "Advanced automations";
        "Priority support";
        "Training sessions";
        "User roles & permissions";
        "Workflow customization"];
     cta := "Contact Sales"; popular := false; color := "bg-white"; depth := 15 |}].

(** ** State and handlers (lines 81-94) *)

Record PricingState := { isAnnual : bool; selectedPlan : string }.

Definition pricing_initial : PricingState :=
  {| isAnnual := true; selectedPlan := "professional" |}.

Definition togglePricingPeriod (annual : bool) (st : PricingState) : PricingState :=
  {| isAnnual := annual; selectedPlan := selectedPlan st |}.

Definition handleSelectPlan (planId : string) (st : PricingState) : PricingState :=
  {| isAnnual := isAnnual st; selectedPlan := planId |}.

(** ** Rendering (lines 134-240) *)

Record period_button := {
  pb_label : string;
  pb_pressed : bool;          (* [aria-pressed] *)
  pb_class : string;          (* the state-dependent part of [className] *)
  pb_onClick : bool           (* the argument of [togglePricingPeriod] *)
}.

Definition active_class : string := "bg-white text-gray-900 shadow-sm".
Definition inactive_class : string := "text-gray-600 hover:text-gray-900".

(** The Monthly and Annual buttons, lines 134-155. *)
Definition period_buttons (st : PricingState) : seq period_button :=
  [:: {| pb_label := "Monthly"; pb_pressed := ~~ isAnnual st;
         pb_class := if ~~ isAnnual st then active_class else inactive_class;
         pb_onClick := false |};
      {| pb_label := "Annual Save 20%"; pb_pressed := isAnnual st;
         pb_class := if isAnnual st then active_class else inactive_class;
         pb_onClick := true |}].

Record plan_card := {
  card_key : string;              (* [key={plan.name}] *)
  card_delay : nat;               (* [initialDelay], in tenths of a second *)
  card_wrapper_class : string;
  card_border : string;
  card_depth : nat;
  card_badges : seq string;
  card_title : string;
  card_description : string;
  card_price : nat;
  card_billed_annually : bool;
  card_features : seq string;
  card_button_class : string;
  card_cta : string;
  card_onClick : string           (* the argument of [handleSelectPlan] *)
}.

(** One card, lines 160-246: [plans.map((plan, index) => ...)]. *)
Definition card_view (st : PricingState) (index : nat) (p : plan) : plan_card :=
  let isSelected := selectedPlan st == plan_id p in
  {| card_key := plan_name p;
     card_delay := 3 + index;
     card_wrapper_class :=
       (if popular p then "md:-mt-4 md:mb-4 z-10" else EmptyString) ++ " " ++
       (if isSelected then "scale-105 z-20" else EmptyString) ++
       " transition-transform duration-300";
     card_border :=
       if isSelected then "border-primary-500 ring-2 ring-primary-500 shadow-lg"
       else if popular p then "border-primary-300" else "border-gray-200";
     card_depth := if isSelected then depth p + 10 else depth p;
     card_badges := (if popular p then [:: "Most Popular"] else [::]) ++
                    (if isSelected then [:: "Selected"] else [::]);
     card_title := plan_name p;
     card_description := description p;
     card_price := if isAnnual st then annual (price p) else monthly (price p);
     card_billed_annually := isAnnual st;
     card_features := features p;
     card_button_class :=
       if isSelected then "bg-accent-orange text-white hover:bg-accent-orange-dark"
       else if popular p then "bg-primary-600 text-white hover:bg-primary-700"
       else "bg-gray-100 text-gray-900 hover:bg-gray-200";
     card_cta := cta p;
     card_onClick := plan_id p |}.

Definition pricing_cards (st : PricingState) : seq plan_card :=
  mapi (card_view st) plans.

(** ** Interaction *)

Inductive pricing_step (st : PricingState) : PricingState -> Prop :=
| click_period b : List.In b (period_buttons st) ->
    pricing_step st (togglePricingPeriod (pb_onClick b) st)
| click_card c : List.In c (pricing_cards st) ->
    pricing_step st (handleSelectPlan (card_onClick c) st).

Definition pricing_reachable : PricingState -> Prop :=
  reachable pricing_step pricing_initial.

(** A card shows the "Selected" badge. *)
Definition card_is_selected (c : plan_card) : bool := "Selected" \in card_badges c.

Definition pricing_inv (st : PricingState) : bool :=
  selectedPlan st \in [seq plan_id p | p <- plans].

(** ** Lemmas *)

Lemma count_selected_mapi st n l :
  count card_is_selected (mapi_from (card_view st) n l) =
  count (fun p => selectedPlan st == plan_id p) l.
Proof.
  elim: l n => [|p l IH] n //=; rewrite IH /card_is_selected /=.
  by case: (popular p); case: (_ == _).
Qed.

Lemma count_plan_id x :
  count (fun p => x == plan_id p) plans = (x \in [seq plan_id p | p <- plans]).
Proof.
  have -> : count (fun p => x == plan_id p) plans =
            count (preim plan_id (pred1 x)) plans
    by apply: eq_count => p; exact: eq_sym.
  by rewrite -count_map count_uniq_mem.
Qed.

(** Each card's click target is the id of a plan. *)
Lemma In_plans_cases (p : plan) :
  List.In p plans -> p = nth p plans 0 \/ p = nth p plans 1 \/ p = nth p plans 2.
Proof. by case=> [<-|[<-|[<-|[]]]]; auto. Qed.

Lemma card_onClick_plan st c :
  List.In c (pricing_cards st) ->
  exists i p, i < size plans /\ List.In p plans /\ c = card_view st i p.
Proof.
  by move=> Hc; have [i [p [/andP [_ Hi] [Hp ->]]]] := In_mapi_from Hc; exists i, p.
Qed.

Lemma pricing_step_inv st st' :
  pricing_inv st -> pricing_step st st' -> pricing_inv st'.
Proof.
  move=> Hinv; case=> [b _ //|c Hc].
  have [i [p [_ [Hp ->]]]] := card_onClick_plan _ _ Hc.
  by have [->|[->|->]] := In_plans_cases _ Hp.
Qed.

(** ** Properties *)

(** C11: In every state reachable from the initial one by clicks on the switch
    and on the cards, exactly one card carries the "Selected" badge (and
    with it the ring border, the raised depth and the orange button). *)
Theorem pricing_one_selected (st : PricingState) :
  pricing_reachable st -> count card_is_selected (pricing_cards st) = 1.
Proof.
  move=> Hst.
  have Hinv : pricing_inv st.
  { apply: (reachable_ind_inv (P := fun s => pricing_inv s) _ _ Hst) => //.
    exact: pricing_step_inv. }
  by move: Hinv; rewrite /pricing_inv /pricing_cards /mapi count_selected_mapi count_plan_id => ->.
Qed.

(** The switch and the prices agree: exactly one of Monthly and Annual is
    pressed, Annual exactly when [isAnnual]; card [k] shows plan [k]'s
    annual price and the "Billed annually" line in annual mode and its
    monthly price otherwise; and the annual price is what the "Save 20%"
    label promises: at least 20% and less than 21% below the monthly
    price. *)
Theorem pricing_period_display (st : PricingState) (k : nat) (d : plan_card) (d0 : plan) :
  k < size plans ->
  [seq pb_pressed b | b <- period_buttons st] = [:: ~~ isAnnual st; isAnnual st] /\
  let p := nth d0 plans k in
  let c := nth d (pricing_cards st) k in
  card_price c = (if isAnnual st then annual (price p) else monthly (price p)) /\
  card_billed_annually c = isAnnual st /\
  5 * annual (price p) <= 4 * monthly (price p) /\
  100 * (monthly (price p) - annual (price p)) < 21 * monthly (price p).
Proof.
  move=> Hk; split=> //.
  rewrite /pricing_cards /mapi (nth_mapi_from _ d0) //=.
  by do 3?[case: k Hk => [|k] Hk //].
Qed.

(** A click on a card selects that card, and only that one, and keeps the
    billing period. *)
Theorem pricing_click_card (st : PricingState) (c : plan_card) :
  List.In c (pricing_cards st) ->
  let st' := handleSelectPlan (card_onClick c) st in
  isAnnual st' = isAnnual st /\
  [seq card_is_selected c' | c' <- pricing_cards st'] =
  [seq card_key c' == card_key c | c' <- pricing_cards st'].
Proof.
  move=> Hc; have [i [p [_ [Hp ->]]]] := card_onClick_plan _ _ Hc.
  by split=> //; have [->|[->|->]] := In_plans_cases _ Hp.
Qed.

(** ** Witnesses *)

Definition plan_dummy : plan :=
  {| plan_id := "?"; plan_name := "?"; price := {| monthly := 0; annual := 0 |};
     description := "?"; features := [::]; cta := "?"; popular := false;
     color := "?"; depth := 0 |}.

Definition card_dummy : plan_card := card_view pricing_initial 0 plan_dummy.

(** Switch to monthly, then pick the Starter card. *)
Definition pricing_sample : PricingState :=
  handleSelectPlan "starter" (togglePricingPeriod false pricing_initial).

Lemma pricing_one_selected_witness :
  pricing_reachable pricing_sample /\
  count card_is_selected (pricing_cards pricing_sample) = 1.
Proof.
  have H1 : pricing_reachable (togglePricingPeriod false pricing_initial).
  { apply: (reach_step (reach_init _ _)).
    apply: (click_period _ {| pb_label := "Monthly"; pb_pressed := false;
                              pb_class := inactive_class; pb_onClick := false |}).
    by left. }
  have H2 : pricing_reachable pricing_sample.
  { apply: (reach_step H1).
    apply: (click_card _ (card_view (togglePricingPeriod false pricing_initial) 0
                           (nth plan_dummy plans 0))).
    by left. }
  split; first exact: H2.
  exact: pricing_one_selected H2.
Defined.

Lemma pricing_period_display_witness :
  card_price (nth card_dummy
                  (pricing_cards pricing_initial) 1) = 79.
Proof.
  have [_ [H _]] := pricing_period_display pricing_initial 1
    card_dummy (nth plan_dummy plans 0)
    (ltac:(by [])).
  by rewrite H.
Defined.

Lemma pricing_click_card_witness :
  [seq card_is_selected c' | c' <- pricing_cards (handleSelectPlan "enterprise" pricing_initial)] =
  [:: false; false; true].
Proof.
  have [_ H] := pricing_click_card pricing_initial
    (card_view pricing_initial 2 (nth plan_dummy plans 2)) (ltac:(by right; right; left)).
  by rewrite H.
Defined.

End Pricing.

(** * The entrance (lines 83-133, 165-174, 249-265)

    The header's [div] carries the [useInView] ref; every animated part of
    the section goes from its [initial] target to rest by
    [animate={inView ? {...} : {}}], after its own delay. *)
Module PricingEntrance.
Import Pricing.

(** [animate={inView ? rest : {}}] from [initial]. *)
Definition on_inView (initial : target) (inView : bool) : target :=
  if inView then rest else initial.

(** An animated part: its text, [initial] target, delay and duration in ms. *)
Record part := { part_text : string; part_initial : target; part_delay_ms : nat; part_duration_ms : nat }.

(** The header, lines 103-126. *)
Definition header_parts : seq part :=
  [:: {| part_text := "Simple Pricing"; part_initial := {| t_opacity := 0; t_y := (-10)%Z |};
         part_delay_ms := 0; part_duration_ms := 400 |};
      {| part_text := "Pricing Plans for Every Business";
         part_initial := {| t_opacity := 0; t_y := (-20)%Z |}; part_delay_ms := 0; part_duration_ms := 600 |};
      {| part_text := "Choose the perfect plan that fits your business needs";
         part_initial := {| t_opacity := 0; t_y := (-20)%Z |}; part_delay_ms := 100; part_duration_ms := 600 |}].

(** The billing switch, lines 128-133: opacity and scale in percent. *)
Definition toggle_pose (inView : bool) : nat * nat := if inView then (1, 100) else (0, 90).

Definition toggle_delay_ms : nat := 200.

(** A card's wrapper, lines 165-174: from [{ opacity: 0, y: 30 }], after
    [initialDelay] (the card's [card_delay] tenths of a second). *)
Definition card_pose (inView : bool) : target := on_inView {| t_opacity := 0; t_y := 30%Z |} inView.

Definition card_delays_ms (st : PricingState) : seq nat :=
  [seq 100 * card_delay c | c <- pricing_cards st].

(** The FAQ teaser, lines 250-258. *)
Definition teaser : part :=
  {| part_text := "Have questions about our pricing or features?";
     part_initial := {| t_opacity := 0; t_y := 30%Z |}; part_delay_ms := 600; part_duration_ms := 500 |}.

(** The delays of the animated parts in document order. *)
Definition entrance_delays (st : PricingState) : seq nat :=
  [seq part_delay_ms p | p <- header_parts] ++ [:: toggle_delay_ms] ++ card_delays_ms st ++
  [:: part_delay_ms teaser].

(** The section enters top to bottom whatever is selected: the delays in
    document order are 0, 0, 0.1, 0.2 (the switch), 0.3, 0.4, 0.5 (the
    three cards) and 0.6 s (the teaser); before [inView] every part is
    transparent and the switch shrunk, after it every part is at rest. *)
Theorem pricing_entrance_spec (st : PricingState) (inView : bool) :
  entrance_delays st = [:: 0; 0; 100; 200; 300; 400; 500; 600] /\
  sorted leq (entrance_delays st) /\
  (if inView
   then all (fun p => at_rest (on_inView (part_initial p) inView)) (teaser :: header_parts) /\
        toggle_pose inView = (1, 100) /\ at_rest (card_pose inView)
   else all (fun p => t_opacity (on_inView (part_initial p) inView) == 0) (teaser :: header_parts) /\
        toggle_pose inView = (0, 90) /\ t_opacity (card_pose inView) = 0).
Proof.
  have Hd : entrance_delays st = [:: 0; 0; 100; 200; 300; 400; 500; 600] by [].
  by rewrite Hd; split=> //; split=> //; case: inView.
Qed.

End PricingEntrance.
