(* ===== verification/Testimonials.v ===== *)
(** * Testimonials: the testimonial carousel,
    [src/components/TestimonialsSection.tsx].

    The section shows the constant array [testimonials] twice: as a grid
    of cards on large screens and as a one-card carousel below [lg], with
    a row of dots.  Its state is [activeIndex] (initially 0), set by a
    click on a dot and advanced by an interval timer every 8 s.  The timer
    is created by a [useEffect] with no dependencies, which first clears
    the interval held in [autoplayRef] and whose cleanup clears it again.

    The browser's timers are modelled explicitly: [intervals] is the set of
    live interval ids, [setInterval] allocates a fresh one and
    [clearInterval] removes it; [autoplayRef] is the ref.  [mounted] says
    whether the effect is mounted, so that the step relation can run the
    effect, its cleanup (React may do both repeatedly, e.g. in strict
    mode), a firing of any live interval, and a click on a dot.  A card is
    modelled as a [tcard] record with what the JSX shows; the carousel's
    [testimonials[activeIndex]] is an [option]: [None] is the TypeError
    that reading [.rating] of [undefined] would raise.

    Theorems: in every reachable state at most one interval is live and
    [activeIndex] indexes the array ([testimonials_inv_reachable]); four firings of the timer show every
    testimonial once and come back ([autoplay_cycles]); a card shows as
    many yellow stars as its rating, up to 5 ([renderStars_yellow]).

    Module [Entrance] models the in-view animation: the observer with
    [triggerOnce], the effect that starts the controls, the variants with
    their stagger, and the stats banner; [entrance_spec] shows that nothing
    is shown before the header is in view and that afterwards everything
    is at rest on a fixed schedule. *)

From HB Require Import structures.
From mathcomp Require Import boot.
From Stdlib Require Import String Ascii BinInt.
From S2P Require Import SeqLib.

Open Scope string_scope.

Module Testimonials.

(** ** Data (lines 10-51) *)

Record testimonial := {
  tid : nat;                  (* [id] *)
  content : string;
  author : string;
  title : string;
  company : string;
  avatar : string;
  rating : nat;
  increase : string
}.

Definition testimonials : seq testimonial :=
[::
  {| tid := 1;
     content := "T-CRM transformed our sales process completely. We've increased our conversion rates by 42% and reduced our sales cycle by over a month.";
     author := "Sarah Johnson"; title := "Sales Director"; company := "TechGrowth Solutions";
     avatar := "/images/testimonials/avatar-1.png"; rating := 5; increase := "42%" |};
  {| tid := 2;
     content := "The customer segmentation features allow us to target our marketing with incredible precision. Our ROI on campaigns has more than doubled since implementation.";
     author := "Michael Chen"; title := "Marketing Manager"; company := "InnovateCorp";
     avatar := "/images/testimonials/avatar-2.png"; rating := 5; increase := "115%" |};
  {| tid := 3;
     content := "What impressed me most was how quickly our team adopted the platform. The intuitive interface meant minimal training and maximum productivity from day one.";
     author := "Priya Patel"; title := "Operations Lead"; company := "Quantum Retail";
     avatar := "/images/testimonials/avatar-3.png"; rating := 5; increase := "89%" |};
  {| tid := 4;
     content := "The automation workflows have freed up our support team to focus on complex issues. Customer satisfaction is up and response times are down dramatically.";
     author := "James Rodriguez"; title := "Customer Success Manager"; company := "Elevate Services";
     avatar := "/images/testimonials/avatar-4.png"; rating := 5; increase := "67%" |}].

(** ** Rendering (lines 124-135, 165-272) *)

Record star_icon := { star_key : nat; star_class : string }.

(** [Array(5).fill(0).map((_, index) => <svg ...>)]. *)
Definition renderStars (rating : nat) : seq star_icon :=
  mapi (fun index (_ : nat) =>
          {| star_key := index;
             star_class := "w-5 h-5 " ++
               (if index < rating then "text-yellow-400" else "text-gray-300") |})
       (nseq 5 0).

(** The double quote the JSX puts around the content. *)
Definition dq : string := String (ascii_of_nat 34) EmptyString.

(** [s.charAt(0)]. *)
Definition charAt0 (s : string) : string := substring 0 1 s.

Record tcard := {
  tc_stars : seq star_icon;
  tc_quote : string;
  tc_initial : string;
  tc_author : string;
  tc_role : string;           (* [{title}, {company}] *)
  tc_increase : string
}.

(** The content of one card; the grid and the carousel render the same. *)
Definition testimonial_card (t : testimonial) : tcard :=
  {| tc_stars := renderStars (rating t);
     tc_quote := dq ++ content t ++ dq;
     tc_initial := charAt0 (author t);
     tc_author := author t;
     tc_role := title t ++ ", " ++ company t;
     tc_increase := increase t |}.

(** The grid, lines 166-207: [key={testimonial.id}]. *)
Definition grid_view : seq (nat * tcard) :=
  mapi (fun (index : nat) t => (tid t, testimonial_card t)) testimonials.

(** ** State, timers and effects (lines 55-86) *)

Record TState := {
  activeIndex : nat;
  autoplayRef : option nat;
  intervals : seq nat;        (* live interval ids *)
  next_timer : nat;           (* the id [setInterval] returns next *)
  mounted : bool
}.

Definition t_initial : TState :=
  {| activeIndex := 0; autoplayRef := None; intervals := [::];
     next_timer := 1; mounted := false |}.

Definition set_intervals (st : TState) (l : seq nat) : TState :=
  {| activeIndex := activeIndex st; autoplayRef := autoplayRef st;
     intervals := l; next_timer := next_timer st; mounted := mounted st |}.

Definition clearInterval (id : nat) (st : TState) : TState :=
  set_intervals st [seq i <- intervals st | i != id].

(** [if (autoplayRef.current) clearInterval(autoplayRef.current)]. *)
Definition clear_autoplay (st : TState) : TState :=
  if autoplayRef st is Some id then clearInterval id st else st.

(** The effect's body: clear, then
    [autoplayRef.current = setInterval(...)]. *)
Definition autoplay_effect (st : TState) : TState :=
  let st1 := clear_autoplay st in
  {| activeIndex := activeIndex st1;
     autoplayRef := Some (next_timer st1);
     intervals := rcons (intervals st1) (next_timer st1);
     next_timer := (next_timer st1).+1;
     mounted := true |}.

(** The effect's cleanup; the ref keeps the cleared id. *)
Definition autoplay_cleanup (st : TState) : TState :=
  let st1 := clear_autoplay st in
  {| activeIndex := activeIndex st1; autoplayRef := autoplayRef st1;
     intervals := intervals st1; next_timer := next_timer st1;
     mounted := false |}.

Definition set_activeIndex (st : TState) (i : nat) : TState :=
  {| activeIndex := i; autoplayRef := autoplayRef st;
     intervals := intervals st; next_timer := next_timer st;
     mounted := mounted st |}.

(** The interval callback:
    [setActiveIndex(prev => (prev + 1) % testimonials.length)]. *)
Definition autoplay_tick (st : TState) : TState :=
  set_activeIndex st ((activeIndex st).+1 %% size testimonials).

(** ** The carousel (lines 209-272) *)

(** [testimonials[activeIndex]]: [None] when out of range. *)
Definition carousel_view (st : TState) : option tcard :=
  match List.nth_error testimonials (activeIndex st) with
  | Some t => Some (testimonial_card t)
  | None => None
  end.

Record dot := { dot_key : nat; dot_active : bool; dot_label : string;
                dot_onClick : nat }.

(** Decimal digits of [n] in front of [acc]; [fuel] bounds the number of
    divisions by 10, and [n.+1] is always enough. *)
Fixpoint digits_fuel (fuel n : nat) (acc : string) : string :=
  let acc' := String (ascii_of_nat (48 + n %% 10)) acc in
  match fuel with
  | 0 => acc'
  | f.+1 => if n < 10 then acc' else digits_fuel f (n %/ 10) acc'
  end.

(** [String(n)] for a natural number. *)
Definition nat_to_string (n : nat) : string := digits_fuel n.+1 n EmptyString.

(** [`Go to testimonial ${index + 1}`]. *)
Definition dot_label_of (index : nat) : string :=
  "Go to testimonial " ++ nat_to_string (index + 1).

Definition dots (st : TState) : seq dot :=
  mapi (fun index (_ : testimonial) =>
          {| dot_key := index; dot_active := index == activeIndex st;
             dot_label := dot_label_of index; dot_onClick := index |})
       testimonials.

(** ** Interaction *)

Inductive t_step (st : TState) : TState -> Prop :=
| t_mount : ~~ mounted st -> t_step st (autoplay_effect st)
| t_unmount : mounted st -> t_step st (autoplay_cleanup st)
| t_fire id : id \in intervals st -> t_step st (autoplay_tick st)
| t_click d : mounted st -> List.In d (dots st) ->
    t_step st (set_activeIndex st (dot_onClick d)).

Definition t_reachable : TState -> Prop := reachable t_step t_initial.

(** The live intervals are the one in the ref while mounted and none
    otherwise, and [activeIndex] is in range. *)
Definition t_inv (st : TState) : Prop :=
  intervals st = (if mounted st then
                    if autoplayRef st is Some r then [:: r] else [::]
                  else [::]) /\
  (mounted st -> autoplayRef st <> None) /\
  activeIndex st < size testimonials.

(** ** Lemmas *)

Lemma dot_onClick_range st d :
  List.In d (dots st) -> dot_onClick d < size testimonials.
Proof.
  by move=> Hd; have [i [x [/andP [_ Hi] [_ ->]]]] := In_mapi_from Hd.
Qed.

Lemma t_step_inv st st' : t_inv st -> t_step st st' -> t_inv st'.
Proof.
  move=> [Hiv [Hr Ha]]; case=> [Hm|Hm|id _|d Hm Hd].
  - rewrite (negbTE Hm) in Hiv.
    by rewrite /t_inv /autoplay_effect /clear_autoplay;
      case: (autoplayRef st) => [r|] /=; rewrite Hiv.
  - rewrite Hm in Hiv; move: Hiv (Hr Hm).
    rewrite /t_inv /autoplay_cleanup /clear_autoplay.
    by case: (autoplayRef st) => [r|] //= -> _; rewrite /= eqxx.
  - by split=> //; split=> //; rewrite /= ltn_pmod.
  - by split=> //; split=> //; exact: (dot_onClick_range _ _ Hd).
Qed.

Lemma t_reachable_inv st : t_reachable st -> t_inv st.
Proof.
  move=> Hst; apply: (reachable_ind_inv (P := t_inv) _ _ Hst) => //.
  exact: t_step_inv.
Qed.

Lemma t_inv_mounted st :
  t_inv st -> mounted st -> exists r, intervals st = [:: r] /\ autoplayRef st = Some r.
Proof.
  move=> [Hiv [Hr _]] Hm; move: Hiv (Hr Hm); rewrite Hm.
  by case: (autoplayRef st) => [r|] // -> _; exists r.
Qed.

(** The carousel reads the array in range: for each of the four
    positions, a case split. *)
Lemma activeIndex_cases (a : nat) :
  a < size testimonials -> a = 0 \/ a = 1 \/ a = 2 \/ a = 3.
Proof. by do 4?[case: a => [|a]; auto]. Qed.

(** ** Properties *)

(** C12: In every reachable state at most one autoplay interval is live
    (exactly the one in [autoplayRef] while the effect is mounted), even
    when React runs the effect and its cleanup several times, and
    [activeIndex] is a valid index of [testimonials]. *)
Theorem testimonials_inv_reachable (st : TState) :
  t_reachable st ->
  size (intervals st) <= 1 /\
  (mounted st -> exists r, intervals st = [:: r] /\ autoplayRef st = Some r) /\
  activeIndex st < size testimonials.
Proof.
  move=> /t_reachable_inv Hinv; have [Hiv [_ Ha]] := Hinv.
  split; last by split=> //; exact: t_inv_mounted.
  by rewrite Hiv; case: (mounted st); case: (autoplayRef st).
Qed.

(** C35: The autoplay keeps cycling: in a reachable mounted state an interval
    is live, and four of its firings show each testimonial exactly once
    and return to the state they started from. *)
Theorem autoplay_cycles (st : TState) :
  t_reachable st -> mounted st ->
  (exists id, id \in intervals st) /\
  perm_eq [seq activeIndex (iter k autoplay_tick st) | k <- iota 1 (size testimonials)]
          (iota 0 (size testimonials)) /\
  iter (size testimonials) autoplay_tick st = st.
Proof.
  move=> /t_reachable_inv Hinv Hm.
  have [r [Hiv _]] := t_inv_mounted _ Hinv Hm; have [_ [_ Ha]] := Hinv.
  split; first by exists r; rewrite Hiv mem_seq1.
  case: st Ha {Hinv Hm Hiv} => a r' iv n m /= Ha.
  by have [->|[->|[->|->]]] := activeIndex_cases _ Ha.
Qed.

(** A card shows as many yellow stars as its rating, and at most 5. *)
Theorem renderStars_yellow (r : nat) :
  count (fun s => star_class s == "w-5 h-5 text-yellow-400") (renderStars r) = minn r 5.
Proof. by do 5?[case: r => [|r] //]. Qed.

(** ** Witnesses *)

(** Mount, let the timer fire once, then click the fourth dot. *)
Definition t_mounted : TState := autoplay_effect t_initial.
Definition t_ticked : TState := autoplay_tick t_mounted.
Definition t_sample : TState := set_activeIndex t_ticked 3.

Lemma t_sample_reachable : t_reachable t_sample.
Proof.
  have H1 : t_reachable t_mounted by apply: (reach_step (reach_init _ _)); constructor.
  have H2 : t_reachable t_ticked.
  { apply: (reach_step H1); apply: (t_fire _ 1); by []. }
  apply: (reach_step H2).
  apply: (t_click _ (nth (Build_dot 0 false EmptyString 0) (dots t_ticked) 3)) => //.
  by do 3 right; left.
Qed.

Lemma testimonials_inv_reachable_witness :
  t_reachable t_sample /\ activeIndex t_sample < size testimonials.
Proof.
  split; first exact: t_sample_reachable.
  by have [_ [_ H]] := testimonials_inv_reachable t_sample t_sample_reachable.
Defined.

Lemma autoplay_cycles_witness :
  iter (size testimonials) autoplay_tick t_sample = t_sample.
Proof.
  by have [_ [_ H]] := autoplay_cycles t_sample t_sample_reachable (erefl true).
Defined.

End Testimonials.

(** * The entrance animation and the stats banner (lines 54, 59-69,
    88-122, 137-163, 278-305)

    The header's [div] carries the [useInView] ref ([triggerOnce],
    threshold 0.1); an effect on [inView] calls [controls.start('visible')],
    which drives the header and the grid's container, whose
    [staggerChildren]/[delayChildren] schedule the four cards.  The stats
    banner is animated by [inView] directly. *)
Module Entrance.
Import Testimonials.

(** [useInView({ triggerOnce: true, threshold: 0.1 })], lines 59-62, and
    the effect of lines 65-69: [SeqLib]'s entrance started by controls. *)
Definition threshold : nat * nat := (1, 10).

(** [headerVariants], lines 89-99; its transition lasts 600 ms. *)
Definition headerVariants : string -> target := variant {| t_opacity := 0; t_y := (-20)%Z |}.

(** [containerVariants], lines 101-110: only the opacity. *)
Definition containerVariants (label : string) : nat :=
  if label == "visible" then 1 else 0.

Definition staggerChildren_ms : nat := 200.
Definition delayChildren_ms : nat := 300.

(** [itemVariants], lines 112-122, each lasting 500 ms. *)
Definition itemVariants : string -> target := variant {| t_opacity := 0; t_y := 20%Z |}.

Definition item_duration_ms : nat := 500.

(** The grid's items (lines 167-172): the key, the target the propagated
    label selects, and the start and end of its entrance in ms.  The
    [custom={index}] prop is not read: [itemVariants] holds no functions,
    so the stagger comes from the container alone. *)
Definition grid_items (st : AState) : seq (nat * target * nat * nat) :=
  mapi (fun i t => let '(start, stop) := stagger delayChildren_ms staggerChildren_ms item_duration_ms i in
                   (tid t, itemVariants (controls st), start, stop))
       testimonials.

(** The header, lines 140-155: badge, heading and subtitle. *)
Definition header_text : string * string * string :=
  ("Testimonials", "Trusted by Business Leaders",
   "See how companies like yours have achieved remarkable results with our platform").

(** The stats banner, lines 279-305: [animate={inView ? {opacity: 1, y: 0} : {}}]
    leaves it at [initial={{ opacity: 0, y: 40 }}] until [inView]; it
    starts 500 ms after. *)
Definition banner (st : AState) : target :=
  if inView st then rest else {| t_opacity := 0; t_y := 40%Z |}.

Definition banner_delay_ms : nat := 500.

Definition stats : seq (string * string) :=
  [:: ("99%", "Customer Satisfaction"); ("4,200+", "Active Businesses");
      ("53%", "Average Revenue Growth")].

(** The section's animated parts: header, container opacity, cards, banner. *)
Definition entrance_view (st : AState) : target * nat * seq (nat * target * nat * nat) * target :=
  (headerVariants (controls st), containerVariants (controls st), grid_items st, banner st).

(** ** Lemmas *)

(** The entrance of the section: before the header is in view nothing of
    it is shown (header, cards and banner all at opacity 0); a report with
    a ratio of at least 0.1 brings everything to rest, the card at index
    [i] starting [300 + 200 i] ms after the controls and the last one done
    at 1.4 s; from then on no report changes anything. *)
Lemma entrance_spec st :
  a_reachable threshold st ->
  (inView st = false ->
     t_opacity (headerVariants (controls st)) = 0 /\ containerVariants (controls st) = 0 /\
     all (fun it => t_opacity it.1.1.2 == 0) (grid_items st) /\ t_opacity (banner st) = 0) /\
  (inView st ->
     entrance_view st =
       (rest, 1, [:: (1, rest, 300, 800); (2, rest, 500, 1000); (3, rest, 700, 1200);
                     (4, rest, 900, 1400)], rest) /\
     forall st', a_step threshold st st' -> st' = st).
Proof.
  move=> Hr; have [_ Hk] := a_reachable_variant rest Hr.
  move: Hk; move/a_reachable_inv: Hr; case: st => [[] c]; rewrite /a_inv /= => -> Hk //.
  by split=> // _; split=> //; apply: Hk.
Qed.

(** From the initial state a report of a tenth brings the section to rest. *)
Lemma entrance_tenth : inView (a_report threshold 1 10 a_initial) /\
  controls (a_report threshold 1 10 a_initial) = "visible".
Proof. by []. Qed.

End Entrance.
