(* ===== verification/Site.v ===== *)
(** * Site: the header, the footer, the hero section and the site's links.

    [src/app/layout.tsx] wraps every page in [RootLayoutWrapper]
    ([src/components/RootLayoutWrapper.tsx]): the [Header], the page, the
    [Footer].  The home page ([src/app/page.tsx]) stacks the landing
    sections, some of which carry an [id] that in-page links target.

    - Module [Header] models [src/components/Header.tsx]: the navigation
      array, the state [mobileMenuOpen]/[scrolled], the scroll handler, the
      menu button, and every link of the desktop bar and of the mobile menu
      with whether its [onClick] closes the menu.
    - Module [Footer] models the link data and the links the footer renders
      ([src/components/Footer.tsx]); its newsletter form has no handler.
    - Module [Hero] models [src/components/HeroSection.tsx]: the rotating
      [highlightIndex] and what the section renders.
    - Module [HeroMotion] models the hero's entrance on mount: the
      delays and durations of its parts, the stats' cards and values, the
      mock-up's floating details and the trusted-by row.
    - Module [Links] models the app router's pages (the [page.tsx] files
      under [src/app]), the section ids of the home page, the links each
      page renders, and how a link resolves.

    Theorems: the hero's rendering does not read its rotating state
    ([hero_view_ignores_state]); the hero's entrance ends after 1.8 s
    with the trusted-by row ([hero_timeline_spec]).  The links and the
    menu are modelled as data the pages render; which targets lead
    nowhere is recorded as a finding, read off [Links.site_broken]. *)

From HB Require Import structures.
From mathcomp Require Import boot.
From Stdlib Require Import String.
From S2P Require Import SeqLib.

Open Scope string_scope.

Record link := Link { link_label : string; link_href : string }.

Module Header.

(** ** Data and state (lines 7-26) *)

Definition navigation : seq link :=
  [:: Link "Home" "/"; Link "Features" "/#features";
      Link "Solutions" "/#solutions"; Link "Pricing" "/#pricing";
      Link "Contact" "/contact"].

Record HeaderState := { mobileMenuOpen : bool; scrolled : bool }.

Definition header_initial : HeaderState :=
  {| mobileMenuOpen := false; scrolled := false |}.

(** [handleScroll]: [setScrolled(window.scrollY > 10)], the offset in
    whole pixels. *)
Definition handleScroll (scrollY : nat) (st : HeaderState) : HeaderState :=
  {| mobileMenuOpen := mobileMenuOpen st; scrolled := 10 < scrollY |}.

Definition setMobileMenuOpen (b : bool) (st : HeaderState) : HeaderState :=
  {| mobileMenuOpen := b; scrolled := scrolled st |}.

(** ** Rendering (lines 28-158) *)

Definition header_class (st : HeaderState) : string :=
  "fixed w-full z-50 transition-all duration-300 " ++
  (if scrolled st then "bg-white/95 backdrop-blur-sm shadow-sm" else "bg-transparent").

(** A rendered link: its label, its target, and whether its [onClick]
    calls [setMobileMenuOpen(false)]. *)
Record hlink := HLink { hl_link : link; hl_closes : bool }.

Definition logo : link := Link "T-CRM" "/".
Definition phone : link := Link "+91-742-100-0303" "tel:+917421000303".
Definition login : link := Link "Login" "/login".
Definition demo : link := Link "Book a Demo" "/#demo-form".
Definition trial : link := Link "Free Trial" "/signup".

(** The desktop bar, lines 34-88: no [onClick] handlers. *)
Definition desktop_links : seq hlink :=
  [seq HLink l false | l <- logo :: navigation ++ [:: phone; login; demo; trial]].

(** The menu button, line 43: [setMobileMenuOpen(!mobileMenuOpen)]. *)
Definition menu_button (st : HeaderState) : HeaderState :=
  setMobileMenuOpen (~~ mobileMenuOpen st) st.

(** [`lg:hidden ${mobileMenuOpen ? 'block' : 'hidden'}`], line 92. *)
Definition mobile_menu_class (st : HeaderState) : string :=
  "lg:hidden " ++ (if mobileMenuOpen st then "block" else "hidden").

(** The mobile menu, lines 95-153: the logo link has no [onClick]; the
    navigation items, the phone number, Login, Book a Demo and Free Trial
    each close the menu. *)
Definition mobile_links : seq hlink :=
  HLink logo false ::
  [seq HLink l true | l <- navigation ++ [:: phone; login; demo; trial]].

(** The close button, line 102. *)
Definition close_button (st : HeaderState) : HeaderState :=
  setMobileMenuOpen false st.

(** A click on a rendered link: the handler runs, then the navigation
    happens; the header stays mounted, since it is part of the layout. *)
Definition click_link (l : hlink) (st : HeaderState) : HeaderState :=
  if hl_closes l then setMobileMenuOpen false st else st.

End Header.

Module Footer.

(** ** Data (lines 16-65) *)

Record footer_section := { section_title : string; section_links : seq link }.

Definition footerLinks : seq footer_section :=
  [:: {| section_title := "Product";
         section_links := [:: Link "Features" "/features"; Link "Pricing" "/pricing";
                              Link "Integrations" "/integrations";
                              Link "Updates" "/updates"; Link "Roadmap" "/roadmap"] |};
      {| section_title := "Company";
         section_links := [:: Link "About Us" "/about"; Link "Careers" "/careers";
                              Link "Blog" "/blog"; Link "Press" "/press";
                              Link "Partners" "/partners"] |};
      {| section_title := "Resources";
         section_links := [:: Link "Documentation" "/docs"; Link "Tutorials" "/tutorials";
                              Link "Support" "/support"; Link "API Reference" "/api";
                              Link "Demo" "/#demo-form"] |};
      {| section_title := "Legal";
         section_links := [:: Link "Privacy Policy" "/privacy";
                              Link "Terms of Service" "/terms";
                              Link "Cookie Policy" "/cookies"; Link "GDPR" "/gdpr";
                              Link "Security" "/security"] |}].

Definition socialLinks : seq link :=
  [:: Link "Facebook" "https://facebook.com"; Link "Twitter" "https://twitter.com";
      Link "Instagram" "https://instagram.com"; Link "LinkedIn" "https://linkedin.com";
      Link "GitHub" "https://github.com"].

(** ** Rendering (lines 81-189) *)

(** The contact block, lines 81-98. *)
Definition contact_links : seq link :=
  [:: Link "T-CRM" "/"; Link "+91-742-100-0303" "tel:+917421000303";
      Link "info@t-crm.com" "mailto:info@t-crm.com"].

(** The bottom bar, lines 184-188. *)
Definition bottom_links : seq link :=
  [:: Link "Privacy Policy" "/privacy"; Link "Terms of Service" "/terms";
      Link "Cookies" "/cookies"].

(** Every link of the footer in document order: the contact block, the
    four columns ([footerLinks.map] then [section.links.map]), the social
    icons and the bottom bar. *)
Definition footer_links : seq link :=
  contact_links ++ flatten [seq section_links s | s <- footerLinks] ++
  socialLinks ++ bottom_links.

End Footer.

Module Hero.

(** ** Data and state (lines 9-51) *)

Definition highlights : seq string :=
  [:: "Generate Leads"; "Track Prospects"; "Avail Opportunities"; "Close Deals";
      "Retain Clients"].

Record Stat := { value : string; label : string }.

Definition stats : seq Stat :=
  [:: {| value := "10k+"; label := "Active Users" |};
      {| value := "85%"; label := "Retention Rate" |};
      {| value := "12x"; label := "ROI Increase" |}].

Record HeroState := { highlightIndex : nat }.

Definition hero_initial : HeroState := {| highlightIndex := 0 |}.

(** The interval callback, every 3 s:
    [setHighlightIndex(prev => (prev + 1) % highlights.length)]. *)
Definition hero_tick (st : HeroState) : HeroState :=
  {| highlightIndex := (highlightIndex st).+1 %% size highlights |}.

(** ** Rendering (lines 53-246) *)

(** The two calls to action, lines 98-112. *)
Definition hero_links : seq link :=
  [:: Link "Start Free Trial" "#demo-form"; Link "Explore Features" "#features"].

Record hero_view := {
  hv_title : string;
  hv_links : seq link;
  hv_stats : seq (nat * string * string);   (* key, value, label *)
  hv_companies : seq (nat * string)
}.

(** What the section renders, as a function of its state: the headline,
    the links, [stats.map((stat, index) => ...)] and the trusted-by row. *)
Definition hero_render (st : HeroState) : hero_view :=
  {| hv_title := "Transform Your Customer Relationships with T-CRM";
     hv_links := hero_links;
     hv_stats := mapi (fun index s => (index, value s, label s)) stats;
     hv_companies := mapi (fun index c => (index, c))
                       [:: "Google"; "Microsoft"; "Airbnb"; "Shopify"; "Stripe"] |}.

End Hero.

(** The hero's entrance, lines 74-242: every part animates on mount
    ([animate], no [inView]) after its delay; times in ms. *)
Module HeroMotion.
Import Hero.

Record mount_anim := { ma_name : string; ma_delay_ms : nat; ma_duration_ms : nat }.

Definition ma_end (a : mount_anim) : nat := ma_delay_ms a + ma_duration_ms a.

(** The headline, the subtitle and the calls to action, lines 74-113. *)
Definition intro_anims : seq mount_anim :=
  [:: {| ma_name := "Transform Your Customer Relationships with T-CRM"; ma_delay_ms := 0;
         ma_duration_ms := 600 |};
      {| ma_name := "subtitle"; ma_delay_ms := 200; ma_duration_ms := 600 |};
      {| ma_name := "calls to action"; ma_delay_ms := 400; ma_duration_ms := 600 |}].

(** The stats, lines 117-157: the card at [index] from
    [0.5 + index * 0.1] s for 0.7 s, its value from [0.7 + index * 0.1] s
    for 0.5 s. *)
Definition stat_anims : seq (nat * mount_anim * mount_anim) :=
  mapi (fun index s =>
          (index, {| ma_name := label s; ma_delay_ms := 500 + 100 * index; ma_duration_ms := 700 |},
                  {| ma_name := value s; ma_delay_ms := 700 + 100 * index; ma_duration_ms := 500 |}))
       stats.

(** The mock-up, lines 162-167. *)
Definition image_anim : mount_anim := {| ma_name := "mock-up"; ma_delay_ms := 300; ma_duration_ms := 800 |}.

(** The two floating cards of the mock-up, lines 196-223: the chart's
    title and bar heights (Tailwind units), the reminder's texts. *)
Definition floating_details : (string * seq nat) * (string * string) :=
  (("Sales Performance", [:: 12; 16; 20; 14]), ("Task Reminder", "Follow up with client")).

(** The trusted-by row, lines 227-242. *)
Definition trusted_anim : mount_anim :=
  {| ma_name := "TRUSTED BY INNOVATIVE COMPANIES"; ma_delay_ms := 800; ma_duration_ms := 1000 |}.

Definition hero_timeline : seq mount_anim :=
  intro_anims ++ flatten [seq [:: x.1.2; x.2] | x <- stat_anims] ++ [:: image_anim; trusted_anim].

End HeroMotion.

Module Links.

(** ** Pages and anchors *)

(** The pages of the app router: one per [page.tsx] under [src/app]. *)
Definition app_pages : seq string :=
  [:: "/"; "/admin"; "/admin/login"; "/admin/dashboard"; "/style-guide";
      "/signup"; "/login"].

(** The route handlers under [src/app/api]. *)
Definition api_routes : seq string := [:: "/api/submit-form"; "/api/get-submissions"].

(** [Home], [src/app/page.tsx] lines 17-34: the sections in order, with
    the [id] of each section element (from the section's own file). *)
Definition home_sections : seq (string * option string) :=
  [:: ("HeroSection", None); ("EnhancedFeaturesSection", Some "features");
      ("ProductivitySection", Some "productivity"); ("UseCases", Some "use-cases");
      ("CLVSection", Some "clv"); ("CollaborationSection", Some "collaboration");
      ("LeadManagementSection", Some "lead-management");
      ("TestimonialsSection", None); ("PricingSection", Some "pricing");
      ("FAQSection", Some "faq"); ("DemoForm", Some "demo-form")].

Definition home_ids : seq string := pmap snd home_sections.

(** The ids a fragment link can target on page [r]: only the home page's
    sections are targets; the other pages' element ids are the form
    fields', which no link names. *)
Definition page_ids (r : string) : seq string :=
  if r == "/" then home_ids else [::].

(** ** The links each page renders, besides the header and the footer *)

(** [src/components/UseCases.tsx] lines 76-92: one "Learn more" per use
    case, six of them. *)
Definition usecase_links : seq link := nseq 6 (Link "Learn more" "#").

(** [src/components/CollaborationSection.tsx] line 121. *)
Definition collaboration_links : seq link := [:: Link "Discover all features" "/#demo-form"].

(** [src/components/PricingSection.tsx] lines 259-264. *)
Definition pricing_links : seq link := [:: Link "Check out our FAQ section" "#faq"].

(** [src/components/FAQSection.tsx] lines 251-256. *)
Definition faq_links : seq link := [:: Link "Contact Support" "/contact"].

(** [src/components/DemoForm.tsx] lines 443-445. *)
Definition demoform_links : seq link := [:: Link "Privacy Policy" "/privacy"].

(** The home page's own links, in the order of its sections. *)
Definition home_links : seq link :=
  Hero.hero_links ++ usecase_links ++ collaboration_links ++ pricing_links ++
  faq_links ++ demoform_links.

(** [src/app/signup/page.tsx] lines 138, 264 and 292. *)
Definition signup_links : seq link :=
  [:: Link "Go to Login" "/login"; Link "Terms of Service" "/terms";
      Link "Privacy Policy" "/privacy"; Link "Log in" "/login"].

(** [src/app/login/page.tsx] lines 85 and 124. *)
Definition login_links : seq link :=
  [:: Link "Forgot password?" "#"; Link "Sign up for free" "/signup"].

(** [src/app/admin/login/page.tsx] line 95 and
    [src/app/admin/dashboard/page.tsx] line 77. *)
Definition admin_links : seq link := [:: Link "Back to Website" "/"].

Definition own_links (r : string) : seq link :=
  if r == "/" then home_links
  else if r == "/signup" then signup_links
  else if r == "/login" then login_links
  else if (r == "/admin/login") || (r == "/admin/dashboard") then admin_links
  else [::].

(** [RootLayoutWrapper]: the header's two link sets, the page, the footer. *)
Definition page_links (r : string) : seq link :=
  [seq Header.hl_link l | l <- Header.desktop_links ++ Header.mobile_links] ++
  own_links r ++ Footer.footer_links.

(** ** Resolution *)

Inductive link_status := External | Placeholder | Resolves | Broken.

(** How a link of page [r] resolves: a scheme other than the site's own
    leaves the site; [#] goes nowhere by design; [/#id] needs a section
    [id] on the home page; [#id] needs one on the current page; a path
    needs a page or a route handler. *)
Definition classify (r : string) (h : string) : link_status :=
  if String.prefix "http://" h || String.prefix "https://" h || String.prefix "tel:" h ||
     String.prefix "mailto:" h then External
  else if h == "#" then Placeholder
  else if String.prefix "/#" h then
    if substring 2 (String.length h - 2) h \in home_ids then Resolves else Broken
  else if String.prefix "#" h then
    if substring 1 (String.length h - 1) h \in page_ids r then Resolves else Broken
  else if h \in (app_pages ++ api_routes)%SEQ then Resolves else Broken.

Definition is_broken (r h : string) : bool :=
  if classify r h is Broken then true else false.

Definition broken_links (r : string) : seq string :=
  [seq h <- [seq link_href l | l <- page_links r] | is_broken r h].

(** The distinct broken targets over all pages. *)
Definition site_broken : seq string := undup (flatten [seq broken_links r | r <- app_pages]).

End Links.

(** ** Lemmas *)

Lemma hero_tick_iter n :
  Hero.highlightIndex (iter n Hero.hero_tick Hero.hero_initial) =
  n %% size Hero.highlights.
Proof. by elim: n => [|n IH] //=; rewrite IH -addn1 modnDml addn1. Qed.

(** ** Properties *)

(** The hero section's state changes every 3 s, cycling through the five
    highlights, but its rendering never reads it: every state it reaches
    renders the same view. *)
Theorem hero_view_ignores_state (n : nat) :
  Hero.highlightIndex (iter n Hero.hero_tick Hero.hero_initial) = n %% 5 /\
  Hero.hero_render (iter n Hero.hero_tick Hero.hero_initial) = Hero.hero_render Hero.hero_initial.
Proof. by rewrite hero_tick_iter. Qed.

(** The hero's entrance: each stat's value starts 0.2 s after its card
    and both end together, the cards one tenth of a second apart; the
    whole section is in place after 1.8 s, the trusted-by row last. *)
Theorem hero_timeline_spec :
  all (fun x => (HeroMotion.ma_delay_ms x.2 == HeroMotion.ma_delay_ms x.1.2 + 200) &&
                (HeroMotion.ma_end x.2 == HeroMotion.ma_end x.1.2)) HeroMotion.stat_anims /\
  [seq HeroMotion.ma_delay_ms x.1.2 | x <- HeroMotion.stat_anims] = [:: 500; 600; 700] /\
  foldr maxn 0 [seq HeroMotion.ma_end a | a <- HeroMotion.hero_timeline] = 1800 /\
  [seq a <- HeroMotion.hero_timeline | HeroMotion.ma_end a == 1800] = [:: HeroMotion.trusted_anim].
Proof. by []. Qed.

(** ** Witnesses *)

