(* ===== verification/Card3D.v ===== *)
(** * Card3D: the two tilting card components.

    [src/components/ui/Card3D.tsx] is the card the pricing table, the
    testimonials and several landing sections wrap their content in: a
    mouse move over the card tilts it by [rotateX]/[rotateY] degrees,
    proportional to the pointer's offset from the card's centre and to the
    [depth] prop, and lifts it to [scale(1.02)]; leaving the card puts it
    back.  A shadow layer follows with [1.2] times the tilt and an opacity
    that grows with it.  [src/components/Card3D.tsx] is an older variant
    (used by the login page) whose tilt is the pointer's offset in pixels
    divided by [intensity]; [legacy_reachable_bounded] shows that its
    tilt is bounded only in terms of the card's size.

    Numbers are rationals ([Q]): the handlers only add, subtract, multiply
    and divide, and floating-point rounding is not modelled.  The card's
    bounding rectangle is a [Rect] with positive width and height, as the
    browser reports for a card the pointer is over; [cardRef.current] is an
    [option].  The state of each component is a record of its [useState]
    cells, and each handler a function on it. *)

From Stdlib Require Import QArith Qabs Lqa String.

Open Scope Q_scope.

(** [DOMRect], as far as the handlers read it. *)
Record Rect := { left : Q; top : Q; width : Q; height : Q }.

(** The pointer is over the element. *)
Definition inside (r : Rect) (clientX clientY : Q) : Prop :=
  left r <= clientX <= left r + width r /\ top r <= clientY <= top r + height r.

Module Card3D.

(** ** Props and state (lines 6-22) *)

(** [depth = 20], [shadow = true] when the prop is absent. *)
Definition depth_of (depth : option Q) : Q :=
  match depth with Some d => d | None => 20 end.

Record CardState := { rotateX : Q; rotateY : Q; scale : Q }.

Definition card_initial : CardState := {| rotateX := 0; rotateY := 0; scale := 1 |}.

(** ** Handlers (lines 24-55) *)

Definition handleMouseMove (cardRef : option Rect) (depth : Q)
    (clientX clientY : Q) (st : CardState) : CardState :=
  match cardRef with
  | None => st
  | Some rect =>
      let cardWidth := width rect in
      let cardHeight := height rect in
      let centerX := left rect + cardWidth / 2 in
      let centerY := top rect + cardHeight / 2 in
      let mouseX := clientX - centerX in
      let mouseY := clientY - centerY in
      let rotateXValue := (mouseY / (cardHeight / 2)) * - depth / 3 in
      let rotateYValue := (mouseX / (cardWidth / 2)) * depth / 3 in
      {| rotateX := rotateXValue; rotateY := rotateYValue; scale := 102 # 100 |}
  end.

Definition handleMouseLeave (st : CardState) : CardState :=
  {| rotateX := 0; rotateY := 0; scale := 1 |}.

Definition handleMouseEnter (st : CardState) : CardState :=
  {| rotateX := rotateX st; rotateY := rotateY st; scale := 102 # 100 |}.

(** ** Rendering (lines 57-84) *)

(** The numbers in the card's [transform] and in the shadow's style. *)
Record CardStyle := {
  card_rotate : Q * Q;
  card_scale : Q;
  shadow_rotate : Q * Q;
  shadow_opacity : Q
}.

Definition card_style (st : CardState) : CardStyle :=
  {| card_rotate := (rotateX st, rotateY st);
     card_scale := scale st;
     shadow_rotate := (rotateX st * (12 # 10), rotateY st * (12 # 10));
     shadow_opacity := (1 # 2) + (Qabs (rotateX st) + Qabs (rotateY st)) / 50 |}.

(** ** Interaction *)

(** The events the card receives while its rectangle is [rect] and its
    depth is [depth]: enter, moves over the card, leave. *)
Inductive card_step (rect : Rect) (depth : Q) (st : CardState) : CardState -> Prop :=
| cs_enter : card_step rect depth st (handleMouseEnter st)
| cs_move x y : inside rect x y ->
    card_step rect depth st (handleMouseMove (Some rect) depth x y st)
| cs_leave : card_step rect depth st (handleMouseLeave st).

End Card3D.

Module LegacyCard3D.

(** ** [src/components/Card3D.tsx] *)

Record LegacyState := { l_rotateX : Q; l_rotateY : Q }.

Definition legacy_initial : LegacyState := {| l_rotateX := 0; l_rotateY := 0 |}.

(** Lines 24-42; [x] and [y] are relative to the element's corner. *)
Definition handleMouseMove (animate : bool) (intensity : Q) (rect : Rect)
    (clientX clientY : Q) (st : LegacyState) : LegacyState :=
  if negb animate then st
  else
    let x := clientX - left rect in
    let y := clientY - top rect in
    let centerX := width rect / 2 in
    let centerY := height rect / 2 in
    {| l_rotateX := - ((y - centerY) / intensity);
       l_rotateY := (x - centerX) / intensity |}.

(** Lines 44-49. *)
Definition handleMouseLeave (animate : bool) (st : LegacyState) : LegacyState :=
  if negb animate then st else {| l_rotateX := 0; l_rotateY := 0 |}.

(** The props, lines 6-20, with their defaults. *)
Record LegacyProps := {
  lp_className : option string; lp_intensity : option Q; lp_animate : option bool;
  lp_initialScale : option Q
}.

Definition intensity_of (p : LegacyProps) : Q :=
  match lp_intensity p with Some v => v | None => 20 end.
Definition animate_of (p : LegacyProps) : bool :=
  match lp_animate p with Some v => v | None => true end.
Definition initialScale_of (p : LegacyProps) : Q :=
  match lp_initialScale p with Some v => v | None => 1 end.

(** The rendered [motion.div], lines 51-63: its class, the two rotations
    and the scale of its [transform], and the [whileHover] scale. *)
Definition legacy_style (p : LegacyProps) (st : LegacyState) : string * Q * Q * Q * option Q :=
  (String.append "perspective-1000 " (match lp_className p with Some c => c | None => EmptyString end),
   l_rotateX st, l_rotateY st, initialScale_of p,
   if animate_of p then Some (initialScale_of p * (105 # 100)) else None).

(** Moves over the card and leaves, the card's rectangle being [rect]. *)
Inductive legacy_step (p : LegacyProps) (rect : Rect) (st : LegacyState) : LegacyState -> Prop :=
| ls_move x y : inside rect x y ->
    legacy_step p rect st (handleMouseMove (animate_of p) (intensity_of p) rect x y st)
| ls_leave : legacy_step p rect st (handleMouseLeave (animate_of p) st).

Inductive legacy_reachable (p : LegacyProps) (rect : Rect) : LegacyState -> Prop :=
| lr_init : legacy_reachable p rect legacy_initial
| lr_step st st' : legacy_reachable p rect st -> legacy_step p rect st st' -> legacy_reachable p rect st'.

End LegacyCard3D.

Module Card3DProofs.
Import Card3D.

(** The states the card reaches from rest by the events of [card_step]. *)
Inductive card_reachable (rect : Rect) (depth : Q) : CardState -> Prop :=
| cr_init : card_reachable rect depth card_initial
| cr_step st st' : card_reachable rect depth st -> card_step rect depth st st' ->
    card_reachable rect depth st'.

(** ** Arithmetic helpers *)

Lemma qabs_le_iff x y : Qabs x <= y <-> - y <= x /\ x <= y.
Proof. split; [apply Qabs_Qle_condition | intros []; apply Qabs_case; intros; lra]. Qed.

Lemma div3 x : x / 3 == x * (1 # 3).
Proof. reflexivity. Qed.

Lemma div50 x : x / 50 == x * (1 # 50).
Proof. reflexivity. Qed.

(** The pointer's offset from the centre, over half the size, is in
    [[-1, 1]] when the pointer is over the element. *)
Lemma offset_ratio (lo size p : Q) :
  0 < size -> lo <= p <= lo + size ->
  Qabs ((p - (lo + size / 2)) / (size / 2)) <= 1.
Proof.
  intros Hs [H1 H2]; apply qabs_le_iff.
  assert (Hh : 0 < size / 2) by (apply Qlt_shift_div_l; lra).
  split; [apply Qle_shift_div_l | apply Qle_shift_div_r]; trivial;
    unfold Qdiv; change (/ 2) with (1 # 2); lra.
Qed.

(** A ratio in [[-1, 1]] times [depth / 3] is at most [depth / 3]. *)
Lemma scaled_ratio (t d : Q) :
  Qabs t <= 1 -> 0 <= d ->
  Qabs (t * - d / 3) <= d / 3 /\ Qabs (t * d / 3) <= d / 3.
Proof.
  intros Ht Hd; apply qabs_le_iff in Ht.
  assert (0 <= (1 - t) * d) by (apply Qmult_le_0_compat; lra).
  assert (0 <= (1 + t) * d) by (apply Qmult_le_0_compat; lra).
  rewrite !qabs_le_iff, !div3; split; split; lra.
Qed.

Lemma move_bounded rect depth x y st :
  0 < width rect -> 0 < height rect -> 0 <= depth -> inside rect x y ->
  let st' := handleMouseMove (Some rect) depth x y st in
  Qabs (rotateX st') <= depth / 3 /\ Qabs (rotateY st') <= depth / 3 /\
  scale st' = 102 # 100.
Proof.
  intros Hw Hh Hd [Hx Hy]; cbn.
  destruct (scaled_ratio _ _ (offset_ratio _ _ _ Hh Hy) Hd) as [Hrx _].
  destruct (scaled_ratio _ _ (offset_ratio _ _ _ Hw Hx) Hd) as [_ Hry].
  auto.
Qed.

Lemma offset_corner (lo size : Q) :
  0 < size -> (lo - (lo + size / 2)) / (size / 2) == -1.
Proof. intros Hs; field; intro H; lra. Qed.

Lemma opacity_corner (d : Q) :
  Qabs (-1 * - d / 3) + Qabs (-1 * d / 3) == d / 3 + d / 3 \/ d < 0.
Proof.
  destruct (Qlt_le_dec d 0) as [Hd|Hd]; [now right|left].
  assert (E1 : -1 * - d / 3 == d / 3) by field.
  assert (E2 : -1 * d / 3 == - (d / 3)) by field.
  rewrite E1, E2, Qabs_opp, Qabs_pos; [reflexivity | rewrite div3; lra].
Qed.

(** ** Properties *)

(** C24: Over a card of positive size with a non-negative [depth], every state
    the card reaches by entering, moving over it and leaving is tilted by
    at most [depth / 3] degrees on each axis, and is either at rest
    (no tilt, [scale(1)]) or lifted to [scale(1.02)]. *)
Theorem card_reachable_bounded (rect : Rect) (depth : Q) (st : CardState) :
  0 < width rect -> 0 < height rect -> 0 <= depth ->
  card_reachable rect depth st ->
  Qabs (rotateX st) <= depth / 3 /\ Qabs (rotateY st) <= depth / 3 /\
  ((scale st = 1 /\ rotateX st = 0 /\ rotateY st = 0) \/ scale st = 102 # 100).
Proof.
  intros Hw Hh Hd Hr.
  assert (H0 : 0 <= depth / 3) by (rewrite div3; lra).
  induction Hr as [|st st' Hr IH Hs]; [cbn; intuition|].
  destruct IH as [Hx [Hy _]]; destruct Hs as [| x y Hin |]; cbn.
  - intuition.
  - destruct (move_bounded _ _ _ _ st Hw Hh Hd Hin) as [? [? ?]]; intuition.
  - intuition.
Qed.

(** The shadow's opacity: with [depth <= 37.5] it stays at most 1 in
    every reachable state; with a larger [depth], a pointer at the card's
    corner pushes it above 1, outside CSS's range.  The site passes 15,
    20 (the default), 25 and 35 (a selected pricing card). *)
Theorem shadow_opacity_bound (rect : Rect) (depth : Q) :
  0 < width rect -> 0 < height rect -> 0 <= depth ->
  (depth <= 75 # 2 -> forall st, card_reachable rect depth st ->
     shadow_opacity (card_style st) <= 1) /\
  (75 # 2 < depth -> exists x y, inside rect x y /\
     1 < shadow_opacity (card_style (handleMouseMove (Some rect) depth x y card_initial))).
Proof.
  intros Hw Hh Hd; split.
  - intros Hd' st Hst.
    destruct (card_reachable_bounded _ _ _ Hw Hh Hd Hst) as [Hx [Hy _]].
    cbn [card_style shadow_opacity]; rewrite div50; rewrite div3 in Hx, Hy; lra.
  - intros Hd'; exists (left rect), (top rect); split.
    + unfold inside; lra.
    + cbn [card_style handleMouseMove shadow_opacity rotateX rotateY].
      rewrite (offset_corner _ _ Hh), (offset_corner _ _ Hw).
      destruct (opacity_corner depth) as [E|E]; [|lra].
      rewrite div50, E, div3; lra.
Qed.

(** ** The legacy card *)

Lemma qabs_div_le a b i : 0 < i -> Qabs a <= b -> Qabs (a / i) <= b / i.
Proof.
  intros Hi Ha; apply qabs_le_iff in Ha; apply qabs_le_iff.
  assert (Hk : 0 < / i) by (apply Qinv_lt_0_compat; exact Hi).
  unfold Qdiv; set (k := / i) in *; split; nra.
Qed.

(** The pointer's offset from the centre is at most half the size. *)
Lemma centre_offset lo size c :
  lo <= c <= lo + size -> Qabs (c - lo - size / 2) <= size / 2.
Proof.
  intros [H1 H2]; apply qabs_le_iff; unfold Qdiv; change (/ 2) with (1 # 2); split; lra.
Qed.

(** Every state the legacy card reaches is tilted by at most half its
    height (about the x axis) and half its width (about the y axis) over
    the intensity. *)
Lemma legacy_states_bounded (p : LegacyCard3D.LegacyProps) (rect : Rect) st :
  0 < LegacyCard3D.intensity_of p -> 0 < width rect -> 0 < height rect ->
  LegacyCard3D.legacy_reachable p rect st ->
  Qabs (LegacyCard3D.l_rotateX st) <= height rect / 2 / LegacyCard3D.intensity_of p /\
  Qabs (LegacyCard3D.l_rotateY st) <= width rect / 2 / LegacyCard3D.intensity_of p.
Proof.
  intros Hi Hw Hh Hr.
  assert (Hx0 : 0 <= height rect / 2 / LegacyCard3D.intensity_of p).
  { apply Qle_shift_div_l; [exact Hi|]; unfold Qdiv; change (/ 2) with (1 # 2); lra. }
  assert (Hy0 : 0 <= width rect / 2 / LegacyCard3D.intensity_of p).
  { apply Qle_shift_div_l; [exact Hi|]; unfold Qdiv; change (/ 2) with (1 # 2); lra. }
  induction Hr as [|st st' _ IH Hs].
  { cbn [LegacyCard3D.legacy_initial LegacyCard3D.l_rotateX LegacyCard3D.l_rotateY].
    split; (rewrite Qabs_pos; [lra | lra]). }
  destruct Hs as [x y [Hinx Hiny] | ]; unfold LegacyCard3D.handleMouseMove, LegacyCard3D.handleMouseLeave;
    destruct (LegacyCard3D.animate_of p); cbn -[Qabs]; try exact IH.
  - split.
    + rewrite Qabs_opp; apply qabs_div_le; [exact Hi|].
      exact (centre_offset _ _ _ Hiny).
    + apply qabs_div_le; [exact Hi|]; exact (centre_offset _ _ _ Hinx).
  - split; (rewrite Qabs_pos; [lra | lra]).
Qed.

(** The pointer at the card's top-left corner reaches both bounds. *)
Lemma legacy_corner (p : LegacyCard3D.LegacyProps) (rect : Rect) :
  0 < LegacyCard3D.intensity_of p -> 0 < width rect -> 0 < height rect ->
  let st := LegacyCard3D.handleMouseMove true (LegacyCard3D.intensity_of p) rect
              (left rect) (top rect) LegacyCard3D.legacy_initial in
  Qabs (LegacyCard3D.l_rotateX st) == height rect / 2 / LegacyCard3D.intensity_of p /\
  Qabs (LegacyCard3D.l_rotateY st) == width rect / 2 / LegacyCard3D.intensity_of p.
Proof.
  intros Hi Hw Hh st; unfold st, LegacyCard3D.handleMouseMove.
  cbn [negb LegacyCard3D.l_rotateX LegacyCard3D.l_rotateY].
  set (i := LegacyCard3D.intensity_of p) in *.
  assert (Hx0 : 0 <= height rect / 2 / i).
  { apply Qle_shift_div_l; [exact Hi|]; unfold Qdiv; change (/ 2) with (1 # 2); lra. }
  assert (Hy0 : 0 <= width rect / 2 / i).
  { apply Qle_shift_div_l; [exact Hi|]; unfold Qdiv; change (/ 2) with (1 # 2); lra. }
  assert (E1 : - ((top rect - top rect - height rect / 2) / i) == height rect / 2 / i)
    by (unfold Qdiv; ring).
  assert (E2 : (left rect - left rect - width rect / 2) / i == - (width rect / 2 / i))
    by (unfold Qdiv; ring).
  split; [transitivity (Qabs (height rect / 2 / i)) | transitivity (Qabs (- (width rect / 2 / i)))];
    try (apply Qabs_wd; assumption).
  - now apply Qabs_pos.
  - rewrite Qabs_opp; now apply Qabs_pos.
Qed.

(** C8: [components/Card3D.tsx] (the card of the login page) does not
    normalise the pointer: with [intensity > 0], every state a card of
    size [w x h] reaches by moves over it and leaves is tilted by at most
    [h / (2 intensity)] and [w / (2 intensity)] degrees, and when it
    animates a move to its corner reaches both bounds, so its tilt grows
    with the card's size; at the default intensity 20 a 448-pixel-wide
    card tilts by 11.2 degrees. *)
Theorem legacy_reachable_bounded (p : LegacyCard3D.LegacyProps) (rect : Rect) :
  0 < LegacyCard3D.intensity_of p -> 0 < width rect -> 0 < height rect ->
  (forall st, LegacyCard3D.legacy_reachable p rect st ->
     Qabs (LegacyCard3D.l_rotateX st) <= height rect / 2 / LegacyCard3D.intensity_of p /\
     Qabs (LegacyCard3D.l_rotateY st) <= width rect / 2 / LegacyCard3D.intensity_of p) /\
  (LegacyCard3D.animate_of p = true ->
   exists st, LegacyCard3D.legacy_reachable p rect st /\
     Qabs (LegacyCard3D.l_rotateX st) == height rect / 2 / LegacyCard3D.intensity_of p /\
     Qabs (LegacyCard3D.l_rotateY st) == width rect / 2 / LegacyCard3D.intensity_of p).
Proof.
  intros Hi Hw Hh; split; [intros st; exact (legacy_states_bounded p rect st Hi Hw Hh)|].
  intros Ha; eexists; split; [|exact (legacy_corner p rect Hi Hw Hh)].
  rewrite <- Ha.
  apply (LegacyCard3D.lr_step _ _ LegacyCard3D.legacy_initial); [constructor|].
  constructor; unfold inside; lra.
Qed.

(** ** Witnesses *)

(** A 300 x 400 pricing card, selected (depth 25 + 10), the pointer near
    its top-left corner. *)
Definition sample_rect : Rect := {| left := 0; top := 0; width := 300; height := 400 |}.

Definition sample_state : CardState :=
  handleMouseMove (Some sample_rect) 35 50 100 (handleMouseEnter card_initial).

Lemma sample_reachable : card_reachable sample_rect 35 sample_state.
Proof.
  apply (cr_step _ _ (handleMouseEnter card_initial)).
  - apply (cr_step _ _ card_initial); [constructor | constructor].
  - constructor; unfold inside; cbn; lra.
Qed.

Lemma card_reachable_bounded_witness :
  card_reachable sample_rect 35 sample_state /\
  Qabs (rotateX sample_state) <= 35 / 3.
Proof.
  split; [exact sample_reachable|].
  apply (card_reachable_bounded sample_rect 35 sample_state); try (cbn; lra).
  exact sample_reachable.
Defined.

Lemma shadow_opacity_bound_witness :
  shadow_opacity (card_style sample_state) <= 1 /\
  exists x y, inside sample_rect x y /\
    1 < shadow_opacity (card_style (handleMouseMove (Some sample_rect) 40 x y card_initial)).
Proof.
  split.
  - apply (shadow_opacity_bound sample_rect 35); try (cbn; lra).
    exact sample_reachable.
  - apply (shadow_opacity_bound sample_rect 40); cbn; lra.
Defined.

(** The login page's card, 448 x 500 pixels at the default intensity. *)
Definition login_card : Rect := {| left := 0; top := 0; width := 448; height := 500 |}.
Definition login_props : LegacyCard3D.LegacyProps :=
  {| LegacyCard3D.lp_className := None; LegacyCard3D.lp_intensity := None;
     LegacyCard3D.lp_animate := None; LegacyCard3D.lp_initialScale := None |}.

Lemma legacy_reachable_bounded_witness :
  exists st, LegacyCard3D.legacy_reachable login_props login_card st /\
    Qabs (LegacyCard3D.l_rotateY st) == 56 # 5.
Proof.
  destruct (legacy_reachable_bounded login_props login_card ltac:(reflexivity)
              ltac:(reflexivity) ltac:(reflexivity)) as [_ H].
  destruct (H eq_refl) as (st & Hr & _ & Hy).
  exists st; split; [exact Hr|]; rewrite Hy; reflexivity.
Defined.

End Card3DProofs.
