(* ===== verification/Tooltip.v ===== *)
(** * Tooltip: the animated tooltip, [src/components/ui/AnimatedTooltip.tsx].

    The tooltip wraps an element; [onMouseEnter] and [onFocus] run
    [handleMouseEnter], which clears the timeout in [timeoutRef] and
    schedules a new one that opens the tooltip after [delay] seconds;
    [onMouseLeave] and [onBlur] run [handleMouseLeave], which clears the
    timeout and closes the tooltip.  The [direction] prop picks where the
    tooltip and its arrow are placed and the direction it slides in from.

    The browser's timeouts are explicit: [pending] is the list of
    scheduled timeout ids, [setTimeout] allocates [next_id], [clearTimeout]
    removes an id, and a pending timeout may fire at any time.  The world
    also records whether the pointer is over the element and whether it
    has the focus, so that the theorems can speak of what the user does.
    The tooltip's state is the record of its [useState] cells and its ref. *)

From Stdlib Require Import List Bool Arith Lia String ZArith.
Import ListNotations.

Open Scope string_scope.

Module Tooltip.

(** ** Placement (lines 6-12, 38-80) *)

Inductive direction := Top | Bottom | Left | Right.

(** [direction = 'top'] when the prop is absent. *)
Definition direction_of (d : option direction) : direction :=
  match d with Some d => d | None => Top end.

(** A style object, as its list of properties. *)
Definition style := list (string * string).

(** [initial]/[exit] of the slide: the axis and the offset in pixels. *)
Record slide := { axis : string; offset : Z }.

Record placement := {
  tooltipPosition : style;
  arrowPosition : style;
  slide_from : slide           (* [initial] and [exit]; [animate] is 0 *)
}.

Definition placement_of (d : direction) : placement :=
  match d with
  | Top =>
      {| tooltipPosition := [("bottom", "100%"); ("left", "50%");
                             ("transform", "translateX(-50%) translateY(-8px)")];
         arrowPosition := [("bottom", "-6px"); ("left", "50%");
                           ("transform", "translateX(-50%) rotate(45deg)")];
         slide_from := {| axis := "y"; offset := -10 |} |}
  | Bottom =>
      {| tooltipPosition := [("top", "100%"); ("left", "50%");
                             ("transform", "translateX(-50%) translateY(8px)")];
         arrowPosition := [("top", "-6px"); ("left", "50%");
                           ("transform", "translateX(-50%) rotate(45deg)")];
         slide_from := {| axis := "y"; offset := 10 |} |}
  | Left =>
      {| tooltipPosition := [("right", "100%"); ("top", "50%");
                             ("transform", "translateY(-50%) translateX(-8px)")];
         arrowPosition := [("right", "-6px"); ("top", "50%");
                           ("transform", "translateY(-50%) rotate(45deg)")];
         slide_from := {| axis := "x"; offset := -10 |} |}
  | Right =>
      {| tooltipPosition := [("left", "100%"); ("top", "50%");
                             ("transform", "translateY(-50%) translateX(8px)")];
         arrowPosition := [("left", "-6px"); ("top", "50%");
                           ("transform", "translateY(-50%) rotate(45deg)")];
         slide_from := {| axis := "x"; offset := 10 |} |}
  end%Z.

(** ** State and handlers (lines 21-36) *)

Record TipState := { isOpen : bool; hasMounted : bool; timeoutRef : option nat }.

Definition tip_initial : TipState :=
  {| isOpen := false; hasMounted := false; timeoutRef := None |}.

(** The component and the browser's pending timeouts. *)
Record World := {
  tip : TipState;
  pending : list nat;
  next_id : nat;
  pointer_over : bool;          (* the user's pointer is over the element *)
  focused : bool                (* the element has the focus *)
}.

Definition world_initial : World :=
  {| tip := tip_initial; pending := []; next_id := 1;
     pointer_over := false; focused := false |}.

Definition clearTimeout (id : nat) (l : list nat) : list nat :=
  filter (fun j => negb (Nat.eqb j id)) l.

(** [if (timeoutRef.current) clearTimeout(timeoutRef.current)]. *)
Definition clear_ref (t : TipState) (l : list nat) : list nat :=
  match timeoutRef t with Some id => clearTimeout id l | None => l end.

(** [handleMouseEnter]: clear, then
    [timeoutRef.current = setTimeout(open, delay * 1000)]. *)
Definition handleMouseEnter (w : World) : World :=
  let l := clear_ref (tip w) (pending w) in
  {| tip := {| isOpen := isOpen (tip w); hasMounted := hasMounted (tip w);
               timeoutRef := Some (next_id w) |};
     pending := l ++ [next_id w];
     next_id := S (next_id w);
     pointer_over := pointer_over w; focused := focused w |}.

(** [handleMouseLeave]: clear, then [setIsOpen(false)]. *)
Definition handleMouseLeave (w : World) : World :=
  {| tip := {| isOpen := false; hasMounted := hasMounted (tip w);
               timeoutRef := timeoutRef (tip w) |};
     pending := clear_ref (tip w) (pending w);
     next_id := next_id w;
     pointer_over := pointer_over w; focused := focused w |}.

(** The timeout's callback: [setIsOpen(true); setHasMounted(true)]. *)
Definition fire (id : nat) (w : World) : World :=
  {| tip := {| isOpen := true; hasMounted := true; timeoutRef := timeoutRef (tip w) |};
     pending := clearTimeout id (pending w);
     next_id := next_id w;
     pointer_over := pointer_over w; focused := focused w |}.

Definition set_user (over foc : bool) (w : World) : World :=
  {| tip := tip w; pending := pending w; next_id := next_id w;
     pointer_over := over; focused := foc |}.

(** ** Events (lines 83-88) *)

(** What the user and the browser do: the pointer enters or leaves, the
    element gains or loses the focus, a pending timeout fires. *)
Inductive tip_step (w : World) : World -> Prop :=
| mouse_enter : pointer_over w = false ->
    tip_step w (handleMouseEnter (set_user true (focused w) w))
| mouse_leave : pointer_over w = true ->
    tip_step w (handleMouseLeave (set_user false (focused w) w))
| focus : focused w = false ->
    tip_step w (handleMouseEnter (set_user (pointer_over w) true w))
| blur : focused w = true ->
    tip_step w (handleMouseLeave (set_user (pointer_over w) false w))
| timeout_fires id : In id (pending w) -> tip_step w (fire id w).

Inductive tip_reachable : World -> Prop :=
| tr_init : tip_reachable world_initial
| tr_step w w' : tip_reachable w -> tip_step w w' -> tip_reachable w'.

(** Whether the tooltip renders ([{isOpen && ...}], line 93). *)
Definition shown (w : World) : bool := isOpen (tip w).

(** ** Rendering (lines 82-156) *)

(** The props this file renders with: the [className] of the wrapper
    (default [''], line 19) and the content. *)
Definition className_of (c : option string) : string :=
  match c with Some v => v | None => EmptyString end.

(** The open tooltip: its style (the placement's position and the 3D
    hints), the offset it slides in from, the amplitudes of the floating
    animation of its content ([y], [rotateX], [rotateY]), the content and
    the arrow's style. *)
Record TipView := {
  tv_style : style;
  tv_slide : slide;
  tv_float : Z * Z * Z;
  tv_content : string;
  tv_arrow : style
}.

Definition tooltip_view (cls : option string) (d : option direction) (content : string)
    (t : TipState) : string * option TipView :=
  let pl := placement_of (direction_of d) in
  ("relative inline-block " ++ className_of cls,
   if isOpen t then
     Some {| tv_style := (tooltipPosition pl ++ [("transformStyle", "preserve-3d");
                                                ("willChange", "transform, opacity")])%list;
             tv_slide := slide_from pl;
             tv_float := if hasMounted t then (3, 2, -2)%Z else (0, 0, 0)%Z;
             tv_content := content;
             tv_arrow := arrowPosition pl |}
   else None).

(** The pending timeouts are at most the one in the ref. *)
Definition tip_inv (w : World) : Prop :=
  match timeoutRef (tip w) with
  | Some r => pending w = [] \/ pending w = [r]
  | None => pending w = []
  end.

(** ** Lemmas *)

Lemma clearTimeout_nil id : clearTimeout id [] = [].
Proof. reflexivity. Qed.

Lemma clearTimeout_self id : clearTimeout id [id] = [].
Proof. unfold clearTimeout; cbn; now rewrite Nat.eqb_refl. Qed.

(** Under the invariant, clearing the ref's timeout leaves nothing. *)
Lemma clear_ref_empty w : tip_inv w -> clear_ref (tip w) (pending w) = [].
Proof.
  unfold tip_inv, clear_ref; destruct (timeoutRef (tip w)) as [r|].
  - intros [-> | ->]; [apply clearTimeout_nil | apply clearTimeout_self].
  - now intros ->.
Qed.

Lemma clearTimeout_sub id r l :
  (l = [] \/ l = [r]) -> clearTimeout id l = [] \/ clearTimeout id l = [r].
Proof.
  intros [-> | ->]; [now left|].
  unfold clearTimeout; cbn; destruct (Nat.eqb r id); cbn; auto.
Qed.

Lemma tip_step_inv w w' : tip_inv w -> tip_step w w' -> tip_inv w'.
Proof.
  intros Hinv Hs; destruct Hs as [_|_|_|_|id _]; unfold tip_inv; cbn.
  - rewrite (clear_ref_empty _ Hinv); now right.
  - now rewrite (clear_ref_empty _ Hinv); destruct (timeoutRef (tip w)); auto.
  - rewrite (clear_ref_empty _ Hinv); now right.
  - now rewrite (clear_ref_empty _ Hinv); destruct (timeoutRef (tip w)); auto.
  - unfold tip_inv in Hinv; destruct (timeoutRef (tip w)) as [r|].
    + now apply clearTimeout_sub.
    + now rewrite Hinv.
Qed.

Lemma tip_reachable_inv w : tip_reachable w -> tip_inv w.
Proof.
  induction 1 as [|w w' _ IH Hs]; [reflexivity|].
  exact (tip_step_inv _ _ IH Hs).
Qed.

(** An open tooltip always floats: the timeout that opens it also sets
    [hasMounted], and nothing clears it. *)
Lemma open_floats w : tip_reachable w -> isOpen (tip w) = true -> hasMounted (tip w) = true.
Proof.
  induction 1 as [|w w' _ IH Hs]; [discriminate|].
  destruct Hs; cbn; try discriminate; try reflexivity; auto.
Qed.

Lemma tooltip_view_open w cls d content :
  tip_reachable w -> isOpen (tip w) = true ->
  exists v, snd (tooltip_view cls d content (tip w)) = Some v /\ tv_float v = (3, 2, -2)%Z /\
            tv_content v = content.
Proof.
  intros Hw Ho; unfold tooltip_view; cbn [snd]; rewrite Ho, (open_floats w Hw Ho).
  eexists; split; [reflexivity | split; reflexivity].
Qed.

(** ** Properties *)

(** C23: In every reachable world at most one timeout is pending, and it is
    the one [timeoutRef] holds: re-entering (by pointer or focus) before
    the delay has passed replaces the timeout instead of adding one. *)
Theorem tooltip_single_timeout (w : World) :
  tip_reachable w ->
  List.length (pending w) <= 1 /\
  (forall id, In id (pending w) -> timeoutRef (tip w) = Some id).
Proof.
  intros Hw; pose proof (tip_reachable_inv _ Hw) as Hinv; unfold tip_inv in Hinv.
  destruct (timeoutRef (tip w)) as [r|].
  - destruct Hinv as [-> | ->]; cbn; (split; [lia|]).
    + intros id [].
    + intros id [<- | []]; reflexivity.
  - rewrite Hinv; cbn; split; [lia | intros _ []].
Qed.

(** C25: A leave (pointer out or blur) closes the tooltip and cancels the
    pending timeout, so that the next event, whatever it is, leaves the
    tooltip hidden: it reappears only after a new enter and a full delay.
    This holds even when the other source still engages the element: a
    pointer leaving a focused element hides the tooltip while the
    element keeps the focus. *)
Theorem tooltip_leave_closes (w : World) (over foc : bool) :
  tip_reachable w ->
  let w' := handleMouseLeave (set_user over foc w) in
  shown w' = false /\ pending w' = [] /\
  (forall w'', tip_step w' w'' -> shown w'' = false).
Proof.
  intros Hw w'.
  assert (Hp : pending w' = []).
  { apply (clear_ref_empty (set_user over foc w)), (tip_reachable_inv _ Hw). }
  split; [reflexivity|]; split; [exact Hp|].
  intros w'' Hs; destruct Hs as [_|_|_|_|id Hid]; try reflexivity.
  rewrite Hp in Hid; destruct Hid.
Qed.

(** ** Witnesses *)

(** Focus the element, move the pointer in, let the timeout fire. *)
Definition w_focus : World := handleMouseEnter (set_user false true world_initial).
Definition w_hover : World := handleMouseEnter (set_user true true w_focus).
Definition w_open : World := fire 2 w_hover.

Lemma w_open_reachable : tip_reachable w_open.
Proof.
  apply (tr_step w_hover); [apply (tr_step w_focus)|].
  - apply (tr_step world_initial); [constructor | now constructor].
  - now constructor.
  - constructor; cbn; auto.
Qed.

Lemma tooltip_single_timeout_witness :
  tip_reachable w_hover /\ List.length (pending w_hover) <= 1.
Proof.
  assert (H : tip_reachable w_hover).
  { apply (tr_step w_focus); [|now constructor].
    apply (tr_step world_initial); [constructor | now constructor]. }
  split; [exact H | apply (tooltip_single_timeout w_hover H)].
Defined.

(** The tooltip was shown; the pointer leaves while the element keeps
    the focus; the tooltip is hidden. *)
Lemma tooltip_leave_closes_witness :
  shown w_open = true /\ focused w_open = true /\
  focused (handleMouseLeave (set_user false true w_open)) = true /\
  shown (handleMouseLeave (set_user false true w_open)) = false.
Proof.
  split; [reflexivity|]; split; [reflexivity|]; split; [reflexivity|].
  destruct (tooltip_leave_closes w_open false true w_open_reachable) as [H _].
  exact H.
Defined.

End Tooltip.
