(* ===== verification/FeatureCards.v ===== *)
(** * FeatureCards: the features section of the home page,
    [src/components/EnhancedFeaturesSection.tsx], and the card it renders,
    [src/components/ui/EnhancedFeatureCard.tsx].

    The section holds six features (title, description, icon, tooltip)
    and renders one [EnhancedFeatureCard] per feature with
    [delay={index}] and [depth={25}].  A card tilts towards the pointer:
    [handleMouseMove] stores the pointer's offset from the card's centre
    normalised by half the card's size, and the card's [transform] and
    [boxShadow] are computed from it while the card is hovered.  Every card
    is wrapped in the animated tooltip ([Tooltip]) with [direction="top"]
    and [delay={0.5}].  The section also installs a [mousemove] listener on
    the document that is meant to tilt the element behind [mouseRef].

    Numbers are rationals as in [Card3D], whose [Rect] and [inside] this
    file shares; the rectangle a move event sees is the one
    [getBoundingClientRect] reports at that moment, so it is an argument of
    each move.  The particles' positions come from [Math.random] and are
    not modelled; their number is.  Icons are named by their component. *)

From Stdlib Require Import List String Arith QArith Qabs Lqa.
From S2P Require Import Card3D Tooltip.
Import ListNotations.

Open Scope Q_scope.

Module EnhancedFeatureCard.

(** ** Props and state (lines 8-32) *)

(** A tooltip's content as the section and the card write it: an [h4]
    heading and a bullet list. *)
Record TipContent := { tip_heading : string; tip_items : list string }.

Record CardProps := {
  title : string;
  description : string;
  icon : string;
  delay : option Q;
  depth : option Q;
  tooltipContent : option TipContent
}.

(** [delay = 0], [depth = 20] when the prop is absent. *)
Definition delay_of (p : CardProps) : Q :=
  match delay p with Some d => d | None => 0 end.

Definition depth_of (p : CardProps) : Q :=
  match depth p with Some d => d | None => 20 end.

(** [isHovered], [mousePosition] and whether [controls.start('visible')]
    has run. *)
Record CardState := { isHovered : bool; mouseX : Q; mouseY : Q; started : bool }.

Definition card_initial : CardState :=
  {| isHovered := false; mouseX := 0; mouseY := 0; started := false |}.

(** ** Handlers (lines 34-52, 117-121) *)

(** The effect on [inView] ([triggerOnce]): start the entrance animation. *)
Definition inView_effect (inView : bool) (st : CardState) : CardState :=
  if inView then {| isHovered := isHovered st; mouseX := mouseX st; mouseY := mouseY st;
                    started := true |}
  else st.

Definition handleMouseMove (cardRef : option Rect) (clientX clientY : Q)
    (st : CardState) : CardState :=
  match cardRef with
  | None => st
  | Some rect =>
      let centerX := left rect + width rect / 2 in
      let centerY := top rect + height rect / 2 in
      let normalizedX := (clientX - centerX) / (width rect / 2) in
      let normalizedY := (clientY - centerY) / (height rect / 2) in
      {| isHovered := isHovered st; mouseX := normalizedX; mouseY := normalizedY;
         started := started st |}
  end.

Definition onMouseEnter (st : CardState) : CardState :=
  {| isHovered := true; mouseX := mouseX st; mouseY := mouseY st; started := started st |}.

Definition onMouseLeave (st : CardState) : CardState :=
  {| isHovered := false; mouseX := 0; mouseY := 0; started := started st |}.

(** ** Rendering (lines 54-227) *)

(** [defaultTooltipContent], lines 80-98. *)
Definition defaultTooltipContent (p : CardProps) : TipContent :=
  {| tip_heading := title p ++ " Features";
     tip_items := ["Easy integration with existing systems";
                   "Advanced filters and search capabilities";
                   "Real-time updates and notifications"] |}%string.

(** What a render shows: the numbers of the card's [transform]
    ([rotateX], [rotateY], [scale3d]) and [boxShadow] (vertical offset,
    blur, alpha), the [translateZ] of the icon, title and description,
    the icon's [scale], the particles, the "Hover for details" line, the
    tooltip's props and the entrance animation. *)
Record CardView := {
  v_rotate : Q * Q;
  v_scale : Q;
  v_shadow : Q * Q * Q;
  v_icon_z : Q; v_title_z : Q; v_desc_z : Q;
  v_icon_scale : Q;
  v_particles : nat;
  v_learn_more : bool;
  v_title : string; v_description : string; v_icon : string;
  v_tooltip : TipContent;
  v_tooltip_direction : Tooltip.direction;
  v_tooltip_delay : Q;
  v_entrance_delay : Q;
  v_visible : bool
}.

Definition card_view (p : CardProps) (st : CardState) : CardView :=
  let h := isHovered st in
  let d := depth_of p in
  {| v_rotate := if h then (- mouseY st * d / 4, mouseX st * d / 4) else (0, 0);
     v_scale := if h then 102 # 100 else 1;
     v_shadow := if h then (20 + Qabs (mouseY st) * 20, 30 + Qabs (mouseX st) * 20, 1 # 10)
                 else (10, 30, 8 # 100);
     v_icon_z := if h then d else 0;
     v_title_z := if h then 15 else 0;
     v_desc_z := if h then 10 else 0;
     v_icon_scale := if h then 12 # 10 else 1;
     v_particles := if h then 5 else 0;
     v_learn_more := h;
     v_title := title p; v_description := description p; v_icon := icon p;
     v_tooltip := match tooltipContent p with
                  | Some c => c
                  | None => defaultTooltipContent p
                  end;
     v_tooltip_direction := Tooltip.Top;
     v_tooltip_delay := 1 # 2;
     v_entrance_delay := delay_of p * (15 # 100);
     v_visible := started st |}.

(** ** Interaction *)

(** What the browser delivers to one card: the pointer enters, moves over
    the card (whose rectangle, as reported at that moment, has a positive
    size and contains the pointer), leaves; the card scrolls into view. *)
Inductive card_step (st : CardState) : CardState -> Prop :=
| ec_enter : isHovered st = false -> card_step st (onMouseEnter st)
| ec_move rect x y : isHovered st = true -> 0 < width rect -> 0 < height rect ->
    inside rect x y -> card_step st (handleMouseMove (Some rect) x y st)
| ec_leave : isHovered st = true -> card_step st (onMouseLeave st)
| ec_in_view : card_step st (inView_effect true st).

Inductive card_reachable : CardState -> Prop :=
| er_init : card_reachable card_initial
| er_step st st' : card_reachable st -> card_step st st' -> card_reachable st'.

End EnhancedFeatureCard.

Module EnhancedFeaturesSection.
Import EnhancedFeatureCard.

(** ** The features (lines 18-176) *)

Definition tip_of (h : string) (a b c : string) : TipContent :=
  {| tip_heading := h; tip_items := [a; b; c] |}.

Definition ContactManagementTooltip : TipContent :=
  tip_of "Contact Management Features" "Unified contact database with 360° views"
      "Custom fields and tagging system" "AI-powered contact deduplication".

Definition SalesPipelineTooltip : TipContent :=
  tip_of "Sales Pipeline Features" "Visual kanban board with drag-and-drop"
      "Revenue forecasting with AI predictions" "Conversion rate analytics by stage".

Definition EmailCampaignsTooltip : TipContent :=
  tip_of "Email Campaigns Features" "Drag-and-drop email builder"
      "Behavioral triggered campaigns" "A/B testing and performance analytics".

Definition AccountManagementTooltip : TipContent :=
  tip_of "Account Management Features" "Hierarchical account structures"
      "Account health scoring" "Relationship mapping between contacts".

Definition CallCenterTooltip : TipContent :=
  tip_of "Call Center Integration" "One-click calling from any record"
      "Call recording with AI transcription" "Sentiment analysis and call scoring".

Definition WorkflowAutomationTooltip : TipContent :=
  tip_of "Workflow Automation" "No-code automation builder"
      "Trigger-based workflows" "Multi-stage approval processes".

Record Feature := {
  f_title : string; f_description : string; f_icon : string; f_tooltip : TipContent }.

Definition features : list Feature :=
  [ {| f_title := "Contact Management";
       f_description := "Store all your customer data in one place with detailed profiles, interaction history, and smart segmentation.";
       f_icon := "UserGroupIcon"; f_tooltip := ContactManagementTooltip |};
    {| f_title := "Sales Pipeline";
       f_description := "Track deals from lead to close with customizable stages, forecasting, and performance analytics.";
       f_icon := "ChartBarIcon"; f_tooltip := SalesPipelineTooltip |};
    {| f_title := "Email Campaigns";
       f_description := "Create, automate, and track personalized email campaigns that nurture leads and engage customers.";
       f_icon := "EnvelopeIcon"; f_tooltip := EmailCampaignsTooltip |};
    {| f_title := "Account Management";
       f_description := "Manage multiple accounts and contacts with hierarchical relationships and account-specific insights.";
       f_icon := "BuildingOffice2Icon"; f_tooltip := AccountManagementTooltip |};
    {| f_title := "Call Center Integration";
       f_description := "Seamlessly integrate with your call center for complete call tracking, recording, and analysis.";
       f_icon := "PhoneIcon"; f_tooltip := CallCenterTooltip |};
    {| f_title := "Workflow Automation";
       f_description := "Automate repetitive tasks and complex business processes with customizable workflows.";
       f_icon := "CogIcon"; f_tooltip := WorkflowAutomationTooltip |} ]%string.

(** ** The grid (lines 306-320) *)

(** [features.map((feature, index) => <EnhancedFeatureCard key={feature.title}
    ... delay={index} depth={25} tooltipContent={feature.tooltipContent} />)],
    as the list of (key, props), from index [i]. *)
Fixpoint grid_from (i : nat) (fs : list Feature) : list (string * CardProps) :=
  match fs with
  | [] => []
  | f :: fs' =>
      (f_title f, {| title := f_title f; description := f_description f; icon := f_icon f;
                     delay := Some (inject_Z (Z.of_nat i)); depth := Some 25;
                     tooltipContent := Some (f_tooltip f) |}) :: grid_from (S i) fs'
  end.

Definition grid (fs : list Feature) : list (string * CardProps) := grid_from 0 fs.

(** ** The document listener (lines 184-213) *)

(** The section's refs: [mouseX], [mouseY], [centerX], [centerY], and the
    [style.transform] the listener writes on [mouseRef]'s element. *)
Record SectionRefs := {
  mouseX_ref : Q; mouseY_ref : Q; centerX_ref : Q; centerY_ref : Q;
  mouse_transform : option (Q * Q)
}.

Definition refs_initial : SectionRefs :=
  {| mouseX_ref := 0; mouseY_ref := 0; centerX_ref := 0; centerY_ref := 0;
     mouse_transform := None |}.

(** The section's refs, and the [ref] props of its JSX: the only one is
    the heading's [<div ref={ref}>] (line 280), the [useInView] ref. *)
Inductive section_ref := inViewRef | mouseRef.

Definition section_ref_eqb (a b : section_ref) : bool :=
  match a, b with
  | inViewRef, inViewRef | mouseRef, mouseRef => true
  | _, _ => false
  end.

Definition attached_refs : list section_ref := [inViewRef].

(** [ref.current] once mounted: the element whose [ref] prop is [r], if
    any; [rect] is that element's bounding rectangle. *)
Definition ref_current (r : section_ref) (rect : Rect) : option Rect :=
  if existsb (section_ref_eqb r) attached_refs then Some rect else None.

Definition section_handleMouseMove (current : option Rect) (clientX clientY : Q)
    (s : SectionRefs) : SectionRefs :=
  match current with
  | None => s
  | Some rect =>
      let cx := left rect + width rect / 2 in
      let cy := top rect + height rect / 2 in
      let mx := (clientX - cx) / 1000 in
      let my := (clientY - cy) / 1000 in
      {| mouseX_ref := mx; mouseY_ref := my; centerX_ref := cx; centerY_ref := cy;
         mouse_transform := Some (- my, mx) |}
  end.

(** Every [mousemove] on the document, in order, with the rectangle the
    element would have at that moment. *)
Fixpoint section_moves (moves : list (Rect * Q * Q)) (s : SectionRefs) : SectionRefs :=
  match moves with
  | [] => s
  | (rect, x, y) :: ms =>
      section_moves ms (section_handleMouseMove (ref_current mouseRef rect) x y s)
  end.

End EnhancedFeaturesSection.

Module FeatureProofs.
Import EnhancedFeatureCard EnhancedFeaturesSection.
Import (notations) Card3DProofs.
Local Notation offset_ratio := Card3DProofs.offset_ratio.
Local Notation qabs_le_iff := Card3DProofs.qabs_le_iff.

(** ** The card's invariant *)

(** The stored pointer position is normalised, and it is reset whenever
    the pointer is away. *)
Definition card_inv (st : CardState) : Prop :=
  Qabs (mouseX st) <= 1 /\ Qabs (mouseY st) <= 1 /\
  (isHovered st = false -> mouseX st = 0 /\ mouseY st = 0).

Lemma move_normalised rect x y st :
  0 < width rect -> 0 < height rect -> inside rect x y ->
  Qabs (mouseX (handleMouseMove (Some rect) x y st)) <= 1 /\
  Qabs (mouseY (handleMouseMove (Some rect) x y st)) <= 1.
Proof.
  intros Hw Hh [Hx Hy]; cbn.
  split; [exact (offset_ratio _ _ _ Hw Hx) | exact (offset_ratio _ _ _ Hh Hy)].
Qed.

Lemma card_step_inv st st' : card_inv st -> card_step st st' -> card_inv st'.
Proof.
  intros (Hx & Hy & Hz) Hs; destruct Hs as [Hh|rect x y Hh Hw Hht Hin|Hh|]; cbn.
  - split; [|split]; [assumption | assumption | discriminate].
  - destruct (move_normalised rect x y st Hw Hht Hin) as [H1 H2].
    split; [|split]; [exact H1 | exact H2 | intros H; cbn in H; congruence].
  - split; [|split]; [cbn; lra | cbn; lra | auto].
  - split; [|split]; assumption.
Qed.

Lemma card_reachable_inv st : card_reachable st -> card_inv st.
Proof.
  induction 1 as [|st st' _ IH Hs].
  - split; [|split]; [now vm_compute | now vm_compute | auto].
  - exact (card_step_inv _ _ IH Hs).
Qed.

(** ** Arithmetic of the view *)

Lemma div4 x : x / 4 == x * (1 # 4).
Proof. reflexivity. Qed.

(** A normalised offset times [depth / 4] is at most [depth / 4]. *)
Lemma quarter_tilt (t d : Q) :
  Qabs t <= 1 -> 0 <= d ->
  Qabs (- t * d / 4) <= d / 4 /\ Qabs (t * d / 4) <= d / 4.
Proof.
  intros Ht Hd; apply qabs_le_iff in Ht.
  assert (0 <= (1 - t) * d) by (apply Qmult_le_0_compat; lra).
  assert (0 <= (1 + t) * d) by (apply Qmult_le_0_compat; lra).
  rewrite !qabs_le_iff, !div4; split; split; lra.
Qed.

Lemma shadow_range (t base : Q) :
  Qabs t <= 1 -> base <= base + Qabs t * 20 <= base + 20.
Proof. intros Ht; pose proof (Qabs_nonneg t); split; lra. Qed.

(** The tilt of every reachable state's render is within [depth / 4]. *)
Lemma view_tilt_bounded p st :
  0 <= depth_of p -> card_reachable st ->
  Qabs (fst (v_rotate (card_view p st))) <= depth_of p / 4 /\
  Qabs (snd (v_rotate (card_view p st))) <= depth_of p / 4.
Proof.
  intros Hd Hr; destruct (card_reachable_inv _ Hr) as (Hx & Hy & _).
  assert (H0 : 0 <= depth_of p / 4) by (rewrite div4; lra).
  cbn [card_view v_rotate]; destruct (isHovered st); cbn [fst snd].
  - exact (conj (proj1 (quarter_tilt _ _ Hy Hd)) (proj2 (quarter_tilt _ _ Hx Hd))).
  - rewrite Qabs_pos by lra; split; assumption.
Qed.

(** ** The grid *)

Lemma map_fst_grid_from fs : forall i, map fst (grid_from i fs) = map f_title fs.
Proof. induction fs as [|f fs IH]; intros i; cbn; [reflexivity | now rewrite IH]. Qed.

Lemma grid_from_nth fs : forall i j f, nth_error fs j = Some f ->
  exists p, nth_error (grid_from i fs) j = Some (f_title f, p) /\
    title p = f_title f /\ description p = f_description f /\ icon p = f_icon f /\
    delay p = Some (inject_Z (Z.of_nat (i + j))) /\ depth p = Some 25 /\
    tooltipContent p = Some (f_tooltip f).
Proof.
  induction fs as [|f0 fs IH]; intros i [|j] f Hj; cbn in Hj; try discriminate.
  - injection Hj as <-; eexists; split; [reflexivity|].
    rewrite Nat.add_0_r; repeat split.
  - destruct (IH (S i) j f Hj) as (p & Hp & Hrest); exists p; split; [exact Hp|].
    now rewrite <- Nat.add_succ_comm.
Qed.

(** ** The document listener *)

Lemma mouseRef_detached rect : ref_current mouseRef rect = None.
Proof. reflexivity. Qed.

(** The section's [mousemove] listener never finds its element: whatever
    the moves, the refs and the element's transform keep their values.
    (With [mouseRef] attached, a move would tilt the element.) *)
Lemma section_listener_inert moves s : section_moves moves s = s.
Proof.
  induction moves as [|[[rect x] y] ms IH]; [reflexivity|].
  cbn [section_moves]; rewrite mouseRef_detached; exact IH.
Qed.

(** ** Properties *)

(** C33: The tilt and the shadow stay in range, and a card is entered flat:
    for a non-negative [depth], every state the card reaches by entering,
    moving over it, leaving and scrolling into view renders a rotation of
    at most [depth / 4] degrees on each axis and, while hovered, a shadow
    whose offset is between 20 and 40 pixels and whose blur is between 30
    and 50; when the pointer comes back, the first render is untilted with
    the resting shadow offsets, because leaving resets the position. *)
Theorem enhanced_card_bounded (p : CardProps) (st : CardState) :
  0 <= depth_of p -> card_reachable st ->
  let v := card_view p st in
  Qabs (fst (v_rotate v)) <= depth_of p / 4 /\ Qabs (snd (v_rotate v)) <= depth_of p / 4 /\
  (isHovered st = true ->
     20 <= fst (fst (v_shadow v)) <= 40 /\ 30 <= snd (fst (v_shadow v)) <= 50) /\
  (isHovered st = false ->
     let v' := card_view p (onMouseEnter st) in
     fst (v_rotate v') == 0 /\ snd (v_rotate v') == 0 /\
     fst (fst (v_shadow v')) == 20 /\ snd (fst (v_shadow v')) == 30).
Proof.
  intros Hd Hr v.
  destruct (view_tilt_bounded p st Hd Hr) as [Ht1 Ht2].
  destruct (card_reachable_inv _ Hr) as (Hx & Hy & Hz).
  split; [exact Ht1|]; split; [exact Ht2|]; split.
  - intros Hh; subst v; cbn [card_view v_shadow fst]; rewrite Hh.
    exact (conj (shadow_range _ 20 Hy) (shadow_range _ 30 Hx)).
  - intros Hh v'; destruct (Hz Hh) as [Ex Ey]; subst v'; cbn; rewrite Ex, Ey.
    repeat split; reflexivity.
Qed.

(** C31: The features grid renders the six features in order, under distinct
    keys (their titles); the card at index [j] shows the [j]-th feature's
    title, description, icon and its own tooltip (never the default one),
    enters [j * 0.15] seconds after the section is in view, and in every
    state it reaches tilts by at most [25 / 4] degrees on each axis. *)
Theorem features_grid_spec :
  List.length (grid features) = 6%nat /\ NoDup (map fst (grid features)) /\
  forall j f st, nth_error features j = Some f -> card_reachable st ->
  exists p, nth_error (grid features) j = Some (f_title f, p) /\
    let v := card_view p st in
    v_title v = f_title f /\ v_description v = f_description f /\ v_icon v = f_icon f /\
    v_tooltip v = f_tooltip f /\ v_entrance_delay v == inject_Z (Z.of_nat j) * (15 # 100) /\
    Qabs (fst (v_rotate v)) <= 25 / 4 /\ Qabs (snd (v_rotate v)) <= 25 / 4.
Proof.
  split; [reflexivity|]; split.
  - unfold grid; rewrite map_fst_grid_from; cbn.
    repeat constructor; cbn; intuition discriminate.
  - intros j f st Hj Hr.
    destruct (grid_from_nth features 0 j f Hj) as (p & Hp & Ht & Hds & Hi & Hdl & Hdp & Htc).
    assert (Hd : depth_of p = 25) by (unfold depth_of; now rewrite Hdp).
    destruct (view_tilt_bounded p st ltac:(rewrite Hd; discriminate) Hr) as [H1 H2].
    rewrite Hd in H1, H2.
    exists p; split; [exact Hp|]; cbn [card_view v_title v_description v_icon v_tooltip v_entrance_delay].
    rewrite Ht, Hds, Hi, Htc; unfold delay_of; rewrite Hdl.
    repeat split; assumption || reflexivity.
Qed.

(** ** Witnesses *)

(** The first card of the grid, 300 x 200 pixels, scrolled into view,
    entered, the pointer 10 pixels from its top-left corner. *)
Definition contact_props : CardProps :=
  {| title := "Contact Management"; description := "";
     icon := "UserGroupIcon"; delay := Some 0; depth := Some 25;
     tooltipContent := Some ContactManagementTooltip |}.

Definition feature_rect : Rect := {| left := 0; top := 0; width := 300; height := 200 |}.

Definition hovered_state : CardState :=
  handleMouseMove (Some feature_rect) 10 10 (onMouseEnter (inView_effect true card_initial)).

Lemma hovered_state_reachable : card_reachable hovered_state.
Proof.
  apply (er_step (onMouseEnter (inView_effect true card_initial))).
  - apply (er_step (inView_effect true card_initial)); [|constructor; reflexivity].
    apply (er_step card_initial); [constructor | apply ec_in_view].
  - apply ec_move; [reflexivity | reflexivity | reflexivity | unfold inside; cbn; lra].
Qed.

Lemma enhanced_card_bounded_witness :
  card_reachable hovered_state /\
  fst (v_rotate (card_view contact_props hovered_state)) == 1125 # 200 /\
  20 <= fst (fst (v_shadow (card_view contact_props hovered_state))) <= 40.
Proof.
  split; [exact hovered_state_reachable|]; split; [reflexivity|].
  destruct (enhanced_card_bounded contact_props hovered_state ltac:(cbn; lra)
              hovered_state_reachable) as (_ & _ & H & _).
  exact (proj1 (H eq_refl)).
Defined.

(** The second feature, "Sales Pipeline", is the grid's second card; it
    enters 0.15 s after the first and shows its own tooltip. *)
Lemma features_grid_spec_witness :
  exists p, nth_error (grid features) 1 = Some ("Sales Pipeline"%string, p) /\
    v_tooltip (card_view p hovered_state) = SalesPipelineTooltip /\
    v_entrance_delay (card_view p hovered_state) == 15 # 100.
Proof.
  destruct features_grid_spec as (_ & _ & H).
  destruct (H 1%nat _ hovered_state eq_refl hovered_state_reachable)
    as (p & Hp & _ & _ & _ & Ht & Hd & _).
  exists p; split; [exact Hp|]; split; [exact Ht|]; rewrite Hd; reflexivity.
Defined.

End FeatureProofs.
