(* ===== verification/Reveal.v ===== *)
(** * Reveal: the landing sections that fade in when scrolled into view.

    [ProductivitySection.tsx], [UseCases.tsx], [CLVSection.tsx],
    [CollaborationSection.tsx] and [ProductOverview.tsx] (the last one is
    commented out of the home page) share one pattern: a
    [useInView({triggerOnce: true, threshold: 0.1})] hook whose [ref] is
    passed to one or more elements, and [motion] elements whose [animate]
    is the visible state when [inView] holds and the initial one (opacity
    0) otherwise.

    The hook is the runtime of [react-intersection-observer], modelled from
    its documented behaviour: [ref] is a callback that stores the node it
    is given; React calls it, when it commits, once for every element that
    carries [ref={ref}], in the order of the tree; the hook observes the
    node stored last.  The browser is a history of snapshots giving the
    visible ratio of each element; with [triggerOnce], [inView] turns true
    at the first snapshot where the observed element's ratio reaches the
    threshold and stays true.

    Each section is the list of its parts in the order of the tree: the
    part's key, the texts it shows, whether its animation waits for
    [inView], whether it carries the ref, and its transition delay.  No
    part carrying the ref contains another, so the order React calls the
    ref in is the order of the list.  A container's [staggerChildren]
    gives its [i]-th item the delay [i * 0.1] ([staggered]).
    [FeaturesHeading] is the heading of [EnhancedFeaturesSection.tsx],
    which follows the same pattern. *)

From Stdlib Require Import List String Bool Arith QArith.
Import ListNotations.

Open Scope string_scope.

Module InView.

(** A part of a section: one element that [motion] animates (or a static
    block), with the texts it shows. *)
Record part := {
  p_key : string;
  p_text : list string;
  p_gated : bool;       (* [animate={inView ? visible : initial}] *)
  p_ref : bool;         (* [ref={ref}] *)
  p_delay : Q           (* [transition.delay], in seconds *)
}.

(** ** The hook (runtime) *)

(** React's commit: the ref callback is called with each element that
    carries it, in order; the stored node is the last. *)
Fixpoint commit_refs (stored : option string) (parts : list part) : option string :=
  match parts with
  | [] => stored
  | p :: ps => commit_refs (if p_ref p then Some (p_key p) else stored) ps
  end.

Definition observed (parts : list part) : option string := commit_refs None parts.

(** A snapshot of the viewport: the visible ratio of each element. *)
Definition snapshot := string -> Q.

(** [inView] after the snapshots [h], with [triggerOnce]. *)
Fixpoint inView_after (threshold : Q) (obs : option string) (inView : bool)
    (h : list snapshot) : bool :=
  match h with
  | [] => inView
  | s :: h' =>
      let hit := match obs with Some e => Qle_bool threshold (s e) | None => false end in
      inView_after threshold obs (inView || hit) h'
  end.

(** ** Rendering *)

(** The opacity [motion] animates a part to: 1 once [inView] holds or if
    the part does not wait for it, the initial 0 otherwise. *)
Definition opacity (inView : bool) (p : part) : Q :=
  if p_gated p && negb inView then 0 else 1.

(** The section after the history [h]: each part's key with its opacity. *)
Definition reveal (parts : list part) (h : list snapshot) : list (string * Q) :=
  let iv := inView_after (1 # 10) (observed parts) false h in
  map (fun p => (p_key p, opacity iv p)) parts.

(** ** Helpers of the sections *)

(** JSX text spread over several lines: each line is trimmed and the lines
    are joined with one space. *)
Definition jsx_text (lines : list string) : string := String.concat " " lines.

(** [index * 0.1] for the [index]-th item of a list, from [i]. *)
Fixpoint stagger_from (i : nat) (key : string -> part) (xs : list string) : list part :=
  match xs with
  | [] => []
  | x :: xs' =>
      let p := key x in
      {| p_key := p_key p; p_text := p_text p; p_gated := p_gated p; p_ref := p_ref p;
         p_delay := inject_Z (Z.of_nat i) * (1 # 10) |} :: stagger_from (S i) key xs'
  end.

(** The children of a container with [staggerChildren: 0.1] and no
    [delayChildren]: the [i]-th starts [i * 0.1] s after the container. *)
Fixpoint staggered (i : nat) (ps : list part) : list part :=
  match ps with
  | [] => []
  | p :: ps' =>
      {| p_key := p_key p; p_text := p_text p; p_gated := p_gated p; p_ref := p_ref p;
         p_delay := inject_Z (Z.of_nat i) * (1 # 10) |} :: staggered (S i) ps'
  end.

End InView.

Module Productivity.
Import InView.

(** [benefits], lines 16-41: name and icon. *)
Definition benefits : list (string * string) :=
  [("Targeting new customers", "UserGroupIcon");
   ("Prioritize your leads better", "ChartBarIcon");
   ("Centralize sales operations", "BuildingOffice2Icon");
   ("Reduce sales cycle", "ArrowPathIcon");
   ("Improve sales conversions", "CurrencyDollarIcon");
   ("Improve customer retention", "UsersIcon")].

(** Lines 71-85: [benefits.map(benefit => <motion.div key={benefit.name}
    ref={ref} ... transition={{delay: 0.2}}>)]: every item carries the ref. *)
Definition benefit_part (b : string * string) : part :=
  {| p_key := fst b; p_text := [fst b]; p_gated := true; p_ref := true; p_delay := 2 # 10 |}.

(** [ProductivitySection], lines 49-131: the text column (its badge,
    heading and paragraph), its benefit items, the image column (a
    [Card3D] around the dashboard image) and the floating badge. *)
Definition parts : list part :=
  {| p_key := "productivity-text";
     p_text := ["Productivity"; "Increase Sales";
                jsx_text ["Bring in quality leads, nurture them, and turn them into happy, paying customers.";
                          "Get a complete view of all customer data—personal details and communication.";
                          "With the right offers made to the right customers at the optimal time, you can make better deals,";
                          "resulting in improved ROI."]];
     p_gated := true; p_ref := false; p_delay := 0 |}
  :: map benefit_part benefits
  ++ [{| p_key := "productivity-image"; p_text := ["Productivity Dashboard"];
         p_gated := true; p_ref := false; p_delay := 2 # 10 |};
      {| p_key := "productivity-badge"; p_text := ["+27%"; "Conversion Rate"];
         p_gated := true; p_ref := false; p_delay := 4 # 10 |}].

End Productivity.

Module UseCases.
Import InView.

Record useCase := { industry : string; uc_description : string;
                    color : string; textColor : string; borderColor : string }.

(** [useCases], lines 6-49. *)
Definition useCases : list useCase :=
  [ {| industry := "Sales Teams";
       uc_description := "Track leads, manage your pipeline, and close more deals with our intuitive sales management tools.";
       color := "bg-blue-50"; textColor := "text-blue-700"; borderColor := "border-blue-200" |};
    {| industry := "Marketing Agencies";
       uc_description := "Create, manage, and analyze customer-focused marketing campaigns that drive engagement and results.";
       color := "bg-purple-50"; textColor := "text-purple-700"; borderColor := "border-purple-200" |};
    {| industry := "Customer Support";
       uc_description := "Provide exceptional service with a 360° view of customer interactions, issues, and resolutions.";
       color := "bg-green-50"; textColor := "text-green-700"; borderColor := "border-green-200" |};
    {| industry := "E-commerce";
       uc_description := "Manage customer relationships across online channels and improve shopping experiences.";
       color := "bg-yellow-50"; textColor := "text-yellow-700"; borderColor := "border-yellow-200" |};
    {| industry := "Financial Services";
       uc_description := "Build trust and maintain compliance while managing client relationships and opportunities.";
       color := "bg-red-50"; textColor := "text-red-700"; borderColor := "border-red-200" |};
    {| industry := "Healthcare";
       uc_description := "Securely manage patient relationships and streamline practice management with HIPAA-compliant tools.";
       color := "bg-teal-50"; textColor := "text-teal-700"; borderColor := "border-teal-200" |} ].

(** Lines 76-92: one card per use case, [delay: index * 0.1]. *)
Fixpoint cards_from (i : nat) (us : list useCase) : list part :=
  match us with
  | [] => []
  | u :: us' =>
      {| p_key := industry u; p_text := [industry u; uc_description u; "Learn more →"];
         p_gated := true; p_ref := false; p_delay := inject_Z (Z.of_nat i) * (1 # 10) |}
      :: cards_from (S i) us'
  end.

(** [UseCases], lines 57-97: the static heading, the grid that carries the
    ref, and its cards. *)
Definition parts : list part :=
  [ {| p_key := "use-cases-heading";
       p_text := ["Tailored for Your Industry";
                  "T-CRM adapts to your specific industry needs, providing specialized tools and workflows that make sense for your business."];
       p_gated := false; p_ref := false; p_delay := 0 |};
    {| p_key := "use-cases-grid"; p_text := []; p_gated := true; p_ref := true; p_delay := 0 |} ]
  ++ cards_from 0 useCases.

End UseCases.

Module CLV.
Import InView.

(** [strategies], lines 9-16. *)
Definition strategies : list string :=
  ["Offer a Referral Program";
   "Provide Targeted, Personalized Campaigns";
   "Put Them First – Listen Your Customers";
   "Optimize Your Customer Service";
   "Reward Your Most Loyal Clients";
   "Benefit from Cross-Selling and Upselling Strategies"].

Definition strategy_part (s : string) : part :=
  {| p_key := s; p_text := [s]; p_gated := true; p_ref := false; p_delay := 0 |}.

(** [CLVSection], lines 24-104: the image column (a [Card3D] and the
    floating badge), then the text column, which carries the ref, and its
    strategies with [delay: index * 0.1]. *)
Definition parts : list part :=
  [ {| p_key := "clv-image"; p_text := ["Customer Lifetime Value"];
       p_gated := true; p_ref := false; p_delay := 2 # 10 |};
    {| p_key := "clv-badge"; p_text := ["+92%"; "Retention Rate"];
       p_gated := true; p_ref := false; p_delay := 5 # 10 |};
    {| p_key := "clv-text";
       p_text := ["Experience"; "Maximize CLV";
                  jsx_text ["Maximizing customer lifetime value (CLV) is a continuous process that requires dedication";
                            "and a focus on long-term customer relationships. By implementing effective strategies and";
                            "utilizing data-driven insights, businesses can reap the rewards of a loyal and profitable";
                            "customer base."]];
       p_gated := true; p_ref := true; p_delay := 0 |} ]
  ++ stagger_from 0 strategy_part strategies.

End CLV.

Module Collaboration.
Import InView.

(** [benefits] and [features], lines 6-26. *)
Definition benefits : list string :=
  ["Automate repetitive tasks";
   "Manage prospects within your sales funnel";
   "Improved data consolidation";
   "Monitor progress with reporting and analytics tools";
   "Generate sales leaderboards and productivity reports";
   "Facilitated marketing campaigns"].

Definition features : list string :=
  ["Lead Capture"; "Import Data"; "Data Allotment"; "Task Assignment";
   "Follow-up Reminders"; "Workflow and Approvals"; "Marketing Automation";
   "Sales Performance"; "Client Services"; "Payment Tracking"].

Definition item_part (s : string) : part :=
  {| p_key := s; p_text := [s]; p_gated := true; p_ref := false; p_delay := 0 |}.

(** [CollaborationSection], lines 53-136: the text column (line 58,
    [ref={ref}]) with its benefits ([delay: index * 0.1]); the card (line
    95, [ref={ref}] again) with its features, staggered by the container's
    variants ([staggerChildren: 0.1]), and its link with [delay: 0.5]. *)
Definition parts : list part :=
  [ {| p_key := "collaboration-text";
       p_text := ["Collaboration"; "Streamline Processes";
                  jsx_text ["From managing leads to simplifying and streamlining the sales pipeline, T-CRM platform allows";
                            "you to automate repetitive tasks, eliminate manual work, and boost performance. It incorporates";
                            "a variety of functions across sales, marketing, and service operations to help sales team";
                            "organize their work."]];
       p_gated := true; p_ref := true; p_delay := 0 |} ]
  ++ stagger_from 0 item_part benefits
  ++ [ {| p_key := "collaboration-card"; p_text := ["Key Features"];
          p_gated := true; p_ref := true; p_delay := 0 |} ]
  ++ stagger_from 0 item_part features
  ++ [ {| p_key := "collaboration-link"; p_text := ["Discover all features"];
          p_gated := true; p_ref := false; p_delay := 5 # 10 |} ].

End Collaboration.

Module ProductOverview.
Import InView.

(** [features], lines 14-45: name, description, icon. *)
Definition features : list (string * string * string) :=
  [("Contact Management", "Store all your customer data in one place with detailed profiles, interaction history, and smart segmentation.", "UsersIcon");
   ("Sales Pipeline", "Track deals from lead to close with customizable stages, forecasting, and performance analytics.", "ChartBarIcon");
   ("Email Campaigns", "Create, automate, and track personalized email campaigns that nurture leads and engage customers.", "EnvelopeIcon");
   ("Account Management", "Manage multiple accounts and contacts with hierarchical relationships and account-specific insights.", "BuildingOffice2Icon");
   ("Call Center Integration", "Seamlessly integrate with your call center for complete call tracking, recording, and analysis.", "PhoneIcon");
   ("Workflow Automation", "Automate repetitive tasks and complex business processes with customizable workflows.", "CogIcon")].

Definition feature_part (f : string * string * string) : part :=
  let '(name, desc, _) := f in
  {| p_key := name; p_text := [name; desc]; p_gated := true; p_ref := false; p_delay := 0 |}.

(** [ProductOverview], lines 72-109: the static heading, the grid (the
    ref) and its cards, staggered by the grid's variants (lines 53-71). *)
Definition parts : list part :=
  [ {| p_key := "overview-heading";
       p_text := ["Everything You Need in One Platform";
                  jsx_text ["Our comprehensive CRM system provides all the tools you need to manage customer relationships,";
                            "streamline sales processes, and grow your business."]];
       p_gated := false; p_ref := false; p_delay := 0 |};
    {| p_key := "overview-grid"; p_text := []; p_gated := true; p_ref := true; p_delay := 0 |} ]
  ++ staggered 0 (map feature_part features).

End ProductOverview.

Module FeaturesHeading.
Import InView.

(** [EnhancedFeaturesSection]'s heading, lines 278-304: the wrapper
    [div] carries the ref (threshold 0.1, lines 178-181) and is not
    animated; its badge, title and subtitle wait for [inView] with delays
    0, 0.1 and 0.2 s.  The feature cards below have their own observers
    ([FeatureCards]). *)
Definition parts : list part :=
  [ {| p_key := "features-heading"; p_text := []; p_gated := false; p_ref := true; p_delay := 0 |};
    {| p_key := "features-badge"; p_text := ["POWERFUL FEATURES"]; p_gated := true; p_ref := false;
       p_delay := 0 |};
    {| p_key := "features-title"; p_text := ["Everything You Need to Manage Customer Relationships"];
       p_gated := true; p_ref := false; p_delay := 1 # 10 |};
    {| p_key := "features-subtitle";
       p_text := [jsx_text ["Powerful tools to help you track, analyze, and optimize your customer interactions and grow your business."]];
       p_gated := true; p_ref := false; p_delay := 2 # 10 |} ].

End FeaturesHeading.

Module RevealProofs.
Import InView.

(** ** The hook *)

Lemma commit_refs_app stored ps qs :
  commit_refs stored (ps ++ qs) = commit_refs (commit_refs stored ps) qs.
Proof. revert stored; induction ps as [|p ps IH]; intros stored; [reflexivity | apply IH]. Qed.

(** The observed element is the last one that carries the ref. *)
Lemma observed_last ps :
  observed ps = last (map (fun p => Some (p_key p)) (filter p_ref ps)) None.
Proof.
  unfold observed; rewrite <- (rev_involutive ps).
  induction (rev ps) as [|p rps IH]; [reflexivity|].
  cbn [rev]; rewrite commit_refs_app, IH, filter_app; cbn.
  destruct (p_ref p); cbn; [|now rewrite app_nil_r].
  now rewrite map_app; cbn [map]; rewrite last_last.
Qed.

(** With [triggerOnce], [inView] holds after [h] iff it held before or some
    snapshot shows the observed element at the threshold. *)
Lemma inView_after_spec t obs b h :
  inView_after t obs b h = true <->
  b = true \/ exists s e, In s h /\ obs = Some e /\ (t <= s e)%Q.
Proof.
  revert b; induction h as [|s h IH]; intros b; cbn.
  - split; [now left | intros [H | (s & e & [] & _)]; exact H].
  - rewrite IH, orb_true_iff; split.
    + intros [[Hb | Hhit] | (s' & e & Hin & Ho & Hle)]; [now left | | now right; exists s', e; auto].
      right; destruct obs as [e|]; [|discriminate].
      exists s, e; split; [now left | split; [reflexivity | now apply Qle_bool_iff]].
    + intros [Hb | (s' & e & [<- | Hin] & Ho & Hle)]; [now left; left | | now right; exists s', e].
      left; right; rewrite Ho; now apply Qle_bool_iff.
Qed.

(** When every part waits for [inView], the section is all visible or all
    invisible. *)
Lemma reveal_all_gated ps h :
  forallb p_gated ps = true ->
  map snd (reveal ps h) =
    repeat (if inView_after (1 # 10) (observed ps) false h then 1 else 0)%Q (List.length ps).
Proof.
  unfold reveal; generalize (inView_after (1 # 10) (observed ps) false h) as iv; intros iv.
  induction ps as [|p ps IH]; [reflexivity|]; cbn; intros Hg.
  apply andb_true_iff in Hg as [Hp Hps]; rewrite IH by exact Hps.
  unfold opacity; rewrite Hp; now destruct iv.
Qed.

(** The grids of [ProductOverview] and of [CollaborationSection]'s card
    stagger their items a tenth of a second apart, in order. *)
Lemma staggered_delays i ps :
  map p_delay (staggered i ps) =
    map (fun k => inject_Z (Z.of_nat k) * (1 # 10))%Q (seq i (List.length ps)).
Proof. revert i; induction ps as [|p ps IH]; intros i; [reflexivity|]; cbn; now rewrite IH. Qed.

(** The features heading: the hook observes its wrapper, which is always
    shown; the badge, the title and the subtitle appear together once a
    snapshot shows a tenth of the wrapper, 0, 0.1 and 0.2 s apart. *)
Lemma features_heading_reveal (h : list snapshot) :
  observed FeaturesHeading.parts = Some "features-heading" /\
  map snd (reveal FeaturesHeading.parts h) =
    (let o := if inView_after (1 # 10) (Some "features-heading") false h then 1 else 0 in
     [1; o; o; o])%Q /\
  map p_delay FeaturesHeading.parts = [0; 0; 1 # 10; 2 # 10]%Q.
Proof.
  split; [reflexivity|]; split; [|reflexivity].
  unfold reveal; cbn [observed commit_refs FeaturesHeading.parts p_ref p_key].
  now destruct (inView_after (1 # 10) (Some "features-heading") false h).
Qed.

(** ** Properties *)

(** C37: The scroll reveal of ProductivitySection waits for its last benefit:
    the section passes [ref] to each of its six benefit items, so the hook
    observes the last one, "Improve customer retention", and every part of
    the section (text, benefits, image, badge) stays at opacity 0 until
    some snapshot shows 10% of that one item, then all of them appear.
    Likewise CollaborationSection's second [ref={ref}] (the features card)
    overrides its first (the text column). *)
Theorem scroll_reveal_observes_last_ref (h : list snapshot) :
  observed Productivity.parts = Some "Improve customer retention" /\
  observed Collaboration.parts = Some "collaboration-card" /\
  (inView_after (1 # 10) (observed Productivity.parts) false h = true <->
     exists s, In s h /\ (1 # 10 <= s "Improve customer retention")%Q) /\
  map snd (reveal Productivity.parts h) =
    repeat (if inView_after (1 # 10) (observed Productivity.parts) false h then 1 else 0)%Q
           (List.length Productivity.parts).
Proof.
  assert (Ho : observed Productivity.parts = Some "Improve customer retention")
    by (rewrite observed_last; reflexivity).
  split; [exact Ho|]; split; [rewrite observed_last; reflexivity|]; split.
  - rewrite inView_after_spec, Ho; split.
    + intros [H | (s & e & Hin & He & Hle)]; [discriminate|].
      injection He as <-; now exists s.
    + intros (s & Hin & Hle); right; now exists s, "Improve customer retention".
  - apply reveal_all_gated; reflexivity.
Qed.

(** ** Witnesses *)

(** A tall phone screen: the heading, the paragraph, five benefits, the
    image and the badge are on screen, the sixth benefit is below it. *)
Definition last_benefit_below : snapshot :=
  fun e => if String.eqb e "Improve customer retention" then 0%Q else 1%Q.

Lemma scroll_reveal_observes_last_ref_witness :
  map snd (reveal Productivity.parts [last_benefit_below]) = repeat 0%Q 9.
Proof.
  destruct (scroll_reveal_observes_last_ref [last_benefit_below]) as (_ & _ & _ & H).
  rewrite H; vm_compute; reflexivity.
Defined.

End RevealProofs.
