(* ===== verification/Image.v ===== *)
(** * Image: the image with a fallback, [src/components/ui/PlaceholderImage.tsx],
    and the remote images allowed by [src/next.config.js].

    [PlaceholderImage] renders a Next.js [Image] with [src]; when the image
    fails to load, [handleError] switches to [fallbackSrc], and when the
    fallback fails too it sets [error] and renders a box with a gradient
    computed from the [alt] text and the [alt] text itself.  A spinner
    covers the image until [onLoad] fires.

    The gradient's colours come from a hash of the [alt] text computed
    with JavaScript numbers: [(acc << 5) - acc] converts [acc] to a 32-bit
    signed integer before shifting ([ToInt32]) and the subtraction and the
    addition are done on doubles.  Here the hash is an integer ([Z]) with
    [ToInt32] written out; [hash_bounded] shows that every intermediate
    value stays below [2^53] for any text shorter than two million code
    units, so the doubles compute it exactly.  The text's code units are
    its bytes for an ASCII string ([code_units]); the [alt] texts of the
    site are ASCII. *)

From Stdlib Require Import List String Ascii ZArith Lia Bool QArith.
Import ListNotations.

Open Scope string_scope.
Open Scope Z_scope.

Module Int32.

(** [ToInt32]: the value modulo [2^32], in [[-2^31, 2^31)]. *)
Definition ToInt32 (z : Z) : Z :=
  let m := z mod 2 ^ 32 in if 2 ^ 31 <=? m then m - 2 ^ 32 else m.

(** [x << n] for [n] in [[0, 31]]: both the operand and the result are
    converted to 32-bit integers. *)
Definition shl (x n : Z) : Z := ToInt32 (Z.shiftl (ToInt32 x) n).

End Int32.

Module PlaceholderImage.
Import Int32.

(** ** The gradient (lines 30-41) *)

(** [text.split('')] gives the UTF-16 code units; for an ASCII string they
    are its bytes.  [None] for a string with a byte outside ASCII. *)
Fixpoint code_units (s : string) : option (list Z) :=
  match s with
  | EmptyString => Some []
  | String c s' =>
      let n := nat_of_ascii c in
      if (n <? 128)%nat then option_map (cons (Z.of_nat n)) (code_units s') else None
  end.

(** The reducer: [char.charCodeAt(0) + ((acc << 5) - acc)]. *)
Definition hash_step (acc c : Z) : Z := c + (shl acc 5 - acc).

Definition hash (units : list Z) : Z := fold_left hash_step units 0.

(** The two hues of [color1] and [color2]: [Math.abs(hash) % 360] and
    [(Math.abs(hash) % 360 + 40) % 360] (both operands are non-negative, so
    [%] is [Z.rem] and [Z.modulo] alike). *)
Definition hues (units : list Z) : Z * Z :=
  let h1 := Z.abs (hash units) mod 360 in (h1, (h1 + 40) mod 360).

(** [linear-gradient(135deg, hsl(h1, 70%, 85%), hsl(h2, 80%, 75%))]: the
    two hues. *)
Definition generateGradient (alt : string) : option (Z * Z) :=
  option_map hues (code_units alt).

(** ** Props and state (lines 7-28) *)

Record ImgProps := {
  src : string; fallbackSrc : string; alt : string;
  width : Z; height : Z;
  className : option string; animationDelay : option Q
}.

Definition className_of (p : ImgProps) : string :=
  match className p with Some c => c | None => EmptyString end.

Definition animationDelay_of (p : ImgProps) : Q :=
  match animationDelay p with Some d => d | None => 0%Q end.

Record ImgState := { imgSrc : string; error : bool; loaded : bool }.

Definition img_initial (p : ImgProps) : ImgState :=
  {| imgSrc := src p; error := false; loaded := false |}.

(** ** Handlers (lines 43-49, 88) *)

Definition handleError (p : ImgProps) (st : ImgState) : ImgState :=
  if negb (String.eqb (imgSrc st) (fallbackSrc p))
  then {| imgSrc := fallbackSrc p; error := error st; loaded := loaded st |}
  else {| imgSrc := imgSrc st; error := true; loaded := loaded st |}.

Definition onLoad (st : ImgState) : ImgState :=
  {| imgSrc := imgSrc st; error := error st; loaded := true |}.

(** What the browser reports for the current [src]. *)
Inductive img_event := ImgError | ImgLoad.

Definition img_handle (p : ImgProps) (st : ImgState) (e : img_event) : ImgState :=
  match e with ImgError => handleError p st | ImgLoad => onLoad st end.

Definition img_run (p : ImgProps) (evs : list img_event) : ImgState :=
  fold_left (img_handle p) evs (img_initial p).

(** ** Rendering (lines 51-98) *)

Inductive ImgView :=
| GradientBox (hues : option (Z * Z)) (caption : string) (subcaption : string)
    (boxHeight : Z) (cls : string) (delay : Q)
| ImageBox (imgSrc : string) (imgAlt : string) (w h : Z) (cls : string)
    (spinner : bool) (delay : Q).

Definition img_view (p : ImgProps) (st : ImgState) : ImgView :=
  if error st
  then GradientBox (generateGradient (alt p)) (alt p) "Image Preview" (height p)
                   (className_of p) (animationDelay_of p)
  else ImageBox (imgSrc st) (alt p) (width p) (height p) (className_of p)
                (negb (loaded st)) (animationDelay_of p).

End PlaceholderImage.

Module RemoteImages.

(** [images.remotePatterns] of [next.config.js], lines 18-26. *)
Record RemotePattern := { rp_protocol : string; rp_hostname : string; rp_pathname : string }.

Definition remotePatterns : list RemotePattern :=
  [ {| rp_protocol := "https"; rp_hostname := "images.unsplash.com"; rp_pathname := "**" |} ].

(** The part of [s] before the first [c], and the rest after it. *)
Fixpoint split_at (c : ascii) (s : string) : string * string :=
  match s with
  | EmptyString => (EmptyString, EmptyString)
  | String d s' =>
      if Ascii.eqb c d then (EmptyString, s')
      else let '(a, b) := split_at c s' in (String d a, b)
  end.

(** [new URL(src)] for an absolute URL [proto://host/path?query]: the
    protocol, the host name and the path (with its leading [/]). *)
Definition parse_url (u : string) : option (string * string * string) :=
  let '(proto, rest) := split_at ":" u in
  match rest with
  | String "/" (String "/" hp) =>
      let '(host, path) := split_at "/" hp in
      Some (proto, host, String "/" (fst (split_at "?" path)))
  | _ => None
  end.

(** Next.js's [matchRemotePattern], for the patterns of this configuration:
    the protocol and the host name are compared literally, and the path
    glob [**] matches every path. *)
Definition glob_match (g path : string) : bool :=
  String.eqb g "**" || String.eqb g path.

Definition matches (pat : RemotePattern) (u : string) : bool :=
  match parse_url u with
  | Some (proto, host, path) =>
      String.eqb proto (rp_protocol pat) && String.eqb host (rp_hostname pat) &&
      glob_match (rp_pathname pat) path
  | None => false
  end.

Definition allowed (u : string) : bool := existsb (fun pat => matches pat u) remotePatterns.

End RemoteImages.

Module SiteImages.
Import PlaceholderImage.

(** [ProductivitySection.tsx], lines 96-104. *)
Definition productivity_image : ImgProps :=
  {| src := "https://images.unsplash.com/photo-1551288049-bebda4e38f71?q=80&w=2070&auto=format&fit=crop";
     fallbackSrc := "https://images.unsplash.com/photo-1460925895917-afdab827c52f?q=80&w=2015&auto=format&fit=crop";
     alt := "Productivity Dashboard"; width := 600; height := 400;
     className := Some "w-full h-auto rounded-xl"; animationDelay := Some (3 # 10)%Q |}.

(** [CLVSection.tsx], lines 35-43. *)
Definition clv_image : ImgProps :=
  {| src := "https://images.unsplash.com/photo-1504868584819-f8e8b4b6d7e3?q=80&w=2076&auto=format&fit=crop";
     fallbackSrc := "https://images.unsplash.com/photo-1551288049-bebda4e38f71?q=80&w=2070&auto=format&fit=crop";
     alt := "Customer Lifetime Value"; width := 600; height := 350;
     className := Some "w-full rounded-xl"; animationDelay := Some (3 # 10)%Q |}.

Definition home_images : list ImgProps := [productivity_image; clv_image].

End SiteImages.

Module ImageProofs.
Import Int32 PlaceholderImage.

(** ** 32-bit integers and the hash *)

Lemma ToInt32_range z : -2 ^ 31 <= ToInt32 z < 2 ^ 31.
Proof.
  unfold ToInt32; pose proof (Z.mod_pos_bound z (2 ^ 32) ltac:(lia)).
  destruct (Z.leb_spec (2 ^ 31) (z mod 2 ^ 32)); lia.
Qed.

Lemma hash_step_bound acc c :
  0 <= c < 2 ^ 16 -> Z.abs (hash_step acc c) <= Z.abs acc + (2 ^ 31 + 2 ^ 16).
Proof.
  intros Hc; unfold hash_step, shl.
  pose proof (ToInt32_range (Z.shiftl (ToInt32 acc) 5)); lia.
Qed.

Lemma fold_hash_bound units : forall acc,
  Forall (fun c => 0 <= c < 2 ^ 16) units ->
  Z.abs (fold_left hash_step units acc) <=
    Z.abs acc + Z.of_nat (List.length units) * (2 ^ 31 + 2 ^ 16).
Proof.
  induction units as [|c units IH]; intros acc Hu; cbn [fold_left List.length]; [lia|].
  inversion Hu as [|? ? Hc Hus]; subst.
  specialize (IH (hash_step acc c) Hus); pose proof (hash_step_bound acc c Hc); lia.
Qed.

Lemma code_units_range s u :
  code_units s = Some u -> Forall (fun c => 0 <= c < 2 ^ 16) u.
Proof.
  revert u; induction s as [|a s IH]; intros u Hs; cbn in Hs.
  - injection Hs as <-; constructor.
  - destruct (Nat.leb_spec (nat_of_ascii a) 127); [|discriminate].
    destruct (code_units s) as [u'|]; cbn in Hs; [|discriminate].
    injection Hs as <-; constructor; [lia | now apply IH].
Qed.

(** ** The fallback chain *)

Definition is_error (e : img_event) : bool := match e with ImgError => true | ImgLoad => false end.
Definition is_load (e : img_event) : bool := negb (is_error e).

Definition count_err (evs : list img_event) : nat := List.length (filter is_error evs).

(** Errors needed to reach the gradient: one if [src] is already the
    fallback, two otherwise. *)
Definition needed (p : ImgProps) : nat := if String.eqb (src p) (fallbackSrc p) then 1 else 2.

(** The state after [n] errors, [l] telling whether a load was reported. *)
Definition state_after (p : ImgProps) (n : nat) (l : bool) : ImgState :=
  {| imgSrc := if (1 <=? n)%nat then fallbackSrc p else src p;
     error := (needed p <=? n)%nat; loaded := l |}.

Lemma handle_state_after p n l e :
  img_handle p (state_after p n l) e =
    if is_error e then state_after p (S n) l else state_after p n true.
Proof.
  destruct e; cbn; [|reflexivity].
  unfold handleError, state_after, needed; cbn [imgSrc error loaded].
  destruct n as [|n]; cbn.
  - destruct (String.eqb_spec (src p) (fallbackSrc p)) as [E|E]; cbn; [now rewrite E|reflexivity].
  - rewrite String.eqb_refl; cbn.
    destruct (String.eqb (src p) (fallbackSrc p)), n; reflexivity.
Qed.

Lemma run_from p evs : forall n l,
  fold_left (img_handle p) evs (state_after p n l) =
    state_after p (n + count_err evs) (l || existsb is_load evs).
Proof.
  induction evs as [|e evs IH]; intros n l; cbn [fold_left].
  - now rewrite Nat.add_0_r, orb_false_r.
  - rewrite handle_state_after; unfold count_err; destruct e; cbn [is_error is_load filter List.length existsb negb].
    + now rewrite IH, Nat.add_succ_r.
    + now rewrite IH, orb_true_r, orb_true_l.
Qed.

Lemma img_initial_state p : img_initial p = state_after p 0 false.
Proof.
  unfold img_initial, state_after, needed; cbn.
  now destruct (String.eqb (src p) (fallbackSrc p)).
Qed.

(** ** Properties *)

(** C34: The fallback chain ends: after any sequence of load and error reports,
    the image shows [fallbackSrc] once one error was reported and [src]
    before; the gradient box replaces it exactly when [needed] errors were
    reported (two, or one when [src] is already the fallback), after which
    further errors change nothing; the spinner is gone once a load was
    reported. *)
Theorem placeholder_run_spec (p : ImgProps) (evs : list img_event) :
  let st := img_run p evs in
  imgSrc st = (if (1 <=? count_err evs)%nat then fallbackSrc p else src p) /\
  error st = (needed p <=? count_err evs)%nat /\
  loaded st = existsb is_load evs /\
  (needed p <= 2)%nat.
Proof.
  cbn zeta; unfold img_run; rewrite img_initial_state, run_from; cbn.
  split; [reflexivity|]; split; [reflexivity|]; split; [reflexivity|].
  unfold needed; destruct (String.eqb (src p) (fallbackSrc p)); auto.
Qed.

(** C40: The gradient's hash stays exact and its hues in range: for code units
    of 16 bits, the hash of [n] units is at most [n * (2^31 + 2^16)] in
    absolute value, so below [2^53] (exactly representable as a double)
    for fewer than [2^21] units; the two hues are in [[0, 360)], 40 degrees
    apart, and never equal. *)
Theorem hash_bounded (units : list Z) :
  Forall (fun c => 0 <= c < 2 ^ 16) units ->
  Z.abs (hash units) <= Z.of_nat (List.length units) * (2 ^ 31 + 2 ^ 16) /\
  (Z.of_nat (List.length units) < 2 ^ 21 -> Z.abs (hash units) < 2 ^ 53) /\
  0 <= fst (hues units) < 360 /\ 0 <= snd (hues units) < 360 /\
  snd (hues units) = (fst (hues units) + 40) mod 360 /\ fst (hues units) <> snd (hues units).
Proof.
  intros Hu; pose proof (fold_hash_bound units 0 Hu) as Hb; cbn [Z.abs] in Hb.
  fold (hash units) in Hb; split; [lia|]; split; [nia|].
  unfold hues; cbn [fst snd].
  pose proof (Z.mod_pos_bound (Z.abs (hash units)) 360 ltac:(lia)) as H1.
  set (h1 := Z.abs (hash units) mod 360) in *.
  pose proof (Z.mod_pos_bound (h1 + 40) 360 ltac:(lia)) as H2.
  split; [lia|]; split; [lia|]; split; [reflexivity|].
  destruct (Z.ltb_spec (h1 + 40) 360).
  - rewrite Z.mod_small; lia.
  - replace (h1 + 40) with (h1 - 320 + 1 * 360) by lia.
    rewrite Z.mod_add, Z.mod_small; lia.
Qed.

(** ** The site's images *)

(** Both images of the home page, and their fallbacks, are allowed by the
    configuration's remote patterns, so [next/image] accepts them. *)
Lemma home_images_allowed :
  Forall (fun p => RemoteImages.allowed (src p) = true /\
                   RemoteImages.allowed (fallbackSrc p) = true) SiteImages.home_images.
Proof. repeat constructor. Qed.

(** ** Witnesses *)

(** The productivity image: both URLs fail, the gradient for its [alt]
    text appears, with hues 22 and 62. *)
Lemma placeholder_run_spec_example :
  img_view SiteImages.productivity_image
           (img_run SiteImages.productivity_image [ImgError; ImgError]) =
    GradientBox (Some (22, 62)) "Productivity Dashboard" "Image Preview" 400
                "w-full h-auto rounded-xl" (3 # 10)%Q /\
  error (img_run SiteImages.productivity_image [ImgError; ImgLoad]) = false.
Proof.
  split; [vm_compute; reflexivity|].
  destruct (placeholder_run_spec SiteImages.productivity_image [ImgError; ImgLoad])
    as (_ & E & _); rewrite E; reflexivity.
Defined.

Lemma hash_bounded_witness :
  exists u, code_units "Productivity Dashboard" = Some u /\
    hues u = (22, 62) /\ Z.abs (hash u) < 2 ^ 53.
Proof.
  destruct (code_units "Productivity Dashboard") as [u|] eqn:E; [|discriminate].
  exists u; split; [reflexivity|]; split.
  - vm_compute in E; injection E as <-; vm_compute; reflexivity.
  - destruct (hash_bounded u (code_units_range _ _ E)) as (_ & H & _); apply H.
    vm_compute in E; injection E as <-; reflexivity.
Defined.

End ImageProofs.
