(* ===== verification/Page3D.v ===== *)
(** * Page3D: the 3D wrapper of every page, [src/components/ui/Page3D.tsx],
    as [src/components/RootLayoutWrapper.tsx] and the sign-up page use it.

    [Page3D] keeps the scroll position, the pointer's position normalised
    to [[-1, 1]] and the window's size in state.  A scroll listener is
    installed once; a [mousemove] and a [resize] listener are installed by
    an effect that depends on the window's size, so the effect runs again
    (removing the old listeners) whenever [handleResize] changed the size.
    The [mousemove] listener normalises with the size captured by the
    render whose effect installed it.  Each child that is a [<section>] or
    has a class containing "section" is wrapped in a [motion.div] whose
    transform follows the pointer and the scroll; [Header] and [Footer],
    recognised by their function's name, are cloned with an extra class
    and style; other children pass through.

    Numbers are rationals; JavaScript's division by zero (which gives
    [NaN] or an infinity) is [None], and a transform built from a
    non-finite number is [None] (CSS ignores it).  The window is part of
    the world: its inner size changes on resize. *)

From Stdlib Require Import List String QArith Qabs Lqa Bool.
From S2P Require Import Card3D.
Import ListNotations.

Open Scope string_scope.
Open Scope Q_scope.

Module Page3D.

(** ** JavaScript numbers *)

(** [a / b], with [None] for a non-finite result. *)
Definition jsdiv (a b : Q) : option Q := if Qeq_bool b 0 then None else Some (a / b).

Definition omap (f : Q -> Q) (x : option Q) : option Q :=
  match x with Some v => Some (f v) | None => None end.

(** ** State (lines 10-15) *)

Record P3State := {
  scrollY : Q;
  mouseX : option Q; mouseY : option Q;
  windowWidth : Q; windowHeight : Q;
  handler : option (Q * Q)     (* the size captured by the installed [mousemove] listener *)
}.

Definition p3_initial : P3State :=
  {| scrollY := 0; mouseX := Some 0; mouseY := Some 0; windowWidth := 0; windowHeight := 0;
     handler := None |}.

(** The component and the browser window. *)
Record World := { p3 : P3State; innerWidth : Q; innerHeight : Q }.

(** ** Handlers and effects (lines 17-53) *)

Definition handleScroll (y : Q) (st : P3State) : P3State :=
  {| scrollY := y; mouseX := mouseX st; mouseY := mouseY st;
     windowWidth := windowWidth st; windowHeight := windowHeight st; handler := handler st |}.

(** The listener installed with the captured size [(cw, ch)]. *)
Definition handleMouseMove (cw ch clientX clientY : Q) (st : P3State) : P3State :=
  {| scrollY := scrollY st;
     mouseX := omap (fun v => v * 2 - 1) (jsdiv clientX cw);
     mouseY := omap (fun v => v * 2 - 1) (jsdiv clientY ch);
     windowWidth := windowWidth st; windowHeight := windowHeight st; handler := handler st |}.

Definition handleResize (iw ih : Q) (st : P3State) : P3State :=
  {| scrollY := scrollY st; mouseX := mouseX st; mouseY := mouseY st;
     windowWidth := iw; windowHeight := ih; handler := handler st |}.

(** The effect is due after a render whose [windowWidth] or
    [windowHeight] differs from the one its listeners captured. *)
Definition effect_due (st : P3State) : bool :=
  match handler st with
  | None => true
  | Some (cw, ch) => negb (Qeq_bool cw (windowWidth st) && Qeq_bool ch (windowHeight st))
  end.

(** The effect: remove the old listeners, call [handleResize()], install
    listeners that captured this render's size. *)
Definition run_effect (w : World) : World :=
  let st := p3 w in
  {| p3 := handleResize (innerWidth w) (innerHeight w)
             {| scrollY := scrollY st; mouseX := mouseX st; mouseY := mouseY st;
                windowWidth := windowWidth st; windowHeight := windowHeight st;
                handler := Some (windowWidth st, windowHeight st) |};
     innerWidth := innerWidth w; innerHeight := innerHeight w |}.

(** ** Rendering (lines 55-127) *)

(** [calculateTransform(depth, index)]: translation in pixels and rotation
    in degrees, [None] where a number is not finite. *)
Definition parity_sign (b : bool) : Q := if b then 1 else -1.

Definition calculateTransform (depth : Q) (index : nat) (st : P3State) : option (Q * Q * Q * Q) :=
  let s2 := parity_sign (Nat.eqb (Nat.modulo index 2) 0) in
  let s3 := parity_sign (Nat.eqb (Nat.modulo index 3) 0) in
  match mouseX st, mouseY st, jsdiv (scrollY st) (windowHeight st) with
  | Some mx, Some my, Some r =>
      Some (mx * depth * s2, my * depth * s3, r * (1 # 2) * s2, r * (1 # 2) * s3)
  | _, _, _ => None
  end.

(** A child as [React.Children.map] sees it: a host element (its tag and
    [className]), a component (its [displayName] and function [name], and
    [className]), or text. *)
Inductive child :=
| HostElem (tag : string) (cls : option string)
| CompElem (displayName : option string) (fname : string) (cls : option string)
| TextNode (t : string).

(** [String.prototype.includes]. *)
Fixpoint includes (s sub : string) : bool :=
  String.prefix sub s ||
  match s with EmptyString => false | String _ s' => includes s' sub end.

Definition is_section (c : child) : bool :=
  match c with
  | HostElem tag cls =>
      String.eqb tag "section" ||
      match cls with Some k => includes k "section" | None => false end
  | CompElem _ _ cls => match cls with Some k => includes k "section" | None => false end
  | TextNode _ => false
  end.

(** [typeof child.type !== 'string' && displayName || name || '']: a host
    element's type is a string, whose [name] is [undefined].  A component's
    [name] is taken as written in the source ([Header], [Footer]); a
    production build whose minifier renames functions would give other
    names, and then [Header] and [Footer] would not be cloned. *)
Definition componentName (c : child) : string :=
  match c with
  | CompElem (Some d) f _ => if String.eqb d EmptyString then f else d
  | CompElem None f _ => f
  | _ => EmptyString
  end.

Inductive enhanced :=
| Wrapped (transform : option (Q * Q * Q * Q)) (delay : Q) (c : child)
| Cloned (cls : string) (c : child)
| Passed (c : child).

Definition enhance (st : P3State) (index : nat) (c : child) : enhanced :=
  match c with
  | TextNode _ => Passed c
  | _ =>
      if is_section c then Wrapped (calculateTransform 5 index st) (inject_Z (Z.of_nat index) * (1 # 10)) c
      else if String.eqb (componentName c) "Header" || String.eqb (componentName c) "Footer"
      then Cloned (match c with
                   | CompElem _ _ (Some k) => k ++ " preserve-3d"
                   | _ => " preserve-3d"
                   end) c
      else Passed c
  end.

Fixpoint enhance_from (st : P3State) (i : nat) (cs : list child) : list enhanced :=
  match cs with
  | [] => []
  | c :: cs' => enhance st i c :: enhance_from st (S i) cs'
  end.

Definition enhanced3DChildren (st : P3State) (cs : list child) : list enhanced :=
  enhance_from st 0 cs.

(** ** Interaction *)

(** What the browser does: the effect runs when due, the pointer moves
    inside the window (to a listener that may be stale when [race] is
    allowed, only to a fresh one otherwise), the window is resized, the
    page scrolls. *)
Inductive p3_step (race : bool) (w : World) : World -> Prop :=
| ps_effect : effect_due (p3 w) = true -> p3_step race w (run_effect w)
| ps_move cw ch x y :
    handler (p3 w) = Some (cw, ch) -> (race || negb (effect_due (p3 w))) = true ->
    0 <= x <= innerWidth w -> 0 <= y <= innerHeight w ->
    p3_step race w {| p3 := handleMouseMove cw ch x y (p3 w);
                      innerWidth := innerWidth w; innerHeight := innerHeight w |}
| ps_resize iw ih :
    0 < iw -> 0 < ih -> handler (p3 w) <> None ->
    p3_step race w {| p3 := handleResize iw ih (p3 w); innerWidth := iw; innerHeight := ih |}
| ps_scroll y :
    0 <= y -> handler (p3 w) <> None ->
    p3_step race w {| p3 := handleScroll y (p3 w);
                      innerWidth := innerWidth w; innerHeight := innerHeight w |}.

Inductive p3_reachable (race : bool) (iw ih : Q) : World -> Prop :=
| pr_init : p3_reachable race iw ih {| p3 := p3_initial; innerWidth := iw; innerHeight := ih |}
| pr_step w w' : p3_reachable race iw ih w -> p3_step race w w' -> p3_reachable race iw ih w'.

End Page3D.

Module LayoutUses.
Import Page3D.

(** [RootLayoutWrapper], lines 13-21: the header, the page in a
    [<section className="section">], the footer. *)
Definition layout_children : list child :=
  [CompElem None "Header" None; HostElem "section" (Some "section"); CompElem None "Footer" None].

(** The sign-up page, lines 116-124: one [div] around the illustration. *)
Definition signup_children : list child := [HostElem "div" (Some "w-full max-w-md")].

End LayoutUses.

Module RootLayout.
Import Page3D LayoutUses.

(** [metadata], [src/app/layout.tsx] lines 23-40. *)
Record Metadata := {
  title_template : string; title_default : string; description : string;
  keywords : list string; authors : list string; creator : string; publisher : string
}.

Definition metadata : Metadata :=
  {| title_template := "%s | T-CRM";
     title_default := "T-CRM - Modern Customer Relationship Management";
     description := "Enterprise-grade CRM solution for growing businesses - manage leads, track sales, and build customer relationships.";
     keywords := ["CRM"; "customer relationship management"; "sales management"; "lead tracking";
                  "customer data"; "sales automation"];
     authors := ["T-CRM Team"]; creator := "T-CRM"; publisher := "T-CRM Solutions" |}.

(** [viewport], lines 42-49. *)
Record Viewport := { themeColor : list (string * string); vp_width : string; initialScale : Q }.

Definition viewport : Viewport :=
  {| themeColor := [("(prefers-color-scheme: light)", "#ffffff"); ("(prefers-color-scheme: dark)", "#0f172a")];
     vp_width := "device-width"; initialScale := 1 |}.

(** The [body]'s class, line 58, from the three fonts' variable classes
    that [next/font] generates. *)
Definition body_class (poppins montserrat inter : string) : string :=
  poppins ++ " " ++ montserrat ++ " " ++ inter ++ " font-sans antialiased".

(** The pages of the app router and the title each exports: every page
    file is a client component ('use client'), which cannot export
    [metadata]. *)
Definition page_titles : list (string * option string) :=
  [("/", None); ("/login", None); ("/signup", None); ("/style-guide", None);
   ("/admin", None); ("/admin/login", None); ("/admin/dashboard", None)].

(** Next.js: a page's own title goes into the template, else the default. *)
Definition resolve_title (own : option string) : string :=
  match own with
  | Some t => t ++ " | T-CRM"
  | None => title_default metadata
  end.

(** Next.js nests the layouts of every directory on a route's path: the
    root layout, and [src/app/admin/layout.tsx] under [/admin]. *)
Definition layouts_for (route : string) : list string :=
  "app/layout.tsx" :: (if String.prefix "/admin" route then ["app/admin/layout.tsx"] else []).

(** The root layout, lines 51-65: [<html lang="en"><body>] around
    [RootLayoutWrapper], whose children are the header, the page's
    section and the footer, whatever the route. *)
Definition root_children (route : string) : list child := layout_children.

End RootLayout.

Module Page3DProofs.
Import Page3D LayoutUses.

(** ** Arithmetic *)

Local Notation qabs_le_iff := Card3DProofs.qabs_le_iff.

(** A coordinate inside [[0, c]], over [c], times 2, minus 1, is in [[-1, 1]]. *)
Lemma normalised_bound c x : 0 < c -> 0 <= x <= c -> Qabs (x / c * 2 - 1) <= 1.
Proof.
  intros Hc [H0 H1]; apply qabs_le_iff.
  assert (0 <= x / c) by (apply Qle_shift_div_l; lra).
  assert (x / c <= 1) by (apply Qle_shift_div_r; lra).
  lra.
Qed.

Lemma jsdiv_pos a b : 0 < b -> jsdiv a b = Some (a / b).
Proof.
  intros Hb; unfold jsdiv; destruct (Qeq_bool b 0) eqn:E; [|reflexivity].
  apply Qeq_bool_iff in E; lra.
Qed.

(** ** The settled invariant *)

(** Once mounted, the state's size is the window's, which is positive, and
    the pointer's position is finite and normalised. *)
Definition p3_inv (w : World) : Prop :=
  0 < innerWidth w /\ 0 < innerHeight w /\ 0 <= scrollY (p3 w) /\
  (exists mx my, mouseX (p3 w) = Some mx /\ mouseY (p3 w) = Some my /\
                 Qabs mx <= 1 /\ Qabs my <= 1) /\
  (handler (p3 w) <> None ->
     windowWidth (p3 w) = innerWidth w /\ windowHeight (p3 w) = innerHeight w).

Lemma fresh_handler st cw ch :
  handler st = Some (cw, ch) -> effect_due st = false ->
  cw == windowWidth st /\ ch == windowHeight st.
Proof.
  intros Hh Hd; unfold effect_due in Hd; rewrite Hh in Hd.
  apply negb_false_iff, andb_true_iff in Hd as [E1 E2].
  split; apply Qeq_bool_iff; assumption.
Qed.

Lemma pointer_normalised c c' x : c' == c -> 0 < c -> 0 <= x <= c ->
  exists v, omap (fun v => v * 2 - 1) (jsdiv x c') = Some v /\ Qabs v <= 1.
Proof.
  intros E Hc Hx; rewrite jsdiv_pos by (rewrite E; exact Hc); cbn.
  eexists; split; [reflexivity|]. rewrite E; exact (normalised_bound c x Hc Hx).
Qed.

Lemma p3_step_inv w w' : p3_inv w -> p3_step false w w' -> p3_inv w'.
Proof.
  intros (Hw & Hh & Hs & Hm & Hd) Hst.
  destruct Hst as [Hdue | cw ch x y Hhd Hfresh Hx Hy | iw ih Hiw Hih Hmounted | y Hy Hmounted];
    cbn in *.
  - split; [exact Hw|]; split; [exact Hh|]; split; [exact Hs|]; split; [exact Hm|].
    intros _; split; reflexivity.
  - destruct (fresh_handler _ _ _ Hhd (proj1 (negb_true_iff _) Hfresh)) as [Ec Eh].
    destruct (Hd ltac:(rewrite Hhd; discriminate)) as [Ew Ewh]; rewrite Ew in Ec; rewrite Ewh in Eh.
    destruct (pointer_normalised _ _ _ Ec Hw Hx) as (mx & Emx & Bx).
    destruct (pointer_normalised _ _ _ Eh Hh Hy) as (my & Emy & By).
    split; [exact Hw|]; split; [exact Hh|]; split; [exact Hs|]; split; [exists mx, my; auto|].
    exact Hd.
  - split; [exact Hiw|]; split; [exact Hih|]; split; [exact Hs|]; split; [exact Hm|].
    intros _; split; reflexivity.
  - split; [exact Hw|]; split; [exact Hh|]; split; [exact Hy|]; split; [exact Hm|]; exact Hd.
Qed.

Lemma p3_step_initial w w' :
  p3_step false w w' -> handler (p3 w') = None -> False.
Proof. intros Hs; destruct Hs as [| ? ? ? ? Hh | | ]; cbn; congruence. Qed.

Lemma p3_reachable_inv iw ih w :
  0 < iw -> 0 < ih -> p3_reachable false iw ih w ->
  p3_inv w /\ (handler (p3 w) = None -> p3 w = p3_initial).
Proof.
  intros Hiw Hih Hr; induction Hr as [|w w' _ [IH _] Hs].
  - split; [|reflexivity].
    split; [exact Hiw|]; split; [exact Hih|]; split; [cbn; lra|]; split.
    + exists 0, 0; split; [reflexivity|]; split; [reflexivity|]; split; now vm_compute.
    + intros H; exfalso; apply H; reflexivity.
  - split; [exact (p3_step_inv _ _ IH Hs)|].
    intros H; exfalso; exact (p3_step_initial _ _ Hs H).
Qed.

(** The transform of the child at index 1 under a settled state. *)
Lemma transform_index1 st mx my :
  mouseX st = Some mx -> mouseY st = Some my -> 0 < windowHeight st ->
  calculateTransform 5 1 st =
    Some (mx * 5 * -1, my * 5 * -1, scrollY st / windowHeight st * (1 # 2) * -1,
          scrollY st / windowHeight st * (1 # 2) * -1).
Proof.
  intros Ex Ey Hh; unfold calculateTransform; cbn.
  rewrite Ex, Ey, jsdiv_pos by exact Hh; reflexivity.
Qed.

(** ** Properties *)

(** Right after mount, for any window size, a pointer event delivered to the
    listener of the first render (which captured the size 0) makes the
    position, hence the section's transform, not finite, although the
    listeners are installed. *)
Lemma race_nonfinite (iw ih : Q) :
  0 < iw -> 0 < ih ->
  exists w, p3_reachable true iw ih w /\ handler (p3 w) <> None /\
            mouseX (p3 w) = None /\ calculateTransform 5 1 (p3 w) = None.
Proof.
  intros Hiw Hih.
  set (w0 := {| p3 := p3_initial; innerWidth := iw; innerHeight := ih |}).
  exists {| p3 := handleMouseMove 0 0 0 0 (p3 (run_effect w0)); innerWidth := iw; innerHeight := ih |}.
  split; [|split; [discriminate | split; reflexivity]].
  apply (pr_step _ _ _ (run_effect w0)); [apply (pr_step _ _ _ w0); [constructor | now constructor]|].
  apply ps_move; [reflexivity | reflexivity | cbn; lra | cbn; lra].
Qed.

(** C36: Every page's content moves with the pointer and tilts with the scroll:
    in the layout, [Header] and [Footer] are cloned and the page's
    [<section className="section">] is wrapped. In every state reached
    while each pointer event goes to the listener installed for the current
    size (the effect has run since the last size change): before the
    listeners are installed the transform is not finite (it is ignored);
    afterwards the section is translated by at most 5 pixels on each axis
    and rotated about both axes by minus half the number of window heights
    scrolled, in degrees. When a pointer event reaches the stale listener
    of the first render, which is possible in every window, the transform
    is not finite after the listeners are installed. *)
Theorem page3d_layout_transform (iw ih : Q) :
  0 < iw -> 0 < ih ->
  (forall w, p3_reachable false iw ih w ->
   exists t,
    enhanced3DChildren (p3 w) layout_children =
      [Cloned " preserve-3d" (CompElem None "Header" None);
       Wrapped t (1 # 10) (HostElem "section" (Some "section"));
       Cloned " preserve-3d" (CompElem None "Footer" None)] /\
    (handler (p3 w) = None -> t = None) /\
    (handler (p3 w) <> None -> exists tx ty r,
       t = Some (tx, ty, r, r) /\ Qabs tx <= 5 /\ Qabs ty <= 5 /\
       r == - (scrollY (p3 w) / innerHeight w) * (1 # 2))) /\
  (exists w, p3_reachable true iw ih w /\ handler (p3 w) <> None /\
     nth_error (enhanced3DChildren (p3 w) layout_children) 1 =
       Some (Wrapped None (1 # 10) (HostElem "section" (Some "section")))).
Proof.
  intros Hiw Hih; split.
  - intros w Hr.
    destruct (p3_reachable_inv _ _ _ Hiw Hih Hr) as [(Hw & Hh & _ & Hm & Hd) Hinit].
    eexists; split; [reflexivity|]; split.
    + intros H; rewrite (Hinit H); reflexivity.
    + intros H; destruct (Hd H) as [_ Ewh]; destruct Hm as (mx & my & Ex & Ey & Bx & By).
      rewrite (transform_index1 _ _ _ Ex Ey ltac:(rewrite Ewh; exact Hh)), Ewh.
      do 3 eexists; split; [reflexivity|].
      apply qabs_le_iff in Bx; apply qabs_le_iff in By.
      split; [apply qabs_le_iff; lra|]; split; [apply qabs_le_iff; lra|]; ring.
  - destruct (race_nonfinite iw ih Hiw Hih) as (w & Hr & Hh & _ & Ht).
    exists w; split; [exact Hr|]; split; [exact Hh|].
    cbn; rewrite Ht; reflexivity.
Qed.

(** ** The root layout *)

(** Every page has the same title, the default one: no page exports a
    title for the template. *)
Lemma every_title_default :
  Forall (fun '(_, t) => RootLayout.resolve_title t = RootLayout.title_default RootLayout.metadata)
         RootLayout.page_titles.
Proof. repeat constructor. Qed.

(** The admin pages are nested in the root layout too, so their content
    is in the section [Page3D] wraps and transforms, although the admin
    layout's comment says they do not use the 3D effect. *)
Lemma admin_pages_wrapped (route : string) (st : P3State) :
  String.prefix "/admin" route = true ->
  RootLayout.layouts_for route = ["app/layout.tsx"; "app/admin/layout.tsx"] /\
  nth_error (enhanced3DChildren st (RootLayout.root_children route)) 1 =
    Some (Wrapped (calculateTransform 5 1 st) (1 # 10) (HostElem "section" (Some "section"))).
Proof. intros H; unfold RootLayout.layouts_for; rewrite H; split; reflexivity. Qed.

(** ** Witnesses *)

(** A 1280 x 800 window: mount, the second effect, two screens scrolled,
    the pointer at the centre. The page is tilted by one degree. *)
Definition settled_world : World :=
  let w1 := run_effect {| p3 := p3_initial; innerWidth := 1280; innerHeight := 800 |} in
  let w2 := run_effect w1 in
  let w3 := {| p3 := handleScroll 1600 (p3 w2); innerWidth := 1280; innerHeight := 800 |} in
  {| p3 := handleMouseMove 1280 800 640 400 (p3 w3); innerWidth := 1280; innerHeight := 800 |}.

Lemma settled_world_reachable : p3_reachable false 1280 800 settled_world.
Proof.
  set (w0 := {| p3 := p3_initial; innerWidth := 1280; innerHeight := 800 |}).
  apply (pr_step _ _ _ {| p3 := handleScroll 1600 (p3 (run_effect (run_effect w0)));
                         innerWidth := 1280; innerHeight := 800 |}).
  - apply (pr_step _ _ _ (run_effect (run_effect w0))).
    + apply (pr_step _ _ _ (run_effect w0)); [apply (pr_step _ _ _ w0); [constructor | now constructor]|].
      now constructor.
    + apply ps_scroll; [cbn; lra | discriminate].
  - apply ps_move; [reflexivity | reflexivity | cbn; lra | cbn; lra].
Qed.

Lemma page3d_layout_transform_witness :
  exists t, nth_error (enhanced3DChildren (p3 settled_world) layout_children) 1 =
              Some (Wrapped t (1 # 10) (HostElem "section" (Some "section"))) /\
            exists tx ty r, t = Some (tx, ty, r, r) /\ r == -1.
Proof.
  destruct (proj1 (page3d_layout_transform 1280 800 ltac:(lra) ltac:(lra))
              settled_world settled_world_reachable) as (t & E & _ & H).
  exists t; rewrite E; split; [reflexivity|].
  destruct (H ltac:(discriminate)) as (tx & ty & r & Et & _ & _ & Er).
  exists tx, ty, r; split; [exact Et|]; rewrite Er; reflexivity.
Defined.

End Page3DProofs.
