(* ===== verification/Animations.v ===== *)
(** * Animations: the shared animation variants and wrappers,
    [src/components/ui/animations.tsx].

    A variant is a target ([opacity], [x], [y], [rotate], [scale]; a list
    of values is a keyframe sequence) with an optional transition.  The
    wrappers ([FadeIn], [SlideUp], [SlideDown], [SlideLeft], [SlideRight],
    [StaggerChildren], [AnimatedScale]) render a [motion.div] that goes
    from a hidden target to a visible one, either by naming variants or by
    inline targets, with a [transition] prop built from their [delay] and
    [duration] props.

    How framer-motion picks the transition is its runtime, modelled from
    its documentation: a variant that defines its own [transition] uses
    it, and the component's [transition] prop is only the default for
    targets without one; [custom] is the argument of a variant that is a
    function.  Numbers are rationals.

    Module [ParallaxScroll] models [ui/ParallaxScroll.tsx]; module
    [HeroParallax] the four values [HeroSection.tsx] derives from its
    scroll progress with [useTransform] ([hero_parallax_spec] bounds
    them), with a [Proper] instance that lets [clamp01] be rewritten
    under. *)

From Stdlib Require Import List String QArith Qabs Lqa.
From S2P Require Import Card3D.
Import ListNotations.

Open Scope string_scope.
Open Scope Q_scope.

Module Animations.

(** ** Targets and transitions *)

Record transition := {
  tr_delay : option Q; tr_duration : option Q;
  tr_spring : option (Q * Q);          (* [type: 'spring'] with damping and stiffness *)
  tr_stagger : option Q;               (* [staggerChildren] *)
  tr_repeat : bool                     (* [repeat: Infinity] *)
}.

Definition no_transition : transition :=
  {| tr_delay := None; tr_duration := None; tr_spring := None; tr_stagger := None; tr_repeat := false |}.

Record target := {
  t_opacity : option Q;
  t_x : option Q; t_y : option Q; t_rotate : option Q;
  t_scale : list Q;                    (* [scale], one value or keyframes; [] if absent *)
  t_ys : list Q;                       (* [y] keyframes *)
  t_transition : option transition
}.

Definition tgt (o x y r : option Q) (sc : list Q) (tr : option transition) : target :=
  {| t_opacity := o; t_x := x; t_y := y; t_rotate := r; t_scale := sc; t_ys := []; t_transition := tr |}.

(** A set of variants; [visible] may take the [custom] argument. *)
Record variants := { v_hidden : target; v_visible : Q -> target; v_exit : option target }.

Definition dur (d : Q) : transition :=
  {| tr_delay := None; tr_duration := Some d; tr_spring := None; tr_stagger := None; tr_repeat := false |}.

Definition spring (damping stiffness : Q) : transition :=
  {| tr_delay := None; tr_duration := None; tr_spring := Some (damping, stiffness);
     tr_stagger := None; tr_repeat := false |}.

(** ** The variants (lines 6-161) *)

Definition fadeIn : variants :=
  {| v_hidden := tgt (Some 0) None None None [] None;
     v_visible := fun _ => tgt (Some 1) None None None [] (Some (dur (8 # 10)));
     v_exit := Some (tgt (Some 0) None None None [] (Some (dur (3 # 10)))) |}.

Definition slideUp : variants :=
  {| v_hidden := tgt (Some 0) None (Some 20) None [] None;
     v_visible := fun i => tgt (Some 1) None (Some 0) None []
                   (Some {| tr_delay := Some (i * (1 # 10)); tr_duration := Some (1 # 2);
                            tr_spring := None; tr_stagger := None; tr_repeat := false |});
     v_exit := None |}.

Definition slideDown : variants :=
  {| v_hidden := tgt (Some 0) None (Some (-20)) None [] None;
     v_visible := fun _ => tgt (Some 1) None (Some 0) None [] (Some (spring 25 500));
     v_exit := Some (tgt (Some 0) None (Some (-20)) None [] (Some (dur (2 # 10)))) |}.

Definition slideLeft : variants :=
  {| v_hidden := tgt (Some 0) (Some 20) None None [] None;
     v_visible := fun _ => tgt (Some 1) (Some 0) None None [] (Some (spring 30 400));
     v_exit := Some (tgt (Some 0) (Some 20) None None [] (Some (dur (2 # 10)))) |}.

Definition slideRight : variants :=
  {| v_hidden := tgt (Some 0) (Some (-20)) None None [] None;
     v_visible := fun _ => tgt (Some 1) (Some 0) None None [] (Some (spring 30 400));
     v_exit := Some (tgt (Some 0) (Some (-20)) None None [] (Some (dur (2 # 10)))) |}.

Definition staggerContainer : variants :=
  {| v_hidden := tgt (Some 0) None None None [] None;
     v_visible := fun _ => tgt (Some 1) None None None []
                   (Some {| tr_delay := None; tr_duration := None; tr_spring := None;
                            tr_stagger := Some (1 # 10); tr_repeat := false |});
     v_exit := None |}.

Definition rotate : variants :=
  {| v_hidden := tgt (Some 0) None None (Some (-5)) [] None;
     v_visible := fun _ => tgt (Some 1) None None (Some 0) [] (Some (spring 15 400));
     v_exit := None |}.

Definition scale : variants :=
  {| v_hidden := tgt (Some 0) None None None [9 # 10] None;
     v_visible := fun _ => tgt (Some 1) None None None [1] (Some (spring 25 300));
     v_exit := Some (tgt (Some 0) None None None [9 # 10] (Some (dur (2 # 10)))) |}.

Definition repeat_forever (d : Q) : transition :=
  {| tr_delay := None; tr_duration := Some d; tr_spring := None; tr_stagger := None;
     tr_repeat := true |}.

Definition pulse : variants :=
  {| v_hidden := tgt None None None None [1] None;
     v_visible := fun _ => tgt None None None None [1; 105 # 100; 1] (Some (repeat_forever 2));
     v_exit := None |}.

Definition bounce : variants :=
  {| v_hidden := {| t_opacity := None; t_x := None; t_y := Some 0; t_rotate := None;
                    t_scale := []; t_ys := []; t_transition := None |};
     v_visible := fun _ => {| t_opacity := None; t_x := None; t_y := None; t_rotate := None;
                              t_scale := []; t_ys := [0; -10; 0];
                              t_transition := Some (repeat_forever (12 # 10)) |};
     v_exit := None |}.

(** ** The wrappers (lines 163-310) *)

(** framer-motion: the transition of a target is its own, or else the
    component's [transition] prop. *)
Definition effective (prop : transition) (t : target) : transition :=
  match t_transition t with Some tr => tr | None => prop end.

(** A rendered wrapper: where it starts, where it goes, with which
    transition, and its class. *)
Record motion := { m_from : target; m_to : target; m_transition : transition; m_class : string }.

Definition delay_prop (d : option Q) : Q := match d with Some v => v | None => 0 end.

Definition duration_prop (d : option Q) : Q := match d with Some v => v | None => 1 # 2 end.

Definition class_prop (c : option string) : string := match c with Some v => v | None => EmptyString end.

(** [FadeIn] and [SlideUp]: inline targets and the transition
    [{duration, delay}]. *)
Definition FadeIn (delay duration : option Q) (cls : option string) : motion :=
  let t := tgt (Some 1) None None None [] None in
  {| m_from := tgt (Some 0) None None None [] None; m_to := t;
     m_transition := effective {| tr_delay := Some (delay_prop delay);
                                  tr_duration := Some (duration_prop duration);
                                  tr_spring := None; tr_stagger := None; tr_repeat := false |} t;
     m_class := class_prop cls |}.

Definition SlideUp (delay duration : option Q) (cls : option string) : motion :=
  let t := tgt (Some 1) None (Some 0) None [] None in
  {| m_from := tgt (Some 0) None (Some 20) None [] None; m_to := t;
     m_transition := effective {| tr_delay := Some (delay_prop delay);
                                  tr_duration := Some (duration_prop duration);
                                  tr_spring := None; tr_stagger := None; tr_repeat := false |} t;
     m_class := class_prop cls |}.

(** The wrappers that name variants, with [transition={{ delay }}]. *)
Definition with_variants (v : variants) (delay : option Q) (cls : option string) : motion :=
  let t := v_visible v 0 in
  {| m_from := v_hidden v; m_to := t;
     m_transition := effective {| tr_delay := Some (delay_prop delay); tr_duration := None;
                                  tr_spring := None; tr_stagger := None; tr_repeat := false |} t;
     m_class := class_prop cls |}.

Definition SlideDown := with_variants slideDown.
Definition SlideLeft := with_variants slideLeft.
Definition SlideRight := with_variants slideRight.
Definition AnimatedScale := with_variants scale.

(** [StaggerChildren] has no [delay] prop. *)
Definition StaggerChildren (cls : option string) : motion := with_variants staggerContainer None cls.

(** A [motion] element that names [slideUp] with [custom={i}]. *)
Definition slideUp_custom (i : Q) : transition := effective no_transition (v_visible slideUp i).

End Animations.

Module ParallaxScroll.

(** [ui/ParallaxScroll.tsx] (imported by [EnhancedFeaturesSection] but
    rendered nowhere): the child moves along one axis as the wrapper
    crosses the viewport; [scrollYProgress] goes from 0 (its top at the
    bottom of the viewport) to 1 (its bottom at the top). *)

Inductive direction := Up | Down | LeftDir | RightDir.

(** The props' defaults, lines 14-20. *)
Definition speed_of (s : option Q) : Q := match s with Some v => v | None => 2 # 10 end.
Definition offset_of (o : option Q) : Q := match o with Some v => v | None => 0 end.
Definition direction_of (d : option direction) : direction :=
  match d with Some v => v | None => Up end.

(** The output range of the [switch], lines 29-58. *)
Definition output_range (speed offset : Q) (d : direction) : Q * Q :=
  match d with
  | Up | LeftDir => (100 * speed + offset, -100 * speed + offset)
  | Down | RightDir => (-100 * speed + offset, 100 * speed + offset)
  end.

(** framer-motion's [useTransform(p, [0, 1], [a, b])]: linear, clamped. *)
Definition clamp01 (p : Q) : Q := if Qle_bool p 0 then 0 else if Qle_bool 1 p then 1 else p.

Definition useTransform (p : Q) (r : Q * Q) : Q := fst r + (snd r - fst r) * clamp01 p.

(** The motion style, lines 60-68: the axis ([x] for left and right) and
    its value at scroll progress [p]. *)
Definition parallax_style (speed offset : option Q) (d : option direction) (p : Q) : string * Q :=
  let dir := direction_of d in
  ((match dir with LeftDir | RightDir => "x" | _ => "y" end),
   useTransform p (output_range (speed_of speed) (offset_of offset) dir)).

End ParallaxScroll.

Module HeroParallax.

(** [src/components/HeroSection.tsx], lines 33-43: four values computed
    from the section's [scrollYProgress] (0 when its top is at the top of
    the viewport, 1 when its bottom is); the JSX reads none of them. *)

(** [useTransform(v, [a, b], [r0, r1])], clamped. *)
Definition interpolate (a b : Q) (r : Q * Q) (v : Q) : Q :=
  fst r + (snd r - fst r) * ParallaxScroll.clamp01 ((v - a) / (b - a)).

(** Percentages for the two offsets. *)
Definition backgroundY (p : Q) : Q := interpolate 0 1 (0, 30) p.
Definition contentY (p : Q) : Q := interpolate 0 1 (0, 20) p.
Definition decorationScale (p : Q) : Q := interpolate 0 1 (1, 6 # 5) p.
Definition decorationOpacity (p : Q) : Q := interpolate 0 (4 # 5) (1, 0) p.

End HeroParallax.

Module AnimationsProofs.
Import Animations.

(** A target at rest: fully opaque where it sets opacity, not moved,
    rotated or scaled. *)
Definition at_rest (t : target) : Prop :=
  (t_opacity t = None \/ t_opacity t = Some 1) /\
  (t_x t = None \/ t_x t = Some 0) /\ (t_y t = None \/ t_y t = Some 0) /\
  (t_rotate t = None \/ t_rotate t = Some 0) /\
  (t_scale t = [] \/ last (t_scale t) 0 = 1) /\ (t_ys t = [] \/ last (t_ys t) 1 = 0).

(** Every variant of the file ends where the element is laid out: the
    entrances reach rest, and the looping [pulse] and [bounce] return to
    rest at the end of every cycle. *)
Lemma variants_end_at_rest (i : Q) :
  Forall (fun v => at_rest (v_visible v i))
         [fadeIn; slideUp; slideDown; slideLeft; slideRight; staggerContainer; rotate; scale;
          pulse; bounce].
Proof.
  apply Forall_forall; intros v Hv; repeat destruct Hv as [<-|Hv]; try contradiction;
    cbn; repeat split; (now left) || (now right).
Qed.

(** [custom={i}] delays [slideUp] by [i * 0.1] seconds. *)
Lemma slideUp_custom_delay (i : Q) : tr_delay (slideUp_custom i) = Some (i * (1 # 10)).
Proof. reflexivity. Qed.

(** The [delay] prop of [SlideDown], [SlideLeft], [SlideRight] and
    [AnimatedScale] never reaches the animation: their visible variant has
    its own spring transition, which replaces the [transition] prop. *)
Lemma variant_wrappers_ignore_delay (d : option Q) (cls : option string) :
  Forall (fun m => tr_delay (m_transition m) = None /\ tr_spring (m_transition m) <> None)
         [SlideDown d cls; SlideLeft d cls; SlideRight d cls; AnimatedScale d cls].
Proof. repeat constructor; discriminate. Qed.

(** [FadeIn] and [SlideUp] do honour it. *)
Lemma inline_wrappers_delay (d dur : option Q) (cls : option string) :
  tr_delay (m_transition (FadeIn d dur cls)) = Some (delay_prop d) /\
  tr_delay (m_transition (SlideUp d dur cls)) = Some (delay_prop d).
Proof. split; reflexivity. Qed.

(** ** Parallax *)

Lemma clamp01_range p : 0 <= ParallaxScroll.clamp01 p <= 1.
Proof.
  unfold ParallaxScroll.clamp01.
  destruct (Qle_bool p 0) eqn:E1; [lra|].
  destruct (Qle_bool 1 p) eqn:E2; [lra|].
  apply not_true_iff_false in E1, E2; rewrite Qle_bool_iff in E1, E2.
  apply Qnot_le_lt in E1, E2; lra.
Qed.

(** The parallax child never moves farther than [100 * speed] pixels
    from [offset], whatever the scroll progress. *)
Lemma parallax_bounded (speed offset : option Q) (d : option ParallaxScroll.direction) (p : Q) :
  0 <= ParallaxScroll.speed_of speed ->
  Qabs (snd (ParallaxScroll.parallax_style speed offset d p) - ParallaxScroll.offset_of offset)
    <= 100 * ParallaxScroll.speed_of speed.
Proof.
  intros Hs; pose proof (clamp01_range p) as Hc.
  set (c := ParallaxScroll.clamp01 p) in *.
  set (v := ParallaxScroll.speed_of speed) in *; set (o := ParallaxScroll.offset_of offset).
  assert (0 <= v * c) by (apply Qmult_le_0_compat; lra).
  assert (v * c <= v) by nra.
  unfold ParallaxScroll.parallax_style, ParallaxScroll.useTransform; cbn [snd fst].
  fold c; fold v o.
  destruct (ParallaxScroll.direction_of d); cbn [ParallaxScroll.output_range fst snd];
    apply Card3DProofs.qabs_le_iff; nra.
Qed.

(** ** The hero's parallax values *)

(** An interpolation stays between the ends of its output range. *)
Lemma interpolate_between a b r0 r1 v :
  (r0 <= r1 -> r0 <= HeroParallax.interpolate a b (r0, r1) v <= r1) /\
  (r1 <= r0 -> r1 <= HeroParallax.interpolate a b (r0, r1) v <= r0).
Proof.
  unfold HeroParallax.interpolate; cbn [fst snd].
  pose proof (clamp01_range ((v - a) / (b - a))) as Hc.
  set (c := ParallaxScroll.clamp01 ((v - a) / (b - a))) in *.
  split; intros H; split; nra.
Qed.

Lemma Qle_bool_compat x y z w : x == y -> z == w -> Qle_bool x z = Qle_bool y w.
Proof.
  intros Hxy Hzw; apply eq_true_iff_eq; rewrite !Qle_bool_iff, Hxy, Hzw; reflexivity.
Qed.

(** [clamp01] respects equality of rationals, so it can be rewritten under. *)
#[export] Instance clamp01_proper : Proper (Qeq ==> Qeq) ParallaxScroll.clamp01.
Proof.
  intros x y E; unfold ParallaxScroll.clamp01.
  rewrite (Qle_bool_compat x y 0 0 E (Qeq_refl 0)), (Qle_bool_compat 1 1 x y (Qeq_refl 1) E).
  now destruct (Qle_bool y 0), (Qle_bool 1 y).
Qed.

Lemma clamp01_one p : 1 <= p -> ParallaxScroll.clamp01 p == 1.
Proof.
  intros H; unfold ParallaxScroll.clamp01.
  destruct (Qle_bool p 0) eqn:E1; [apply Qle_bool_iff in E1; lra|].
  destruct (Qle_bool 1 p) eqn:E2; [reflexivity|].
  apply not_true_iff_false in E2; rewrite Qle_bool_iff in E2; lra.
Qed.

(** Over the whole scroll the background moves by at most 30 %, the
    content by at most 20 %, the decoration grows to at most 1.2 times
    and fades, fully gone from 80 % of the scroll on; [ParallaxScroll]'s
    [useTransform] is the interpolation over [[0, 1]]. *)
Lemma hero_parallax_spec (p : Q) :
  0 <= HeroParallax.backgroundY p <= 30 /\ 0 <= HeroParallax.contentY p <= 20 /\
  1 <= HeroParallax.decorationScale p <= 6 # 5 /\ 0 <= HeroParallax.decorationOpacity p <= 1 /\
  (4 # 5 <= p -> HeroParallax.decorationOpacity p == 0) /\
  (forall r, ParallaxScroll.useTransform p r == HeroParallax.interpolate 0 1 r p).
Proof.
  split; [apply (interpolate_between 0 1 0 30 p); lra|].
  split; [apply (interpolate_between 0 1 0 20 p); lra|].
  split; [apply (interpolate_between 0 1 1 (6 # 5) p); lra|].
  split; [apply (interpolate_between 0 (4 # 5) 1 0 p); lra|].
  split.
  - intros Hp; unfold HeroParallax.decorationOpacity, HeroParallax.interpolate; cbn [fst snd].
    rewrite clamp01_one; [ring|].
    apply Qle_shift_div_l; [reflexivity|]; lra.
  - intros r; unfold ParallaxScroll.useTransform, HeroParallax.interpolate.
    assert (E : (p - 0) / (1 - 0) == p) by field.
    now rewrite E.
Qed.

End AnimationsProofs.
