(* ===== verification/Features.v ===== *)
(** * Features: [src/components/FeaturesSection.tsx], the category tabs
    that [EnhancedFeaturesSection] replaced on the home page (its import is
    commented out in [src/app/page.tsx]; the component is still code of
    the repository).

    The section keeps the active category's id and the title of the
    hovered feature.  A click on a category button selects it; the panel
    ([AnimatePresence] keyed by the category) shows the features of
    [getCategory()], the category whose id is active or the first one; a
    card's [onHoverStart]/[onHoverEnd] set and clear the hovered title, and
    the card whose title is hovered draws a highlight behind itself.  A
    card removed while hovered (the category changed) gets no
    [onHoverEnd], so the hovered title can outlive its card.

    Module [FeaturesMotion] gives every animated element of the section as
    an [Animations.motion], composed with the shared variants ([slideUp],
    [staggerContainer]) and the [FadeIn] wrapper of [ui/animations.tsx];
    [tab_motions_spec] and [highlight_entrance_spec] show the buttons'
    stagger and the highlight's schedule. *)

From Stdlib Require Import List String Bool Arith Lia QArith.
From S2P Require Import Animations.
Import ListNotations.

Close Scope Q_scope.
Open Scope string_scope.

Module FeaturesSection.

(** ** Data (lines 9-95) *)

Record feature := { f_title : string; f_description : string; f_icon : string }.
Record category := { c_id : string; c_name : string; c_features : list feature }.

Definition featureCategories : list category :=
  [ {| c_id := "lead-management"; c_name := "Lead Management";
       c_features :=
         [ {| f_title := "Automated Lead Capture";
              f_description := "Capture leads from various sources like website forms, social media, and email campaigns automatically.";
              f_icon := "📥" |};
           {| f_title := "Lead Scoring";
              f_description := "Prioritize leads based on their engagement and likelihood to convert using our AI-driven scoring system.";
              f_icon := "🎯" |};
           {| f_title := "Pipeline Visualization";
              f_description := "Visual representation of your sales pipeline with drag-and-drop functionality for easy management.";
              f_icon := "📊" |} ] |};
    {| c_id := "customer-management"; c_name := "Customer Management";
       c_features :=
         [ {| f_title := "Unified Customer View";
              f_description := "Get a 360° view of each customer, including their history, preferences, and interactions.";
              f_icon := "👥" |};
           {| f_title := "Interaction Tracking";
              f_description := "Log all customer interactions across channels for better relationship management.";
              f_icon := "🔄" |};
           {| f_title := "Sentiment Analysis";
              f_description := "AI-powered sentiment analysis to understand customer satisfaction and potential issues.";
              f_icon := "😊" |} ] |};
    {| c_id := "automation"; c_name := "Automation";
       c_features :=
         [ {| f_title := "Workflow Automation";
              f_description := "Automate repetitive tasks and complex business processes with our visual workflow builder.";
              f_icon := "⚙️" |};
           {| f_title := "Email Automation";
              f_description := "Create, schedule, and automate personalized email campaigns to nurture leads and customers.";
              f_icon := "📧" |};
           {| f_title := "Follow-up Reminders";
              f_description := "Never miss a follow-up with automated reminders and task creation based on customer activities.";
              f_icon := "⏰" |} ] |};
    {| c_id := "analytics"; c_name := "Analytics & Reporting";
       c_features :=
         [ {| f_title := "Real-time Dashboards";
              f_description := "Visualize key metrics and KPIs with customizable real-time dashboards.";
              f_icon := "📈" |};
           {| f_title := "Sales Forecasting";
              f_description := "Predict future sales trends using AI-powered forecasting based on historical data.";
              f_icon := "🔮" |};
           {| f_title := "Custom Reports";
              f_description := "Generate detailed reports on any aspect of your business with our drag-and-drop report builder.";
              f_icon := "📄" |} ] |} ].

Definition first_category : category :=
  match featureCategories with c :: _ => c | [] => {| c_id := EmptyString; c_name := EmptyString; c_features := [] |} end.

(** ** State and handlers (lines 97-100, 137, 175-176) *)

Record FState := { activeCategory : string; hoveredFeature : option string }.

Definition f_initial : FState := {| activeCategory := c_id first_category; hoveredFeature := None |}.

(** [featureCategories.find(c => c.id === activeCategory) || featureCategories[0]]. *)
Definition getCategory (st : FState) : category :=
  match find (fun c => String.eqb (c_id c) (activeCategory st)) featureCategories with
  | Some c => c
  | None => first_category
  end.

Definition setActiveCategory (id : string) (st : FState) : FState :=
  {| activeCategory := id; hoveredFeature := hoveredFeature st |}.

Definition onHoverStart (title : string) (st : FState) : FState :=
  {| activeCategory := activeCategory st; hoveredFeature := Some title |}.

Definition onHoverEnd (st : FState) : FState :=
  {| activeCategory := activeCategory st; hoveredFeature := None |}.

(** ** Rendering (lines 132-199) *)

(** A category button: its key, whether it is active (white text and the
    sliding background), its label, and the id its click selects. *)
Record button := { b_key : string; b_active : bool; b_label : string; b_onClick : string }.

Definition buttons (st : FState) : list button :=
  map (fun c => {| b_key := c_id c; b_active := String.eqb (activeCategory st) (c_id c);
                   b_label := c_name c; b_onClick := c_id c |}) featureCategories.

(** A feature card: its key, icon, title, description, entrance delay in
    tenths of a second, and whether the hover highlight is drawn. *)
Record card := { k_key : string; k_icon : string; k_title : string; k_description : string;
                 k_delay : nat; k_highlight : bool }.

Fixpoint cards_from (st : FState) (i : nat) (fs : list feature) : list card :=
  match fs with
  | [] => []
  | f :: fs' =>
      {| k_key := f_title f; k_icon := f_icon f; k_title := f_title f;
         k_description := f_description f; k_delay := i;
         k_highlight := match hoveredFeature st with
                        | Some t => String.eqb t (f_title f)
                        | None => false
                        end |} :: cards_from st (S i) fs'
  end.

(** The panel: keyed by [activeCategory], the cards of [getCategory()]. *)
Definition panel (st : FState) : string * list card :=
  (activeCategory st, cards_from st 0 (c_features (getCategory st))).


(** ** The highlight (lines 206-339) *)

(** The dashboard image's props ([PlaceholderImage], lines 226-234): source,
    fallback, alt text, width, height. *)
Definition dashboard_image : string * string * string * nat * nat :=
  ("/images/dashboard-preview.jpg", "/images/placeholder.jpg", "T-CRM Dashboard", 600, 400).

(** The floating badges, lines 243-276: value and label. *)
Definition badges : list (string * string) :=
  [("+27%", "Conversion Rate"); ("12 Tasks", "Due Today")].

(** The checklist, lines 305-324, each item entering [index * 0.1 + 0.2]
    seconds after it is in view (in tenths). *)
Definition highlight_items : list (string * nat) :=
  map (fun '(i, item) => (item, i + 2))
      (combine (seq 0 4) ["Real-time data synchronization"; "Customizable widget layouts";
                          "Export reports in multiple formats"; "Set goals and track progress"]).

(** ** Interaction *)

(** Clicks on a button; the pointer entering a shown card or leaving the
    hovered one. *)
Inductive f_step (st : FState) : FState -> Prop :=
| fs_click b : In b (buttons st) -> f_step st (setActiveCategory (b_onClick b) st)
| fs_hover_start k : In k (snd (panel st)) -> f_step st (onHoverStart (k_title k) st)
| fs_hover_end : hoveredFeature st <> None -> f_step st (onHoverEnd st).

Inductive f_reachable : FState -> Prop :=
| fr_init : f_reachable f_initial
| fr_step st st' : f_reachable st -> f_step st st' -> f_reachable st'.

End FeaturesSection.

(** ** The section's motion (lines 103-131, 133-161, 165-180, 209-341)

    Each animated element as an [Animations.motion]: its [initial] target,
    the target of [whileInView] or [animate], and its transition, chosen
    the way framer-motion chooses it ([Animations.effective]).  The tab
    buttons name the shared [slideUp] variants with [custom={index}]
    inside the shared [staggerContainer]; the highlight's text is the
    shared [FadeIn] wrapper with its default props. *)
Module FeaturesMotion.
Import FeaturesSection Animations.
Local Open Scope Q_scope.

(** The [transition] prop [{ delay, duration }]. *)
Definition timed (delay : option Q) (duration : Q) : transition :=
  {| tr_delay := delay; tr_duration := Some duration; tr_spring := None; tr_stagger := None;
     tr_repeat := false |}.

(** An element with inline targets and a [transition] prop. *)
Definition inline (from to : target) (tr : transition) (cls : string) : motion :=
  {| m_from := from; m_to := to; m_transition := effective tr to; m_class := cls |}.

Definition op (o : Q) : target := tgt (Some o) None None None [] None.
Definition op_y (o y : Q) : target := tgt (Some o) None (Some y) None [] None.

(** The header, lines 105-121. *)
Definition header_motion : motion :=
  inline (op_y 0 20) (op_y 1 0) (timed None (1 # 2)) "text-center mb-16".

(** The tab bar, lines 125-131, and its buttons, lines 133-140. *)
Definition tab_nav : motion :=
  inline (v_hidden staggerContainer) (v_visible staggerContainer 0) no_transition
         "flex flex-wrap justify-center gap-2 md:gap-4 mb-12 relative".

Definition tab_button_class (active : bool) : string :=
  "relative px-6 py-3 rounded-full font-medium transition-all duration-300 " ++
  (if active then "text-white shadow-md" else "text-gray-600 hover:text-indigo-600").

Fixpoint tab_motions_from (i : nat) (bs : list button) : list motion :=
  match bs with
  | [] => []
  | b :: bs' =>
      inline (v_hidden slideUp) (v_visible slideUp (inject_Z (Z.of_nat i))) no_transition
             (tab_button_class (b_active b)) :: tab_motions_from (S i) bs'
  end.

Definition tab_motions (st : FState) : list motion := tab_motions_from 0 (buttons st).

(** The panel, lines 165-172, and a card at index [i], lines 174-178. *)
Definition panel_motion : motion :=
  inline (op_y 0 20) (op_y 1 0) (timed None (1 # 2)) "grid grid-cols-1 md:grid-cols-3 gap-6".

Definition card_motion (i : nat) : motion :=
  inline (op_y 0 20) (op_y 1 0) (timed (Some (inject_Z (Z.of_nat i) * (1 # 10))) (1 # 2))
         "relative group".

(** The highlight, lines 210-341, in document order: the container, the
    backdrop, the two badges, the [FadeIn] text, the four checklist items
    and the button. *)
Definition highlight_motions : list (string * motion) :=
  [("highlight", inline (op 0) (op 1) (timed None (8 # 10))
                   "max-w-6xl mx-auto grid grid-cols-1 lg:grid-cols-2 gap-12 items-center");
   ("backdrop", inline (tgt (Some 0) None None None [9 # 10] None) (tgt (Some 1) None None None [1] None)
                  (timed (Some (2 # 10)) (1 # 2)) "absolute -z-10 -inset-4 bg-indigo-50 rounded-3xl");
   ("+27%", inline (op_y 0 20) (op_y 1 0) (timed (Some (4 # 10)) (1 # 2))
              "absolute -top-6 -right-6 bg-white p-3 rounded-xl shadow-md border border-gray-100");
   ("12 Tasks", inline (op_y 0 20) (op_y 1 0) (timed (Some (6 # 10)) (1 # 2))
                  "absolute -bottom-6 -left-6 bg-white p-3 rounded-xl shadow-md border border-gray-100");
   ("text", FadeIn None None None)] ++
  map (fun '(item, d) =>
         (item, inline (tgt (Some 0) (Some (-10)) None None [] None) (tgt (Some 1) (Some 0) None None [] None)
                       (timed (Some (inject_Z (Z.of_nat d) * (1 # 10))) (1 # 2)) "flex items-start"))
      highlight_items ++
  [("cta", inline (op_y 0 20) (op_y 1 0) (timed (Some (6 # 10)) (1 # 2)) "mt-8")].

(** When an element's entrance is over: its delay (0 if none) plus its
    duration. *)
Definition finish (m : motion) : option Q :=
  match tr_duration (m_transition m) with
  | Some du => Some (delay_prop (tr_delay (m_transition m)) + du)
  | None => None
  end.

End FeaturesMotion.

Module FeaturesProofs.
Import FeaturesSection.

Definition category_ids : list string := map c_id featureCategories.

Lemma click_stays_known st b :
  In b (buttons st) -> In (b_onClick b) category_ids.
Proof.
  unfold buttons, category_ids; rewrite in_map_iff.
  intros (c & <- & Hc); exact (in_map c_id _ _ Hc).
Qed.

Lemma f_reachable_known st : f_reachable st -> In (activeCategory st) category_ids.
Proof.
  induction 1 as [|st st' _ IH Hs]; [now left|].
  destruct Hs as [b Hb| k _ |]; cbn; [exact (click_stays_known _ _ Hb) | exact IH | exact IH].
Qed.

Lemma cards_from_length st i fs : List.length (cards_from st i fs) = List.length fs.
Proof. revert i; induction fs as [|f fs IH]; intros i; cbn; [reflexivity | now rewrite IH]. Qed.

Lemma no_highlight st i fs t :
  hoveredFeature st = Some t -> ~ In t (map f_title fs) ->
  List.length (filter k_highlight (cards_from st i fs)) = 0.
Proof.
  intros Eh; revert i; induction fs as [|f fs IH]; intros i Hn; [reflexivity|]; cbn.
  rewrite Eh; destruct (String.eqb_spec t (f_title f)) as [E|_].
  - exfalso; apply Hn; left; now rewrite E.
  - apply IH; intros H; apply Hn; now right.
Qed.

(** Distinct titles: at most one card is highlighted. *)
Lemma highlight_at_most_one st i fs :
  NoDup (map f_title fs) -> List.length (filter k_highlight (cards_from st i fs)) <= 1.
Proof.
  revert i; induction fs as [|f fs IH]; intros i Hnd; cbn; [lia|].
  inversion Hnd as [|? ? Hnotin Hnd']; subst.
  destruct (hoveredFeature st) as [t|] eqn:Eh; [|exact (IH _ Hnd')].
  destruct (String.eqb_spec t (f_title f)) as [E|_]; cbn; [|exact (IH _ Hnd')].
  subst t; rewrite (no_highlight st (S i) fs _ Eh Hnotin); lia.
Qed.

Lemma getCategory_known st :
  In (activeCategory st) category_ids ->
  c_id (getCategory st) = activeCategory st /\ In (getCategory st) featureCategories.
Proof.
  unfold getCategory; intros H; repeat destruct H as [<-|H]; try contradiction;
    split; try reflexivity; cbn; tauto.
Qed.

Lemma category_titles_nodup c :
  In c featureCategories -> NoDup (map f_title (c_features c)).
Proof.
  intros H; repeat destruct H as [<-|H]; try contradiction;
    repeat constructor; cbn; intuition discriminate.
Qed.

Lemma one_active_button st :
  In (activeCategory st) category_ids -> List.length (filter b_active (buttons st)) = 1.
Proof.
  unfold buttons; intros H; repeat destruct H as [E|H]; try contradiction; rewrite <- E; reflexivity.
Qed.

(** C21: In every state the section reaches by clicks on the category buttons
    and the pointer entering or leaving the cards, exactly one category
    button is active, [getCategory()] finds the active category (its
    fallback to the first category is never taken), the panel is keyed by
    the active category and shows that category's three features, and at
    most one card is highlighted. *)
Lemma features_view_spec st :
  f_reachable st ->
  List.length (filter b_active (buttons st)) = 1 /\
  fst (panel st) = activeCategory st /\ c_id (getCategory st) = activeCategory st /\
  List.length (snd (panel st)) = 3 /\ List.length (filter k_highlight (snd (panel st))) <= 1.
Proof.
  intros Hr; pose proof (f_reachable_known _ Hr) as Hk.
  destruct (getCategory_known _ Hk) as [Ec Hc].
  split; [exact (one_active_button _ Hk)|]; split; [reflexivity|]; split; [exact Ec|].
  cbn [panel snd]; split; [rewrite cards_from_length|].
  - repeat destruct Hc as [<-|Hc]; try contradiction; reflexivity.
  - exact (highlight_at_most_one _ _ _ (category_titles_nodup _ Hc)).
Qed.

(** ** The section's motion *)

Import FeaturesMotion Animations AnimationsProofs.
Local Open Scope Q_scope.

Lemma tab_motions_from_nth k bs i m :
  nth_error (tab_motions_from k bs) i = Some m ->
  exists b, nth_error bs i = Some b /\
    m = inline (v_hidden slideUp) (v_visible slideUp (inject_Z (Z.of_nat (k + i)))) no_transition
               (tab_button_class (b_active b)).
Proof.
  revert k i; induction bs as [|b bs IH]; intros k [|i] H; cbn in H; try discriminate.
  - injection H as <-; exists b; now rewrite Nat.add_0_r.
  - destruct (IH _ _ H) as (b' & Hb & ->); exists b'; split; [exact Hb|].
    now rewrite Nat.add_succ_r.
Qed.

Lemma tab_motions_from_active k bs :
  List.length (filter (fun m => String.eqb (m_class m) (tab_button_class true)) (tab_motions_from k bs)) =
  List.length (filter b_active bs).
Proof.
  revert k; induction bs as [|b bs IH]; intros k; [reflexivity|]; cbn.
  destruct (b_active b); cbn; now rewrite IH.
Qed.

(** In every reachable state the tab bar's buttons enter one tenth of a
    second apart, the [custom={index}] of [slideUp] setting each delay,
    and come to rest; exactly one of them has the active class. *)
Lemma tab_motions_spec st :
  f_reachable st ->
  (forall i m, nth_error (tab_motions st) i = Some m ->
     m_transition m = slideUp_custom (inject_Z (Z.of_nat i)) /\
     tr_delay (m_transition m) = Some (inject_Z (Z.of_nat i) * (1 # 10)) /\ at_rest (m_to m)) /\
  List.length (filter (fun m => String.eqb (m_class m) (tab_button_class true)) (tab_motions st)) = 1%nat.
Proof.
  intros Hr; split.
  - intros i m H; destruct (tab_motions_from_nth _ _ _ _ H) as (b & _ & ->); cbn.
    split; [reflexivity|]; split; [reflexivity|].
    cbn; repeat split; (now left) || (now right).
  - unfold tab_motions; rewrite tab_motions_from_active.
    exact (one_active_button _ (f_reachable_known _ Hr)).
Qed.

(** The highlight's entrance, element by element in document order, ends
    at rest, and its schedule is: the container by 0.8 s, the backdrop by
    0.7 s, the badges by 0.9 s and 1.1 s, the [FadeIn] text by 0.5 s, the
    checklist by 0.7, 0.8, 0.9 and 1 s, the button by 1.1 s. *)
Lemma highlight_entrance_spec :
  Forall (fun '(_, m) => at_rest (m_to m)) highlight_motions /\
  map (fun '(_, m) => option_map Qred (finish m)) highlight_motions =
    [Some (4 # 5); Some (7 # 10); Some (9 # 10); Some (11 # 10); Some (1 # 2);
     Some (7 # 10); Some (4 # 5); Some (9 # 10); Some 1; Some (11 # 10)].
Proof.
  split; [|vm_compute; reflexivity].
  apply Forall_forall; intros [n m] Hin; cbn in Hin.
  repeat destruct Hin as [[= _ <-]|Hin]; try contradiction;
    cbn; repeat split; (now left) || (now right).
Qed.

(** ** Witnesses *)

(** A click on "Automation", then the pointer on its first card. *)
Definition f_clicked : FState := setActiveCategory "automation" f_initial.
Definition f_sample : FState := onHoverStart "Workflow Automation" f_clicked.

Lemma f_sample_reachable : f_reachable f_sample.
Proof.
  assert (H1 : f_reachable f_clicked).
  { apply (fr_step f_initial); [constructor|].
    apply (fs_click f_initial (nth 2 (buttons f_initial) (Build_button "" false "" ""))).
    cbn; auto. }
  apply (fr_step f_clicked); [exact H1|].
  apply (fs_hover_start f_clicked (nth 0 (snd (panel f_clicked))
           (Build_card "" "" "" "" 0 false))).
  cbn; auto.
Qed.

Lemma features_view_spec_witness :
  f_reachable f_sample /\ fst (panel f_sample) = "automation" /\
  List.length (filter b_active (buttons f_sample)) = 1%nat.
Proof.
  destruct (features_view_spec f_sample f_sample_reachable) as (H1 & H2 & _).
  split; [exact f_sample_reachable|]; split; [exact H2 | exact H1].
Defined.

End FeaturesProofs.
