(* ===== verification/StyleGuide.v ===== *)
(** * StyleGuide: the style-guide page, [src/components/StyleGuide.tsx]
    rendered by [src/app/style-guide/page.tsx].

    The page is static: swatches for the primary and gray palettes, a
    spacing demonstration whose boxes get the class names [w-N h-N] built
    at run time, the spacing scale with its indices, and demonstration
    buttons and inputs.  It is modelled as the lists it renders, with the
    React keys and the class names each element receives. *)

From Stdlib Require Import List String Arith Bool.
Import ListNotations.

Open Scope string_scope.

Module StyleGuide.

(** ** Data (lines 3-31) *)

Record swatch := { s_name : string; s_color : string; s_text : string }.

(** [colors], lines 3-14. *)
Definition colors : list swatch :=
  [ {| s_name := "Primary-50"; s_color := "bg-primary-50"; s_text := "text-gray-900" |};
    {| s_name := "Primary-100"; s_color := "bg-primary-100"; s_text := "text-gray-900" |};
    {| s_name := "Primary-200"; s_color := "bg-primary-200"; s_text := "text-gray-900" |};
    {| s_name := "Primary-300"; s_color := "bg-primary-300"; s_text := "text-gray-900" |};
    {| s_name := "Primary-400"; s_color := "bg-primary-400"; s_text := "text-gray-900" |};
    {| s_name := "Primary-500"; s_color := "bg-primary-500"; s_text := "text-white" |};
    {| s_name := "Primary-600"; s_color := "bg-primary-600"; s_text := "text-white" |};
    {| s_name := "Primary-700"; s_color := "bg-primary-700"; s_text := "text-white" |};
    {| s_name := "Primary-800"; s_color := "bg-primary-800"; s_text := "text-white" |};
    {| s_name := "Primary-900"; s_color := "bg-primary-900"; s_text := "text-white" |} ].

(** [grays], lines 16-27. *)
Definition grays : list swatch :=
  [ {| s_name := "Gray-50"; s_color := "bg-gray-50"; s_text := "text-gray-900" |};
    {| s_name := "Gray-100"; s_color := "bg-gray-100"; s_text := "text-gray-900" |};
    {| s_name := "Gray-200"; s_color := "bg-gray-200"; s_text := "text-gray-900" |};
    {| s_name := "Gray-300"; s_color := "bg-gray-300"; s_text := "text-gray-900" |};
    {| s_name := "Gray-400"; s_color := "bg-gray-400"; s_text := "text-gray-900" |};
    {| s_name := "Gray-500"; s_color := "bg-gray-500"; s_text := "text-white" |};
    {| s_name := "Gray-600"; s_color := "bg-gray-600"; s_text := "text-white" |};
    {| s_name := "Gray-700"; s_color := "bg-gray-700"; s_text := "text-white" |};
    {| s_name := "Gray-800"; s_color := "bg-gray-800"; s_text := "text-white" |};
    {| s_name := "Gray-900"; s_color := "bg-gray-900"; s_text := "text-white" |} ].

(** [spacingValues], lines 29-32. *)
Definition spacingValues : list string :=
  ["0"; "0.25rem"; "0.5rem"; "0.75rem"; "1rem"; "1.25rem"; "1.5rem"; "1.75rem"; "2rem"; "2.25rem";
   "2.5rem"; "3rem"; "4rem"; "5rem"; "6rem"; "8rem"; "10rem"; "12rem"; "16rem"; "20rem"].

(** ** Rendering (lines 33-239) *)

(** The typography section, lines 40-103: each sample's tag, class, text
    and caption. *)
Definition typography : list (string * string * string * option string) :=
  [("h1", "text-5xl font-bold text-gray-900", "Heading 1", Some "5xl (3rem) | Font Weight: Bold");
   ("h2", "text-4xl font-bold text-gray-900", "Heading 2", Some "4xl (2.25rem) | Font Weight: Bold");
   ("h3", "text-3xl font-bold text-gray-900", "Heading 3", Some "3xl (1.875rem) | Font Weight: Bold");
   ("h4", "text-2xl font-semibold text-gray-900", "Heading 4", Some "2xl (1.5rem) | Font Weight: Semibold");
   ("h5", "text-xl font-semibold text-gray-900", "Heading 5", Some "xl (1.25rem) | Font Weight: Semibold");
   ("h6", "text-lg font-medium text-gray-900", "Heading 6", Some "lg (1.125rem) | Font Weight: Medium");
   ("p", "text-xl text-gray-800", "Large Body Text (xl)", Some "Used for hero sections and important paragraphs");
   ("p", "text-base text-gray-800", "Regular Body Text (base)", Some "Default text size for most content");
   ("p", "text-sm text-gray-800", "Small Body Text (sm)", Some "Used for secondary information and metadata");
   ("p", "font-light text-lg text-gray-900", "Light (300)", None);
   ("p", "font-normal text-lg text-gray-900", "Regular (400)", None);
   ("p", "font-medium text-lg text-gray-900", "Medium (500)", None);
   ("p", "font-semibold text-lg text-gray-900", "Semibold (600)", None);
   ("p", "font-bold text-lg text-gray-900", "Bold (700)", None)].

(** A swatch as rendered, lines 113-117 and 124-128: key, box class,
    label class, label. *)
Definition swatch_view (c : swatch) : string * string * string * string :=
  (s_name c, s_color c ++ " p-4 rounded-lg shadow-sm", s_text c ++ " font-medium", s_name c).

(** Decimal digits of a small number, as JavaScript prints it. *)
Fixpoint digits_fuel (fuel n : nat) (acc : string) : string :=
  match fuel with
  | 0 => acc
  | S f =>
      let d := String (Ascii.ascii_of_nat (48 + n mod 10)) EmptyString in
      if Nat.ltb n 10 then d ++ acc else digits_fuel f (n / 10) (d ++ acc)
  end.

Definition js_string_of_nat (n : nat) : string := digits_fuel (S n) n EmptyString.

(** The spacing boxes, lines 138-143: key, the class built with a template
    literal, label. *)
Definition spacing_demo : list (nat * string * string) :=
  map (fun space => (space, "w-" ++ js_string_of_nat space ++ " h-" ++ js_string_of_nat space
                            ++ " bg-primary-500 mb-2 mx-auto", js_string_of_nat space))
      [1; 2; 3; 4; 6; 8; 12; 16].

(** The scale, lines 150-156: key (the index), index label, value. *)
Definition spacing_scale : list (nat * string * string) :=
  map (fun '(i, v) => (i, js_string_of_nat i ++ ":", v)) (combine (seq 0 (List.length spacingValues)) spacingValues).

(** The buttons, lines 164-190: class and label. *)
Definition buttons : list (string * string) :=
  [("btn-primary", "Primary Button"); ("btn-primary bg-primary-700", "Primary Dark");
   ("btn-primary bg-primary-500", "Primary Light"); ("btn-primary opacity-50 cursor-not-allowed", "Disabled");
   ("btn-secondary", "Secondary Button"); ("btn-secondary border-gray-400", "Secondary Dark");
   ("btn-secondary bg-gray-50", "Secondary Light"); ("btn-secondary opacity-50 cursor-not-allowed", "Disabled");
   ("btn-primary text-sm px-3 py-1.5", "Small"); ("btn-primary", "Medium (Default)");
   ("btn-primary text-lg px-5 py-2.5", "Large")].

(** The inputs, lines 195-225: label, [id], [htmlFor] of the label, error text. *)
Record input_demo := { i_label : string; i_id : string; i_for : string; i_error : option string }.

Definition inputs : list input_demo :=
  [ {| i_label := "Input Label"; i_id := "demo-input"; i_for := "demo-input"; i_error := None |};
    {| i_label := "Input with Error"; i_id := "demo-input-error"; i_for := "demo-input-error";
       i_error := Some "This field is required" |} ].

End StyleGuide.

Module StyleGuideProofs.
Import StyleGuide.

(** Every React key of the page's lists is unique, the [w-N h-N] classes
    name the labelled size, and every label points at its input. *)
Lemma style_guide_keys :
  NoDup (map s_name colors) /\ NoDup (map s_name grays) /\
  NoDup (map (fun '(k, _, _) => k) spacing_demo) /\
  NoDup (map (fun '(k, _, _) => k) spacing_scale) /\
  map (fun '(_, _, l) => l) spacing_demo = ["1"; "2"; "3"; "4"; "6"; "8"; "12"; "16"] /\
  Forall (fun i => i_for i = i_id i) inputs.
Proof.
  split; [repeat constructor; cbn; intuition discriminate|].
  split; [repeat constructor; cbn; intuition discriminate|].
  split; [repeat constructor; cbn; intuition discriminate|].
  split; [repeat constructor; cbn; intuition discriminate|].
  split; [reflexivity|]; repeat constructor.
Qed.

(** The first spacing box's class is [w-1 h-1], a name that appears in no
    other file of the source; Tailwind only generates the classes it finds
    written out, so this box may render with no size. *)
Lemma spacing_demo_first :
  hd_error spacing_demo = Some (1, "w-1 h-1 bg-primary-500 mb-2 mx-auto", "1").
Proof. reflexivity. Qed.

End StyleGuideProofs.
