(* ===== verification/Tabs.v ===== *)
(** * Tabs: the animated tabs, [src/components/ui/TabsWithAnimation.tsx],
    as the lead-management section uses them
    ([src/components/LeadManagementSection.tsx]).

    The component receives [tabs] (id, label, content) and an optional
    [defaultTab].  Its state is [activeTab], set by a click on a tab's
    button, and the two measured boxes: after every render where
    [activeTab] or [tabs] changed, an effect looks the active tab up with
    [findIndex] and, when found, stores its button's bounding box; the
    sliding indicator is drawn under the stored box.  The panel area shows
    the content of every tab whose id equals [activeTab].

    Module [Tabs] is generic in the props ([Section] variables); the DOM
    boxes are a parameter [tab_box] giving each button's left edge and
    width relative to the wrapper.  [LeadTabs] instantiates it with the
    section's four tabs and [defaultTab="lead-management"].

    React's dependency check on [[activeTab, tabs]] is represented by the
    flag [measured]: the effect is due after the first render and after a
    click that changed [activeTab] ([click_tab]); [tabs] is a fixed prop
    here, so its changes are not modelled. *)

From HB Require Import structures.
From mathcomp Require Import boot.
From Stdlib Require Import String BinInt.
From S2P Require Import SeqLib.

Open Scope string_scope.

Record Tab := { tab_id : string; tab_label : string; tab_content : string }.

(** A button's box relative to the wrapper: left edge and width. *)
Record Box := { box_left : nat; box_width : nat }.

Module Tabs.

Section TabsWithAnimation.

(** The props, and the layout the browser computes for the buttons. *)
Variables (tabs : seq Tab) (defaultTab : option string) (tab_box : nat -> Box).

(** ** State (lines 24-28) *)

Record TabsState := {
  activeTab : string;
  tabBoundingBox : option Box;
  measured : bool                 (* the effect ran since the last change *)
}.

(** [tabs.length > 0 ? tabs[0].id : ''] *)
Definition first_id : string :=
  if tabs is t :: _ then tab_id t else EmptyString.

(** [defaultTab || first_id]: an absent or empty [defaultTab] is falsy. *)
Definition initial_activeTab : string :=
  match defaultTab with
  | Some d => if d == EmptyString then first_id else d
  | None => first_id
  end.

Definition tabs_initial : TabsState :=
  {| activeTab := initial_activeTab; tabBoundingBox := None; measured := false |}.

(** [tabs.findIndex(tab => tab.id === activeTab)], [-1] as [None]. *)
Definition findIndex (a : string) : option nat :=
  let i := find (fun t => tab_id t == a) tabs in
  if i < size tabs then Some i else None.

(** The effect, lines 31-39: measure the active tab's button if found. *)
Definition measure_effect (st : TabsState) : TabsState :=
  {| activeTab := activeTab st;
     tabBoundingBox := match findIndex (activeTab st) with
                       | Some i => Some (tab_box i)
                       | None => tabBoundingBox st
                       end;
     measured := true |}.

(** A click, line 84: [setActiveTab(tab.id)]; the effect is due again
    only if the value changed (React skips an identical state). *)
Definition click_tab (id : string) (st : TabsState) : TabsState :=
  {| activeTab := id; tabBoundingBox := tabBoundingBox st;
     measured := measured st && (activeTab st == id) |}.

(** ** Rendering (lines 42-44, 69-139) *)

Record TabButton := { btn_key : string; btn_active : bool; btn_label : string;
                      btn_onClick : string }.

Definition buttons (st : TabsState) : seq TabButton :=
  [seq {| btn_key := tab_id t; btn_active := activeTab st == tab_id t;
          btn_label := tab_label t; btn_onClick := tab_id t |} | t <- tabs].

(** The indicator: [{tabBoundingBox && ...}] at [x = translateX] with the
    box's width; the wrapper's box is the origin. *)
Definition indicator (st : TabsState) : option Box := tabBoundingBox st.

(** The panels: [tabs.map(tab => activeTab === tab.id && ...)]. *)
Definition panels (st : TabsState) : seq string :=
  [seq tab_content t | t <- tabs & activeTab st == tab_id t].

(** The events: a click on a button, or the pending effect running. *)
Inductive tabs_step (st : TabsState) : TabsState -> Prop :=
| ts_click b : List.In b (buttons st) -> tabs_step st (click_tab (btn_onClick b) st)
| ts_effect : measured st = false -> tabs_step st (measure_effect st).

Definition tabs_reachable : TabsState -> Prop := reachable tabs_step tabs_initial.

(** [translateX], lines 42-44: the tab's left edge relative to the
    wrapper's, [0] before the first measure. *)
Definition translateX (st : TabsState) : nat :=
  if tabBoundingBox st is Some b then box_left b else 0.

(** The indicator, lines 100-114: drawn once a box is measured, animated
    to [{ width, x: translateX, opacity: 1 }] ([initial={false}]). *)
Definition indicator_style (st : TabsState) : option (nat * nat * nat) :=
  if tabBoundingBox st is Some b then Some (box_width b, translateX st, 1) else None.

(** A button's class, lines 85-89. *)
Definition tab_button_class (active : bool) : string :=
  "px-4 py-2 text-sm font-medium transition-colors duration-200 relative whitespace-nowrap flex items-center " ++
  (if active then "text-primary-600" else "text-gray-600 hover:text-gray-800").

(** [tabVariants], lines 47-67: a panel enters from below in 500 ms and
    leaves upwards in 300 ms; [AnimatePresence mode="wait"] (line 120)
    lets the old panel leave before the new one enters. *)
Definition tabVariants_hidden : target := {| t_opacity := 0; t_y := 20%Z |}.
Definition tabVariants_exit : target := {| t_opacity := 0; t_y := (-20)%Z |}.
Definition enter_ms : nat := 500.
Definition exit_ms : nat := 300.

(** After a click that changes the tab, when the new panel is at rest. *)
Definition panel_settled_ms (old_shown : bool) : nat := (if old_shown then exit_ms else 0) + enter_ms.

End TabsWithAnimation.

End Tabs.

Module LeadTabs.

(** [tabs] of [LeadManagementSection], lines 208-233; the content is the
    name of the component that renders it. *)
Definition lead_tabs : seq Tab :=
  [:: {| tab_id := "lead-management"; tab_label := "Lead Management";
         tab_content := "LeadManagementFeatures" |};
      {| tab_id := "customer-management"; tab_label := "Customer Management";
         tab_content := "CustomerManagementFeatures" |};
      {| tab_id := "automation"; tab_label := "Automation";
         tab_content := "AutomationFeatures" |};
      {| tab_id := "analytics"; tab_label := "Analytics & Reporting";
         tab_content := "AnalyticsFeatures" |}].

(** Line 258: [<TabsWithAnimation tabs={tabs} defaultTab="lead-management" />]. *)
Definition lead_default : option string := Some "lead-management".

End LeadTabs.

Module LeadCards.

(** A feature card of a tab's content: icon, [h3] title, description. *)
Record FeatureCard := { fc_icon : string; fc_title : string; fc_desc : string }.

(** [LeadManagementFeatures], lines 56-88. *)
Definition LeadManagementFeatures : seq FeatureCard :=
  [:: {| fc_icon := "InboxArrowDownIcon"; fc_title := "Automated Lead Capture";
         fc_desc := "Capture leads from various sources like website forms, social media, and email campaigns automatically." |};
      {| fc_icon := "CursorArrowRaysIcon"; fc_title := "Lead Scoring";
         fc_desc := "Prioritize leads based on their engagement and likelihood to convert using our AI-driven scoring system." |};
      {| fc_icon := "ChartBarIcon"; fc_title := "Pipeline Visualization";
         fc_desc := "Visual representation of your sales pipeline with drag-and-drop functionality for easy management." |}].

(** [CustomerManagementFeatures], lines 91-128; the first title is written
    in the source with the bytes of "Â°" where "°" was meant. *)
Definition CustomerManagementFeatures : seq FeatureCard :=
  [:: {| fc_icon := "UsersIcon"; fc_title := "360Â° Customer View";
         fc_desc := "Get a complete view of customer interactions, purchase history, support tickets, and communication in one place." |};
      {| fc_icon := "svg"; fc_title := "Customer Segmentation";
         fc_desc := "Group customers based on behavior, demographics, purchase patterns, and engagement levels for targeted marketing." |};
      {| fc_icon := "svg"; fc_title := "Activity Tracking";
         fc_desc := "Automatically log all customer touchpoints including emails, calls, meetings, and support interactions." |}].

(** [AutomationFeatures], lines 131-167. *)
Definition AutomationFeatures : seq FeatureCard :=
  [:: {| fc_icon := "CogIcon"; fc_title := "Workflow Automation";
         fc_desc := "Create custom workflows to automate repetitive tasks and ensure consistent follow-ups." |};
      {| fc_icon := "svg"; fc_title := "Automated Scheduling";
         fc_desc := "Let customers book appointments directly into your calendar with automatic reminders and follow-ups." |};
      {| fc_icon := "svg"; fc_title := "Email Automation";
         fc_desc := "Send personalized emails based on customer behavior, engagement triggers, and journey stage." |}].

(** [AnalyticsFeatures], lines 170-206. *)
Definition AnalyticsFeatures : seq FeatureCard :=
  [:: {| fc_icon := "ChartPieIcon"; fc_title := "Custom Dashboards";
         fc_desc := "Create personalized dashboards with key metrics and KPIs that matter most to your business." |};
      {| fc_icon := "svg"; fc_title := "Performance Reporting";
         fc_desc := "Generate detailed reports on sales performance, team activity, conversion rates, and revenue forecasts." |};
      {| fc_icon := "svg"; fc_title := "Trend Analysis";
         fc_desc := "Identify patterns and trends in customer behavior, sales cycles, and market dynamics with AI-powered analytics." |}].

(** The cards a tab's content renders, by the component named in
    [LeadTabs.lead_tabs]. *)
Definition tab_cards (name : string) : seq FeatureCard :=
  if name == "LeadManagementFeatures" then LeadManagementFeatures
  else if name == "CustomerManagementFeatures" then CustomerManagementFeatures
  else if name == "AutomationFeatures" then AutomationFeatures
  else if name == "AnalyticsFeatures" then AnalyticsFeatures
  else [::].

(** The section, lines 235-264: its heading and the tabs' panel area. *)
Definition lead_heading : string * string :=
  ("Comprehensive CRM Tools",
   "Everything you need to manage your sales process from lead generation to customer retention").

Definition lead_panel_cards (st : Tabs.TabsState) : seq FeatureCard :=
  flatten [seq tab_cards c | c <- Tabs.panels LeadTabs.lead_tabs st].

End LeadCards.

(** The section's entrance, lines 17-53 and 238-259: the wrapper carries
    the [useInView] ref with threshold 0.2; the heading and the tabs
    animate by the controls the effect starts. *)
Module LeadEntrance.

Definition threshold : nat * nat := (1, 5).

(** [headingVariants], lines 30-40, 600 ms. *)
Definition headingVariants : string -> target := variant {| t_opacity := 0; t_y := (-20)%Z |}.

(** [contentVariants], lines 42-53, 800 ms after 200 ms. *)
Definition contentVariants : string -> target := variant {| t_opacity := 0; t_y := 30%Z |}.

Definition content_delay_ms : nat := 200.

Definition lead_entrance (st : AState) : target * target :=
  (headingVariants (controls st), contentVariants (controls st)).

End LeadEntrance.

Module TabsProofs.
Import Tabs.

Section Props.

Variables (tabs : seq Tab) (defaultTab : option string) (tab_box : nat -> Box).

Definition tab_ids : seq string := [seq tab_id t | t <- tabs].

(** Every reachable state: the active tab exists, and once the effect has
    run the stored box is the active tab's. *)
Definition tabs_inv (st : TabsState) : Prop :=
  activeTab st \in tab_ids /\
  (measured st -> tabBoundingBox st = Some (tab_box (seq.index (activeTab st) tab_ids))).

Lemma count_active a :
  count (fun t => a == tab_id t) tabs = count_mem a tab_ids.
Proof. by rewrite count_map; apply: eq_count => t; rewrite /= eq_sym. Qed.

Lemma size_panels st :
  size (panels tabs st) = count_mem (activeTab st) tab_ids.
Proof. by rewrite size_map size_filter count_active. Qed.

Lemma count_buttons_active st :
  count btn_active (buttons tabs st) = count_mem (activeTab st) tab_ids.
Proof. by rewrite count_map -count_active. Qed.

Lemma findIndex_index a : a \in tab_ids -> findIndex tabs a = Some (seq.index a tab_ids).
Proof.
  move=> Ha; rewrite /findIndex.
  have -> : find (fun t => tab_id t == a) tabs = seq.index a tab_ids.
  { by rewrite /seq.index find_map. }
  by rewrite -(size_map tab_id) -/tab_ids index_mem Ha.
Qed.

Lemma findIndex_none a : a \notin tab_ids -> findIndex tabs a = None.
Proof.
  move=> Ha; rewrite /findIndex.
  have -> : find (fun t => tab_id t == a) tabs = seq.index a tab_ids.
  { by rewrite /seq.index find_map. }
  by rewrite -(size_map tab_id) -/tab_ids index_mem (negbTE Ha).
Qed.

Lemma In_buttons_id st b : List.In b (buttons tabs st) -> btn_onClick b \in tab_ids.
Proof.
  move=> Hb; have [t [Ht ->]] := In_map Hb.
  exact: In_map_mem.
Qed.

Lemma tabs_step_inv st st' :
  tabs_inv st -> tabs_step tabs tab_box st st' -> tabs_inv st'.
Proof.
  move=> [Ha Hm]; case=> [b Hb|_].
  - have Hid := In_buttons_id _ _ Hb; split=> //=.
    by case/andP=> /Hm -> /eqP <-.
  - by split=> //=; rewrite findIndex_index.
Qed.

Section Unique.

(** The tab ids are distinct and the initial tab is one of them. *)
Hypothesis Huniq : uniq tab_ids.
Hypothesis Hdef : initial_activeTab tabs defaultTab \in tab_ids.

Lemma tabs_reachable_inv st : tabs_reachable tabs defaultTab tab_box st -> tabs_inv st.
Proof.
  move=> Hst; apply: (reachable_ind_inv (P := tabs_inv) _ _ Hst); first by split.
  exact: tabs_step_inv.
Qed.

(** ** Properties *)

(** C26: With distinct ids and an initial tab that exists, every state reached
    by clicks and effect runs shows exactly one panel and exactly one
    active button, and once the effect has run the indicator sits under
    the active tab's button. *)
Theorem tabs_one_panel (st : TabsState) :
  tabs_reachable tabs defaultTab tab_box st ->
  size (panels tabs st) = 1 /\ count btn_active (buttons tabs st) = 1 /\
  (measured st -> indicator st = Some (tab_box (seq.index (activeTab st) tab_ids))).
Proof.
  move=> /tabs_reachable_inv [Ha Hm].
  by rewrite size_panels count_buttons_active (count_uniq_mem _ Huniq) Ha.
Qed.

(** Once the effect has run, the indicator has the active tab's width and
    sits at its left edge, and exactly one button carries the active
    class. *)
Lemma tabs_indicator_spec (st : TabsState) :
  tabs_reachable tabs defaultTab tab_box st ->
  (measured st ->
     indicator_style st = Some (box_width (tab_box (seq.index (activeTab st) tab_ids)),
                                box_left (tab_box (seq.index (activeTab st) tab_ids)), 1)) /\
  count (fun b => tab_button_class (btn_active b) == tab_button_class true) (buttons tabs st) = 1.
Proof.
  move=> /tabs_reachable_inv [Ha Hm].
  split; first by move=> /Hm; rewrite /indicator_style /translateX => ->.
  have -> : count (fun b => tab_button_class (btn_active b) == tab_button_class true) (buttons tabs st) =
            count btn_active (buttons tabs st) by apply: eq_count => b; case: (btn_active b).
  by rewrite count_buttons_active (count_uniq_mem _ Huniq) Ha.
Qed.

End Unique.

End Props.

(** C38: A [defaultTab] that names no tab leaves the panel area empty, no
    button active, and no indicator even after the effect ran: the
    component does not fall back to the first tab. *)
Theorem tabs_unknown_default (tabs : seq Tab) (tab_box : nat -> Box) (d : string) :
  d != EmptyString -> d \notin tab_ids tabs ->
  let st := tabs_initial tabs (Some d) in
  panels tabs st = [::] /\ count btn_active (buttons tabs st) = 0 /\
  indicator (measure_effect tabs tab_box st) = None.
Proof.
  move=> Hd Hn st.
  have Ha : activeTab st = d by rewrite /st /= /initial_activeTab (negbTE Hd).
  split; last split.
  - by apply/eqP; rewrite -size_eq0 size_panels Ha; apply/eqP/count_memPn.
  - by rewrite count_buttons_active Ha; apply/count_memPn.
  - by rewrite /indicator /measure_effect Ha findIndex_none.
Qed.

(** The lead-management section enters as a whole: in every state its
    observer reaches, the heading and the tabs are at rest exactly when
    in view; and it comes into view on a first report exactly when a
    fifth of it is visible, so a report of a tenth, which would show the
    testimonials, leaves it hidden. *)
Lemma lead_entrance_spec st :
  a_reachable LeadEntrance.threshold st ->
  LeadEntrance.lead_entrance st =
    (if inView st then (rest, rest)
     else ({| t_opacity := 0; t_y := (-20)%Z |}, {| t_opacity := 0; t_y := 30%Z |})) /\
  (forall p q, inView (a_report LeadEntrance.threshold p q a_initial) = (0 < p) && (q <= 5 * p)).
Proof.
  move=> Hst; split.
  - rewrite /LeadEntrance.lead_entrance /LeadEntrance.headingVariants /LeadEntrance.contentVariants.
    have [-> _] := a_reachable_variant {| t_opacity := 0; t_y := (-20)%Z |} Hst.
    have [-> _] := a_reachable_variant {| t_opacity := 0; t_y := 30%Z |} Hst.
    by case: (inView st).
  - move=> p q; rewrite /a_report /observe /observe_once /inView_at /= muln1 mulnC.
    by case: ((0 < p) && (q <= 5 * p)).
Qed.

(** The lead-management section always shows one tab's three cards: in
    every state its tabs reach, the panel area renders the cards of the
    active tab's content, three of them. *)
Lemma lead_panel_cards_spec (tab_box : nat -> Box) (st : TabsState) :
  tabs_reachable LeadTabs.lead_tabs LeadTabs.lead_default tab_box st ->
  exists t, List.In t LeadTabs.lead_tabs /\ tab_id t = activeTab st /\
    LeadCards.lead_panel_cards st = LeadCards.tab_cards (tab_content t) /\
    size (LeadCards.lead_panel_cards st) = 3.
Proof.
  move=> /(@tabs_reachable_inv LeadTabs.lead_tabs LeadTabs.lead_default tab_box (erefl true)) [Ha _].
  rewrite /LeadCards.lead_panel_cards /panels.
  move: Ha; rewrite /tab_ids /= !inE.
  case/or4P=> /eqP ->; eexists; split.
  - by left.
  - by [].
  - by right; left.
  - by [].
  - by right; right; left.
  - by [].
  - by right; right; right; left.
  - by [].
Qed.

(** The first card of the customer-management tab is titled with the
    bytes of "360Â° Customer View": the page shows a stray "Â". *)
Lemma customer_view_mojibake :
  LeadCards.fc_title (nth (LeadCards.Build_FeatureCard EmptyString EmptyString EmptyString) LeadCards.CustomerManagementFeatures 0) =
    "360" ++ "Â" ++ "° Customer View" /\
  LeadCards.fc_title (nth (LeadCards.Build_FeatureCard EmptyString EmptyString EmptyString) LeadCards.CustomerManagementFeatures 0) <>
    "360° Customer View".
Proof. by split. Qed.

End TabsProofs.


Module TabsWitnesses.
Import Tabs TabsProofs LeadTabs.

(** Buttons 150 pixels wide, 10 apart. *)
Definition lead_box (i : nat) : Box := {| box_left := i * 160; box_width := 150 |}.

Definition lead_initial : TabsState := tabs_initial lead_tabs lead_default.
Definition lead_clicked : TabsState := click_tab "automation" lead_initial.
Definition lead_measured : TabsState := measure_effect lead_tabs lead_box lead_clicked.

Lemma lead_measured_reachable :
  tabs_reachable lead_tabs lead_default lead_box lead_measured.
Proof.
  apply: (reach_step _ (ts_effect _ _ _ _)) => //.
  apply: (reach_step (reach_init _ _)).
  apply: (ts_click _ _ _ (nth (Build_TabButton EmptyString false EmptyString EmptyString)
                              (buttons lead_tabs lead_initial) 2)).
  by right; right; left.
Qed.

Lemma tabs_one_panel_witness :
  uniq (tab_ids lead_tabs) /\
  initial_activeTab lead_tabs lead_default \in tab_ids lead_tabs /\
  panels lead_tabs lead_measured = [:: "AutomationFeatures"] /\
  indicator lead_measured = Some (lead_box 2).
Proof.
  have Hu : uniq (tab_ids lead_tabs) by [].
  have Hd : initial_activeTab lead_tabs lead_default \in tab_ids lead_tabs by [].
  have [_ [_ H]] := tabs_one_panel lead_tabs lead_default lead_box Hu Hd
                      lead_measured lead_measured_reachable.
  by do 3 (split=> //); rewrite H.
Defined.

(** A typo in [defaultTab] ("leads") leaves the tab area empty. *)
Lemma tabs_unknown_default_witness :
  panels lead_tabs (tabs_initial lead_tabs (Some "leads")) = [::].
Proof.
  by have [H _] := tabs_unknown_default lead_tabs lead_box "leads" erefl erefl.
Defined.

End TabsWitnesses.
